(** * namedb: an adaptive radix tree keyed by domain names

    A shallow embedding of [simd.h] and [tree.c] ([tree.h] for the data
    layout), followed by the properties of the key transform, of the node
    family and of the path engine.

    Conventions of the embedding:
    - an octet ([uint8_t]) is a [Z] in [0, 256); every arithmetic result
      that C stores into a [uint8_t] goes through [u8];
    - a C array is a [list] of its declared size, read and written with
      [aget] and [aset], which report an access outside the array;
    - what C leaves undefined, [abort()] and a failed [assert] are faults
      of the result type [res]. *)

From Stdlib Require Import ZArith Lia.
From stdpp Require Import base option list.

Local Open Scope Z_scope.

(** ** Results and faults *)

Inductive fault : Set :=
| OutOfBounds     (* access outside an array *)
| Undefined       (* a value C leaves undefined, such as __builtin_ctz(0) *)
| InvalidPointer  (* dereference of NULL, of a freed object, or of a
                     pointer of the wrong kind *)
| AssertFailed    (* assert(...) *)
| Aborted         (* abort() *)
| OutOfFuel.      (* the loop bound of the embedding was too small *)

Inductive res (A : Type) : Type :=
| Ok (a : A)
| Err (f : fault).
Arguments Ok {A} a.
Arguments Err {A} f.

#[global] Instance res_ret : MRet res := λ A a, Ok a.
#[global] Instance res_fmap : FMap res := λ A B f m,
  match m with
  | Ok a => Ok (f a)
  | Err e => Err e
  end.
#[global] Instance res_bind : MBind res := λ A B f m,
  match m with
  | Ok a => f a
  | Err e => Err e
  end.

Definition u8 (z : Z) : Z := z mod 256.

Definition is_octet (z : Z) : Prop := 0 ≤ z < 256.

(** [a[i]] as an rvalue. *)
Definition aget {A : Type} (a : list A) (i : Z) : res A :=
  if i <? 0 then Err OutOfBounds
  else match a !! Z.to_nat i with
       | Some x => Ok x
       | None => Err OutOfBounds
       end.

(** [a[i] = x]. *)
Definition aset {A : Type} (a : list A) (i : Z) (x : A) : res (list A) :=
  if (0 <=? i) && (i <? Z.of_nat (length a))
  then Ok (<[Z.to_nat i := x]> a)
  else Err OutOfBounds.

(** ** tree.h: constants *)

Definition NSD_MAX_HEIGHT : Z := 255.
Definition NSD_MAX_WIDTH : Z := 230.
Definition NSD_MAX_PREFIX : Z := 8.

(** ** tree.c: the key transform *)

Definition xlat (oct : Z) : Z :=
  if oct <? 0x41 then u8 (oct + 0x01)
  else if oct <? 0x5b then u8 (oct + 0x07)
  else u8 (oct - 0x19).

(** The inner loop of [nsd_make_key],
    [for (++cnt; cnt < len; cnt++) ptr[cnt] = xlat(name[cnt]);]
    entered with [n = len - cnt] iterations to go.  [ptr] is [key - 1]. *)
Fixpoint copy_label (n : nat) (name : list Z) (cnt : Z) (key : list Z)
  : res (Z * list Z) :=
  match n with
  | O => Ok (cnt, key)
  | S n' =>
      c ← aget name cnt;
      key' ← aset key (cnt - 1) (xlat c);
      copy_label n' name (cnt + 1) key'
  end.

(** The [while (name[cnt] != 0x00)] loop of [nsd_make_key] and the two
    statements after it.  The result is the returned [uint8_t] and the
    contents of the caller's key buffer. *)
Fixpoint make_key_loop (fuel : nat) (name : list Z) (cnt len : Z)
    (key : list Z) : res (Z * list Z) :=
  match fuel with
  | O => Err OutOfFuel
  | S fuel' =>
      c ← aget name cnt;
      if c =? 0x00 then
        (* ptr[++cnt] = 0x00; return cnt; *)
        key' ← aset key (cnt + 1 - 1) 0x00;
        Ok (u8 (cnt + 1), key')
      else if negb (Z.land c 0xc0 =? 0) then Ok (0, key)
      else
        let len' := len + (c + 1) in
        if len' >? 0xff then Ok (0, key)
        else
          '(cnt', key') ← copy_label (Z.to_nat (len' - (cnt + 1))) name
                            (cnt + 1) key;
          key'' ← aset key' (cnt' - 1) 0x00;
          make_key_loop fuel' name cnt' len' key''
  end.

(** [nsd_make_key(key, name)]: [key] is the caller's [nsd_key_t], an array
    of [NSD_MAX_HEIGHT] octets.  Every turn of the loop adds at least two
    to [len], which is at most 255, so 256 turns are never used up (see
    [nsd_make_key_fuel]). *)
Definition nsd_make_key (key name : list Z) : res (Z * list Z) :=
  make_key_loop 256 name 0 0 key.

(** The key as the caller sees it: the first [n] octets of the buffer. *)
Definition key_bytes (r : Z * list Z) : list Z :=
  take (Z.to_nat r.1) r.2.

Definition blank_key : list Z := replicate 255 0.

(** ** Build configuration

    [simd.h] and [tree.c] are conditional on [HAVE_SSE2] and [HAVE_AVX2];
    [assert] is compiled out under [NDEBUG]. *)

Record build : Set := {
  HAVE_SSE2 : bool;
  HAVE_AVX2 : bool;
  NDEBUG : bool
}.

(** ** simd.h *)

(** [_mm_movemask_epi8] of a lane-wise comparison: bit [i] of the result
    is set when lane [i] satisfies [p]. *)
Fixpoint movemask (p : Z → bool) (lanes : list Z) : Z :=
  match lanes with
  | [] => 0
  | x :: v => Z.lor (if p x then 1 else 0) (Z.shiftl (movemask p v) 1)
  end.

(** [_mm_loadu_si128] and [_mm256_loadu_si256]: [w] octets are read. *)
Definition loadu (w : nat) (vec : list Z) : res (list Z) :=
  if decide (w ≤ length vec)%nat then Ok (take w vec) else Err OutOfBounds.

Fixpoint ctz_pos (p : positive) : Z :=
  match p with
  | xO q => 1 + ctz_pos q
  | _ => 0
  end.

(** [__builtin_ctz]: the result is undefined for 0. *)
Definition builtin_ctz (x : Z) : res Z :=
  match x with
  | Zpos p => Ok (ctz_pos p)
  | _ => Err Undefined
  end.

(** An octet read as [int8_t], the lane type of [_mm_cmpgt_epi8]. *)
Definition i8 (z : Z) : Z := if z <? 128 then z else z - 256.

(** [max < w ? (1 << max) - 1 : -1] in a [w]-bit unsigned.  [1 << max] is
    computed in [int], of 32 bits: for [max = 31] neither [1 << 31] nor the
    difference is a value of [int], and C leaves the result undefined.
    This is the case of the 32-lane searches only; the 16-lane searches
    shift by less than 16. *)
Definition lane_mask (w : Z) (max : Z) : res Z :=
  if max <? w then
    if max <? 31 then Ok (Z.shiftl 1 max - 1) else Err Undefined
  else Ok (2 ^ w - 1).

Definition simd_findeq_u8 (w : nat) (chr : Z) (vec : list Z) (max : Z)
  : res Z :=
  mask ← lane_mask (Z.of_nat w) max;
  lanes ← loadu w vec;
  let bitmap := Z.land (movemask (λ x, x =? chr) lanes) mask in
  r ← builtin_ctz bitmap;
  Ok (u8 r).

Definition simd_findgt_u8 (w : nat) (chr : Z) (vec : list Z) (max : Z)
  : res Z :=
  mask ← lane_mask (Z.of_nat w) max;
  lanes ← loadu w vec;
  let bitmap := movemask (λ x, i8 chr >? i8 x) lanes in
  r ← builtin_ctz (Z.land (Z.lnot bitmap) mask);
  Ok (u8 r).

(** The scalar loops, [for (uint8_t idx = 0; idx < 16; idx++)], with [n]
    iterations to go.  They do not read [max]. *)
Fixpoint scalar_find (p : Z → bool) (n : nat) (idx : Z) (vec : list Z)
  : res Z :=
  match n with
  | O => Ok 0
  | S n' =>
      x ← aget vec idx;
      if p x then Ok (u8 (idx + 1)) else scalar_find p n' (idx + 1) vec
  end.

Definition nsd_v16_findeq_u8 (cfg : build) (chr : Z) (vec : list Z)
    (max : Z) : res Z :=
  if HAVE_SSE2 cfg then simd_findeq_u8 16 chr vec max
  else scalar_find (λ x, x =? chr) 16 0 vec.

Definition nsd_v16_findgt_u8 (cfg : build) (chr : Z) (vec : list Z)
    (max : Z) : res Z :=
  if HAVE_SSE2 cfg then simd_findgt_u8 16 chr vec max
  else scalar_find (λ x, x >? chr) 16 0 vec.

(** Declared only under [HAVE_AVX2]; the callers are under the same
    condition. *)
Definition nsd_v32_findeq_u8 (chr : Z) (vec : list Z) (max : Z) : res Z :=
  simd_findeq_u8 32 chr vec max.

Definition nsd_v32_findgt_u8 (chr : Z) (vec : list Z) (max : Z) : res Z :=
  simd_findgt_u8 32 chr vec max.

(** ** tree.h: nodes, leaves, paths *)

Inductive nsd_retcode : Set :=
| nsd_ok | nsd_no_memory | nsd_bad_parameter | nsd_not_found.

Inductive nsd_node_type : Set :=
| nsd_node4 | nsd_node16 | nsd_node32 | nsd_node38 | nsd_node48
| nsd_node256.

#[global] Instance nsd_node_type_eq_dec : EqDecision nsd_node_type.
Proof. solve_decision. Defined.

(** Addresses are indices into the heap. *)
Abbreviation loc := nat (only parsing).

(** A [nsd_node_t *].  The low bit that [SET_LEAF] sets and [nsd_is_leaf]
    tests is the constructor. *)
Inductive ptr : Set :=
| Null
| NodeP (l : loc)
| LeafP (l : loc).

#[global] Instance ptr_eq_dec : EqDecision ptr.
Proof. solve_decision. Defined.

Definition nsd_is_leaf (p : ptr) : bool :=
  match p with
  | LeafP _ => true
  | _ => false
  end.

(** [struct nsd_node] and the six structures that start with it.  The
    arrays have the sizes of their declarations (see [alloc_node]);
    [nsd_node38] and [nsd_node256] have no [keys]. *)
Record nsd_node : Set := {
  type : nsd_node_type;
  width : Z;
  prefix_len : Z;
  prefix : list Z;
  keys : list Z;
  children : list ptr
}.

(** [struct nsd_leaf]: [data], [key_len] and [key]; [data] is the
    caller's payload, 0 for [NULL]. *)
Record nsd_leaf : Set := {
  leaf_data : Z;
  leaf_key_len : Z;
  leaf_key : list Z
}.

Inductive object : Set :=
| ONode (n : nsd_node)
| OLeaf (f : nsd_leaf).

#[global] Instance nsd_node_eq_dec : EqDecision nsd_node.
Proof. solve_decision. Defined.
#[global] Instance nsd_leaf_eq_dec : EqDecision nsd_leaf.
Proof. solve_decision. Defined.
#[global] Instance object_eq_dec : EqDecision object.
Proof. solve_decision. Defined.

(** A [nsd_node_t **]: the address of [tree->root], of a slot of a node's
    [children], or of a local pointer variable ([dummy] and [node] in
    [nsd_make_path]). *)
Inductive ref : Set :=
| RootRef
| ChildRef (l : loc) (i : Z)
| LocalRef.

#[global] Instance ref_eq_dec : EqDecision ref.
Proof. solve_decision. Defined.

(** [struct nsd_level]: [depth] and [noderef]. *)
Record nsd_level : Set := {
  level_depth : Z;
  level_noderef : ref
}.

(** [struct nsd_path]: [height] is the length of the list; the entries of
    [levels] from [height] on are never read. *)
Abbreviation nsd_path := (list nsd_level) (only parsing).

(** ** Memory

    A freed cell is [None].  [oracle] decides the allocations to come,
    one entry each ([false]: [malloc] returns [NULL]); when it is used up
    every allocation succeeds. *)
Record state : Set := {
  heap : list (option object);
  root : ptr;
  local : ptr;
  oracle : list bool
}.

Definition M (A : Type) : Type := state → res (A * state).

#[global] Instance M_ret : MRet M := λ A a s, Ok (a, s).
#[global] Instance M_bind : MBind M := λ A B f m s,
  match m s with
  | Ok (a, s') => f a s'
  | Err e => Err e
  end.

Definition fail {A : Type} (f : fault) : M A := λ _, Err f.

Definition lift {A : Type} (r : res A) : M A := λ s,
  match r with
  | Ok a => Ok (a, s)
  | Err e => Err e
  end.

Definition abort {A : Type} : M A := fail Aborted.

(** [assert(c)]; under [NDEBUG] the condition is not evaluated. *)
Definition assert (cfg : build) (c : M bool) : M () :=
  if NDEBUG cfg then mret ()
  else b ← c; if b : bool then mret () else fail AssertFailed.

Definition set_heap (h : list (option object)) (s : state) : state :=
  {| heap := h; root := root s; local := local s; oracle := oracle s |}.
Definition set_root (p : ptr) (s : state) : state :=
  {| heap := heap s; root := p; local := local s; oracle := oracle s |}.
Definition set_local (p : ptr) (s : state) : state :=
  {| heap := heap s; root := root s; local := p; oracle := oracle s |}.
Definition set_oracle (o : list bool) (s : state) : state :=
  {| heap := heap s; root := root s; local := local s; oracle := o |}.

Definition get_object (l : loc) : M object := λ s,
  match heap s !! l with
  | Some (Some o) => Ok (o, s)
  | _ => Err InvalidPointer
  end.

Definition put_object (l : loc) (o : object) : M () := λ s,
  match heap s !! l with
  | Some (Some _) => Ok ((), set_heap (<[l := Some o]> (heap s)) s)
  | _ => Err InvalidPointer
  end.

(** [malloc] and [calloc]. *)
Definition malloc (o : object) : M (option loc) := λ s,
  match oracle s with
  | false :: r => Ok (None, set_oracle r s)
  | r =>
      Ok (Some (length (heap s)),
          set_oracle (tail r) (set_heap (heap s ++ [Some o]) s))
  end.

Definition free (l : loc) : M () := λ s,
  match heap s !! l with
  | Some (Some _) => Ok ((), set_heap (<[l := None]> (heap s)) s)
  | _ => Err InvalidPointer
  end.

(** [p->field] for an inner node. *)
Definition get_node (p : ptr) : M nsd_node :=
  match p with
  | NodeP l =>
      o ← get_object l;
      match o with
      | ONode n => mret n
      | OLeaf _ => fail InvalidPointer
      end
  | _ => fail InvalidPointer
  end.

Definition put_node (p : ptr) (n : nsd_node) : M () :=
  match p with
  | NodeP l => put_object l (ONode n)
  | _ => fail InvalidPointer
  end.

(** [nsd_leaf_raw(p)->field]. *)
Definition get_leaf (p : ptr) : M nsd_leaf :=
  match p with
  | LeafP l =>
      o ← get_object l;
      match o with
      | OLeaf f => mret f
      | ONode _ => fail InvalidPointer
      end
  | _ => fail InvalidPointer
  end.

(** [*r] as an rvalue. *)
Definition load (r : ref) : M ptr :=
  match r with
  | RootRef => λ s, Ok (root s, s)
  | LocalRef => λ s, Ok (local s, s)
  | ChildRef l i =>
      n ← get_node (NodeP l);
      lift (aget (children n) i)
  end.

Definition set_children (c : list ptr) (n : nsd_node) : nsd_node :=
  {| type := type n; width := width n; prefix_len := prefix_len n;
     prefix := prefix n; keys := keys n; children := c |}.
Definition set_keys (k : list Z) (n : nsd_node) : nsd_node :=
  {| type := type n; width := width n; prefix_len := prefix_len n;
     prefix := prefix n; keys := k; children := children n |}.
Definition set_width (w : Z) (n : nsd_node) : nsd_node :=
  {| type := type n; width := w; prefix_len := prefix_len n;
     prefix := prefix n; keys := keys n; children := children n |}.
Definition set_prefix (pl : Z) (p : list Z) (n : nsd_node) : nsd_node :=
  {| type := type n; width := width n; prefix_len := pl;
     prefix := p; keys := keys n; children := children n |}.

(** [*r = p]. *)
Definition store (r : ref) (p : ptr) : M () :=
  match r with
  | RootRef => λ s, Ok ((), set_root p s)
  | LocalRef => λ s, Ok ((), set_local p s)
  | ChildRef l i =>
      n ← get_node (NodeP l);
      c ← lift (aset (children n) i p);
      put_node (NodeP l) (set_children c n)
  end.

(** [memcpy(dest + d, src + s, n)] on arrays of one element type;
    [memmove] within one array is the case [src = dest]. *)
Definition memcpy {A : Type} (dest : list A) (d : Z) (src : list A) (s : Z)
    (n : Z) : res (list A) :=
  if (0 <=? n) && (0 <=? d) && (0 <=? s)
     && (d + n <=? Z.of_nat (length dest))
     && (s + n <=? Z.of_nat (length src))
  then Ok (take (Z.to_nat d) dest
           ++ take (Z.to_nat n) (drop (Z.to_nat s) src)
           ++ drop (Z.to_nat (d + n)) dest)
  else Err OutOfBounds.

Definition memmove {A : Type} (a : list A) (d s n : Z) : res (list A) :=
  memcpy a d a s n.

(** ** tree.c: helpers *)

(** translate key to node38 index; 255 is [(uint8_t)-1] *)
Definition node38_xlat (key : Z) : Z :=
  if (0x48 <=? key) && (key <=? 0x61) then u8 (key - 0x3c)
  else if (0x31 <=? key) && (key <=? 0x3a) then u8 (key - 0x2f)
  else if key =? 0x2e then 0x01
  else if key =? 0x00 then 0x00
  else 255.

(** translate node38 index to key *)
Definition node38_unxlat (key : Z) : Z :=
  if (0x0b <=? key) && (key <=? 0x25) then u8 (key + 0x3c)
  else if (0x02 <=? key) && (key <=? 0x0b) then u8 (key + 0x2f)
  else if key =? 0x01 then 0x2e
  else if key =? 0x00 then 0x00
  else 255.

(** The loop of [compare_keys] with [n] octets to go; [o1] and [o2] are
    the offsets of the two pointers into their arrays. *)
Fixpoint compare_keys_loop (n : nat) (key1 : list Z) (o1 : Z)
    (key2 : list Z) (o2 : Z) (cnt : Z) : res Z :=
  match n with
  | O => Ok cnt
  | S n' =>
      a ← aget key1 (o1 + cnt);
      b ← aget key2 (o2 + cnt);
      if a =? b then compare_keys_loop n' key1 o1 key2 o2 (u8 (cnt + 1))
      else Ok cnt
  end.

Definition compare_keys (key1 : list Z) (o1 : Z) (key1_len : Z)
    (key2 : list Z) (o2 : Z) (key2_len : Z) : res Z :=
  let len := if key1_len <? key2_len then key1_len else key2_len in
  compare_keys_loop (Z.to_nat len) key1 o1 key2 o2 0.

Definition keys_size (t : nsd_node_type) : nat :=
  match t with
  | nsd_node4 => 4
  | nsd_node16 => 16
  | nsd_node32 => 32
  | nsd_node48 => Z.to_nat NSD_MAX_WIDTH
  | nsd_node38 | nsd_node256 => 0
  end.

Definition children_size (t : nsd_node_type) : nat :=
  match t with
  | nsd_node4 => 4
  | nsd_node16 => 16
  | nsd_node32 => 32
  | nsd_node38 => 38
  | nsd_node48 => 48
  | nsd_node256 => Z.to_nat NSD_MAX_WIDTH
  end.

(** What [calloc(1, size)] and [node->type = type] leave. *)
Definition zero_node (t : nsd_node_type) : nsd_node :=
  {| type := t; width := 0; prefix_len := 0;
     prefix := replicate (Z.to_nat NSD_MAX_PREFIX) 0;
     keys := replicate (keys_size t) 0;
     children := replicate (children_size t) Null |}.

Definition alloc_node (t : nsd_node_type) : M ptr :=
  l ← malloc (ONode (zero_node t));
  mret (from_option NodeP Null l).

Definition copy_header (dest src : nsd_node) : res nsd_node :=
  p ← memcpy (prefix dest) 0 (prefix src) 0 (prefix_len src);
  Ok (set_prefix (prefix_len src) p (set_width (width src) dest)).

Definition make_leaf (key : list Z) (key_len : Z) : M ptr :=
  let blank := replicate (Z.to_nat key_len) 0 in
  l ← malloc (OLeaf {| leaf_data := 0; leaf_key_len := key_len; leaf_key := blank |});
  match l with
  | None => mret Null
  | Some l =>
      k ← lift (memcpy blank 0 key 0 key_len);
      put_object l (OLeaf {| leaf_data := 0; leaf_key_len := key_len; leaf_key := k |});;
      mret (LeafP l)
  end.

Definition free_node (node : ptr) : M () :=
  match node with
  | Null => mret ()
  | NodeP l | LeafP l => free l
  end.

(** The node behind a pointer that the code has cast to the structure
    of type [t]. *)
Definition get_node_as (t : nsd_node_type) (p : ptr) : M (loc * nsd_node) :=
  n ← get_node p;
  match p with
  | NodeP l =>
      if decide (type n = t) then mret (l, n) else fail InvalidPointer
  | _ => fail InvalidPointer
  end.

(** ** tree.c: find_child *)

Definition find_child256 (l : loc) (node256 : nsd_node) (key : Z)
  : M (option ref) :=
  mret (Some (ChildRef l key)).

Definition find_child48 (l : loc) (node48 : nsd_node) (key : Z)
  : M (option ref) :=
  idx ← lift (aget (keys node48) key);
  mret (if negb (idx =? 0) then Some (ChildRef l (idx - 1)) else None).

Definition find_child38 (l : loc) (node38 : nsd_node) (key : Z)
  : M (option ref) :=
  let idx := node38_xlat key in
  mret (if negb (idx =? 255) then Some (ChildRef l idx) else None).

Definition find_child32 (cfg : build) (l : loc) (node32 : nsd_node)
    (key : Z) : M (option ref) :=
  if HAVE_AVX2 cfg then
    idx ← lift (nsd_v32_findeq_u8 key (keys node32) (width node32));
    mret (if negb (idx =? 0) then Some (ChildRef l (idx - 1)) else None)
  else abort.

Definition find_child16 (cfg : build) (l : loc) (node16 : nsd_node)
    (key : Z) : M (option ref) :=
  idx ← lift (nsd_v16_findeq_u8 cfg key (keys node16) (width node16));
  mret (if negb (idx =? 0) then Some (ChildRef l (idx - 1)) else None).

(** [for (idx = 0; idx < width; idx++) if (keys[idx] == key) return ...] *)
Fixpoint find_child4_loop (n : nat) (l : loc) (node4 : nsd_node) (key : Z)
    (idx : Z) : res (option ref) :=
  match n with
  | O => Ok None
  | S n' =>
      k ← aget (keys node4) idx;
      if k =? key then Ok (Some (ChildRef l idx))
      else find_child4_loop n' l node4 key (u8 (idx + 1))
  end.

Definition find_child4 (l : loc) (node4 : nsd_node) (key : Z)
  : M (option ref) :=
  lift (find_child4_loop (Z.to_nat (width node4)) l node4 key 0).

Definition find_child (cfg : build) (node : ptr) (key : Z)
  : M (option ref) :=
  assert cfg (mret (negb (bool_decide (node = Null))));;
  n ← get_node node;
  match node with
  | NodeP l =>
      match type n with
      | nsd_node4 => find_child4 l n key
      | nsd_node16 => find_child16 cfg l n key
      | nsd_node32 => find_child32 cfg l n key
      | nsd_node38 => find_child38 l n key
      | nsd_node48 => find_child48 l n key
      | nsd_node256 => find_child256 l n key
      end
  | _ => fail InvalidPointer
  end.

(** ** tree.c: add_child *)

Definition add_child256 (cfg : build) (noderef : ref) (key : Z)
    (node : ptr) : M (option ref) :=
  node256 ← load noderef;
  assert cfg (mret (negb (bool_decide (node256 = Null))));;
  '(l, n) ← get_node_as nsd_node256 node256;
  assert cfg (c ← lift (aget (children n) key);
              mret (bool_decide (c = Null)));;
  c ← lift (aset (children n) key node);
  put_node node256 (set_children c (set_width (u8 (width n + 1)) n));;
  mret (Some (ChildRef l key)).

(** The copy loop of the promotion to [nsd_node256],
    [for (idx = 0, cnt = 0; idx < 256; idx++)], with [n] iterations to
    go.  [idx] is a [uint8_t], so the condition never fails; the loop is
    left by [break], or by the read of [keys[230]]. *)
Fixpoint grow48_loop (n : nat) (node48 : nsd_node) (idx cnt : Z)
    (ch : list ptr) : res (Z * list ptr) :=
  match n with
  | O => Ok (cnt, ch)
  | S n' =>
      k ← aget (keys node48) idx;
      if negb (k =? 0) then
        c ← aget (children node48) (k - 1);
        ch' ← aset ch idx c;
        let cnt' := u8 (cnt + 1) in
        if cnt' =? width node48 then Ok (cnt', ch')
        else grow48_loop n' node48 (idx + 1) cnt' ch'
      else grow48_loop n' node48 (idx + 1) cnt ch
  end.

Definition add_child48 (cfg : build) (noderef : ref) (key : Z)
    (node : ptr) : M (option ref) :=
  node48 ← load noderef;
  assert cfg (mret (negb (bool_decide (node48 = Null))));;
  '(l, n) ← get_node_as nsd_node48 node48;
  if width n =? 48 then
    node256 ← alloc_node nsd_node256;
    if decide (node256 = Null) then mret None
    else
      n256 ← get_node node256;
      n256 ← lift (copy_header n256 n);
      '(cnt, ch) ← lift (grow48_loop 256 n 0 0 (children n256));
      put_node node256 (set_children ch n256);;
      assert cfg (mret (cnt =? width n));;
      store noderef node256;;
      free_node node48;;
      add_child256 cfg noderef key node
  else
    assert cfg (mret (width n <? 48));;
    assert cfg (k ← lift (aget (keys n) key); mret (k =? 0));;
    let w := u8 (width n + 1) in
    k ← lift (aset (keys n) key w);
    c ← lift (aset (children n) (w - 1) node);
    put_node node48 (set_children c (set_keys k (set_width w n)));;
    mret (Some (ChildRef l (w - 1))).

(** The copy loop of the promotion of a [nsd_node38],
    [for (idx = 0, cnt = 0; idx < 38; idx++)]; [k48] and [ch48] are the
    arrays of the new [nsd_node48]. *)
Fixpoint grow38_loop (n : nat) (node38 : nsd_node) (idx cnt : Z)
    (k48 : list Z) (ch48 : list ptr) : res (Z * list Z * list ptr) :=
  match n with
  | O => Ok (cnt, k48, ch48)
  | S n' =>
      c ← aget (children node38) idx;
      if negb (bool_decide (c = Null)) then
        ch' ← aset ch48 cnt c;
        let cnt' := u8 (cnt + 1) in
        k' ← aset k48 (node38_unxlat idx) cnt';
        if cnt' =? width node38 then Ok (cnt', k', ch')
        else grow38_loop n' node38 (u8 (idx + 1)) cnt' k' ch'
      else grow38_loop n' node38 (u8 (idx + 1)) cnt k48 ch48
  end.

Definition add_child38 (cfg : build) (noderef : ref) (key : Z)
    (child : ptr) : M (option ref) :=
  node38 ← load noderef;
  assert cfg (mret (negb (bool_decide (node38 = Null))));;
  '(l, n) ← get_node_as nsd_node38 node38;
  let idx := node38_xlat key in
  if idx =? 255 then
    node48 ← alloc_node nsd_node48;
    if decide (node48 = Null) then mret None
    else
      n48 ← get_node node48;
      n48 ← lift (copy_header n48 n);
      '(cnt, k, ch) ← lift (grow38_loop 38 n 0 0 (keys n48) (children n48));
      put_node node48 (set_children ch (set_keys k n48));;
      assert cfg (mret (cnt =? width n));;
      store noderef node48;;
      free_node node38;;
      add_child48 cfg noderef key child
  else
    assert cfg (mret (width n <? 38));;
    assert cfg (c ← lift (aget (children n) idx);
                mret (bool_decide (c = Null)));;
    c ← lift (aset (children n) idx child);
    put_node node38 (set_width (u8 (width n + 1)) (set_children c n));;
    mret (Some (ChildRef l idx)).

(** [for (idx = 0; ishost && idx < lim; idx++)
       ishost = (node38_xlat(keys[idx]) != (uint8_t)-1);] *)
Fixpoint ishost_loop (n : nat) (ks : list Z) (idx : Z) (ishost : bool)
  : res bool :=
  match n with
  | O => Ok ishost
  | S n' =>
      if ishost then
        k ← aget ks idx;
        ishost_loop n' ks (u8 (idx + 1)) (negb (node38_xlat k =? 255))
      else Ok ishost
  end.

(** [for (idx = 0; idx < lim; idx++)
       node38->children[ node38_xlat(keys[idx]) ] = children[idx];] *)
Fixpoint to38_loop (n : nat) (src : nsd_node) (idx : Z) (ch38 : list ptr)
  : res (list ptr) :=
  match n with
  | O => Ok ch38
  | S n' =>
      k ← aget (keys src) idx;
      c ← aget (children src) idx;
      ch' ← aset ch38 (node38_xlat k) c;
      to38_loop n' src (u8 (idx + 1)) ch'
  end.

(** [for (idx = 0, cnt = 0; idx < lim; idx++) {
       node48->children[cnt++] = children[idx];
       node48->keys[ keys[idx] ] = cnt; }] *)
Fixpoint to48_loop (n : nat) (src : nsd_node) (idx cnt : Z)
    (k48 : list Z) (ch48 : list ptr) : res (list Z * list ptr) :=
  match n with
  | O => Ok (k48, ch48)
  | S n' =>
      c ← aget (children src) idx;
      ch' ← aset ch48 cnt c;
      let cnt' := u8 (cnt + 1) in
      k ← aget (keys src) idx;
      k' ← aset k48 k cnt';
      to48_loop n' src (u8 (idx + 1)) cnt' k' ch'
  end.

(** The promotion of a full [nsd_node32], and of a full [nsd_node16]
    without [HAVE_AVX2], to [nsd_node38] or [nsd_node48]: [lim] is the
    bound of the test of the keys ([idx < 32], [idx < node16->base.width])
    and [cap] that of the copy.  [next38] and [next48] are [add_child38]
    and [add_child48]. *)
Definition promote_alphabet (cfg : build)
    (next38 next48 : ref → Z → ptr → M (option ref))
    (lim cap : nat) (noderef : ref) (old : ptr) (n : nsd_node) (key : Z)
    (child : ptr) : M (option ref) :=
  ishost ← lift (ishost_loop lim (keys n) 0
                   (negb (node38_xlat key =? 255)));
  if ishost : bool then
    node38 ← alloc_node nsd_node38;
    if decide (node38 = Null) then mret None
    else
      n38 ← get_node node38;
      n38 ← lift (copy_header n38 n);
      ch ← lift (to38_loop cap n 0 (children n38));
      put_node node38 (set_children ch n38);;
      store noderef node38;;
      free_node old;;
      next38 noderef key child
  else
    node48 ← alloc_node nsd_node48;
    if decide (node48 = Null) then mret None
    else
      n48 ← get_node node48;
      n48 ← lift (copy_header n48 n);
      '(k, ch) ← lift (to48_loop cap n 0 0 (keys n48) (children n48));
      put_node node48 (set_children ch (set_keys k n48));;
      store noderef node48;;
      free_node old;;
      next48 noderef key child.

(** The two [memmove]s that open slot [idx] of a sorted node, and the
    three assignments that fill it. *)
Definition open_slot (n : nsd_node) (idx : Z) : res nsd_node :=
  k ← memmove (keys n) (idx + 1) idx (width n - idx);
  c ← memmove (children n) (idx + 1) idx (width n - idx);
  Ok (set_children c (set_keys k n)).

Definition fill_slot (n : nsd_node) (idx key : Z) (child : ptr)
  : res nsd_node :=
  k ← aset (keys n) idx key;
  c ← aset (children n) idx child;
  Ok (set_width (u8 (width n + 1)) (set_children c (set_keys k n))).

Definition add_child32 (cfg : build) (noderef : ref) (key : Z)
    (child : ptr) : M (option ref) :=
  if HAVE_AVX2 cfg then
    node32 ← load noderef;
    assert cfg (mret (negb (bool_decide (node32 = Null))));;
    '(l, n) ← get_node_as nsd_node32 node32;
    if width n =? 32 then
      promote_alphabet cfg (add_child38 cfg) (add_child48 cfg) 32 32
        noderef node32 n key child
    else
      assert cfg (mret (width n <? 32));;
      idx ← lift (nsd_v32_findgt_u8 key (keys n) (width n));
      '(idx, n) ←
        (if negb (idx =? 0) then
           assert cfg (mret (idx <? width n));;
           n' ← lift (open_slot n idx);
           mret (idx, n')
         else mret (width n, n));
      n ← lift (fill_slot n idx key child);
      put_node node32 n;;
      mret (Some (ChildRef l idx))
  else abort.

(** Without [HAVE_AVX2] the promotion of a full [nsd_node16] names an
    undeclared [node] (and [cnt]); it is read here as [node16]. *)
Definition add_child16 (cfg : build) (noderef : ref) (key : Z)
    (child : ptr) : M (option ref) :=
  node16 ← load noderef;
  assert cfg (mret (negb (bool_decide (node16 = Null))));;
  '(l, n) ← get_node_as nsd_node16 node16;
  if width n =? 16 then
    if HAVE_AVX2 cfg then
      node32 ← alloc_node nsd_node32;
      if decide (node32 = Null) then mret None
      else
        n32 ← get_node node32;
        n32 ← lift (copy_header n32 n);
        k ← lift (memcpy (keys n32) 0 (keys n) 0 16);
        c ← lift (memcpy (children n32) 0 (children n) 0 16);
        put_node node32 (set_children c (set_keys k n32));;
        store noderef node32;;
        free_node node16;;
        add_child32 cfg noderef key child
    else
      promote_alphabet cfg (add_child38 cfg) (add_child48 cfg)
        (Z.to_nat (width n)) 16 noderef node16 n key child
  else
    assert cfg (mret (width n <? 16));;
    idx ← lift (nsd_v16_findgt_u8 cfg key (keys n) (width n));
    '(idx, n) ←
      (if negb (idx =? 0) then
         assert cfg (mret (idx <? width n));;
         n' ← lift (open_slot n idx);
         mret (idx, n')
       else mret (width n, n));
    n ← lift (fill_slot n idx key child);
    put_node node16 n;;
    mret (Some (ChildRef l idx)).

(** [for (idx = 0; idx < width && key > keys[idx]; idx++) { }] *)
Fixpoint add_child4_scan (n : nat) (ks : list Z) (key : Z) (idx : Z)
  : res Z :=
  match n with
  | O => Ok idx
  | S n' =>
      k ← aget ks idx;
      if key >? k then add_child4_scan n' ks key (u8 (idx + 1)) else Ok idx
  end.

Definition add_child4 (cfg : build) (noderef : ref) (key : Z)
    (child : ptr) : M (option ref) :=
  node4 ← load noderef;
  '(l, n) ← get_node_as nsd_node4 node4;
  if width n =? 4 then
    node16 ← alloc_node nsd_node16;
    if decide (node16 = Null) then mret None
    else
      n16 ← get_node node16;
      n16 ← lift (copy_header n16 n);
      k ← lift (memcpy (keys n16) 0 (keys n) 0 4);
      c ← lift (memcpy (children n16) 0 (children n) 0 4);
      put_node node16 (set_children c (set_keys k n16));;
      store noderef node16;;
      free_node node4;;
      add_child16 cfg noderef key child
  else
    assert cfg (mret (width n <? 4));;
    idx ← lift (add_child4_scan (Z.to_nat (width n)) (keys n) key 0);
    n ← (if idx <? width n then
           assert cfg (k ← lift (aget (keys n) idx);
                       mret (negb (key =? k)));;
           lift (open_slot n idx)
         else mret n);
    n ← lift (fill_slot n idx key child);
    put_node node4 n;;
    mret (Some (ChildRef l idx)).

Definition add_child (cfg : build) (noderef : ref) (key : Z) (child : ptr)
  : M (option ref) :=
  node ← load noderef;
  n ← get_node node;
  match type n with
  | nsd_node4 => add_child4 cfg noderef key child
  | nsd_node16 => add_child16 cfg noderef key child
  | nsd_node32 => add_child32 cfg noderef key child
  | nsd_node38 => add_child38 cfg noderef key child
  | nsd_node48 => add_child48 cfg noderef key child
  | nsd_node256 => add_child256 cfg noderef key child
  end.

(** ** tree.c: paths *)

Definition top (path : nsd_path) : M nsd_level :=
  match last path with
  | Some t => mret t
  | None => fail OutOfBounds
  end.

(** [levels[height] = lvl; height++] *)
Definition push (path : nsd_path) (lvl : nsd_level) : M nsd_path :=
  if Z.of_nat (length path) <? NSD_MAX_HEIGHT then mret (path ++ [lvl])
  else fail OutOfBounds.

(** [height--] *)
Definition pop (path : nsd_path) : nsd_path :=
  take (length path - 1) path.

(** What a turn of a [while] loop leaves: a [return], or the variables
    of the next turn. *)
Inductive step (A : Type) : Type :=
| Return (rc : nsd_retcode) (path : nsd_path)
| Continue (a : A).
Arguments Return {A} rc path.
Arguments Continue {A} a.

(** The statements of [nsd_find_path] and [nsd_make_path] before the
    loop. *)
Definition enter_path (cfg : build) (path : nsd_path) (key_len : Z)
  : M (Z * nsd_path) :=
  '(depth, path) ←
    match path with
    | [] => mret (0, [{| level_depth := 0; level_noderef := RootRef |}])
    | l0 :: _ =>
        assert cfg (mret (level_depth l0 =? 0));;
        assert cfg (mret (bool_decide (level_noderef l0 = RootRef)));;
        t ← top path;
        mret (level_depth t, path)
    end;
  assert cfg (t ← top path; mret (key_len >=? level_depth t));;
  mret (depth, path).

(** ** tree.c: nsd_find_path *)

Definition find_path_step (cfg : build) (key : list Z) (key_len : Z)
    (depth : Z) (path : nsd_path) : M (step (Z * nsd_path)) :=
  t ← top path;
  let noderef := level_noderef t in
  node ← load noderef;
  r ← (if nsd_is_leaf node then
         leaf ← get_leaf node;
         assert cfg (mret (key_len >=? leaf_key_len leaf));;
         cnt ← lift (compare_keys key 0 key_len
                       (leaf_key leaf) 0 (leaf_key_len leaf));
         assert cfg (mret (cnt >=? depth));;
         if cnt =? key_len then
           (* keys cannot be prefixes *)
           assert cfg (mret (key_len =? leaf_key_len leaf));;
           mret (Return nsd_ok path)
         else
           (* discard node from path *)
           mret (Return nsd_not_found (pop path))
       else
         n ← get_node node;
         if negb (prefix_len n =? 0) then
           cnt ← lift (compare_keys key depth (u8 (key_len - depth))
                         (prefix n) 0 (prefix_len n));
           if cnt =? prefix_len n then mret (Continue (u8 (depth + cnt)))
           else mret (Return nsd_not_found (pop path))
         else mret (Continue depth));
  match r with
  | Return rc p => mret (Return rc p)
  | Continue depth =>
      k ← lift (aget key depth);
      childref ← find_child cfg node k;
      match childref with
      | None => mret (Return nsd_not_found path)
      | Some c =>
          path ← push path {| level_depth := depth; level_noderef := c |};
          mret (Continue (u8 (depth + 1), path))
      end
  end.

Fixpoint find_path_loop (fuel : nat) (cfg : build) (key : list Z)
    (key_len : Z) (depth : Z) (path : nsd_path)
  : M (nsd_retcode * nsd_path) :=
  if depth <? key_len then
    match fuel with
    | O => fail OutOfFuel
    | S fuel' =>
        r ← find_path_step cfg key key_len depth path;
        match r with
        | Return rc p => mret (rc, p)
        | Continue (d, p) => find_path_loop fuel' cfg key key_len d p
        end
    end
  else mret (nsd_ok, path).

(** [nsd_find_path(tree, path, key, key_len)]; the tree is the one of
    the state, and the path is returned as the call leaves it. *)
Definition nsd_find_path (cfg : build) (path : nsd_path) (key : list Z)
    (key_len : Z) : M (nsd_retcode * nsd_path) :=
  assert cfg (mret (negb (key_len =? 0)));;
  '(depth, path) ← enter_path cfg path key_len;
  find_path_loop 256 cfg key key_len depth path.

(** ** tree.c: nsd_make_path *)

(** The loop [while (relpath.height > 0)] that frees the node behind
    each level of [relpath], from the last level down. *)
Fixpoint discard (levels : list nsd_level) : M () :=
  match levels with
  | [] => mret ()
  | t :: r =>
      node ← load (level_noderef t);
      free_node node;;
      discard r
  end.

(** The loop [while (depth < cnt)] that builds the chain of [nsd_node4]s
    for a leaf split.  [None] is [return nsd_no_memory].  The result of
    [add_child] is not tested: [NULL] would be dereferenced by whatever
    comes next, and is a fault here. *)
Fixpoint split_chain (fuel : nat) (cfg : build) (key : list Z) (cnt : Z)
    (depth : Z) (relpath : nsd_path) : M (option (Z * nsd_path)) :=
  if depth <? cnt then
    match fuel with
    | O => fail OutOfFuel
    | S fuel' =>
        node ← alloc_node nsd_node4;
        if decide (node = Null) then
          (* discard newly allocated nodes *)
          discard (reverse relpath);;
          mret None
        else
          (* determine prefix length, exclude first octet *)
          let len := u8 (cnt - depth) in
          let len :=
            if len >? NSD_MAX_PREFIX then NSD_MAX_PREFIX else u8 (len - 1) in
          (if len >? 0 then
             n ← get_node node;
             p ← lift (memcpy (prefix n) 0 key (1 + depth) len);
             put_node node (set_prefix len p n)
           else mret ());;
          childref ←
            match relpath with
            | [] => store LocalRef node;; mret LocalRef
            | _ =>
                t ← top relpath;
                k ← lift (aget key depth);
                c ← add_child cfg (level_noderef t) k node;
                from_option mret (fail InvalidPointer) c
            end;
          relpath ←
            push relpath {| level_depth := depth; level_noderef := childref |};
          split_chain fuel' cfg key cnt (u8 (depth + (1 + len))) relpath
    end
  else mret (Some (depth, relpath)).

(** The branch [mismatch, split node] of a leaf. *)
Definition split_leaf (cfg : build) (key : list Z) (key_len : Z)
    (path : nsd_path) (noderef : ref) (node : ptr) (leaf : nsd_leaf)
    (cnt : Z) : M (step (Z * nsd_path)) :=
  assert cfg (mret (cnt <? key_len));;
  assert cfg (mret (cnt <? leaf_key_len leaf));;
  (* take depth of *this* node for offset *)
  t ← top path;
  r ← split_chain 256 cfg key cnt (level_depth t) [];
  match r with
  | None => mret (Return nsd_no_memory path)
  | Some (depth, relpath) =>
      assert cfg (mret (depth =? cnt));;
      (* unlink leaf *)
      first ← match relpath with
              | [] => fail Undefined
              | l0 :: _ => load (level_noderef l0)
              end;
      store noderef first;;
      (* merge paths *)
      let rest := tail relpath in
      path ←
        (if 0 <? Z.of_nat (length rest) then
           assert cfg (mret (Z.of_nat (length path)
                             <=? NSD_MAX_HEIGHT - Z.of_nat (length rest)));;
           if Z.of_nat (length path + length rest) <=? NSD_MAX_HEIGHT
           then mret (path ++ rest)
           else fail OutOfBounds
         else mret path);
      (* link leaf *)
      t ← top path;
      k ← lift (aget (leaf_key leaf) depth);
      add_child cfg (level_noderef t) k node;;
      mret (Continue (depth, path))
  end.

(** The branch [mismatch, split node] of an inner node with a prefix;
    [None] is [return nsd_no_memory]. *)
Definition split_node (cfg : build) (noderef : ref) (cnt : Z)
  : M (option ()) :=
  node ← alloc_node nsd_node4;
  if decide (node = Null) then mret None
  else
    old ← load noderef;
    o ← get_node old;
    n ← get_node node;
    p ← lift (memcpy (prefix n) 0 (prefix o) 0 cnt);
    put_node node (set_prefix cnt p n);;
    (* link node *)
    store LocalRef node;;
    k ← lift (aget (prefix o) cnt);
    add_child cfg LocalRef k old;;
    (* determine prefix length, exclude first octet *)
    o ← get_node old;
    let len := u8 (prefix_len o - (1 + cnt)) in
    p ← lift (if negb (len =? 0) then memmove (prefix o) 0 (1 + cnt) len
              else Ok (replicate (Z.to_nat NSD_MAX_PREFIX) 0));
    put_node old (set_prefix len p o);;
    (* unlink node, link inner node *)
    node ← load LocalRef;
    store noderef node;;
    mret (Some ()).

(** The first half of a turn of the loop of [nsd_make_path]: the leaf
    and the prefix of the node on top of the path. *)
Definition make_path_node (cfg : build) (key : list Z) (key_len : Z)
    (depth : Z) (path : nsd_path) : M (step (Z * nsd_path)) :=
  t ← top path;
  let noderef := level_noderef t in
  node ← load noderef;
  if nsd_is_leaf node then
    leaf ← get_leaf node;
    assert cfg (mret (key_len >=? leaf_key_len leaf));;
    cnt ← lift (compare_keys key 0 key_len
                  (leaf_key leaf) 0 (leaf_key_len leaf));
    assert cfg (mret (cnt >=? depth));;
    if cnt =? key_len then
      (* match *)
      (* duplicates can exist but keys cannot be prefixes *)
      assert cfg (mret (key_len =? leaf_key_len leaf));;
      mret (Return nsd_ok path)
    else split_leaf cfg key key_len path noderef node leaf cnt
  else
    n ← get_node node;
    if negb (prefix_len n =? 0) then
      cnt ← lift (compare_keys key depth (u8 (key_len - depth))
                    (prefix n) 0 (prefix_len n));
      assert cfg (mret (level_depth t =? depth - 1));;
      if negb (cnt =? prefix_len n) then
        (* mismatch, split node *)
        assert cfg (mret (cnt <? key_len - depth));;
        assert cfg (mret (cnt <? prefix_len n));;
        r ← split_node cfg noderef cnt;
        match r with
        | None => mret (Return nsd_no_memory path)
        | Some _ => mret (Continue (u8 (depth + cnt), path))
        end
      else mret (Continue (u8 (depth + cnt), path))
    else mret (Continue (depth, path)).

(** The second half: the child for [key[depth]], found or made.
    [noderef] is still the slot that was on top of the path when the turn
    began. *)
Definition make_path_child (cfg : build) (key : list Z) (key_len : Z)
    (noderef : ref) (depth : Z) (path : nsd_path)
  : M (step (Z * nsd_path)) :=
  node ← load noderef;
  k ← lift (aget key depth);
  childref ← find_child cfg node k;
  match childref with
  | Some c =>
      path ← push path {| level_depth := depth; level_noderef := c |};
      mret (Continue (u8 (depth + 1), path))
  | None =>
      leaf ← make_leaf key key_len;
      if decide (leaf = Null) then mret (Return nsd_no_memory path)
      else
        childref ← add_child cfg noderef k leaf;
        match childref with
        | None =>
            free_node leaf;;
            mret (Return nsd_no_memory path)
        | Some c =>
            path ← push path {| level_depth := depth; level_noderef := c |};
            mret (Continue (key_len, path))
        end
  end.

Definition make_path_step (cfg : build) (key : list Z) (key_len : Z)
    (depth : Z) (path : nsd_path) : M (step (Z * nsd_path)) :=
  t ← top path;
  r ← make_path_node cfg key key_len depth path;
  match r with
  | Return rc p => mret (Return rc p)
  | Continue (depth, path) =>
      make_path_child cfg key key_len (level_noderef t) depth path
  end.

Fixpoint make_path_loop (fuel : nat) (cfg : build) (key : list Z)
    (key_len : Z) (depth : Z) (path : nsd_path)
  : M (nsd_retcode * nsd_path) :=
  if depth <? key_len then
    match fuel with
    | O => fail OutOfFuel
    | S fuel' =>
        r ← make_path_step cfg key key_len depth path;
        match r with
        | Return rc p => mret (rc, p)
        | Continue (d, p) => make_path_loop fuel' cfg key key_len d p
        end
    end
  else mret (nsd_ok, path).

(** [nsd_make_path(tree, path, key, key_len)] *)
Definition nsd_make_path (cfg : build) (path : nsd_path) (key : list Z)
    (key_len : Z) : M (nsd_retcode * nsd_path) :=
  assert cfg (mret (negb (key_len =? 0)));;
  '(depth, path) ← enter_path cfg path key_len;
  make_path_loop 256 cfg key key_len depth path.

(** main.c: [tree.root = calloc(1, sizeof(nsd_node4_t));
             tree.root->type = nsd_node4;] *)
Definition empty_tree : state :=
  {| heap := [Some (ONode (zero_node nsd_node4))];
     root := NodeP 0%nat; local := Null; oracle := [] |}.


(** ** Drivers, after main.c *)

(** [put_key] and [get_key] of main.c on a wire name: the key is made
    with [nsd_make_key], a name whose key has length 0 is skipped
    ([None]), and the path starts with [height = 0]. *)
Definition with_key {A : Type} (name : list Z)
    (op : list Z → Z → M A) : M (option A) :=
  '(key_len, key) ← lift (nsd_make_key blank_key name);
  if key_len =? 0 then mret None
  else a ← op key key_len; mret (Some a).

Definition put_name (cfg : build) (name : list Z)
  : M (option (nsd_retcode * nsd_path)) :=
  with_key name (nsd_make_path cfg []).

Definition get_name (cfg : build) (name : list Z)
  : M (option (nsd_retcode * nsd_path)) :=
  with_key name (nsd_find_path cfg []).

(** The node or leaf that the top of a path refers to. *)
Definition path_top (path : nsd_path) : M ptr :=
  t ← top path;
  load (level_noderef t).

(** The node behind [tree->root]. *)
Definition root_node : M nsd_node :=
  node ← load RootRef;
  get_node node.

(** The child that [find_child] yields for [key] in the root node,
    [NULL] when it yields no slot. *)
Definition root_child (cfg : build) (key : Z) : M ptr :=
  node ← load RootRef;
  childref ← find_child cfg node key;
  from_option load (mret Null) childref.

(** A new leaf for the one-octet key [key], added to the root node. *)
Definition root_add (cfg : build) (key : Z) : M (option ref) :=
  leaf ← make_leaf [key] 1;
  add_child cfg RootRef key leaf.

Fixpoint sequence {A : Type} (ms : list (M A)) : M (list A) :=
  match ms with
  | [] => mret []
  | m :: r => a ← m; b ← sequence r; mret (a :: b)
  end.

(** The value of a run. *)
Definition value {A : Type} (r : res (A * state)) : res A := fst <$> r.

(** The state, for inspection. *)
Definition get_state : M state := λ s, Ok (s, s).

(** The allocations to come succeed or fail as [o] says. *)
Definition expect_allocations (o : list bool) : M () := λ s,
  Ok ((), set_oracle o s).

(** ** Names, keys and orders of the specification *)

(** A name as the list of its labels, first label first, without the
    root label; [wire_name] is its wire format. *)
Definition wire_labels (ls : list (list Z)) : list Z :=
  concat (map (λ l, Z.of_nat (length l) :: l) ls).

Definition wire_name (ls : list (list Z)) : list Z :=
  wire_labels ls ++ [0].

Definition valid_label (l : list Z) : Prop :=
  (1 ≤ length l ≤ 63)%nat ∧ Forall is_octet l.

(** A wire name of the data model: labels of 1 to 63 octets, at most 255
    octets with the length octets and the root label. *)
Definition valid_wire_name (ls : list (list Z)) : Prop :=
  Forall valid_label ls ∧ (length (wire_name ls) ≤ 255)%nat.

(** The key of a name: the translated octets of each label followed by a
    separator, and the terminator. *)
Definition key_labels (ls : list (list Z)) : list Z :=
  concat (map (λ l, map xlat l ++ [0]) ls).

Definition key_of (ls : list (list Z)) : list Z :=
  key_labels ls ++ [0].

(** Lexicographic order of octet strings; the absence of an octet sorts
    first. *)
Fixpoint lex_order (a b : list Z) : comparison :=
  match a, b with
  | [], [] => Eq
  | [], _ :: _ => Lt
  | _ :: _, [] => Gt
  | x :: a', y :: b' =>
      match x ?= y with
      | Eq => lex_order a' b'
      | c => c
      end
  end.

Definition lowercase (o : Z) : Z :=
  if (0x41 <=? o) && (o <=? 0x5a) then o + 0x20 else o.

Fixpoint labels_order (a b : list (list Z)) : comparison :=
  match a, b with
  | [], [] => Eq
  | [], _ :: _ => Lt
  | _ :: _, [] => Gt
  | x :: a', y :: b' =>
      match lex_order (map lowercase x) (map lowercase y) with
      | Eq => labels_order a' b'
      | c => c
      end
  end.

(** The canonical DNS name order of RFC 4034, section 6.1, which the
    specification compares the key order with; it is not code of this
    repository.  Labels are compared from the rightmost one, as octet
    strings with uppercase letters taken as lowercase; a name sorts
    before the names below it. *)
Definition canonical_dns_order (a b : list (list Z)) : comparison :=
  labels_order (reverse a) (reverse b).

(** The result that the specification gives for [findeq(c, v, n)]: the
    1-based index of the first [i < n] with [v[i] == c], else 0. *)
Fixpoint findeq_from (i : Z) (c : Z) (v : list Z) : Z :=
  match v with
  | [] => 0
  | x :: v' => if x =? c then i + 1 else findeq_from (i + 1) c v'
  end.

Definition findeq_spec (c : Z) (v : list Z) (n : Z) : Z :=
  findeq_from 0 c (take (Z.to_nat n) v).

(** [keys[0..width)] strictly ascending. *)
Fixpoint ascending (ks : list Z) : bool :=
  match ks with
  | x :: ((y :: _) as r) => (x <? y) && ascending r
  | _ => true
  end.

Definition keys_ascending (n : nsd_node) : bool :=
  ascending (take (Z.to_nat (width n)) (keys n)).

(** A name that [nsd_make_key] rejects: after a run of labels comes a
    length octet with one of its top two bits set, or a label that brings
    the count of octets above 255. *)
Definition rejected (name : list Z) : Prop :=
  ∃ ls c rest,
    name = wire_labels ls ++ c :: rest ∧ Forall valid_label ls
    ∧ (length (wire_labels ls) ≤ 255)%nat ∧ is_octet c ∧ c ≠ 0
    ∧ (Z.land c 0xc0 ≠ 0 ∨ 255 < Z.of_nat (length (wire_labels ls)) + c + 1).

(** A name that ends with a root label after [n - 1] octets of labels. *)
Definition accepted (name : list Z) (n : Z) : Prop :=
  ∃ ls rest,
    name = wire_labels ls ++ 0 :: rest ∧ Forall valid_label ls
    ∧ n = Z.of_nat (length (wire_labels ls)) + 1.

(** Every [nsd_node38] of the heap has at most its 38 children. *)
Definition node38_capacity (s : state) : Prop :=
  Forall (λ o, match o with
               | Some (ONode n) => type n = nsd_node38 → width n ≤ 38
               | _ => True
               end) (heap s).

(** ** Names, builds and trees of the examples *)

(** [aaaaaaaaaaaa.] and [aaaaaaaaaaab.]: one label each, equal in their
    first eleven octets. *)
Definition name_a12 : list Z := wire_name [replicate 12 0x61].
Definition name_a11b : list Z := wire_name [replicate 11 0x61 ++ [0x62]].

(** [foo.] and [bar.foo.] *)
Definition labels_foo : list (list Z) := [[0x66; 0x6f; 0x6f]].
Definition labels_bar_foo : list (list Z) :=
  [[0x62; 0x61; 0x72]; [0x66; 0x6f; 0x6f]].

(** A label of 64 octets [a]: its length octet is 0x40. *)
Definition name_label64 : list Z := 0x40 :: replicate 64 0x61 ++ [0x00].

(** [\255.]: one label of the one octet 0xff. *)
Definition name_ff : list Z := wire_name [[0xff]].

(** [b.], [c.], [d.], [e.] and then [a.] *)
Definition names_bcdea : list (list Z) :=
  map (λ c, wire_name [[c]]) [0x62; 0x63; 0x64; 0x65; 0x61].

(** A [nsd_node32] with its 32 children, under octets of the hostname
    alphabet in ascending order: the key octets of [-], of [0] to [9], of
    [a] to [t] and of [z].  The children are the leaves at the addresses 1
    to 32, each with the one-octet key of its slot; the child under 0x3a,
    the digit 9, is the leaf at address 11. *)
Definition node32_hosts : nsd_node :=
  {| type := nsd_node32; width := 32; prefix_len := 0;
     prefix := replicate (Z.to_nat NSD_MAX_PREFIX) 0;
     keys := [0x2e] ++ map (λ i, 0x31 + Z.of_nat i) (seq 0 10)
             ++ map (λ i, 0x48 + Z.of_nat i) (seq 0 20) ++ [0x61];
     children := map LeafP (seq 1 32) |}.

(** The tree whose root is that node.  The root is given, not grown from
    the empty tree: the 32nd child of a [nsd_node32] is added by
    [add_child32] with [nsd_v32_findgt_u8] and [max] = 31, whose mask
    [(1 << 31) - 1] C leaves undefined. *)
Definition hosts_tree : state :=
  {| heap := Some (ONode node32_hosts)
             :: map (λ k, Some (OLeaf {| leaf_data := 0; leaf_key_len := 1;
                                         leaf_key := [k] |}))
                  (keys node32_hosts);
     root := NodeP 0%nat; local := Null; oracle := [] |}.

(** The build with both vector extensions, and the one with the scalar
    16-octet search. *)
Definition build_simd (ndebug : bool) : build :=
  {| HAVE_SSE2 := true; HAVE_AVX2 := true; NDEBUG := ndebug |}.

Definition build_scalar (ndebug : bool) : build :=
  {| HAVE_SSE2 := false; HAVE_AVX2 := true; NDEBUG := ndebug |}.

(** A tree whose root is the node [n]. *)
Definition tree_of (n : nsd_node) : state :=
  {| heap := [Some (ONode n)]; root := NodeP 0%nat; local := Null;
     oracle := [] |}.

(** The state that a run leaves. *)
Definition after {A : Type} (m : M A) (s : state) : state :=
  match m s with
  | Ok (_, s') => s'
  | Err _ => s
  end.

(** The return code of [put_name] or [get_name]. *)
Definition retcode (r : option (nsd_retcode * list nsd_level))
  : option nsd_retcode := fst <$> r.

(** The length and the key that [nsd_make_key] returns for a name. *)
Definition key_of_name (name : list Z) : Z * list Z :=
  match nsd_make_key blank_key name with
  | Ok r => r
  | Err _ => (0, blank_key)
  end.

(** The example of a failed allocation: [aaaaaaaaaaaa.] is in the tree,
    and of the allocations to come the first succeeds and the second
    fails, when [aaaaaaaaaaab.] is inserted. *)
Definition low_memory_tree : state :=
  set_oracle [true; false]
    (after (put_name (build_simd false) name_a12) empty_tree).

Definition low_memory_run : res (nsd_retcode * list nsd_level * state) :=
  nsd_make_path (build_simd false) [] (key_of_name name_a11b).2
    (key_of_name name_a11b).1 low_memory_tree.

Definition low_memory_path : list nsd_level :=
  match low_memory_run with
  | Ok (_, p, _) => p
  | Err _ => []
  end.

Definition low_memory_state : state :=
  match low_memory_run with
  | Ok (_, s) => s
  | Err _ => empty_tree
  end.

(** ** Predicates of the proofs *)

(** An operation that leaves the state as it is. *)
Definition pure_op {A : Type} (m : M A) : Prop :=
  ∀ s a s', m s = Ok (a, s') → s' = s.

(** The turns of the loop of [nsd_make_path] that went on:
    [make_path_turns cfg key key_len depth path s depth' path' s'] when the
    loop, entered with [depth] and [path] in the state [s], has made zero
    or more turns, none of which returned, and is about to begin the next
    one with [depth'] and [path'] in the state [s']. *)
Inductive make_path_turns (cfg : build) (key : list Z) (key_len : Z)
  : Z → nsd_path → state → Z → nsd_path → state → Prop :=
| turns_none depth path s :
    make_path_turns cfg key key_len depth path s depth path s
| turns_more depth path s d1 p1 s1 d2 p2 s2 :
    depth < key_len →
    make_path_step cfg key key_len depth path s
    = Ok (Continue (d1, p1), s1) →
    make_path_turns cfg key key_len d1 p1 s1 d2 p2 s2 →
    make_path_turns cfg key key_len depth path s d2 p2 s2.

(** What it takes for an [add_child] function to return [NULL]: the
    node in the slot has [cap] children. *)
Definition none_when_full (next : ref → M (option ref)) (cap : Z) : Prop :=
  ∀ noderef s s',
    next noderef s = Ok (None, s') →
    ∃ l n, load noderef s = Ok (NodeP l, s)
           ∧ heap s !! l = Some (Some (ONode n)) ∧ width n = cap.

(** A [nsd_node4] as [alloc_node] leaves it, but for its prefix. *)
Definition fresh4 (n : nsd_node) : Prop :=
  ∃ pl p, n = set_prefix pl p (zero_node nsd_node4).

(** Level [i] of the path of the chain refers to the chain's node [i],
    at address [base + i]: level 0 through the local [dummy], the others
    through slot 0 of the node before. *)
Definition level_ok (base : nat) (s : state) (i : nat) (lvl : nsd_level)
  : Prop :=
  match i with
  | O => level_noderef lvl = LocalRef ∧ local s = NodeP base
  | S i' =>
      level_noderef lvl = ChildRef (base + i')%nat 0
      ∧ ∃ n, heap s !! (base + i')%nat = Some (Some (ONode n))
             ∧ children n !! 0%nat = Some (NodeP (base + S i'))
  end.

(** The memory while a chain is built or discarded: [h0] is the heap
    before the split, the nodes of [relpath] follow it, and the cells
    after them, up to [k], are freed. *)
Record chain (h0 : list (option object)) (relpath : nsd_path) (k : nat)
    (s : state) : Prop := {
  chain_old : take (length h0) (heap s) = h0;
  chain_length : length (heap s) = (length h0 + k)%nat;
  chain_levels : ∀ i lvl,
    relpath !! i = Some lvl → level_ok (length h0) s i lvl;
  chain_live : ∀ i, (i < length relpath)%nat →
    ∃ o, heap s !! (length h0 + i)%nat = Some (Some o);
  chain_freed : ∀ i, (length relpath ≤ i < k)%nat →
    heap s !! (length h0 + i)%nat = Some None
}.

(** ** Reference definitions of the further properties *)

(** The label octets that the comments of [node38_xlat] name: ["a..z"]
    in either case, ["0..9"] and ["-"]. *)
Definition hostname_octet (c : Z) : bool :=
  ((0x61 <=? c) && (c <=? 0x7a)) || ((0x41 <=? c) && (c <=? 0x5a))
  || ((0x30 <=? c) && (c <=? 0x39)) || (c =? 0x2d).

(** The child that a node with sorted keys holds for [key]: the entry
    of [children] at the position of the first of the [width] keys that
    equals [key]. *)
Definition child_of (n : nsd_node) (key : Z) : option ptr :=
  list_find (λ k, k = key) (take (Z.to_nat (width n)) (keys n))
  ≫= λ r, children n !! r.1.

(** An array [a] with [w] entries in use after [x] is put at position
    [idx]: the entries from [idx] on move up by one, over the entry at
    [w]. *)
Definition inserted {A : Type} (a : list A) (w idx : nat) (x : A)
  : list A :=
  take idx a ++ x :: take (w - idx) (drop idx a) ++ drop (S w) a.

(** A [nsd_node4] with children for the key octets 0x49 and 0x4b, as
    the root of a tree. *)
Definition node4_bd : nsd_node :=
  {| type := nsd_node4; width := 2; prefix_len := 0;
     prefix := replicate 8 0; keys := [0x49; 0x4b; 0; 0];
     children := [LeafP 1; LeafP 2; Null; Null] |}.

(** The tree that holds [aaaaaaaaaaaa.] alone, the key of that name,
    and the path to a leaf that is the first child of the root. *)
Definition tree_a12 : state :=
  after (put_name (build_simd false) name_a12) empty_tree.

Definition key_a12 : list Z := (key_of_name name_a12).2.

Definition leaf_path : list nsd_level :=
  [{| level_depth := 0; level_noderef := RootRef |};
   {| level_depth := 0; level_noderef := ChildRef 0%nat 0 |}].

(** ** main.c: put_key and get_key *)

(** What [put_key] and [get_key] print: the status, the height of the
    path and the payload of the leaf. *)
Inductive report : Set :=
| Created (height : Z) (value : Z)
| Existed (height : Z) (value : Z)
| NotCreated
| Found (height : Z) (value : Z)
| NotFound.

(** [leaf->data = value] *)
Definition set_leaf_data (p : ptr) (value : Z) : M () :=
  f ← get_leaf p;
  match p with
  | LeafP l =>
      put_object l (OLeaf {| leaf_data := value;
                             leaf_key_len := leaf_key_len f;
                             leaf_key := leaf_key f |})
  | _ => fail InvalidPointer
  end.

(** [put_key(tree, key, key_len, name, value)]; [value] is a pointer,
    0 for [NULL]. *)
Definition put_key (cfg : build) (key : list Z) (key_len : Z) (value : Z)
  : M report :=
  '(rc, path) ← nsd_make_path cfg [] key key_len;
  match rc with
  | nsd_ok =>
      assert cfg (mret (Z.of_nat (length path) >? 0));;
      assert cfg (node ← path_top path; mret (nsd_is_leaf node));;
      node ← path_top path;
      leaf ← get_leaf node;
      if negb (leaf_data leaf =? 0) then
        mret (Existed (Z.of_nat (length path)) (leaf_data leaf))
      else
        set_leaf_data node value;;
        leaf ← get_leaf node;
        mret (Created (Z.of_nat (length path)) (leaf_data leaf))
  | _ => mret NotCreated
  end.

(** [get_key(tree, key, key_len, name, value)] *)
Definition get_key (cfg : build) (key : list Z) (key_len : Z) : M report :=
  '(rc, path) ← nsd_find_path cfg [] key key_len;
  match rc with
  | nsd_ok =>
      assert cfg (mret (Z.of_nat (length path) >? 0));;
      assert cfg (node ← path_top path; mret (nsd_is_leaf node));;
      node ← path_top path;
      leaf ← get_leaf node;
      mret (Found (Z.of_nat (length path)) (leaf_data leaf))
  | _ => mret NotFound
  end.

(** The tree that holds one key: the root has the leaf as its only
    child, under the first octet of the key. *)
Definition single_tree (key : list Z) (value : Z) : state :=
  {| heap :=
       [Some (ONode {| type := nsd_node4; width := 1; prefix_len := 0;
                       prefix := replicate 8 0;
                       keys := [default 0 (head key); 0; 0; 0];
                       children := [LeafP 1; Null; Null; Null] |});
        Some (OLeaf {| leaf_data := value;
                       leaf_key_len := Z.of_nat (length key);
                       leaf_key := key |})];
     root := NodeP 0%nat; local := Null; oracle := [] |}.

(** Some node of the heap has a prefix. *)
Definition has_prefix (s : state) : Prop :=
  ∃ l n, heap s !! l = Some (Some (ONode n)) ∧ prefix_len n ≠ 0.

(** A full [nsd_node4] as the root of a tree in which the next
    allocation fails. *)
Definition node4_full : nsd_node :=
  {| type := nsd_node4; width := 4; prefix_len := 0;
     prefix := replicate 8 0; keys := [0x49; 0x4a; 0x4b; 0x4c];
     children := [LeafP 1; LeafP 2; LeafP 3; LeafP 4] |}.

Definition tree_no_memory : state :=
  set_oracle [false] (tree_of node4_full).

(** A key that starts with the octet [k0] and the octets [p], goes on
    with [a] and ends with [t]. *)
Definition key_with (k0 : Z) (p : list Z) (a : Z) (t : list Z) : list Z :=
  k0 :: p ++ a :: t.

(** The tree that holds two keys which agree on [k0 :: p] and differ
    in the next octet: under the root a [nsd_node4] with the prefix [p]
    and the two leaves, in the order of [a] and [b]. *)
Definition split_tree (k0 : Z) (p : list Z) (a : Z) (t1 : list Z) (v1 : Z)
    (b : Z) (t2 : list Z) (v2 : Z) : state :=
  {| heap :=
       [Some (ONode {| type := nsd_node4; width := 1; prefix_len := 0;
                       prefix := replicate 8 0;
                       keys := [k0; 0; 0; 0];
                       children := [NodeP 2; Null; Null; Null] |});
        Some (OLeaf {| leaf_data := v1;
                       leaf_key_len := Z.of_nat (length (key_with k0 p a t1));
                       leaf_key := key_with k0 p a t1 |});
        Some (ONode {| type := nsd_node4; width := 2;
                       prefix_len := Z.of_nat (length p);
                       prefix := p ++ replicate (8 - length p) 0;
                       keys := if a <? b then [a; b; 0; 0] else [b; a; 0; 0];
                       children := if a <? b
                                   then [LeafP 1; LeafP 3; Null; Null]
                                   else [LeafP 3; LeafP 1; Null; Null] |});
        Some (OLeaf {| leaf_data := v2;
                       leaf_key_len := Z.of_nat (length (key_with k0 p b t2));
                       leaf_key := key_with k0 p b t2 |})];
     root := NodeP 0%nat; local := NodeP 2; oracle := [] |}.

(** Two keys that agree on their first two octets. *)
Definition key_hij : list Z := key_with 0x48 [0x49] 0x4a [0; 0].
Definition key_hik : list Z := key_with 0x48 [0x49] 0x4b [0; 0].

(** The tree that holds two keys which differ in their first octet:
    both leaves are children of the root, in the order of the two
    octets. *)
Definition pair_tree (a : Z) (t1 : list Z) (v1 : Z) (b : Z) (t2 : list Z)
    (v2 : Z) : state :=
  {| heap :=
       [Some (ONode {| type := nsd_node4; width := 2; prefix_len := 0;
                       prefix := replicate 8 0;
                       keys := if a <? b then [a; b; 0; 0] else [b; a; 0; 0];
                       children := if a <? b
                                   then [LeafP 1; LeafP 2; Null; Null]
                                   else [LeafP 2; LeafP 1; Null; Null] |});
        Some (OLeaf {| leaf_data := v1;
                       leaf_key_len := Z.of_nat (length (a :: t1));
                       leaf_key := a :: t1 |});
        Some (OLeaf {| leaf_data := v2;
                       leaf_key_len := Z.of_nat (length (b :: t2));
                       leaf_key := b :: t2 |})];
     root := NodeP 0%nat; local := Null; oracle := [] |}.

(** A [nsd_node16] with four children, as the root of a tree. *)
Definition node16_bcde : nsd_node :=
  {| type := nsd_node16; width := 4; prefix_len := 0;
     prefix := replicate 8 0;
     keys := [0x49; 0x4a; 0x4b; 0x4c] ++ replicate 12 0;
     children := [LeafP 1; LeafP 2; LeafP 3; LeafP 4] ++ replicate 12 Null |}.

(** The [nsd_node16] that takes the place of a full [nsd_node4]: the
    header and the four keys and children of the [nsd_node4], in a
    zeroed node. *)
Definition promoted16 (n : nsd_node) : nsd_node :=
  {| type := nsd_node16; width := width n; prefix_len := prefix_len n;
     prefix := take (Z.to_nat (prefix_len n)) (prefix n)
               ++ replicate (8 - Z.to_nat (prefix_len n)) 0;
     keys := keys n ++ replicate 12 0;
     children := children n ++ replicate 12 Null |}.

(** ** dname.c

    [dname_parse_wire] turns the text of a domain name into its wire
    format.  The text is a C string: the octets of the list and then the
    terminating NUL. *)

Definition MAXDOMAINLEN : Z := 255.
Definition MAXLABELLEN : Z := 63.

Definition cstr (s : list Z) : list Z := s ++ [0x00].

(** [isdigit] of ctype.h, on an [unsigned char]. *)
Definition isdigit (c : Z) : bool := (0x30 <=? c) && (c <=? 0x39).

Definition hexdigit_to_int (chr : Z) : res Z :=
  if chr =? 0x30 then Ok 0
  else if chr =? 0x31 then Ok 1
  else if chr =? 0x32 then Ok 2
  else if chr =? 0x33 then Ok 3
  else if chr =? 0x34 then Ok 4
  else if chr =? 0x35 then Ok 5
  else if chr =? 0x36 then Ok 6
  else if chr =? 0x37 then Ok 7
  else if chr =? 0x38 then Ok 8
  else if chr =? 0x39 then Ok 9
  else if (chr =? 0x61) || (chr =? 0x41) then Ok 10
  else if (chr =? 0x62) || (chr =? 0x42) then Ok 11
  else if (chr =? 0x63) || (chr =? 0x43) then Ok 12
  else if (chr =? 0x64) || (chr =? 0x44) then Ok 13
  else if (chr =? 0x65) || (chr =? 0x45) then Ok 14
  else if (chr =? 0x66) || (chr =? 0x46) then Ok 15
  else Err Aborted.

(** [strcmp(name, ".") == 0]. *)
Definition is_dot (name : list Z) : res bool :=
  c0 ← aget (cstr name) 0;
  if c0 =? 0x2e then
    c1 ← aget (cstr name) 1;
    Ok (c1 =? 0x00)
  else Ok false.

(** [isdigit(s[1]) && isdigit(s[2]) && isdigit(s[3])]. *)
Definition escape_digits (name : list Z) (s : Z) : res bool :=
  c1 ← aget (cstr name) (s + 1);
  if isdigit c1 then
    c2 ← aget (cstr name) (s + 2);
    if isdigit c2 then
      c3 ← aget (cstr name) (s + 3);
      Ok (isdigit c3)
    else Ok false
  else Ok false.

(** [case '\\']: the index of the last octet read, and the buffer. *)
Definition parse_escape (name : list Z) (s p : Z) (dname : list Z)
  : res (Z * list Z) :=
  digits ← escape_digits name s;
  if (digits : bool) then
    c1 ← aget (cstr name) (s + 1);
    d1 ← hexdigit_to_int c1;
    c2 ← aget (cstr name) (s + 2);
    d2 ← hexdigit_to_int c2;
    c3 ← aget (cstr name) (s + 3);
    d3 ← hexdigit_to_int c3;
    let val := d1 * 100 + d2 * 10 + d3 in
    if (0 <=? val) && (val <=? 255) then
      d ← aset dname p (u8 val);
      Ok (s + 3, d)
    else
      c ← aget (cstr name) (s + 1);
      d ← aset dname p c;
      Ok (s + 1, d)
  else
    c1 ← aget (cstr name) (s + 1);
    if negb (c1 =? 0x00) then
      d ← aset dname p c1;
      Ok (s + 1, d)
    else Ok (s, dname).

(** The code behind the loop: the last label and the root label. *)
Definition parse_root (h p : Z) (dname : list Z) : res (Z * list Z) :=
  if h >=? MAXDOMAINLEN then Ok (0, dname)
  else
    d ← aset dname h 0x00;
    Ok (p, d).

Definition parse_end (h p : Z) (dname : list Z) : res (Z * list Z) :=
  if negb (p =? h + 1) then
    let label_length := p - h - 1 in
    if label_length >? MAXLABELLEN then Ok (0, dname)
    else
      d ← aset dname h (u8 label_length);
      parse_root p p d
  else parse_root h p dname.

(** [for (h = d, p = h + 1; *s; ++s, ++p)], with [s], [h] and [p] as
    indices, and what follows the loop. *)
Fixpoint parse_loop (fuel : nat) (name : list Z) (s h p : Z)
    (dname : list Z) : res (Z * list Z) :=
  match fuel with
  | O => Err OutOfFuel
  | S fuel' =>
      c ← aget (cstr name) s;
      if c =? 0x00 then parse_end h p dname
      else if p >=? MAXDOMAINLEN then Ok (0, dname)
      else if c =? 0x2e then
        if p =? h + 1 then Ok (0, dname)
        else
          let label_length := p - h - 1 in
          if label_length >? MAXLABELLEN then Ok (0, dname)
          else
            d ← aset dname h (u8 label_length);
            parse_loop fuel' name (s + 1) p (p + 1) d
      else if c =? 0x5c then
        '(s', d) ← parse_escape name s p dname;
        parse_loop fuel' name (s' + 1) h (p + 1) d
      else
        d ← aset dname p c;
        parse_loop fuel' name (s + 1) h (p + 1) d
  end.

(** The result and the buffer.  Every turn of the loop reads at least one
    octet of the text. *)
Definition dname_parse_wire (dname name : list Z) : res (Z * list Z) :=
  dot ← is_dot name;
  if (dot : bool) then
    d ← aset dname 0 0x00;
    Ok (1, d)
  else parse_loop (S (length name)) name 0 0 1 dname.

(** The text of a name without escapes: the labels [ls], each followed by
    a dot, and the last label [l], followed by a dot if [dot] is set. *)
Definition dots (ls : list (list Z)) : list Z :=
  concat (map (λ l, l ++ [0x2e]) ls).

Definition text_of (dot : bool) (ls : list (list Z)) (l : list Z) : list Z :=
  dots ls ++ l ++ (if dot then [0x2e] else []).

(** An octet that [dname_parse_wire] copies as it is. *)
Definition plain (c : Z) : Prop :=
  0 < c < 256 ∧ c ≠ 0x2e ∧ c ≠ 0x5c.

Definition name_buffer : list Z := replicate 255 0.

(** The text [fOo] and its wire format in the buffer. *)
Definition text_fOo : list Z := [0x66; 0x4f; 0x6f].

Definition wire_fOo : list Z :=
  [0x03; 0x66; 0x4f; 0x6f; 0x00] ++ replicate 250 0.

(** The label [com], and a label of 64 octets. *)
Definition text_com : list Z := [0x63; 0x6f; 0x6d].

Definition label_64 : list Z := replicate 64 0x61.

(** What [dname_parse_wire] leaves for the buffer [dname]: a buffer of
    the same size, and either the result 0 or the wire format of a valid
    name at the start of the buffer, with the length of the name, its root
    label counted or not, as the result. *)
Definition parsed (dname : list Z) (r : Z * list Z) : Prop :=
  length r.2 = length dname ∧ Forall is_octet r.2
  ∧ (r.1 = 0
     ∨ ∃ ls, valid_wire_name ls ∧ wire_name ls `prefix_of` r.2
             ∧ (r.1 = Z.of_nat (length (wire_name ls))
                ∨ (ls ≠ [] ∧ r.1 = Z.of_nat (length (wire_labels ls))))).

(** * Properties *)

(** ** Arrays and octets *)

Section arrays.
Context {A : Type}.
Implicit Types (a pre post : list A) (x y : A).

Lemma aget_app pre post x :
  aget (pre ++ x :: post) (Z.of_nat (length pre)) = Ok x.
Proof.
  unfold aget. destruct (Z.ltb_spec (Z.of_nat (length pre)) 0); [lia|].
  rewrite Nat2Z.id, lookup_app_r, Nat.sub_diag by lia. done.
Qed.

Lemma aset_app pre post x y :
  aset (pre ++ y :: post) (Z.of_nat (length pre)) x = Ok (pre ++ x :: post).
Proof.
  unfold aset. rewrite length_app. simpl.
  destruct (Z.leb_spec 0 (Z.of_nat (length pre))); [|lia].
  destruct (Z.ltb_spec (Z.of_nat (length pre))
              (Z.of_nat (length pre + S (length post)))); [|lia].
  simpl. rewrite Nat2Z.id, insert_app_r_alt, Nat.sub_diag by lia. done.
Qed.

Lemma aget_Ok a i x :
  aget a i = Ok x → 0 ≤ i ∧ a !! Z.to_nat i = Some x.
Proof.
  unfold aget. destruct (Z.ltb_spec i 0); [done|].
  destruct (a !! Z.to_nat i); [|done]. intros [= ->]. done.
Qed.

Lemma aget_lookup a i x :
  0 ≤ i → a !! Z.to_nat i = Some x → aget a i = Ok x.
Proof.
  intros Hi Hx. unfold aget. destruct (Z.ltb_spec i 0); [lia|].
  by rewrite Hx.
Qed.

Lemma aset_Ok a i x a' :
  aset a i x = Ok a' →
  0 ≤ i < Z.of_nat (length a) ∧ a' = <[Z.to_nat i := x]> a.
Proof.
  unfold aset. destruct (Z.leb_spec 0 i), (Z.ltb_spec i (Z.of_nat (length a)));
    simpl; intros [= <-]; auto with lia.
Qed.
End arrays.

(** A property of octets that holds of the 256 values holds of every
    octet. *)
Lemma octet_cases (P : Z → bool) :
  forallb P (map Z.of_nat (seq 0 256)) = true →
  ∀ c, is_octet c → P c = true.
Proof.
  intros H c [? ?]. rewrite forallb_forall in H. apply H.
  apply in_map_iff. exists (Z.to_nat c). split; [lia|]. apply in_seq. lia.
Qed.

Lemma xlat_range c : is_octet c → 0x01 ≤ xlat c ≤ 0xe6.
Proof.
  intros Hc.
  pose proof (octet_cases (λ c, (0x01 <=? xlat c) && (xlat c <=? 0xe6))
                ltac:(vm_compute; reflexivity) c Hc) as H.
  simpl in H. lia.
Qed.

Lemma length_octet_literal c :
  is_octet c → (Z.land c 0xc0 =? 0) = (c <? 64).
Proof.
  intros Hc.
  pose proof (octet_cases
                (λ c, Bool.eqb (Z.land c 0xc0 =? 0) (c <? 64))
                ltac:(vm_compute; reflexivity) c Hc) as H.
  simpl in H. by apply Bool.eqb_prop.
Qed.

(** ** The key transform *)

Lemma copy_label_app l : ∀ pre post kdone junk,
  (length kdone + 1 = length pre)%nat →
  (length l ≤ length junk)%nat →
  copy_label (length l) (pre ++ l ++ post) (Z.of_nat (length pre))
    (kdone ++ junk)
  = Ok (Z.of_nat (length pre + length l),
        kdone ++ map xlat l ++ drop (length l) junk).
Proof.
  induction l as [|x l IH]; intros pre post kdone junk Hk Hj.
  - simpl. by rewrite Nat.add_0_r, drop_0.
  - destruct junk as [|j junk]; [simpl in Hj; lia|].
    simpl in Hj. simpl copy_label. simpl app at 1.
    rewrite aget_app. simpl.
    replace (Z.of_nat (length pre) - 1) with (Z.of_nat (length kdone)) by lia.
    rewrite aset_app. simpl.
    replace (Z.of_nat (length pre) + 1)
      with (Z.of_nat (length (pre ++ [x]))) by (rewrite length_app; simpl; lia).
    rewrite (cons_middle x pre), (cons_middle (xlat x) kdone), !app_assoc.
    rewrite <- (app_assoc (pre ++ [x])).
    rewrite IH by (rewrite ?length_app; simpl; lia).
    rewrite length_app. simpl. do 2 f_equal; [lia|].
    by rewrite <- !app_assoc.
Qed.

Lemma wire_labels_cons l ls :
  wire_labels (l :: ls) = Z.of_nat (length l) :: l ++ wire_labels ls.
Proof. done. Qed.

Lemma key_labels_cons l ls :
  key_labels (l :: ls) = map xlat l ++ 0 :: key_labels ls.
Proof. unfold key_labels. simpl. by rewrite <- app_assoc. Qed.

Lemma length_key_labels ls :
  length (key_labels ls) = length (wire_labels ls).
Proof.
  induction ls as [|l ls IH]; [done|].
  rewrite key_labels_cons, wire_labels_cons. simpl.
  rewrite !length_app, length_map. simpl. lia.
Qed.

(** The loop over a run of valid labels: each turn copies one label. *)
Lemma make_key_loop_labels ls : ∀ fuel pre rest kdone junk,
  Forall valid_label ls →
  length kdone = length pre →
  (length (wire_labels ls) ≤ length junk)%nat →
  (length pre + length (wire_labels ls) ≤ 255)%nat →
  make_key_loop (length ls + fuel) (pre ++ wire_labels ls ++ rest)
    (Z.of_nat (length pre)) (Z.of_nat (length pre)) (kdone ++ junk)
  = make_key_loop fuel (pre ++ wire_labels ls ++ rest)
      (Z.of_nat (length pre + length (wire_labels ls)))
      (Z.of_nat (length pre + length (wire_labels ls)))
      (kdone ++ key_labels ls ++ drop (length (wire_labels ls)) junk).
Proof.
  induction ls as [|l ls IH]; intros fuel pre rest kdone junk Hv Hk Hj Hn.
  - simpl. by rewrite Nat.add_0_r, drop_0.
  - apply Forall_cons in Hv as [[Hl Ho] Hv].
    rewrite wire_labels_cons in *. simpl in Hj, Hn.
    rewrite length_app in Hj, Hn.
    simpl make_key_loop. simpl app at 1.
    rewrite aget_app. simpl.
    destruct (Z.eqb_spec (Z.of_nat (length l)) 0) as [|_]; [lia|].
    rewrite length_octet_literal by (unfold is_octet; lia).
    destruct (Z.ltb_spec (Z.of_nat (length l)) 64) as [_|]; [|lia]. simpl.
    destruct (Z.gtb_spec (Z.of_nat (length pre) + (Z.of_nat (length l) + 1))
                0xff) as [|_]; [lia|].
    replace (Z.to_nat (Z.of_nat (length pre) + (Z.of_nat (length l) + 1)
                       - (Z.of_nat (length pre) + 1))) with (length l) by lia.
    replace (Z.of_nat (length pre) + 1)
      with (Z.of_nat (length (pre ++ [Z.of_nat (length l)])))
      by (rewrite length_app; simpl; lia).
    rewrite (cons_middle _ pre), app_assoc, <- (app_assoc l).
    rewrite copy_label_app by (rewrite ?length_app; simpl; lia). simpl.
    destruct (drop (length l) junk) as [|j junk'] eqn:Hd.
    { apply (f_equal length) in Hd. rewrite length_drop in Hd.
      simpl in Hd. lia. }
    replace (Z.of_nat (length (pre ++ [Z.of_nat (length l)]) + length l) - 1)
      with (Z.of_nat (length (kdone ++ map xlat l)))
      by (rewrite !length_app, length_map; simpl; lia).
    rewrite (app_assoc kdone (map xlat l) (j :: junk')), aset_app. simpl.
    assert (Hj' : junk' = drop (S (length l)) junk).
    { rewrite <- (Nat.add_1_l (length l)), Nat.add_comm, <- drop_drop, Hd.
      done. }
    set (pre' := (pre ++ [Z.of_nat (length l)]) ++ l).
    assert (Hp' : length pre' = (length pre + S (length l))%nat)
      by (unfold pre'; rewrite !length_app; simpl; lia).
    replace (Z.of_nat (length pre) + (Z.of_nat (length l) + 1))
      with (Z.of_nat (length pre')) by lia.
    replace (Z.of_nat (length (pre ++ [Z.of_nat (length l)]) + length l))
      with (Z.of_nat (length pre')) by (rewrite length_app; simpl; lia).
    pose proof (IH fuel pre' rest (kdone ++ map xlat l ++ [0]) junk' Hv)
      as IH'.
    rewrite !length_app, length_map in IH'. simpl in IH'.
    subst junk'. rewrite length_drop in IH'.
    specialize (IH' ltac:(lia) ltac:(lia) ltac:(lia)).
    rewrite key_labels_cons, length_app, drop_drop in *.
    replace (length pre + S (length l + length (wire_labels ls)))%nat
      with (length pre' + length (wire_labels ls))%nat by lia.
    replace (S (length l + length (wire_labels ls)))%nat
      with (S (length l) + length (wire_labels ls))%nat by lia.
    unfold pre' in *. rewrite <- !app_assoc in *. simpl in *.
    rewrite <- ?app_assoc in *. exact IH'.
Qed.

Lemma length_labels_le ls :
  Forall valid_label ls → (length ls ≤ length (wire_labels ls))%nat.
Proof.
  induction 1 as [|l ls _ _ IH]; [done|].
  rewrite wire_labels_cons. simpl. rewrite length_app. lia.
Qed.

(** The run of [nsd_make_key] up to the first length octet after the
    labels [ls]. *)
Lemma nsd_make_key_labels ls tail key0 :
  Forall valid_label ls →
  (length (wire_labels ls) ≤ 255)%nat →
  length key0 = 255%nat →
  nsd_make_key key0 (wire_labels ls ++ tail)
  = make_key_loop (256 - length ls) (wire_labels ls ++ tail)
      (Z.of_nat (length (wire_labels ls)))
      (Z.of_nat (length (wire_labels ls)))
      (key_labels ls ++ drop (length (wire_labels ls)) key0).
Proof.
  intros Hv Hn Hk. unfold nsd_make_key.
  pose proof (length_labels_le ls Hv).
  replace 256%nat with (length ls + (256 - length ls))%nat at 1 by lia.
  apply (make_key_loop_labels ls _ [] tail [] key0); simpl; auto with lia.
Qed.

Lemma nsd_make_key_accepts ls rest key0 :
  Forall valid_label ls →
  (length (wire_labels ls) < 255)%nat →
  length key0 = 255%nat →
  nsd_make_key key0 (wire_labels ls ++ 0 :: rest)
  = Ok (Z.of_nat (length (wire_labels ls)) + 1,
        key_of ls ++ drop (S (length (wire_labels ls))) key0).
Proof.
  intros Hv Hn Hk. rewrite nsd_make_key_labels by auto with lia.
  pose proof (length_labels_le ls Hv).
  destruct (256 - length ls)%nat as [|fuel] eqn:Hf; [lia|].
  simpl make_key_loop.
  rewrite aget_app. simpl.
  replace (Z.of_nat (length (wire_labels ls)) + 1 - 1)
    with (Z.of_nat (length (key_labels ls)))
    by (rewrite length_key_labels; lia).
  destruct (drop (length (wire_labels ls)) key0) as [|j junk] eqn:Hd.
  { apply (f_equal length) in Hd. rewrite length_drop in Hd.
    simpl in Hd. lia. }
  rewrite aset_app. simpl. unfold u8, key_of.
  rewrite Z.mod_small by lia.
  do 2 f_equal. rewrite <- app_assoc. simpl. do 2 f_equal.
  rewrite <- (Nat.add_1_l (length _)), Nat.add_comm, <- drop_drop, Hd.
  done.
Qed.

Lemma nsd_make_key_rejects ls c rest key0 :
  Forall valid_label ls →
  (length (wire_labels ls) ≤ 255)%nat →
  length key0 = 255%nat →
  is_octet c → c ≠ 0 →
  Z.land c 0xc0 ≠ 0 ∨ 255 < Z.of_nat (length (wire_labels ls)) + c + 1 →
  nsd_make_key key0 (wire_labels ls ++ c :: rest)
  = Ok (0, key_labels ls ++ drop (length (wire_labels ls)) key0).
Proof.
  intros Hv Hn Hk Hc Hc0 Hbad. rewrite nsd_make_key_labels by auto with lia.
  pose proof (length_labels_le ls Hv).
  destruct (256 - length ls)%nat as [|fuel] eqn:Hf; [lia|].
  simpl make_key_loop.
  rewrite aget_app. simpl.
  destruct (Z.eqb_spec c 0) as [|_]; [done|].
  destruct (Z.eqb_spec (Z.land c 192) 0) as [Hl|Hl]; simpl; [|done].
  destruct Hbad as [|Hlen]; [done|].
  destruct (Z.gtb_spec (Z.of_nat (length (wire_labels ls)) + (c + 1)) 255);
    [done|lia].
Qed.

Lemma copy_label_Ok n : ∀ name cnt key cnt' key',
  0 ≤ cnt ≤ Z.of_nat (length name) →
  copy_label n name cnt key = Ok (cnt', key') →
  cnt' = cnt + Z.of_nat n ∧ length key' = length key
  ∧ cnt + Z.of_nat n ≤ Z.of_nat (length name).
Proof.
  induction n as [|n IH]; intros name cnt key cnt' key' Hc; simpl.
  - intros [= <- <-]. lia.
  - destruct (aget name cnt) as [c|] eqn:Hg; [simpl|done].
    destruct (aset key (cnt - 1) (xlat c)) as [k|] eqn:Hs; [simpl|done].
    apply aget_Ok in Hg as [_ Hg%lookup_lt_Some].
    intros Hr. apply IH in Hr as (-> & -> & Hn); [|lia].
    apply aset_Ok in Hs as [_ ->]. rewrite length_insert.
    repeat split; lia.
Qed.

Lemma aget_end {A : Type} (a : list A) :
  aget a (Z.of_nat (length a)) = Err OutOfBounds.
Proof.
  unfold aget. destruct (Z.ltb_spec (Z.of_nat (length a)) 0); [done|].
  by rewrite Nat2Z.id, lookup_ge_None_2.
Qed.

Lemma wire_labels_snoc ls l :
  wire_labels (ls ++ [l]) = wire_labels ls ++ Z.of_nat (length l) :: l.
Proof.
  unfold wire_labels. rewrite map_app, concat_app. simpl.
  by rewrite app_nil_r.
Qed.

Lemma make_key_loop_inv fuel : ∀ ls tail key n buf,
  Forall valid_label ls → Forall is_octet tail →
  (length (wire_labels ls) ≤ 255)%nat → length key = 255%nat →
  make_key_loop fuel (wire_labels ls ++ tail)
    (Z.of_nat (length (wire_labels ls)))
    (Z.of_nat (length (wire_labels ls))) key = Ok (n, buf) →
  (n = 0 ∧ rejected (wire_labels ls ++ tail))
  ∨ (0 < n ≤ 255 ∧ accepted (wire_labels ls ++ tail) n).
Proof.
  induction fuel as [|fuel IH]; intros ls tail key n buf Hv Ht Hn Hk;
    [done|].
  simpl make_key_loop.
  destruct tail as [|c tail].
  { by rewrite app_nil_r, aget_end. }
  apply Forall_cons in Ht as [Hc Ht].
  rewrite aget_app. simpl.
  destruct (Z.eqb_spec c 0) as [->|Hc0].
  { destruct (aset key _ _) as [k|] eqn:Hs; [simpl|done].
    apply aset_Ok in Hs as [Hs _].
    intros [= <- <-]. right. unfold u8. rewrite Z.mod_small by lia.
    split; [lia|]. by exists ls, tail. }
  destruct (Z.eqb_spec (Z.land c 192) 0) as [Hl|Hl]; simpl.
  2: { intros [= <- <-]. left. split; [done|].
       exists ls, c, tail. auto 10. }
  destruct (Z.gtb_spec (Z.of_nat (length (wire_labels ls)) + (c + 1)) 255)
    as [Hlen|Hlen].
  { intros [= <- <-]. left. split; [done|].
    exists ls, c, tail. split_and!; auto. right. lia. }
  pose proof (length_octet_literal c Hc) as Hlit.
  destruct (Z.eqb_spec (Z.land c 192) 0) as [_|]; [|done].
  destruct (Z.ltb_spec c 64) as [Hc64|]; [clear Hlit|done].
  destruct (copy_label _ _ _ _) as [[cnt' key']|] eqn:Hcp; [simpl|done].
  apply copy_label_Ok in Hcp as (-> & Hk' & Hfit);
    [|rewrite length_app; simpl; lia].
  rewrite length_app in Hfit. simpl in Hfit.
  destruct (aset key' _ _) as [key2|] eqn:Hs; [simpl|done].
  apply aset_Ok in Hs as [_ ->].
  destruct Hc as [Hc ?].
  set (l := take (Z.to_nat c) tail).
  assert (Hll : length l = Z.to_nat c)
    by (unfold l; rewrite length_take; lia).
  assert (Hname : wire_labels ls ++ c :: tail
                  = wire_labels (ls ++ [l]) ++ drop (Z.to_nat c) tail).
  { rewrite wire_labels_snoc, Hll, Z2Nat.id, <- app_assoc by lia. simpl.
    unfold l. by rewrite take_drop. }
  rewrite Hname.
  assert (Hlen' : length (wire_labels (ls ++ [l]))
                  = (length (wire_labels ls) + S (Z.to_nat c))%nat).
  { rewrite wire_labels_snoc, length_app. simpl. lia. }
  replace (Z.of_nat (length (wire_labels ls)) + 1
           + Z.of_nat (Z.to_nat (Z.of_nat (length (wire_labels ls)) + (c + 1)
                                 - (Z.of_nat (length (wire_labels ls)) + 1))))
    with (Z.of_nat (length (wire_labels (ls ++ [l])))) by lia.
  replace (Z.of_nat (length (wire_labels ls)) + (c + 1))
    with (Z.of_nat (length (wire_labels (ls ++ [l])))) by lia.
  apply IH.
  - apply Forall_app. split; [done|]. apply Forall_singleton.
    split; [lia|]. unfold l. by apply Forall_take.
  - by apply Forall_drop.
  - lia.
  - rewrite length_insert. lia.
Qed.

Lemma aget_Err {A : Type} (a : list A) i e :
  aget a i = Err e → e = OutOfBounds.
Proof.
  unfold aget. destruct (i <? 0); [congruence|].
  destruct (a !! Z.to_nat i); congruence.
Qed.

Lemma aset_Err {A : Type} (a : list A) i x e :
  aset a i x = Err e → e = OutOfBounds.
Proof. unfold aset. destruct (_ && _); congruence. Qed.

Lemma copy_label_Err n : ∀ name cnt key e,
  copy_label n name cnt key = Err e → e = OutOfBounds.
Proof.
  induction n as [|n IH]; intros name cnt key e; simpl; [done|].
  destruct (aget name cnt) as [c|] eqn:Hg; simpl;
    [|intros [= <-]; eauto using aget_Err].
  destruct (aset key (cnt - 1) (xlat c)) as [k|] eqn:Hs; simpl;
    [|intros [= <-]; eauto using aset_Err].
  apply IH.
Qed.

(** The bound of the embedded loop is never met: [nsd_make_key]
    terminates on every name. *)
Lemma make_key_loop_fuel fuel : ∀ name cnt key,
  Forall is_octet name →
  0 ≤ cnt ≤ 255 → 255 < Z.of_nat fuel + cnt →
  make_key_loop fuel name cnt cnt key ≠ Err OutOfFuel.
Proof.
  induction fuel as [|fuel IH]; intros name cnt key Ho Hc Hf; [lia|].
  simpl make_key_loop.
  destruct (aget name cnt) as [c|] eqn:Hg; simpl;
    [|by apply aget_Err in Hg as ->].
  apply aget_Ok in Hg as [_ Hg].
  pose proof (Forall_lookup_1 _ _ _ _ Ho Hg) as [Hc1 Hc2].
  destruct (Z.eqb_spec c 0) as [->|Hc0].
  { destruct (aset key _ _) eqn:Hs; simpl; [done|].
    by apply aset_Err in Hs as ->. }
  destruct (negb _); [done|].
  destruct (Z.gtb_spec (cnt + (c + 1)) 255) as [|Hlen]; [done|].
  destruct (copy_label _ _ _ _) as [[cnt' key']|] eqn:Hcp; simpl;
    [|by apply copy_label_Err in Hcp as ->].
  apply copy_label_Ok in Hcp as (-> & _ & _);
    [|apply lookup_lt_Some in Hg; lia].
  destruct (aset key' _ _) eqn:Hs; simpl; [|by apply aset_Err in Hs as ->].
  replace (cnt + 1 + Z.of_nat (Z.to_nat (cnt + (c + 1) - (cnt + 1))))
    with (cnt + (c + 1)) by lia.
  apply IH; [done|lia|lia].
Qed.

Lemma nsd_make_key_fuel key name :
  Forall is_octet name → nsd_make_key key name ≠ Err OutOfFuel.
Proof. intros Ho. apply make_key_loop_fuel; [done|lia|lia]. Qed.

(** *** Keys are prefix-free *)

Lemma key_of_cons l ls : key_of (l :: ls) = map xlat l ++ 0 :: key_of ls.
Proof. unfold key_of. by rewrite key_labels_cons, <- app_assoc. Qed.

Lemma label_prefix (a : list Z) : ∀ a' X Y,
  Forall (λ o, o ≠ 0) a → Forall (λ o, o ≠ 0) a' →
  (a ++ 0 :: X) `prefix_of` (a' ++ 0 :: Y) →
  a = a' ∧ X `prefix_of` Y.
Proof.
  induction a as [|x a IH]; intros [|y a'] X Y Ha Ha' Hp; simpl in Hp.
  - split; [done|]. by apply prefix_cons_inv_2 in Hp.
  - apply prefix_cons_inv_1 in Hp. apply Forall_cons in Ha' as [? _]. done.
  - apply prefix_cons_inv_1 in Hp. apply Forall_cons in Ha as [? _]. done.
  - apply Forall_cons in Ha as [_ Ha]. apply Forall_cons in Ha' as [_ Ha'].
    pose proof (prefix_cons_inv_1 _ _ _ _ Hp) as ->.
    apply prefix_cons_inv_2 in Hp.
    destruct (IH a' X Y Ha Ha' Hp) as [-> ?]. done.
Qed.

Lemma valid_label_nonzero l :
  valid_label l → l ≠ [] ∧ Forall (λ o, o ≠ 0) (map xlat l).
Proof.
  intros [Hl Ho]. split; [by destruct l; simpl in *; [lia|]|].
  apply Forall_map. eapply Forall_impl; [exact Ho|].
  intros o Hoct. simpl. pose proof (xlat_range o Hoct). lia.
Qed.

Lemma key_of_prefix_free ls : ∀ ls',
  Forall valid_label ls → Forall valid_label ls' →
  key_of ls `prefix_of` key_of ls' → key_of ls = key_of ls'.
Proof.
  induction ls as [|l ls IH]; intros [|l' ls'] Hv Hv' Hp; [done|..].
  - apply Forall_cons in Hv' as [[Hne Hnz]%valid_label_nonzero _].
    rewrite key_of_cons in Hp. destruct l' as [|o l']; [done|].
    simpl in Hp. apply prefix_cons_inv_1 in Hp.
    apply Forall_cons in Hnz as [? _]. done.
  - apply Forall_cons in Hv as [[Hne Hnz]%valid_label_nonzero _].
    rewrite key_of_cons in Hp. destruct l as [|o l]; [done|].
    simpl in Hp. apply prefix_cons_inv_1 in Hp.
    apply Forall_cons in Hnz as [? _]. done.
  - apply Forall_cons in Hv as [[_ Hnz]%valid_label_nonzero Hv].
    apply Forall_cons in Hv' as [[_ Hnz']%valid_label_nonzero Hv'].
    rewrite !key_of_cons in *.
    apply label_prefix in Hp as [-> Hp]; [|done..].
    by rewrite (IH ls' Hv Hv' Hp).
Qed.

Lemma valid_wire_name_length ls :
  valid_wire_name ls →
  Forall valid_label ls ∧ (length (wire_labels ls) < 255)%nat.
Proof.
  intros [Hv Hn]. split; [done|].
  unfold wire_name in Hn. rewrite length_app in Hn. simpl in Hn. lia.
Qed.

(** The key of a valid wire name, and its length. *)
Lemma nsd_make_key_valid ls key0 :
  valid_wire_name ls → length key0 = 255%nat →
  ∃ buf,
    nsd_make_key key0 (wire_name ls)
    = Ok (Z.of_nat (length (wire_labels ls)) + 1, buf)
    ∧ key_bytes (Z.of_nat (length (wire_labels ls)) + 1, buf) = key_of ls.
Proof.
  intros [Hv Hn]%valid_wire_name_length Hk. eexists. split.
  - by apply nsd_make_key_accepts.
  - unfold key_bytes. simpl.
    rewrite take_app_length'; [done|].
    unfold key_of. rewrite length_app, length_key_labels. simpl. lia.
Qed.

Lemma key_of_octets ls :
  Forall valid_label ls →
  Forall (λ o, o = 0x00 ∨ 0x01 ≤ o ≤ 0xe6) (key_of ls).
Proof.
  induction 1 as [|l ls [_ Ho] _ IH].
  - by repeat constructor.
  - rewrite key_of_cons. apply Forall_app. split.
    + apply Forall_map. eapply Forall_impl; [exact Ho|].
      intros o Hoct. right. by apply xlat_range.
    + constructor; auto.
Qed.

(** C3. [nsd_make_key] accepts every valid wire name and returns a
    positive length.  Every octet of the key is 0x00 or lies in
    [0x01, 0xe6]; the key is the translated octets of each label, none of
    them 0x00, with one 0x00 after each label and one more at the end, so
    0x00 occurs only as a separator and as the terminator; and when the
    key is a prefix of the key of another valid wire name the two keys
    are equal: no key is a proper prefix of another. *)
Theorem nsd_make_key_octets_prefix_free ls key0 :
  valid_wire_name ls → length key0 = 255%nat →
  ∃ n buf,
    nsd_make_key key0 (wire_name ls) = Ok (n, buf) ∧ 0 < n
    ∧ Forall (λ o, o = 0x00 ∨ 0x01 ≤ o ≤ 0xe6) (key_bytes (n, buf))
    ∧ key_bytes (n, buf)
      = concat (map (λ l, map xlat l ++ [0x00]) ls) ++ [0x00]
    ∧ Forall (Forall (λ o, xlat o ≠ 0x00)) ls
    ∧ ∀ ls' key0' n' buf',
        valid_wire_name ls' → length key0' = 255%nat →
        nsd_make_key key0' (wire_name ls') = Ok (n', buf') →
        key_bytes (n, buf) `prefix_of` key_bytes (n', buf') →
        key_bytes (n, buf) = key_bytes (n', buf').
Proof.
  intros Hv Hk.
  destruct (nsd_make_key_valid ls key0 Hv Hk) as (buf & Hr & Hb).
  pose proof (valid_wire_name_length ls Hv) as [Hl _].
  eexists _, buf. split; [exact Hr|]. rewrite Hb.
  split_and!; [lia|by apply key_of_octets|done| |].
  - eapply Forall_impl; [exact Hl|]. intros l [_ Ho].
    eapply Forall_impl; [exact Ho|]. intros o Hoct. simpl.
    pose proof (xlat_range o Hoct). lia.
  - intros ls' key0' n' buf' Hv' Hk' Hr' Hp.
    destruct (nsd_make_key_valid ls' key0' Hv' Hk') as (buf2 & Hr2 & Hb2).
    rewrite Hr' in Hr2. injection Hr2 as -> ->. rewrite Hb2 in *.
    apply key_of_prefix_free; [done| |done].
    by apply valid_wire_name_length.
Qed.

(** The name [fOo.] of tree.h and its key ["MVV" 0 0]. *)
Lemma nsd_make_key_octets_prefix_free_witness :
  valid_wire_name [[0x66; 0x4f; 0x6f]] ∧ length blank_key = 255%nat
  ∧ ∃ n buf,
      nsd_make_key blank_key (wire_name [[0x66; 0x4f; 0x6f]]) = Ok (n, buf)
      ∧ 0 < n
      ∧ Forall (λ o, o = 0x00 ∨ 0x01 ≤ o ≤ 0xe6) (key_bytes (n, buf))
      ∧ key_bytes (n, buf)
        = concat (map (λ l, map xlat l ++ [0x00]) [[0x66; 0x4f; 0x6f]])
          ++ [0x00]
      ∧ Forall (Forall (λ o, xlat o ≠ 0x00)) [[0x66; 0x4f; 0x6f]]
      ∧ ∀ ls' key0' n' buf',
          valid_wire_name ls' → length key0' = 255%nat →
          nsd_make_key key0' (wire_name ls') = Ok (n', buf') →
          key_bytes (n, buf) `prefix_of` key_bytes (n', buf') →
          key_bytes (n, buf) = key_bytes (n', buf').
Proof.
  assert (Hv : valid_wire_name [[0x66; 0x4f; 0x6f]]).
  { split; [|simpl; lia].
    repeat constructor; simpl; unfold is_octet; lia. }
  split; [exact Hv|]. split; [reflexivity|].
  exact (nsd_make_key_octets_prefix_free [[0x66; 0x4f; 0x6f]] blank_key Hv
           eq_refl).
Defined.

(** C8, as stated, fails on a label whose length octet is 0x40: the
    name has 66 octets, none of them has both of its top two bits set,
    and [nsd_make_key] returns 0. *)
Lemma nsd_make_key_rejects_length_64 :
  nsd_make_key blank_key name_label64 = Ok (0, blank_key)
  ∧ Forall (λ o, Z.land o 0xc0 ≠ 0xc0) name_label64
  ∧ (length name_label64 ≤ 255)%nat.
Proof.
  split; [reflexivity|]. split; [|simpl; lia].
  apply Forall_forall. intros o Ho. apply list_elem_of_In in Ho.
  simpl in Ho. repeat (destruct Ho as [<-|Ho]; [done|]). done.
Qed.

(** C8 (amended).  On a name of octets, with a key buffer of 255 octets:
    [nsd_make_key] returns 0 on a rejected name, one where the walk over
    the labels meets a length octet with either of its top two bits set,
    or a label that brings the count of octets above 255; it returns the
    length of the key, which is positive, on a name whose root label
    comes after at most 254 octets; and it returns 0 on a rejected name
    only, and a positive length on such a name only. *)
Theorem nsd_make_key_fails_exactly name key0 :
  Forall is_octet name → length key0 = 255%nat →
  (rejected name → ∃ buf, nsd_make_key key0 name = Ok (0, buf))
  ∧ (∀ n, accepted name n → n ≤ 255 →
       ∃ buf, nsd_make_key key0 name = Ok (n, buf) ∧ 0 < n
              ∧ Z.of_nat (length (key_bytes (n, buf))) = n)
  ∧ (∀ n buf, nsd_make_key key0 name = Ok (n, buf) →
       (n = 0 ∧ rejected name) ∨ (0 < n ≤ 255 ∧ accepted name n)).
Proof.
  intros Ho Hk. split_and!.
  - intros (ls & c & rest & -> & Hv & Hn & Hc & Hc0 & Hbad).
    eexists. by apply nsd_make_key_rejects.
  - intros n (ls & rest & -> & Hv & ->) Hn.
    eexists. split; [apply nsd_make_key_accepts; auto with lia|].
    split; [lia|]. unfold key_bytes. simpl.
    rewrite length_take, length_app, length_drop, Hk.
    unfold key_of. rewrite length_app, length_key_labels. simpl. lia.
  - intros n buf Hr.
    apply (make_key_loop_inv 256 [] name key0 n buf); auto.
    simpl. lia.
Qed.

Lemma nsd_make_key_fails_exactly_witness :
  Forall is_octet name_label64 ∧ length blank_key = 255%nat
  ∧ (rejected name_label64 →
     ∃ buf, nsd_make_key blank_key name_label64 = Ok (0, buf))
  ∧ (∀ n, accepted name_label64 n → n ≤ 255 →
       ∃ buf, nsd_make_key blank_key name_label64 = Ok (n, buf) ∧ 0 < n
              ∧ Z.of_nat (length (key_bytes (n, buf))) = n)
  ∧ (∀ n buf, nsd_make_key blank_key name_label64 = Ok (n, buf) →
       (n = 0 ∧ rejected name_label64)
       ∨ (0 < n ≤ 255 ∧ accepted name_label64 n)).
Proof.
  assert (Ho : Forall is_octet name_label64).
  { apply Forall_forall. intros o Hin. apply list_elem_of_In in Hin.
    unfold is_octet. simpl in Hin.
    repeat (destruct Hin as [<-|Hin]; [lia|]). done. }
  split; [exact Ho|]. split; [reflexivity|].
  exact (nsd_make_key_fails_exactly name_label64 blank_key Ho eq_refl).
Defined.

(** ** Runs in the memory monad *)

Lemma bind_Ok {A B : Type} (m : M A) (f : A → M B) s v s' :
  (m ≫= f) s = Ok (v, s') →
  ∃ a s1, m s = Ok (a, s1) ∧ f a s1 = Ok (v, s').
Proof.
  unfold mbind, M_bind. destruct (m s) as [[a s1]|]; [|done]. eauto.
Qed.

Lemma mret_Ok {A : Type} (a : A) s v s' :
  (mret a : M A) s = Ok (v, s') → v = a ∧ s' = s.
Proof. by intros [= <- <-]. Qed.

Lemma lift_Ok {A : Type} (r : res A) s v s' :
  lift r s = Ok (v, s') → r = Ok v ∧ s' = s.
Proof. unfold lift. destruct r; [|done]. by intros [= <- <-]. Qed.

Create HintDb pure discriminated.

Lemma pure_mret {A : Type} (a : A) : pure_op (mret a : M A).
Proof. by intros s v s' [= <- <-]. Qed.

Lemma pure_fail {A : Type} f : pure_op (fail f : M A).
Proof. by intros s v s'. Qed.

Lemma pure_lift {A : Type} (r : res A) : pure_op (lift r).
Proof. intros s v s' H. by apply lift_Ok in H as [_ ->]. Qed.

Lemma pure_bind {A B : Type} (m : M A) (f : A → M B) :
  pure_op m → (∀ a, pure_op (f a)) → pure_op (m ≫= f).
Proof.
  intros Hm Hf s v s' (a & s1 & H1 & H2)%bind_Ok.
  apply Hm in H1 as ->. by apply Hf in H2.
Qed.

Lemma pure_get_object l : pure_op (get_object l).
Proof.
  intros s v s'. unfold get_object.
  destruct (heap s !! l) as [[o|]|]; [|done..]. by intros [= <- <-].
Qed.

Lemma pure_get_node p : pure_op (get_node p).
Proof.
  destruct p as [|l|l]; simpl; [apply pure_fail| |apply pure_fail].
  apply pure_bind; [apply pure_get_object|].
  intros [n|f]; [apply pure_mret|apply pure_fail].
Qed.

Lemma pure_get_leaf p : pure_op (get_leaf p).
Proof.
  destruct p as [|l|l]; simpl; [apply pure_fail..|].
  apply pure_bind; [apply pure_get_object|].
  intros [n|f]; [apply pure_fail|apply pure_mret].
Qed.

Lemma pure_get_node_as t p : pure_op (get_node_as t p).
Proof.
  apply pure_bind; [apply pure_get_node|]. intros n.
  destruct p; [apply pure_fail| |apply pure_fail].
  destruct (decide _); [apply pure_mret|apply pure_fail].
Qed.

Lemma pure_load r : pure_op (load r).
Proof.
  destruct r as [|l i|]; unfold load.
  - by intros s v s' [= <- <-].
  - apply pure_bind; [apply pure_get_node|]. intros n. apply pure_lift.
  - by intros s v s' [= <- <-].
Qed.

Lemma pure_assert cfg c : pure_op c → pure_op (assert cfg c).
Proof.
  intros Hc. unfold assert. destruct (NDEBUG cfg); [apply pure_mret|].
  apply pure_bind; [done|]. intros [|]; [apply pure_mret|apply pure_fail].
Qed.

Lemma pure_top path : pure_op (top path).
Proof.
  unfold top. destruct (last path); [apply pure_mret|apply pure_fail].
Qed.

Lemma pure_push path lvl : pure_op (push path lvl).
Proof.
  unfold push. destruct (_ <? _); [apply pure_mret|apply pure_fail].
Qed.

#[global] Hint Resolve pure_mret pure_fail pure_lift pure_get_object
  pure_get_node pure_get_leaf pure_get_node_as pure_load pure_assert
  pure_top pure_push : pure.

(** Proves [pure_op] of operations built with binds and branches. *)
Ltac solve_pure :=
  repeat first
    [ progress eauto with pure
    | apply pure_bind; [|intros ?]
    | match goal with
      | |- pure_op (match ?x with _ => _ end) => destruct x
      | |- pure_op (if ?b then _ else _) => destruct b
      end ].

Lemma pure_find_child cfg node key : pure_op (find_child cfg node key).
Proof.
  unfold find_child, find_child4, find_child16, find_child32, find_child38,
    find_child48, find_child256, abort.
  solve_pure.
Qed.

#[global] Hint Resolve pure_find_child : pure.

Lemma get_object_Ok l s o s' :
  get_object l s = Ok (o, s') ↔ heap s !! l = Some (Some o) ∧ s' = s.
Proof.
  unfold get_object. destruct (heap s !! l) as [[o'|]|]; split;
    try done; try (by intros [? _]).
  - by intros [= <- <-].
  - by intros [[= <-] ->].
Qed.

Lemma get_node_Ok l s n s' :
  get_node (NodeP l) s = Ok (n, s')
  ↔ heap s !! l = Some (Some (ONode n)) ∧ s' = s.
Proof.
  unfold get_node. split.
  - intros (o & s1 & [Ho ->]%get_object_Ok & H)%bind_Ok.
    destruct o; [|done]. by injection H as <- <-.
  - intros [Hn ->]. unfold mbind, M_bind.
    by rewrite (proj2 (get_object_Ok l s (ONode n) s)).
Qed.

Lemma get_node_valid p s n s' :
  get_node p s = Ok (n, s') →
  ∃ l, p = NodeP l ∧ heap s !! l = Some (Some (ONode n)) ∧ s' = s.
Proof.
  destruct p as [|l|l]; [done| |done].
  intros [? ?]%get_node_Ok. eauto.
Qed.

Lemma get_node_as_Ok t p s l n s' :
  get_node_as t p s = Ok ((l, n), s') →
  p = NodeP l ∧ heap s !! l = Some (Some (ONode n)) ∧ type n = t ∧ s' = s.
Proof.
  intros (n' & s1 & (l' & -> & Hn & ->)%get_node_valid & H)%bind_Ok.
  destruct (decide _); [|done]. by injection H as <- <- <-.
Qed.

Lemma put_object_Ok l o s u s' :
  put_object l o s = Ok (u, s') →
  (l < length (heap s))%nat ∧ s' = set_heap (<[l := Some o]> (heap s)) s.
Proof.
  unfold put_object. destruct (heap s !! l) as [[o'|]|] eqn:Hl; [|done..].
  apply lookup_lt_Some in Hl. by intros [= <- <-].
Qed.

Lemma put_node_Ok p n s u s' :
  put_node p n s = Ok (u, s') →
  ∃ l, p = NodeP l ∧ (l < length (heap s))%nat
       ∧ s' = set_heap (<[l := Some (ONode n)]> (heap s)) s.
Proof.
  destruct p as [|l|l]; [done| |done].
  intros [? ?]%put_object_Ok. eauto.
Qed.

Lemma free_Ok l s u s' :
  free l s = Ok (u, s') →
  (l < length (heap s))%nat ∧ s' = set_heap (<[l := None]> (heap s)) s.
Proof.
  unfold free. destruct (heap s !! l) as [[o'|]|] eqn:Hl; [|done..].
  apply lookup_lt_Some in Hl. by intros [= <- <-].
Qed.

Lemma malloc_Ok o s r s' :
  malloc o s = Ok (r, s') →
  (r = None ∧ heap s' = heap s ∧ root s' = root s ∧ local s' = local s)
  ∨ (r = Some (length (heap s)) ∧ heap s' = heap s ++ [Some o]
     ∧ root s' = root s ∧ local s' = local s).
Proof.
  unfold malloc. destruct (oracle s) as [|[|] r']; intros [= <- <-]; auto.
Qed.

Lemma alloc_node_Ok t s p s' :
  alloc_node t s = Ok (p, s') →
  (p = Null ∧ heap s' = heap s ∧ root s' = root s ∧ local s' = local s)
  ∨ (p = NodeP (length (heap s))
     ∧ heap s' = heap s ++ [Some (ONode (zero_node t))]
     ∧ root s' = root s ∧ local s' = local s).
Proof.
  intros (r & s1 & Hm & [-> ->]%mret_Ok)%bind_Ok.
  apply malloc_Ok in Hm as [(-> & ?)|(-> & ?)]; auto.
Qed.

Lemma store_Ok r p s u s' :
  store r p s = Ok (u, s') →
  match r with
  | RootRef => s' = set_root p s
  | LocalRef => s' = set_local p s
  | ChildRef l i =>
      ∃ n c, heap s !! l = Some (Some (ONode n))
             ∧ aset (children n) i p = Ok c
             ∧ s' = set_heap (<[l := Some (ONode (set_children c n))]>
                                (heap s)) s
  end.
Proof.
  destruct r as [|l i|]; unfold store.
  - by intros [= <-].
  - intros (n & s1 & [Hn ->]%get_node_Ok & H)%bind_Ok.
    apply bind_Ok in H as (c & s1 & [Hc ->]%lift_Ok & H).
    apply put_node_Ok in H as (l' & [= <-] & _ & ->). eauto.
  - by intros [= <-].
Qed.

(** After a promotion the slot holds the new node.  [lo] is the old
    node, [rec] what the new one was filled with. *)
Lemma promotion_installed noderef lo rec s0 s2 s3 s4 :
  load noderef s0 = Ok (NodeP lo, s0) →
  (lo < length (heap s0))%nat →
  heap s2 = heap s0 ++ [Some (ONode rec)] →
  root s2 = root s0 → local s2 = local s0 →
  store noderef (NodeP (length (heap s0))) s2 = Ok ((), s3) →
  free_node (NodeP lo) s3 = Ok ((), s4) →
  ∀ p s5, load noderef s4 = Ok (p, s5) →
  p = NodeP (length (heap s0))
  ∧ heap s4 !! length (heap s0) = Some (Some (ONode rec)).
Proof.
  intros Hld Hlo Hh Hr Hl Hst Hfr p s5 Hld'.
  apply store_Ok in Hst. apply free_Ok in Hfr as [_ ->].
  assert (Hnew : ∀ h, <[lo := None]> (<[length (heap s0) := h]> (heap s2))
                      !! length (heap s0) = Some h).
  { intros h. rewrite list_lookup_insert_ne by lia.
    apply list_lookup_insert_eq. rewrite Hh, length_app. simpl. lia. }
  destruct noderef as [|l i|].
  - subst s3. injection Hld' as <- <-. simpl. split; [done|].
    rewrite list_lookup_insert_ne, Hh by lia.
    rewrite lookup_app_r, Nat.sub_diag by lia. done.
  - destruct Hst as (n & c & Hn & Hc & ->).
    apply bind_Ok in Hld as (n0 & s1 & [Hn0 ->]%get_node_Ok & Hg).
    apply lift_Ok in Hg as [Hg _].
    pose proof (lookup_lt_Some _ _ _ Hn0) as Hl0.
    apply bind_Ok in Hld' as (n1 & s1 & [Hn1 ->]%get_node_Ok & Hg').
    apply lift_Ok in Hg' as [Hg' _]. simpl in Hn1.
    destruct (decide (lo = l)) as [->|Hne].
    { rewrite list_lookup_insert_eq in Hn1; [done|].
      rewrite length_insert, Hh, length_app. lia. }
    rewrite list_lookup_insert_ne in Hn1 by done.
    rewrite list_lookup_insert_eq in Hn1
      by (rewrite Hh, length_app; lia).
    injection Hn1 as <-. simpl in Hg'.
    apply aset_Ok in Hc as [Hi ->].
    apply aget_Ok in Hg' as [_ Hg'].
    rewrite list_lookup_insert_eq in Hg' by lia.
    injection Hg' as <-. split; [done|]. simpl.
    rewrite !list_lookup_insert_ne, Hh by lia.
    rewrite lookup_app_r, Nat.sub_diag by lia. done.
  - subst s3. injection Hld' as <- <-. simpl. split; [done|].
    rewrite list_lookup_insert_ne, Hh by lia.
    rewrite lookup_app_r, Nat.sub_diag by lia. done.
Qed.

Lemma pure_run {A : Type} (m : M A) s a s' :
  pure_op m → m s = Ok (a, s') → s' = s.
Proof. intros Hm. apply Hm. Qed.

(** Takes the first operation off a run [H : (m ≫= f) s = Ok _]; when
    the operation is pure, its final state is replaced by the initial
    one. *)
Ltac run_pure E :=
  match type of E with
  | ?m ?s = Ok (?a, ?s1) =>
      let Hs := fresh in
      assert (Hs : s1 = s)
        by (apply (pure_run m s a s1); [solve_pure|exact E]);
      subst s1
  end.

Tactic Notation "run_bind" hyp(H) "as" simple_intropattern(pat) ident(E) :=
  let s1 := fresh "s" in
  apply bind_Ok in H as (pat & s1 & E & H);
  cbv beta iota in H;
  try run_pure E.

Tactic Notation "run_bind" hyp(H) "as" simple_intropattern(pat) ident(E)
    "into" ident(s1) :=
  apply bind_Ok in H as (pat & s1 & E & H);
  cbv beta iota in H.

Lemma add_child256_Some cfg noderef key node s v s' :
  add_child256 cfg noderef key node s = Ok (v, s') → v ≠ None.
Proof.
  unfold add_child256. intros H.
  run_bind H as node256 E1. run_bind H as [] E2.
  run_bind H as [l n] E3. run_bind H as [] E4. run_bind H as c E5.
  run_bind H as [] E6.
  by apply mret_Ok in H as [-> _].
Qed.

Lemma copy_header_width dest src r :
  copy_header dest src = Ok r → width r = width src.
Proof.
  unfold copy_header. destruct (memcpy _ _ _ _ _); [|done].
  by intros [= <-].
Qed.

Lemma list_insert_last {A : Type} (h : list A) x y :
  <[length h := y]> (h ++ [x]) = h ++ [y].
Proof. by rewrite insert_app_r_alt, Nat.sub_diag by lia. Qed.

(** [add_child48] returns [NULL] only for a full node, and then after a
    failed allocation and nothing else. *)
Lemma add_child48_None cfg noderef key node s s' :
  add_child48 cfg noderef key node s = Ok (None, s') →
  (heap s' = heap s ∧ root s' = root s ∧ local s' = local s)
  ∧ ∃ l n, load noderef s = Ok (NodeP l, s)
           ∧ heap s !! l = Some (Some (ONode n)) ∧ width n = 48.
Proof.
  unfold add_child48. intros H.
  run_bind H as node48 E1. run_bind H as [] E2. run_bind H as [l n] E3.
  apply get_node_as_Ok in E3 as (-> & Hn & Ht & _).
  destruct (Z.eqb_spec (width n) 48) as [Hw|Hw].
  - run_bind H as node256 E4.
    apply alloc_node_Ok in E4 as [(-> & Hh)|(-> & Hh)].
    + destruct (decide _); [|done]. apply mret_Ok in H as [_ ->]. eauto 10.
    + destruct (decide _); [done|].
      run_bind H as n256 E5. run_bind H as n256' E6.
      run_bind H as [cnt ch] E7. run_bind H as [] E8. run_bind H as [] E9.
      run_bind H as [] E10. run_bind H as [] E11.
      by apply add_child256_Some in H.
  - run_bind H as [] E4. run_bind H as [] E5. run_bind H as k E6.
    run_bind H as c E7. run_bind H as [] E8.
    by apply mret_Ok in H as [? _].
Qed.

Lemma add_child38_None_key cfg noderef key child s s' :
  add_child38 cfg noderef key child s = Ok (None, s') →
  node38_xlat key = 255.
Proof.
  unfold add_child38. intros H.
  run_bind H as node38 E1. run_bind H as [] E2. run_bind H as [l n] E3.
  destruct (Z.eqb_spec (node38_xlat key) 255) as [|_]; [done|].
  run_bind H as [] E4. run_bind H as [] E5. run_bind H as c E6.
  run_bind H as [] E7. by apply mret_Ok in H as [? _].
Qed.

(** The part of a promotion after the new node is filled: the slot is
    redirected, the old node freed, and the child added to the new node
    by [next].  When [next] fails then, the new node is full. *)
Lemma promoted_next_None next cap noderef lo n o rec s s1 s2 s3 s4 s' :
  none_when_full next cap →
  load noderef s = Ok (NodeP lo, s) →
  heap s !! lo = Some (Some (ONode n)) →
  heap s1 = heap s ++ [o] →
  root s1 = root s → local s1 = local s →
  put_node (NodeP (length (heap s))) rec s1 = Ok ((), s2) →
  store noderef (NodeP (length (heap s))) s2 = Ok ((), s3) →
  free_node (NodeP lo) s3 = Ok ((), s4) →
  next noderef s4 = Ok (None, s') →
  width rec = cap.
Proof.
  intros Hnext Hld Hn Hh Hr Hl Hput Hst Hfr H.
  apply put_node_Ok in Hput as (? & [= <-] & _ & ->).
  apply Hnext in H as (l' & n' & Hld' & Hn' & Hw).
  eapply (promotion_installed noderef lo rec s _ s3 s4)
    in Hld' as [[= ->] Hrec]; [|done|by eapply lookup_lt_Some| | | |done..].
  - congruence.
  - simpl. rewrite Hh. apply list_insert_last.
  - done.
  - done.
Qed.

Lemma add_child48_full cfg key child :
  none_when_full (λ r, add_child48 cfg r key child) 48.
Proof. intros r s s' H. by apply add_child48_None in H as [_ ?]. Qed.

Lemma add_child38_None cfg noderef key child s s' :
  add_child38 cfg noderef key child s = Ok (None, s') →
  (∀ l n, load noderef s = Ok (NodeP l, s) →
          heap s !! l = Some (Some (ONode n)) → width n ≠ 48) →
  heap s' = heap s ∧ root s' = root s ∧ local s' = local s.
Proof.
  unfold add_child38. intros H Hwidth.
  run_bind H as node38 E1. run_bind H as [] E2. run_bind H as [l n] E3.
  apply get_node_as_Ok in E3 as (-> & Hn & Ht & _).
  specialize (Hwidth l n E1 Hn).
  destruct (Z.eqb_spec (node38_xlat key) 255) as [Hx|Hx].
  - run_bind H as node48 E4.
    apply alloc_node_Ok in E4 as [(-> & Hh)|(-> & Hh & Hr & Hl)].
    + destruct (decide _); [|done]. by apply mret_Ok in H as [_ ->].
    + destruct (decide _); [done|].
      run_bind H as n48 E5. run_bind H as n48' E6.
      run_bind H as [[cnt k] ch] E7. run_bind H as [] E8.
      run_bind H as [] E9. run_bind H as [] E10. run_bind H as [] E11.
      apply lift_Ok in E6 as [Hcp%copy_header_width _].
      eapply (promoted_next_None (λ r, add_child48 cfg r key child) 48) in H;
        eauto using add_child48_full.
      simpl in H. congruence.
  - run_bind H as [] E4. run_bind H as [] E5. run_bind H as c E6.
    run_bind H as [] E7. by apply mret_Ok in H as [? _].
Qed.

Lemma ishost_loop_true n : ∀ ks idx b,
  ishost_loop n ks idx b = Ok true → b = true.
Proof.
  induction n as [|n IH]; intros ks idx b; simpl.
  - by intros [= ->].
  - by destruct b.
Qed.

Lemma promote_alphabet_None cfg lim cap noderef lo n key child s s' :
  promote_alphabet cfg (add_child38 cfg) (add_child48 cfg) lim cap noderef
    (NodeP lo) n key child s = Ok (None, s') →
  load noderef s = Ok (NodeP lo, s) →
  heap s !! lo = Some (Some (ONode n)) →
  width n ≠ 48 →
  heap s' = heap s ∧ root s' = root s ∧ local s' = local s.
Proof.
  unfold promote_alphabet. intros H Hld Hn Hw.
  run_bind H as ishost E1. apply lift_Ok in E1 as [E1 _].
  destruct ishost.
  - apply ishost_loop_true in E1.
    run_bind H as node38 E4.
    apply alloc_node_Ok in E4 as [(-> & Hh)|(-> & Hh & Hr & Hl)].
    + destruct (decide _); [|done]. by apply mret_Ok in H as [_ ->].
    + destruct (decide _); [done|].
      run_bind H as n38 E5. run_bind H as n38' E6.
      run_bind H as ch E7. run_bind H as [] E8.
      run_bind H as [] E9. run_bind H as [] E10.
      apply add_child38_None_key in H. rewrite H in E1. done.
  - run_bind H as node48 E4.
    apply alloc_node_Ok in E4 as [(-> & Hh)|(-> & Hh & Hr & Hl)].
    + destruct (decide _); [|done]. by apply mret_Ok in H as [_ ->].
    + destruct (decide _); [done|].
      run_bind H as n48 E5. run_bind H as n48' E6.
      run_bind H as [k ch] E7. run_bind H as [] E8.
      run_bind H as [] E9. run_bind H as [] E10.
      apply lift_Ok in E6 as [Hcp%copy_header_width _].
      eapply (promoted_next_None (λ r, add_child48 cfg r key child) 48) in H;
        eauto using add_child48_full.
      simpl in H. congruence.
Qed.

Lemma add_child32_None cfg noderef key child s s' :
  add_child32 cfg noderef key child s = Ok (None, s') →
  (heap s' = heap s ∧ root s' = root s ∧ local s' = local s)
  ∧ ∃ l n, load noderef s = Ok (NodeP l, s)
           ∧ heap s !! l = Some (Some (ONode n)) ∧ width n = 32.
Proof.
  unfold add_child32. intros H. destruct (HAVE_AVX2 cfg); [|done].
  run_bind H as node32 E1. run_bind H as [] E2. run_bind H as [l n] E3.
  apply get_node_as_Ok in E3 as (-> & Hn & Ht & _).
  destruct (Z.eqb_spec (width n) 32) as [Hw|Hw].
  - split; [|by eauto 10].
    eapply promote_alphabet_None; eauto. lia.
  - run_bind H as [] E4. run_bind H as idx E5. run_bind H as [idx' n'] E6.
    run_bind H as n2 E7. run_bind H as [] E8.
    by apply mret_Ok in H as [? _].
Qed.

Lemma add_child32_full cfg key child :
  none_when_full (λ r, add_child32 cfg r key child) 32.
Proof. intros r s s' H. by apply add_child32_None in H as [_ ?]. Qed.

Lemma add_child16_None cfg noderef key child s s' :
  add_child16 cfg noderef key child s = Ok (None, s') →
  (heap s' = heap s ∧ root s' = root s ∧ local s' = local s)
  ∧ ∃ l n, load noderef s = Ok (NodeP l, s)
           ∧ heap s !! l = Some (Some (ONode n)) ∧ width n = 16.
Proof.
  unfold add_child16. intros H.
  run_bind H as node16 E1. run_bind H as [] E2. run_bind H as [l n] E3.
  apply get_node_as_Ok in E3 as (-> & Hn & Ht & _).
  destruct (Z.eqb_spec (width n) 16) as [Hw|Hw].
  - split; [|by eauto 10].
    destruct (HAVE_AVX2 cfg).
    + run_bind H as node32 E4.
      apply alloc_node_Ok in E4 as [(-> & Hh)|(-> & Hh & Hr & Hl)].
      * destruct (decide _); [|done]. by apply mret_Ok in H as [_ ->].
      * destruct (decide _); [done|].
        run_bind H as n32 E5. run_bind H as n32' E6.
        run_bind H as k E7. run_bind H as c E8. run_bind H as [] E9.
        run_bind H as [] E10. run_bind H as [] E11.
        apply lift_Ok in E6 as [Hcp%copy_header_width _].
        eapply (promoted_next_None (λ r, add_child32 cfg r key child) 32) in H;
          eauto using add_child32_full.
        simpl in H. lia.
    + eapply promote_alphabet_None; eauto. lia.
  - run_bind H as [] E4. run_bind H as idx E5. run_bind H as [idx' n'] E6.
    run_bind H as n2 E7. run_bind H as [] E8.
    by apply mret_Ok in H as [? _].
Qed.

Lemma add_child16_full cfg key child :
  none_when_full (λ r, add_child16 cfg r key child) 16.
Proof. intros r s s' H. by apply add_child16_None in H as [_ ?]. Qed.

Lemma add_child4_None cfg noderef key child s s' :
  add_child4 cfg noderef key child s = Ok (None, s') →
  heap s' = heap s ∧ root s' = root s ∧ local s' = local s.
Proof.
  unfold add_child4. intros H.
  run_bind H as node4 E1. run_bind H as [l n] E3.
  apply get_node_as_Ok in E3 as (-> & Hn & Ht & _).
  destruct (Z.eqb_spec (width n) 4) as [Hw|Hw].
  - run_bind H as node16 E4.
    apply alloc_node_Ok in E4 as [(-> & Hh)|(-> & Hh & Hr & Hl)].
    + destruct (decide _); [|done]. by apply mret_Ok in H as [_ ->].
    + destruct (decide _); [done|].
      run_bind H as n16 E5. run_bind H as n16' E6.
      run_bind H as k E7. run_bind H as c E8. run_bind H as [] E9.
      run_bind H as [] E10. run_bind H as [] E11.
      apply lift_Ok in E6 as [Hcp%copy_header_width _].
      eapply (promoted_next_None (λ r, add_child16 cfg r key child) 16) in H;
        eauto using add_child16_full.
      simpl in H. lia.
  - run_bind H as [] E4. run_bind H as idx E5. run_bind H as n' E6.
    run_bind H as n2 E7. run_bind H as [] E8.
    by apply mret_Ok in H as [? _].
Qed.

(** When [add_child] returns [NULL] it has changed nothing: the
    allocation of the larger node failed before anything was written.
    A [nsd_node38] of 48 children, which no [nsd_node38] can hold, is
    excluded. *)
Lemma add_child_None cfg noderef key child s s' :
  add_child cfg noderef key child s = Ok (None, s') →
  (∀ l n, load noderef s = Ok (NodeP l, s) →
          heap s !! l = Some (Some (ONode n)) →
          type n = nsd_node38 → width n ≤ 38) →
  heap s' = heap s ∧ root s' = root s ∧ local s' = local s.
Proof.
  unfold add_child. intros H Hwidth.
  run_bind H as node E1. run_bind H as n E2.
  apply get_node_valid in E2 as (l & -> & Hn & _).
  destruct (type n) eqn:Ht.
  - by apply add_child4_None in H.
  - by apply add_child16_None in H as [? _].
  - by apply add_child32_None in H as [? _].
  - apply add_child38_None in H; [done|].
    intros l' n' Hld' Hn'. rewrite E1 in Hld'. injection Hld' as <-.
    rewrite Hn in Hn'. injection Hn' as <-.
    specialize (Hwidth l n E1 Hn Ht). lia.
  - by apply add_child48_None in H as [? _].
  - by apply add_child256_Some in H.
Qed.

(** ** The chain of a leaf split *)

Lemma add_child_fresh4 cfg noderef key child s l n :
  load noderef s = Ok (NodeP l, s) →
  heap s !! l = Some (Some (ONode n)) →
  fresh4 n →
  ∃ n', add_child cfg noderef key child s
        = Ok (Some (ChildRef l 0),
              set_heap (<[l := Some (ONode n')]> (heap s)) s)
        ∧ children n' !! 0%nat = Some child.
Proof.
  intros Hld Hn (pl & p & ->).
  eexists. split.
  - unfold add_child, add_child4, get_node_as, get_node, get_object,
      put_node, put_object, assert, mbind, M_bind.
    rewrite Hld, Hn. simpl. rewrite Hld, Hn. simpl.
    destruct (NDEBUG cfg); simpl; rewrite Hn; reflexivity.
  - reflexivity.
Qed.

Lemma level_ok_ext base s s1 i lvl :
  (∀ j, (j < i)%nat → heap s1 !! (base + j)%nat = heap s !! (base + j)%nat) →
  local s1 = local s →
  level_ok base s i lvl → level_ok base s1 i lvl.
Proof.
  intros Hh Hl. destruct i as [|i]; simpl.
  - by rewrite Hl.
  - intros [? (n & Hn & Hc)]. split; [done|]. exists n.
    by rewrite Hh by lia.
Qed.

Lemma load_level base s i lvl :
  level_ok base s i lvl →
  load (level_noderef lvl) s = Ok (NodeP (base + i), s).
Proof.
  destruct i as [|i]; simpl.
  - intros [-> Hl]. simpl. by rewrite Hl, Nat.add_0_r.
  - intros [-> (n & Hn & Hc)]. unfold load, mbind, M_bind.
    rewrite (proj2 (get_node_Ok _ s n s)) by done.
    unfold lift. by rewrite (aget_lookup (children n) 0 (NodeP (base + S i))).
Qed.

Lemma chain_done h0 k s :
  chain h0 [] k s → heap s = h0 ++ replicate k None.
Proof.
  intros [Hold Hlen _ _ Hfreed]. apply list_eq. intros i.
  destruct (decide (i < length h0)%nat) as [Hi|Hi].
  - rewrite lookup_app_l by done.
    rewrite <- (lookup_take_lt (heap s) (length h0) i) by done.
    by rewrite Hold.
  - rewrite lookup_app_r by lia.
    destruct (decide (i - length h0 < k)%nat) as [Hk|Hk].
    + rewrite lookup_replicate_2 by done.
      specialize (Hfreed (i - length h0)%nat).
      replace (length h0 + (i - length h0))%nat with i in Hfreed by lia.
      apply Hfreed. simpl. lia.
    + rewrite lookup_ge_None_2 by lia.
      symmetry. apply lookup_replicate_None. lia.
Qed.

(** Discarding the chain frees its nodes, from the last one down, and
    nothing else. *)
Lemma discard_chain h0 relpath : ∀ k s s',
  chain h0 relpath k s → (length relpath ≤ k)%nat →
  discard (reverse relpath) s = Ok ((), s') →
  heap s' = h0 ++ replicate k None ∧ root s' = root s.
Proof.
  induction relpath as [|lvl relpath IH] using rev_ind;
    intros k s s' Hc Hk.
  - intros [= <-]. split; [|done]. by apply chain_done.
  - rewrite reverse_snoc. simpl. intros H.
    destruct Hc as [Hold Hlen Hlevels Hlive Hfreed].
    rewrite length_app in *. simpl in *.
    run_bind H as node E1.
    rewrite (load_level (length h0) s (length relpath) lvl) in E1.
    2: { apply Hlevels. by apply list_lookup_middle. }
    injection E1 as <-.
    run_bind H as [] E2. apply free_Ok in E2 as [_ ->].
    apply (IH k) in H as [-> ?]; [done| |lia].
    assert (Hne : ∀ j, (j < length relpath)%nat →
              <[(length h0 + length relpath)%nat := None]> (heap s)
                !! (length h0 + j)%nat = heap s !! (length h0 + j)%nat)
      by (intros j Hj; apply list_lookup_insert_ne; lia).
    split; simpl.
    + by rewrite take_insert_ge by lia.
    + by rewrite length_insert.
    + intros i lvl' Hi. pose proof (lookup_lt_Some _ _ _ Hi).
      eapply level_ok_ext; [| |apply Hlevels; by rewrite lookup_app_l].
      * intros j Hj. simpl. apply Hne. lia.
      * done.
    + intros i Hi. rewrite Hne by done. apply Hlive. lia.
    + intros i Hi.
      destruct (decide (i = length relpath)) as [->|].
      * apply list_lookup_insert_eq. lia.
      * rewrite list_lookup_insert_ne by lia. apply Hfreed. lia.
Qed.

Lemma chain_ext h0 relpath k s s1 :
  heap s1 = heap s → local s1 = local s →
  chain h0 relpath k s → chain h0 relpath k s1.
Proof.
  intros Hh Hl [Hold Hlen Hlevels Hlive Hfreed].
  split; rewrite ?Hh; auto.
  intros i lvl Hi. eapply level_ok_ext; [| |by apply Hlevels].
  - intros j _. by rewrite Hh.
  - done.
Qed.

Lemma chain_prefix_Ok len key depth h s1 s2 :
  heap s1 = h ++ [Some (ONode (zero_node nsd_node4))] →
  (if len >? 0
   then n ← get_node (NodeP (length h));
        p ← lift (memcpy (prefix n) 0 key (1 + depth) len);
        put_node (NodeP (length h)) (set_prefix len p n)
   else mret ()) s1 = Ok ((), s2) →
  ∃ n, fresh4 n ∧ heap s2 = h ++ [Some (ONode n)]
       ∧ root s2 = root s1 ∧ local s2 = local s1.
Proof.
  intros Hh H. destruct (len >? 0).
  - run_bind H as n E1. run_bind H as p E2.
    apply get_node_Ok in E1 as [Hn _].
    rewrite Hh, list_lookup_middle in Hn by done. injection Hn as <-.
    apply put_node_Ok in H as (? & [= <-] & _ & ->). simpl.
    eexists. split; [by eexists _, _|].
    by rewrite Hh, list_insert_last.
  - apply mret_Ok in H as [_ ->].
    exists (zero_node nsd_node4). split; [|done].
    by exists 0, (replicate (Z.to_nat NSD_MAX_PREFIX) 0).
Qed.

(** When the allocation of a node of the chain fails, the nodes made so
    far are freed and the memory from before the split is as it was. *)
Lemma split_chain_None cfg key cnt h0 fuel : ∀ depth relpath s s',
  chain h0 relpath (length relpath) s →
  (relpath ≠ [] →
   ∃ n, heap s !! (length h0 + (length relpath - 1))%nat
        = Some (Some (ONode n)) ∧ fresh4 n) →
  split_chain fuel cfg key cnt depth relpath s = Ok (None, s') →
  root s' = root s ∧ ∃ k, heap s' = h0 ++ replicate k None.
Proof.
  induction fuel as [|fuel IH]; intros depth relpath s s' Hc Hlast H;
    cbn [split_chain] in H; (destruct (depth <? cnt); [|done]); [done|].
  run_bind H as node E1 into s1.
  apply alloc_node_Ok in E1 as [(-> & Hh & Hr & Hl)|(-> & Hh & Hr & Hl)].
  - destruct (decide _); [|done].
    run_bind H as [] E2 into s2. apply mret_Ok in H as [_ ->].
    apply (discard_chain h0 relpath (length relpath)) in E2 as [-> ->];
      [eauto|by apply (chain_ext _ _ _ s)|done].
  - destruct (decide _); [done|].
    run_bind H as [] E2 into s2.
    apply (chain_prefix_Ok _ _ _ (heap s)) in E2
      as (nnew & Hfresh & Hh2 & Hr2 & Hl2); [|done].
    run_bind H as childref E3 into s3. run_bind H as relpath' E4.
    unfold push in E4. destruct (_ <? _); [|done].
    apply mret_Ok in E4 as [-> _].
    destruct Hc as [Hold Hlen Hlevels Hlive _].
    assert (Hold2 : take (length h0) (heap s ++ [Some (ONode nnew)]) = h0).
    { rewrite take_app_le by lia. done. }
    assert (Hnew : (heap s ++ [Some (ONode nnew)])
                     !! (length h0 + length relpath)%nat
                   = Some (Some (ONode nnew))).
    { by rewrite <- Hlen, list_lookup_middle. }
    cut (root s3 = root s
         ∧ chain h0 (relpath ++ [{| level_depth := depth;
                                    level_noderef := childref |}])
             (length relpath + 1) s3
         ∧ heap s3 !! (length h0 + length relpath)%nat
           = Some (Some (ONode nnew))).
    { intros (Hr3 & Hc3 & Hn3). apply IH in H.
      - destruct H as [-> ?]. split; [congruence|done].
      - by rewrite length_app.
      - intros _. exists nnew. split; [|done].
        rewrite length_app. simpl.
        by replace (length relpath + 1 - 1)%nat with (length relpath) by lia. }
    destruct (decide (relpath = [])) as [->|Hne].
    + run_bind E3 as [] E5 into s4. apply mret_Ok in E3 as [-> ->].
      injection E5 as <-. simpl in *.
      assert (Hlen0 : length (heap s) = length h0) by lia.
      rewrite Nat.add_0_r in *.
      split_and!; [congruence| |by rewrite Hh2].
      split; simpl.
      * by rewrite Hh2.
      * rewrite Hh2, length_app. simpl. lia.
      * intros [|i] lvl; [|done]. intros [= <-]. simpl. by rewrite Hlen0.
      * intros i Hi. replace i with 0%nat by lia.
        rewrite Hh2, Nat.add_0_r, Hnew. eauto.
      * intros i Hi. lia.
    + destruct (Hlast Hne) as (nlast & Hnlast & Hfl).
      assert (E3' : (t ← top relpath;
                     k ← lift (aget key depth);
                     c ← add_child cfg (level_noderef t) k
                           (NodeP (length (heap s)));
                     from_option mret (fail InvalidPointer) c) s2
                    = Ok (childref, s3))
        by (destruct relpath; [done|exact E3]).
      clear E3. run_bind E3' as t E5. run_bind E3' as k E6.
      run_bind E3' as c E7 into s4.
      unfold top in E5.
      destruct (last relpath) as [t'|] eqn:Hlast'; [|done].
      apply mret_Ok in E5 as [-> _].
      apply last_Some in Hlast' as (rp & ->).
      rewrite length_app in *. simpl in *.
      replace (length rp + 1 - 1)%nat with (length rp) in * by lia.
      pose proof (Hlevels (length rp) t'
                    (list_lookup_middle _ _ _ _ eq_refl)) as Hok.
      assert (Hsame : ∀ j, (j < length rp + 1)%nat →
                heap s2 !! (length h0 + j)%nat
                = heap s !! (length h0 + j)%nat).
      { intros j Hj. rewrite Hh2, lookup_app_l by lia. done. }
      eapply (level_ok_ext _ s s2) in Hok;
        [|intros j Hj; apply Hsame; lia|congruence].
      apply load_level in Hok.
      destruct (add_child_fresh4 cfg (level_noderef t') k
                  (NodeP (length (heap s))) s2 _ nlast Hok)
        as (n' & Hadd & Hch); [by rewrite Hsame by lia|done|].
      rewrite Hadd in E7. injection E7 as <- <-.
      apply mret_Ok in E3' as [-> ->].
      split_and!.
      * simpl. congruence.
      * split; simpl.
        -- rewrite take_insert_ge, Hh2 by lia. done.
        -- rewrite length_insert, Hh2, !length_app. simpl. lia.
        -- intros i lvl Hi.
           destruct (decide (i < length rp + 1)%nat) as [Hi'|Hi'].
           ++ rewrite lookup_app_l in Hi by (rewrite length_app; simpl; lia).
              eapply (level_ok_ext _ s); [| |by apply Hlevels].
              ** intros j Hj. simpl.
                 rewrite list_lookup_insert_ne by lia. apply Hsame. lia.
              ** simpl. congruence.
           ++ pose proof (lookup_lt_Some _ _ _ Hi) as Hlt'.
              rewrite !length_app in Hlt'. simpl in Hlt'.
              assert (i = S (length rp)) as -> by lia.
              rewrite lookup_app_r in Hi by (rewrite length_app; simpl; lia).
              rewrite length_app in Hi. simpl in Hi.
              replace (S (length rp) - (length rp + 1))%nat with 0%nat
                in Hi by lia.
              injection Hi as <-. simpl. split; [done|].
              exists n'. split.
              ** apply list_lookup_insert_eq. rewrite Hh2, length_app.
                 simpl. lia.
              ** rewrite Hch. do 2 f_equal. lia.
        -- intros i Hi. rewrite !length_app in Hi. simpl in Hi.
           destruct (decide (i = length rp)) as [->|Hne'].
           ++ rewrite list_lookup_insert_eq; [eauto|].
              rewrite Hh2, length_app. simpl. lia.
           ++ rewrite list_lookup_insert_ne by lia.
              destruct (decide (i < length rp + 1)%nat).
              ** rewrite Hsame by lia. apply Hlive. lia.
              ** replace i with (length rp + 1)%nat by lia.
                 rewrite Hh2, Hnew. eauto.
        -- intros i Hi. rewrite !length_app in Hi. simpl in Hi. lia.
      * simpl. rewrite list_lookup_insert_ne by lia.
        by rewrite Hh2.
Qed.

(** ** Failed allocations in nsd_make_path *)

Lemma chain_start s : chain (heap s) [] 0 s.
Proof.
  split; simpl.
  - by rewrite firstn_all.
  - lia.
  - intros i lvl. done.
  - intros i Hi. lia.
  - intros i Hi. lia.
Qed.

Lemma split_leaf_no_memory cfg key key_len path noderef node leaf cnt s
    path' s' :
  split_leaf cfg key key_len path noderef node leaf cnt s
  = Ok (Return nsd_no_memory path', s') →
  path' = path ∧ root s' = root s
  ∧ ∃ k, heap s' = heap s ++ replicate k None.
Proof.
  unfold split_leaf. intros H.
  run_bind H as [] E1. run_bind H as [] E2. run_bind H as t E3.
  run_bind H as r E4 into s1.
  destruct r as [[depth relpath]|].
  - run_bind H as [] E5. run_bind H as first E6. run_bind H as [] E7 into s2.
    run_bind H as path2 E8 into s3. run_bind H as t2 E9 into s4.
    run_bind H as k E10 into s5. run_bind H as c E11 into s6.
    by apply mret_Ok in H as [? _].
  - apply mret_Ok in H as [[= <-] ->].
    apply (split_chain_None _ _ _ (heap s)) in E4 as [? ?];
      [done|apply chain_start|done].
Qed.

Lemma split_node_None cfg noderef cnt s s' :
  split_node cfg noderef cnt s = Ok (None, s') →
  heap s' = heap s ∧ root s' = root s.
Proof.
  unfold split_node. intros H.
  run_bind H as node E1 into s1.
  apply alloc_node_Ok in E1 as [(-> & Hh & Hr & Hl)|(-> & Hh & Hr & Hl)].
  - destruct (decide _); [|done]. by apply mret_Ok in H as [_ ->].
  - destruct (decide _); [done|].
    run_bind H as old E2. run_bind H as o E3. run_bind H as nn E4.
    run_bind H as p E5. run_bind H as [] E6 into s2.
    run_bind H as [] E7 into s3. run_bind H as k E8.
    run_bind H as c E9 into s4. run_bind H as o' E10.
    run_bind H as p' E11. run_bind H as [] E12 into s5.
    run_bind H as node' E13. run_bind H as [] E14 into s6.
    by apply mret_Ok in H as [? _].
Qed.

Lemma make_path_node_no_memory cfg key key_len depth path s path' s' :
  make_path_node cfg key key_len depth path s
  = Ok (Return nsd_no_memory path', s') →
  path' = path ∧ root s' = root s
  ∧ ∃ k, heap s' = heap s ++ replicate k None.
Proof.
  unfold make_path_node. intros H.
  run_bind H as t E1. run_bind H as node E2.
  destruct (nsd_is_leaf node).
  - run_bind H as leaf E3. run_bind H as [] E4. run_bind H as cnt E5.
    run_bind H as [] E6.
    destruct (cnt =? key_len).
    + run_bind H as [] E7. by apply mret_Ok in H as [? _].
    + by apply split_leaf_no_memory in H.
  - run_bind H as n E3. destruct (negb _).
    + run_bind H as cnt E4. run_bind H as [] E5.
      destruct (negb _).
      * run_bind H as [] E6. run_bind H as [] E7.
        run_bind H as r E8 into s1. destruct r as [[]|].
        -- by apply mret_Ok in H as [? _].
        -- apply mret_Ok in H as [[= <-] ->].
           apply split_node_None in E8 as [-> ->].
           split_and!; [done..|]. exists 0%nat. simpl. by rewrite app_nil_r.
      * by apply mret_Ok in H as [? _].
    + by apply mret_Ok in H as [? _].
Qed.

Lemma make_leaf_Ok key key_len s p s' :
  make_leaf key key_len s = Ok (p, s') →
  (p = Null ∧ heap s' = heap s ∧ root s' = root s)
  ∨ (∃ f, p = LeafP (length (heap s))
          ∧ heap s' = heap s ++ [Some (OLeaf f)] ∧ root s' = root s).
Proof.
  unfold make_leaf. intros H. run_bind H as l E1 into s1.
  apply malloc_Ok in E1 as [(-> & Hh & Hr & Hl)|(-> & Hh & Hr & Hl)].
  - apply mret_Ok in H as [-> ->]. auto.
  - run_bind H as k E2. run_bind H as [] E3 into s2.
    apply mret_Ok in H as [-> ->].
    apply put_object_Ok in E3 as [_ ->]. simpl.
    right. eexists. split; [done|].
    by rewrite Hh, list_insert_last.
Qed.

Lemma node38_capacity_lookup s l n :
  node38_capacity s → heap s !! l = Some (Some (ONode n)) →
  type n = nsd_node38 → width n ≤ 38.
Proof.
  intros Hc Hl. by apply (Forall_lookup_1 _ _ _ _ Hc Hl).
Qed.

Lemma make_path_child_no_memory cfg key key_len noderef depth path s
    path' s' :
  node38_capacity s →
  make_path_child cfg key key_len noderef depth path s
  = Ok (Return nsd_no_memory path', s') →
  path' = path ∧ root s' = root s
  ∧ ∃ k, heap s' = heap s ++ replicate k None.
Proof.
  unfold make_path_child. intros Hcap H.
  run_bind H as node E1. run_bind H as k E2. run_bind H as childref E3.
  destruct childref as [c|].
  { run_bind H as path2 E4. by apply mret_Ok in H as [? _]. }
  run_bind H as leaf E4 into s1.
  apply make_leaf_Ok in E4 as [(-> & Hh & Hr)|(f & -> & Hh & Hr)].
  - destruct (decide _); [|done]. apply mret_Ok in H as [[= <-] ->].
    split_and!; [done..|]. exists 0%nat. simpl. by rewrite app_nil_r.
  - destruct (decide _); [done|].
    run_bind H as childref E5 into s2. destruct childref as [c|].
    { run_bind H as path2 E6. by apply mret_Ok in H as [? _]. }
    run_bind H as [] E6 into s3. apply mret_Ok in H as [[= <-] ->].
    apply add_child_None in E5 as (Hh2 & Hr2 & _).
    + apply free_Ok in E6 as [_ ->]. simpl.
      split_and!; [done|congruence|]. exists 1%nat.
      by rewrite Hh2, Hh, list_insert_last.
    + intros l n38 _ Hn Ht. rewrite Hh in Hn.
      apply lookup_app_Some in Hn as [Hn|[_ Hn]].
      * by eapply node38_capacity_lookup.
      * by destruct (l - length (heap s))%nat as [|[|?]].
Qed.

Lemma pure_enter_path cfg path key_len :
  pure_op (enter_path cfg path key_len).
Proof.
  unfold enter_path. solve_pure.
  apply pure_assert. solve_pure.
Qed.

(** A [nsd_no_memory] of [nsd_make_path] is the [return] of one of the
    halves of the last turn of its loop, after the turns that went on. *)
Lemma make_path_loop_no_memory cfg key key_len fuel : ∀ depth path s path' s',
  make_path_loop fuel cfg key key_len depth path s
  = Ok ((nsd_no_memory, path'), s') →
  ∃ d p sb t,
    make_path_turns cfg key key_len depth path s d p sb
    ∧ d < key_len ∧ top p sb = Ok (t, sb)
    ∧ (make_path_node cfg key key_len d p sb
       = Ok (Return nsd_no_memory path', s')
       ∨ ∃ d2 p2 s2,
           make_path_node cfg key key_len d p sb = Ok (Continue (d2, p2), s2)
           ∧ make_path_child cfg key key_len (level_noderef t) d2 p2 s2
             = Ok (Return nsd_no_memory path', s')).
Proof.
  induction fuel as [|fuel IH]; intros depth path s path' s' H;
    cbn [make_path_loop] in H;
    (destruct (Z.ltb_spec depth key_len) as [Hd|Hd]; [|done]); [done|].
  run_bind H as r E into s1.
  destruct r as [rc p|[d p]].
  - apply mret_Ok in H as [[= -> ->] ->].
    unfold make_path_step in E.
    run_bind E as t E1. run_bind E as r2 E2 into s2.
    destruct r2 as [rc2 p2|[d2 p2]].
    + apply mret_Ok in E as [[= -> ->] ->].
      exists depth, path, s, t.
      split_and!; [constructor|done|done|by left].
    + exists depth, path, s, t.
      split_and!; [constructor|done|done|].
      right. by exists d2, p2, s2.
  - apply IH in H as (d' & p' & sb & t & Hturns & Hd' & Htop & Hhalf).
    exists d', p', sb, t. split_and!; [|done..].
    by eapply turns_more.
Qed.

(** * The claims *)

(** ** The examples of tree.h *)

Example make_key_root : nsd_make_key blank_key [0] = Ok (1, blank_key).
Proof. reflexivity. Qed.

(** [fOo.] has the key ["MVV" 0 0]. *)
Example make_key_fOo :
  key_bytes <$> nsd_make_key blank_key (wire_name [[0x66; 0x4f; 0x6f]])
  = Ok [0x4d; 0x56; 0x56; 0; 0].
Proof. reflexivity. Qed.

(** The scenario of the specification: [foo.], [bar.foo.], [a.bar.foo.],
    [ab.bar.foo.] and [b.bar.foo.] are inserted and then found. *)
Example insert_then_find cfg :
  let names := map wire_name
    [labels_foo; labels_bar_foo; [0x61] :: labels_bar_foo;
     [0x61; 0x62] :: labels_bar_foo; [0x62] :: labels_bar_foo] in
  value ((a ← sequence (map (put_name cfg) names);
          b ← sequence (map (get_name cfg) names);
          mret (retcode <$> a, retcode <$> b)) empty_tree)
  = Ok (replicate 5 (Some nsd_ok), replicate 5 (Some nsd_ok)).
Proof. destruct cfg as [[] [] []]; vm_compute; reflexivity. Qed.

(** ** C1 *)

(** C1, on the code.  In every build: [aaaaaaaaaaaa.] and
    [aaaaaaaaaaab.] are inserted into the empty tree, both calls of
    [nsd_make_path] return [nsd_ok], and [nsd_find_path] on a fresh path
    returns [nsd_not_found] for the second name. *)
Theorem nsd_find_path_misses_inserted_key cfg :
  value ((r1 ← put_name cfg name_a12;
          r2 ← put_name cfg name_a11b;
          r3 ← get_name cfg name_a11b;
          mret (retcode r1, retcode r2, retcode r3)) empty_tree)
  = Ok (Some nsd_ok, Some nsd_ok, Some nsd_not_found).
Proof. destruct cfg as [[] [] []]; vm_compute; reflexivity. Qed.

(** The other direction, in the builds with the scalar 16-octet search:
    after [b.], [c.], [d.], [e.] and [a.] the root name, which was never
    inserted, is found, and the top of the path refers to [NULL].  The
    search for the octet 0 stops at the first unused entry of [keys]. *)
Example nsd_find_path_finds_absent_root ndebug :
  value ((sequence (map (put_name (build_scalar ndebug)) names_bcdea);;
          r ← get_name (build_scalar ndebug) (wire_name []);
          t ← from_option (λ r, path_top r.2) (mret Null) r;
          mret (retcode r, t)) empty_tree)
  = Ok (Some nsd_ok, Null).
Proof. destruct ndebug; vm_compute; reflexivity. Qed.

(** ** C2 *)

(** C2, on the code.  [foo.] sorts before [bar.foo.] in canonical DNS
    order, and the key of [foo.] sorts after the key of [bar.foo.]:
    [nsd_make_key] keeps the labels in the order of the wire name. *)
Theorem nsd_make_key_order_not_canonical :
  canonical_dns_order labels_foo labels_bar_foo = Lt
  ∧ key_bytes <$> nsd_make_key blank_key (wire_name labels_foo)
    = Ok [0x4d; 0x56; 0x56; 0; 0]
  ∧ key_bytes <$> nsd_make_key blank_key (wire_name labels_bar_foo)
    = Ok [0x49; 0x48; 0x59; 0; 0x4d; 0x56; 0x56; 0; 0]
  ∧ lex_order [0x4d; 0x56; 0x56; 0; 0]
      [0x49; 0x48; 0x59; 0; 0x4d; 0x56; 0x56; 0; 0] = Gt.
Proof. repeat split. Qed.

(** ** C4 *)

(** C4, on the code.  In the builds with both vector extensions the
    root is a full [nsd_node32] with 32 children under octets of the
    hostname alphabet.  A child under 0x5c, of the same alphabet, promotes
    it to a [nsd_node38] of width 33; the child under 0x3a, the digit 9, is
    the leaf at address 11.  A child under 0x46, outside the alphabet,
    promotes the root to a [nsd_node48] of width 34, in which 0x3a has no
    child and the leaf at address 11 is the child under 0x47. *)
Theorem add_child38_promotion_moves_digit_9 ndebug :
  value ((root_add (build_simd ndebug) 0x5c;;
          n ← root_node;
          c ← root_child (build_simd ndebug) 0x3a;
          root_add (build_simd ndebug) 0x46;;
          n' ← root_node;
          c' ← root_child (build_simd ndebug) 0x3a;
          c'' ← root_child (build_simd ndebug) 0x47;
          mret (type n, width n, c, (type n', width n', c', c'')))
           hosts_tree)
  = Ok (nsd_node38, 33, LeafP 11, (nsd_node48, 34, Null, LeafP 11)).
Proof. destruct ndebug; vm_compute; reflexivity. Qed.

(** ** C5 *)

(** C5, on the code.  The scalar search reads all 16 octets whatever
    the width: for the octet 0 in a vector of width 1 that holds it at
    index 1 it returns 2, where the specified result is 0.  The vector
    searches return the 0-based index: for an octet that is at index 0
    they return 0, where the specified result is 1. *)
Theorem nsd_findeq_u8_not_as_specified avx2 ndebug :
  nsd_v16_findeq_u8
    {| HAVE_SSE2 := false; HAVE_AVX2 := avx2; NDEBUG := ndebug |}
    0 (1 :: replicate 15 0) 1 = Ok 2
  ∧ findeq_spec 0 (1 :: replicate 15 0) 1 = 0
  ∧ nsd_v16_findeq_u8
      {| HAVE_SSE2 := true; HAVE_AVX2 := avx2; NDEBUG := ndebug |}
      5 (5 :: replicate 15 0) 16 = Ok 0
  ∧ findeq_spec 5 (5 :: replicate 15 0) 16 = 1
  ∧ nsd_v32_findeq_u8 5 (5 :: replicate 31 0) 32 = Ok 0
  ∧ findeq_spec 5 (5 :: replicate 31 0) 32 = 1.
Proof. repeat split. Qed.

(** ** C7 *)

(** C7, on the code.  In every build: [b.], [c.], [d.], [e.] and [a.]
    are inserted into the empty tree, every call returns [nsd_ok], and
    the root is a [nsd_node16] of width 5 whose keys are not ascending. *)
Theorem nsd_node16_keys_not_ascending cfg :
  value ((rs ← sequence (map (put_name cfg) names_bcdea);
          n ← root_node;
          mret (retcode <$> rs, type n, width n, keys_ascending n))
           empty_tree)
  = Ok (replicate 5 (Some nsd_ok), nsd_node16, 5, false).
Proof. destruct cfg as [[] [] []]; vm_compute; reflexivity. Qed.

(** ** C9 *)

(** C9, on the code.  In every build: after [aaaaaaaaaaaa.] and
    [aaaaaaaaaaab.] are inserted, the path of the second insertion ends
    at the leaf at address 4.  A second [nsd_make_path] of
    [aaaaaaaaaaab.] returns [nsd_ok] too, but allocates the leaf at
    address 5, links it into the node at address 3, and ends its path
    there: the heap grows from 5 cells to 6, and two leaves hold the
    same key. *)
Theorem nsd_make_path_reinsert_adds_leaf cfg :
  value ((put_name cfg name_a12;;
          r2 ← put_name cfg name_a11b;
          t2 ← from_option (λ r, path_top r.2) (mret Null) r2;
          s2 ← get_state;
          r3 ← put_name cfg name_a11b;
          t3 ← from_option (λ r, path_top r.2) (mret Null) r3;
          s3 ← get_state;
          n3 ← get_node (NodeP 3);
          f2 ← get_leaf t2;
          f3 ← get_leaf t3;
          mret (retcode r2, t2, length (heap s2),
                (retcode r3, t3, length (heap s3)),
                (take 2 (children n3),
                 bool_decide (leaf_key f2 = leaf_key f3),
                 bool_decide (heap s3 = heap s2)))) empty_tree)
  = Ok (Some nsd_ok, LeafP 4, 5%nat, (Some nsd_ok, LeafP 5, 6%nat),
        ([LeafP 1; LeafP 5], true, false)).
Proof. destruct cfg as [[] [] []]; vm_compute; reflexivity. Qed.

(** ** C10 *)

(** C10, on the code.  The octet 0xff of a label becomes the key octet
    0xe6, which is 230.  The [keys] of a [nsd_node48] and the [children]
    of a [nsd_node256] have [NSD_MAX_WIDTH] = 230 entries: with the key
    octet 0xe6, [find_child48] reads and [add_child48] writes past the
    end of [keys], the slot that [find_child256] returns is past the end
    of [children], and [add_child256] writes there.  The same happens
    when [\255.] is looked up or inserted in a tree whose root is a
    [nsd_node48], promoted from a full [nsd_node32] by a child under
    0x46. *)
Theorem node48_node256_index_out_of_bounds cfg ndebug :
  key_bytes <$> nsd_make_key blank_key name_ff = Ok [0xe6; 0; 0]
  ∧ length (keys (zero_node nsd_node48)) = Z.to_nat NSD_MAX_WIDTH
  ∧ length (children (zero_node nsd_node256)) = Z.to_nat NSD_MAX_WIDTH
  ∧ value (find_child cfg (NodeP 0) 0xe6 (tree_of (zero_node nsd_node48)))
    = Err OutOfBounds
  ∧ value (add_child cfg RootRef 0xe6 (LeafP 1)
             (tree_of (zero_node nsd_node48))) = Err OutOfBounds
  ∧ value ((r ← find_child cfg (NodeP 0) 0xe6;
            from_option load (mret Null) r)
             (tree_of (zero_node nsd_node256))) = Err OutOfBounds
  ∧ value (add_child cfg RootRef 0xe6 (LeafP 1)
             (tree_of (zero_node nsd_node256))) = Err OutOfBounds
  ∧ value ((root_add (build_simd ndebug) 0x46;;
            n ← root_node;
            mret (type n)) hosts_tree) = Ok nsd_node48
  ∧ value ((root_add (build_simd ndebug) 0x46;;
            get_name (build_simd ndebug) name_ff) hosts_tree)
    = Err OutOfBounds
  ∧ value ((root_add (build_simd ndebug) 0x46;;
            put_name (build_simd ndebug) name_ff) hosts_tree)
    = Err OutOfBounds.
Proof.
  destruct cfg as [[] [] []], ndebug; vm_compute; repeat split.
Qed.

(** ** C6 *)

(** C6, as stated, fails when the leaf cannot be allocated after a
    split.  [aaaaaaaaaaaa.] is in the tree, in a heap of 2 cells, and of
    the allocations to come the first two succeed and the third fails.
    [nsd_make_path] of [aaaaaaaaaaab.] returns [nsd_no_memory]; the two
    nodes of the chain, which the call allocated, are still allocated at
    addresses 2 and 3, and slot 0 of the root refers to the node at
    address 2 where it referred to the leaf at address 1. *)
Lemma nsd_make_path_no_memory_keeps_chain :
  value ((put_name (build_simd false) name_a12;;
          s1 ← get_state;
          expect_allocations [true; true; false];;
          c1 ← root_child (build_simd false) 0x48;
          r ← put_name (build_simd false) name_a11b;
          s' ← get_state;
          c' ← root_child (build_simd false) 0x48;
          mret (length (heap s1), c1, retcode r,
                (c', bool_decide (is_Some (heap s' !! 2%nat ≫= id)),
                 bool_decide (is_Some (heap s' !! 3%nat ≫= id)))))
           empty_tree)
  = Ok (2%nat, LeafP 1, Some nsd_no_memory, (NodeP 2, true, true)).
Proof. vm_compute. reflexivity. Qed.

(** C6 (amended).  A [nsd_no_memory] of [nsd_make_path] comes from the
    last turn of its loop: the statements before the loop leave the state
    at entry as it is, the turns that went on lead from it to the state [s]
    in which the last turn begins, and the last turn returns from one of
    its two halves, the one that splits and the one that adds the leaf.
    That half has freed what it allocated itself, and has left the path,
    the root and every cell of the heap as they were when it began: the
    heap is the one from before, [s] for the first half and [s2], in which
    the first half ended, for the second, with freed cells after it.  (For
    the second half no [nsd_node38] of that heap may have more than its 38
    children.)  What the turns before or the first half allocated
    stays. *)
Theorem nsd_make_path_no_memory cfg path0 key key_len s0 path' s' :
  nsd_make_path cfg path0 key key_len s0 = Ok ((nsd_no_memory, path'), s') →
  ∃ depth0 path1 depth path s t,
    enter_path cfg path0 key_len s0 = Ok ((depth0, path1), s0)
    ∧ make_path_turns cfg key key_len depth0 path1 s0 depth path s
    ∧ depth < key_len ∧ top path s = Ok (t, s)
    ∧ ((make_path_node cfg key key_len depth path s
        = Ok (Return nsd_no_memory path', s')
        ∧ path' = path ∧ root s' = root s
        ∧ ∃ k, heap s' = heap s ++ replicate k None)
       ∨ ∃ d2 p2 s2,
           make_path_node cfg key key_len depth path s
           = Ok (Continue (d2, p2), s2)
           ∧ make_path_child cfg key key_len (level_noderef t) d2 p2 s2
             = Ok (Return nsd_no_memory path', s')
           ∧ (node38_capacity s2 →
              path' = p2 ∧ root s' = root s2
              ∧ ∃ k, heap s' = heap s2 ++ replicate k None)).
Proof.
  unfold nsd_make_path. intros H.
  run_bind H as [] E1. run_bind H as [depth0 path1] E2 into s1.
  pose proof (pure_enter_path cfg path0 key_len _ _ _ E2) as ->.
  apply make_path_loop_no_memory in H
    as (depth & path & s & t & Hturns & Hd & Htop & [H|(d2 & p2 & s2 & H1 & H2)]);
    exists depth0, path1, depth, path, s, t;
    (split_and!; [done..|]).
  - left. split; [done|]. by apply make_path_node_no_memory in H.
  - right. exists d2, p2, s2. split_and!; [done..|].
    intros Hcap. by apply make_path_child_no_memory in H2.
Qed.

(** The second node of the chain cannot be allocated: the first one is
    freed, and the heap of 2 cells has a freed cell after it. *)
Lemma nsd_make_path_no_memory_witness :
  nsd_make_path (build_simd false) [] (key_of_name name_a11b).2
    (key_of_name name_a11b).1 low_memory_tree
  = Ok ((nsd_no_memory, low_memory_path), low_memory_state)
  ∧ ∃ depth0 path1 depth path s t,
      enter_path (build_simd false) [] (key_of_name name_a11b).1
        low_memory_tree
      = Ok ((depth0, path1), low_memory_tree)
      ∧ make_path_turns (build_simd false) (key_of_name name_a11b).2
          (key_of_name name_a11b).1 depth0 path1 low_memory_tree
          depth path s
      ∧ depth < (key_of_name name_a11b).1 ∧ top path s = Ok (t, s)
      ∧ ((make_path_node (build_simd false) (key_of_name name_a11b).2
            (key_of_name name_a11b).1 depth path s
          = Ok (Return nsd_no_memory low_memory_path, low_memory_state)
          ∧ low_memory_path = path ∧ root low_memory_state = root s
          ∧ ∃ k, heap low_memory_state = heap s ++ replicate k None)
         ∨ ∃ d2 p2 s2,
             make_path_node (build_simd false) (key_of_name name_a11b).2
               (key_of_name name_a11b).1 depth path s
             = Ok (Continue (d2, p2), s2)
             ∧ make_path_child (build_simd false) (key_of_name name_a11b).2
                 (key_of_name name_a11b).1 (level_noderef t) d2 p2 s2
               = Ok (Return nsd_no_memory low_memory_path, low_memory_state)
             ∧ (node38_capacity s2 →
                low_memory_path = p2 ∧ root low_memory_state = root s2
                ∧ ∃ k, heap low_memory_state
                       = heap s2 ++ replicate k None)).
Proof.
  split; [vm_compute; reflexivity|].
  apply (nsd_make_path_no_memory (build_simd false) []
           (key_of_name name_a11b).2 (key_of_name name_a11b).1
           low_memory_tree low_memory_path low_memory_state).
  vm_compute. reflexivity.
Defined.

Example low_memory_heap :
  heap low_memory_state = heap low_memory_tree ++ [None]
  ∧ length (heap low_memory_tree) = 2%nat.
Proof. vm_compute. split; reflexivity. Qed.

(** * Further properties *)

(** ** The key transform and the order of keys *)

Lemma octet_pairs (P : Z → Z → bool) :
  forallb (λ a, forallb (P a) (map Z.of_nat (seq 0 256)))
    (map Z.of_nat (seq 0 256)) = true →
  ∀ a b, is_octet a → is_octet b → P a b = true.
Proof.
  intros H a b Ha Hb.
  pose proof (octet_cases _ H a Ha) as H1. cbv beta in H1.
  exact (octet_cases _ H1 b Hb).
Qed.

Lemma xlat_lowercase a b :
  is_octet a → is_octet b →
  (xlat a ?= xlat b) = (lowercase a ?= lowercase b).
Proof.
  intros Ha Hb.
  assert (H : forallb (λ a, forallb
                (λ b, bool_decide
                        ((xlat a ?= xlat b) = (lowercase a ?= lowercase b)))
                (map Z.of_nat (seq 0 256))) (map Z.of_nat (seq 0 256)) = true)
    by (vm_compute; reflexivity).
  pose proof (octet_pairs _ H a b Ha Hb) as Hab. cbv beta in Hab.
  by apply bool_decide_eq_true_1 in Hab.
Qed.

(** X1.  [xlat] keeps the order of octets once uppercase letters are
    taken as lowercase: two octets compare after [xlat] as their lowercase
    forms compare.  So [xlat] folds case, and is one-to-one and
    order-preserving otherwise. *)
Theorem xlat_compare a b :
  is_octet a → is_octet b →
  (xlat a ?= xlat b) = (lowercase a ?= lowercase b)
  ∧ (xlat a = xlat b ↔ lowercase a = lowercase b)
  ∧ (xlat a < xlat b ↔ lowercase a < lowercase b).
Proof.
  intros Ha Hb. pose proof (xlat_lowercase a b Ha Hb) as H.
  split; [exact H|]. split.
  - rewrite <- !Z.compare_eq_iff. by rewrite H.
  - rewrite <- !Z.compare_lt_iff. by rewrite H.
Qed.

Lemma xlat_compare_witness :
  is_octet 0x46 ∧ is_octet 0x66
  ∧ (xlat 0x46 ?= xlat 0x66) = (lowercase 0x46 ?= lowercase 0x66)
  ∧ (xlat 0x46 = xlat 0x66 ↔ lowercase 0x46 = lowercase 0x66)
  ∧ (xlat 0x46 < xlat 0x66 ↔ lowercase 0x46 < lowercase 0x66).
Proof.
  assert (H1 : is_octet 0x46) by (unfold is_octet; lia).
  assert (H2 : is_octet 0x66) by (unfold is_octet; lia).
  split; [exact H1|]. split; [exact H2|].
  exact (xlat_compare 0x46 0x66 H1 H2).
Defined.

Lemma map_xlat_lowercase (l : list Z) : ∀ l',
  Forall is_octet l → Forall is_octet l' →
  map xlat l = map xlat l' ↔ map lowercase l = map lowercase l'.
Proof.
  induction l as [|a l IH]; intros [|b l'] Hl Hl'; simpl; try done.
  inversion_clear Hl. inversion_clear Hl'.
  pose proof (xlat_lowercase a b) as Hab.
  split; intros [= Hx Hm]; f_equal;
    try (by apply IH);
    apply Z.compare_eq_iff; [rewrite <- Hab|rewrite Hab]; try done;
    by apply Z.compare_eq_iff.
Qed.

Lemma key_of_lowercase (ls : list (list Z)) : ∀ ls',
  Forall valid_label ls → Forall valid_label ls' →
  key_of ls = key_of ls' ↔ map (map lowercase) ls = map (map lowercase) ls'.
Proof.
  induction ls as [|l ls IH]; intros [|l' ls'] Hls Hls'.
  - done.
  - rewrite key_of_cons. inversion_clear Hls' as [|?? Hl' _].
    apply valid_label_nonzero in Hl' as [Hne Hz].
    destruct l' as [|x l']; [done|]. inversion_clear Hz.
    split; [intros [= Hx0 _]; congruence|done].
  - rewrite key_of_cons. inversion_clear Hls as [|?? Hl _].
    apply valid_label_nonzero in Hl as [Hne Hz].
    destruct l as [|x l]; [done|]. inversion_clear Hz.
    split; [intros [= Hx0 _]; congruence|done].
  - rewrite !key_of_cons. simpl.
    inversion_clear Hls as [|?? Hl Hls0].
    inversion_clear Hls' as [|?? Hl' Hls0'].
    pose proof (valid_label_nonzero _ Hl) as [_ Hz].
    pose proof (valid_label_nonzero _ Hl') as [_ Hz'].
    destruct Hl as [_ Ho], Hl' as [_ Ho'].
    split.
    + intros Heq.
      assert (Hp : (map xlat l ++ 0 :: key_of ls)
                   `prefix_of` (map xlat l' ++ 0 :: key_of ls'))
        by (rewrite Heq; done).
      apply label_prefix in Hp as [Hm _]; [|done..].
      rewrite Hm in Heq. apply app_inv_head in Heq. injection Heq as Heq.
      f_equal; [by apply map_xlat_lowercase|by apply IH].
    + intros [= Hm Hr]. f_equal; [by apply map_xlat_lowercase|].
      f_equal. by apply IH.
Qed.

(** X2.  [nsd_make_key] accepts every valid wire name, and two valid
    names get the same key exactly when they are equal label by label
    once uppercase letters are taken as lowercase: the key ignores case
    and nothing else. *)
Theorem nsd_make_key_same_key ls ls' key0 key0' :
  valid_wire_name ls → valid_wire_name ls' →
  length key0 = 255%nat → length key0' = 255%nat →
  ∃ n buf n' buf',
    nsd_make_key key0 (wire_name ls) = Ok (n, buf)
    ∧ nsd_make_key key0' (wire_name ls') = Ok (n', buf')
    ∧ (key_bytes (n, buf) = key_bytes (n', buf')
       ↔ map (map lowercase) ls = map (map lowercase) ls').
Proof.
  intros Hv Hv' Hk Hk'.
  destruct (nsd_make_key_valid ls key0 Hv Hk) as (buf & E & K).
  destruct (nsd_make_key_valid ls' key0' Hv' Hk') as (buf' & E' & K').
  eexists _, _, _, _. split_and!; [exact E|exact E'|].
  rewrite K, K'. apply key_of_lowercase; [apply Hv|apply Hv'].
Qed.

Lemma nsd_make_key_same_key_witness :
  valid_wire_name labels_foo ∧ valid_wire_name [[0x46; 0x4f; 0x6f]]
  ∧ length blank_key = 255%nat ∧ length blank_key = 255%nat
  ∧ ∃ n buf n' buf',
      nsd_make_key blank_key (wire_name labels_foo) = Ok (n, buf)
      ∧ nsd_make_key blank_key (wire_name [[0x46; 0x4f; 0x6f]])
        = Ok (n', buf')
      ∧ (key_bytes (n, buf) = key_bytes (n', buf')
         ↔ map (map lowercase) labels_foo
           = map (map lowercase) [[0x46; 0x4f; 0x6f]]).
Proof.
  assert (Hv : valid_wire_name labels_foo).
  { split; [|simpl; lia].
    repeat constructor; simpl; unfold is_octet; lia. }
  assert (Hv' : valid_wire_name [[0x46; 0x4f; 0x6f]]).
  { split; [|simpl; lia].
    repeat constructor; simpl; unfold is_octet; lia. }
  split; [exact Hv|]. split; [exact Hv'|].
  split; [reflexivity|]. split; [reflexivity|].
  exact (nsd_make_key_same_key labels_foo [[0x46; 0x4f; 0x6f]]
           blank_key blank_key Hv Hv' eq_refl eq_refl).
Defined.

Lemma lex_order_label (x : list Z) : ∀ y X Y,
  Forall is_octet x → Forall is_octet y →
  lex_order (map xlat x ++ 0 :: X) (map xlat y ++ 0 :: Y)
  = match lex_order (map lowercase x) (map lowercase y) with
    | Eq => lex_order X Y
    | c => c
    end.
Proof.
  induction x as [|a x IH]; intros [|b y] X Y Hx Hy; simpl.
  - done.
  - inversion_clear Hy as [|?? Hb _].
    pose proof (xlat_range b Hb). destruct (xlat b); [lia|done|lia].
  - inversion_clear Hx as [|?? Ha _].
    pose proof (xlat_range a Ha). destruct (xlat a); [lia|done|lia].
  - inversion_clear Hx as [|?? Ha Hx']. inversion_clear Hy as [|?? Hb Hy'].
    rewrite (xlat_lowercase a b Ha Hb).
    destruct (lowercase a ?= lowercase b); try done. by apply IH.
Qed.

Lemma key_of_order (a : list (list Z)) : ∀ b,
  Forall valid_label a → Forall valid_label b →
  lex_order (key_of a) (key_of b) = labels_order a b.
Proof.
  induction a as [|x a IH]; intros [|y b] Ha Hb.
  - done.
  - rewrite key_of_cons. inversion_clear Hb as [|?? Hy _].
    destruct Hy as [Hlen Ho]. destruct y as [|c y]; [simpl in Hlen; lia|].
    inversion_clear Ho as [|?? Hc _]. pose proof (xlat_range c Hc).
    simpl. destruct (xlat c); [lia|done|lia].
  - rewrite key_of_cons. inversion_clear Ha as [|?? Hx _].
    destruct Hx as [Hlen Ho]. destruct x as [|c x]; [simpl in Hlen; lia|].
    inversion_clear Ho as [|?? Hc _]. pose proof (xlat_range c Hc).
    simpl. destruct (xlat c); [lia|done|lia].
  - rewrite !key_of_cons.
    inversion_clear Ha as [|?? Hx Ha']. inversion_clear Hb as [|?? Hy Hb'].
    rewrite lex_order_label; [|apply Hx|apply Hy].
    simpl. destruct (lex_order _ _); try done. by apply IH.
Qed.

(** X3.  The octet-wise order of the keys of two valid names is the
    order of the names compared label by label from the first label of
    the wire format on, case-insensitively, a name sorting before every
    name it is a leading part of.  Hence keys made from names whose labels
    are given last label first sort in the canonical DNS order. *)
Theorem nsd_make_key_order a b key0 key0' :
  valid_wire_name a → valid_wire_name b →
  length key0 = 255%nat → length key0' = 255%nat →
  ∃ n buf n' buf',
    nsd_make_key key0 (wire_name a) = Ok (n, buf)
    ∧ nsd_make_key key0' (wire_name b) = Ok (n', buf')
    ∧ lex_order (key_bytes (n, buf)) (key_bytes (n', buf'))
      = labels_order a b
    ∧ labels_order a b = canonical_dns_order (reverse a) (reverse b).
Proof.
  intros Hv Hv' Hk Hk'.
  destruct (nsd_make_key_valid a key0 Hv Hk) as (buf & E & K).
  destruct (nsd_make_key_valid b key0' Hv' Hk') as (buf' & E' & K').
  eexists _, _, _, _. split_and!; [exact E|exact E'| |].
  - rewrite K, K'. apply key_of_order; [apply Hv|apply Hv'].
  - unfold canonical_dns_order. by rewrite !reverse_involutive.
Qed.

Lemma nsd_make_key_order_witness :
  valid_wire_name labels_foo ∧ valid_wire_name labels_bar_foo
  ∧ length blank_key = 255%nat ∧ length blank_key = 255%nat
  ∧ ∃ n buf n' buf',
      nsd_make_key blank_key (wire_name labels_foo) = Ok (n, buf)
      ∧ nsd_make_key blank_key (wire_name labels_bar_foo) = Ok (n', buf')
      ∧ lex_order (key_bytes (n, buf)) (key_bytes (n', buf'))
        = labels_order labels_foo labels_bar_foo
      ∧ labels_order labels_foo labels_bar_foo
        = canonical_dns_order (reverse labels_foo) (reverse labels_bar_foo).
Proof.
  assert (Hv : valid_wire_name labels_foo).
  { split; [|simpl; lia].
    repeat constructor; simpl; unfold is_octet; lia. }
  assert (Hv' : valid_wire_name labels_bar_foo).
  { split; [|simpl; lia].
    repeat constructor; simpl; unfold is_octet; lia. }
  split; [exact Hv|]. split; [exact Hv'|].
  split; [reflexivity|]. split; [reflexivity|].
  exact (nsd_make_key_order labels_foo labels_bar_foo
           blank_key blank_key Hv Hv' eq_refl eq_refl).
Defined.

(** ** compare_keys *)

Lemma compare_keys_loop_spec (n : nat) : ∀ key1 o1 key2 o2 cnt,
  0 ≤ o1 → 0 ≤ o2 → 0 ≤ cnt → cnt + Z.of_nat n ≤ 255 →
  o1 + cnt + Z.of_nat n ≤ Z.of_nat (length key1) →
  o2 + cnt + Z.of_nat n ≤ Z.of_nat (length key2) →
  ∃ r, compare_keys_loop n key1 o1 key2 o2 cnt = Ok r
       ∧ cnt ≤ r ≤ cnt + Z.of_nat n
       ∧ (∀ i, cnt ≤ i < r → aget key1 (o1 + i) = aget key2 (o2 + i))
       ∧ (r < cnt + Z.of_nat n →
          aget key1 (o1 + r) ≠ aget key2 (o2 + r)).
Proof.
  induction n as [|n IH]; intros key1 o1 key2 o2 cnt Ho1 Ho2 Hc Hn H1 H2.
  { exists cnt. simpl. split_and!; [done|lia..]. }
  simpl.
  destruct (lookup_lt_is_Some_2 key1 (Z.to_nat (o1 + cnt))) as [a Ha];
    [lia|].
  destruct (lookup_lt_is_Some_2 key2 (Z.to_nat (o2 + cnt))) as [b Hb];
    [lia|].
  rewrite (aget_lookup key1 (o1 + cnt) a), (aget_lookup key2 (o2 + cnt) b)
    by (done || lia).
  simpl. destruct (Z.eqb_spec a b) as [->|Hab].
  - assert (Hu : u8 (cnt + 1) = cnt + 1)
      by (unfold u8; apply Z.mod_small; lia).
    rewrite Hu.
    destruct (IH key1 o1 key2 o2 (cnt + 1)) as (r & E & Hr & Heq & Hne);
      [lia..|].
    exists r. split_and!; [done|lia|lia| |].
    + intros i Hi. destruct (decide (i = cnt)) as [->|].
      * by rewrite (aget_lookup key1 (o1 + cnt) b),
          (aget_lookup key2 (o2 + cnt) b) by (done || lia).
      * apply Heq. lia.
    + intros Hlt. apply Hne. lia.
  - exists cnt. split_and!; [done|lia|lia| |].
    + intros i Hi. lia.
    + intros _.
      rewrite (aget_lookup key1 (o1 + cnt) a),
        (aget_lookup key2 (o2 + cnt) b) by (done || lia).
      congruence.
Qed.

Lemma compare_keys_common_prefix_lemma key1 o1 key1_len key2 o2 key2_len :
  0 ≤ o1 → 0 ≤ o2 → 0 ≤ key1_len ≤ 255 → 0 ≤ key2_len ≤ 255 →
  o1 + Z.min key1_len key2_len ≤ Z.of_nat (length key1) →
  o2 + Z.min key1_len key2_len ≤ Z.of_nat (length key2) →
  ∃ cnt, compare_keys key1 o1 key1_len key2 o2 key2_len = Ok cnt
         ∧ 0 ≤ cnt ≤ Z.min key1_len key2_len
         ∧ (∀ i, 0 ≤ i < cnt → aget key1 (o1 + i) = aget key2 (o2 + i))
         ∧ (cnt < Z.min key1_len key2_len →
            aget key1 (o1 + cnt) ≠ aget key2 (o2 + cnt)).
Proof.
  intros Ho1 Ho2 Hl1 Hl2 H1 H2. unfold compare_keys.
  assert (Hmin : (if key1_len <? key2_len then key1_len else key2_len)
                 = Z.min key1_len key2_len)
    by (destruct (Z.ltb_spec key1_len key2_len); lia).
  rewrite Hmin.
  destruct (compare_keys_loop_spec (Z.to_nat (Z.min key1_len key2_len))
              key1 o1 key2 o2 0) as (r & E & Hr & Heq & Hne); [lia..|].
  exists r. split_and!; [done|lia|lia|done|].
  intros Hlt. apply Hne. lia.
Qed.

(** X4.  [compare_keys] returns the length of the longest common
    prefix of the two keys, cut at the shorter length: the keys agree on
    the octets before the result, and differ at the result when it is
    below both lengths.  All reads stay inside the two arrays. *)
Theorem compare_keys_common_prefix key1 o1 key1_len key2 o2 key2_len :
  0 ≤ o1 → 0 ≤ o2 → 0 ≤ key1_len ≤ 255 → 0 ≤ key2_len ≤ 255 →
  o1 + Z.min key1_len key2_len ≤ Z.of_nat (length key1) →
  o2 + Z.min key1_len key2_len ≤ Z.of_nat (length key2) →
  ∃ cnt, compare_keys key1 o1 key1_len key2 o2 key2_len = Ok cnt
         ∧ 0 ≤ cnt ≤ Z.min key1_len key2_len
         ∧ (∀ i, 0 ≤ i < cnt → aget key1 (o1 + i) = aget key2 (o2 + i))
         ∧ (cnt < Z.min key1_len key2_len →
            aget key1 (o1 + cnt) ≠ aget key2 (o2 + cnt)).
Proof. apply compare_keys_common_prefix_lemma. Qed.

Lemma compare_keys_common_prefix_witness :
  0 ≤ 0 ∧ 0 ≤ 1 ∧ 0 ≤ 3 ≤ 255 ∧ 0 ≤ 2 ≤ 255
  ∧ 0 + Z.min 3 2 ≤ Z.of_nat (length [0x4d; 0x56; 0x56])
  ∧ 1 + Z.min 3 2 ≤ Z.of_nat (length [0x00; 0x4d; 0x57])
  ∧ ∃ cnt, compare_keys [0x4d; 0x56; 0x56] 0 3 [0x00; 0x4d; 0x57] 1 2
           = Ok cnt
           ∧ 0 ≤ cnt ≤ Z.min 3 2
           ∧ (∀ i, 0 ≤ i < cnt →
                aget [0x4d; 0x56; 0x56] (0 + i)
                = aget [0x00; 0x4d; 0x57] (1 + i))
           ∧ (cnt < Z.min 3 2 →
              aget [0x4d; 0x56; 0x56] (0 + cnt)
              ≠ aget [0x00; 0x4d; 0x57] (1 + cnt)).
Proof.
  split; [lia|]. split; [lia|]. split; [lia|]. split; [lia|].
  split; [simpl; lia|]. split; [simpl; lia|].
  apply (compare_keys_common_prefix [0x4d; 0x56; 0x56] 0 3
           [0x00; 0x4d; 0x57] 1 2); simpl; lia.
Defined.

Lemma compare_keys_same key1 key2 n :
  0 ≤ n ≤ 255 → n ≤ Z.of_nat (length key1) → n ≤ Z.of_nat (length key2) →
  take (Z.to_nat n) key1 = take (Z.to_nat n) key2 →
  compare_keys key1 0 n key2 0 n = Ok n.
Proof.
  intros Hn H1 H2 Heq.
  destruct (compare_keys_common_prefix_lemma key1 0 n key2 0 n)
    as (cnt & E & Hc & _ & Hne); [lia..|].
  rewrite E. f_equal. rewrite Z.min_id in *.
  destruct (decide (cnt < n)) as [Hlt|]; [|lia].
  destruct (Hne Hlt). unfold aget. rewrite !Z.add_0_l.
  destruct (Z.ltb_spec cnt 0); [done|].
  rewrite <- (lookup_take_lt key1 (Z.to_nat n)),
    <- (lookup_take_lt key2 (Z.to_nat n)) by lia.
  by rewrite Heq.
Qed.

(** ** The alphabet of nsd_node38 *)

(** X5.  [node38_xlat] gives an index to the key octet of a label octet
    exactly when the label octet is a letter, a digit or the hyphen, the
    characters its comments name; the index is then in [1, 38).  Index 0
    is that of the key octet 0x00. *)
Theorem node38_xlat_hostname c :
  is_octet c →
  (node38_xlat (xlat c) ≠ 255 ↔ hostname_octet c = true)
  ∧ (hostname_octet c = true → 1 ≤ node38_xlat (xlat c) < 38)
  ∧ node38_xlat 0x00 = 0.
Proof.
  intros Hc.
  assert (H : Bool.eqb (negb (node38_xlat (xlat c) =? 255))
                (hostname_octet c)
              && (negb (hostname_octet c)
                  || ((1 <=? node38_xlat (xlat c))
                      && (node38_xlat (xlat c) <? 38))) = true).
  { revert c Hc.
    apply (octet_cases (λ c,
      Bool.eqb (negb (node38_xlat (xlat c) =? 255)) (hostname_octet c)
      && (negb (hostname_octet c)
          || ((1 <=? node38_xlat (xlat c))
              && (node38_xlat (xlat c) <? 38))))).
    vm_compute. reflexivity. }
  apply andb_true_iff in H as [H1 H2].
  apply Bool.eqb_prop in H1.
  split_and!; [|intros Hh|done].
  - rewrite <- H1. destruct (Z.eqb_spec (node38_xlat (xlat c)) 255);
      simpl; split; (done || congruence).
  - rewrite Hh in H2. simpl in H2. lia.
Qed.

Lemma node38_xlat_hostname_witness :
  is_octet 0x2d
  ∧ (node38_xlat (xlat 0x2d) ≠ 255 ↔ hostname_octet 0x2d = true)
  ∧ (hostname_octet 0x2d = true → 1 ≤ node38_xlat (xlat 0x2d) < 38)
  ∧ node38_xlat 0x00 = 0.
Proof.
  assert (H : is_octet 0x2d) by (unfold is_octet; lia).
  split; [exact H|]. exact (node38_xlat_hostname 0x2d H).
Defined.

(** X6.  On the key octets that have an index, [node38_xlat] is
    one-to-one into [0, 38), and [node38_unxlat] gives the key octet back
    for every index but 11, the one of the digit 9 (key octet 0x3a), for
    which it gives 0x47. *)
Theorem node38_unxlat_xlat k k' :
  is_octet k → is_octet k' → node38_xlat k ≠ 255 →
  0 ≤ node38_xlat k < 38
  ∧ (node38_xlat k = node38_xlat k' → k = k')
  ∧ node38_unxlat (node38_xlat k) = (if k =? 0x3a then 0x47 else k).
Proof.
  intros Hk Hk' Hx.
  assert (H : (node38_xlat k =? 255)
              || ((0 <=? node38_xlat k) && (node38_xlat k <? 38)
                  && (node38_unxlat (node38_xlat k)
                      =? (if k =? 0x3a then 0x47 else k))) = true).
  { revert k Hk Hx.
    pose proof (octet_cases (λ k,
      (node38_xlat k =? 255)
      || ((0 <=? node38_xlat k) && (node38_xlat k <? 38)
          && (node38_unxlat (node38_xlat k)
              =? (if k =? 0x3a then 0x47 else k))))) as Hc.
    intros k Hk _. apply Hc; [|done]. vm_compute. reflexivity. }
  assert (H' : (node38_xlat k =? 255)
               || negb (node38_xlat k =? node38_xlat k') || (k =? k')
               = true).
  { apply (octet_pairs (λ k k',
      (node38_xlat k =? 255)
      || negb (node38_xlat k =? node38_xlat k') || (k =? k'))); [|done..].
    vm_compute. reflexivity. }
  split_and!; lia.
Qed.

Lemma node38_unxlat_xlat_witness :
  is_octet 0x3a ∧ is_octet 0x48 ∧ node38_xlat 0x3a ≠ 255
  ∧ 0 ≤ node38_xlat 0x3a < 38
  ∧ (node38_xlat 0x3a = node38_xlat 0x48 → 0x3a = 0x48)
  ∧ node38_unxlat (node38_xlat 0x3a) = (if 0x3a =? 0x3a then 0x47 else 0x3a).
Proof.
  assert (H1 : is_octet 0x3a) by (unfold is_octet; lia).
  assert (H2 : is_octet 0x48) by (unfold is_octet; lia).
  assert (H3 : node38_xlat 0x3a ≠ 255) by (vm_compute; discriminate).
  split; [exact H1|]. split; [exact H2|]. split; [exact H3|].
  exact (node38_unxlat_xlat 0x3a 0x48 H1 H2 H3).
Defined.

(** ** The searches of simd.h *)

Section searches.
Context (p : Z → bool) (P : Z → Prop) `{!∀ x, Decision (P x)}.
Hypothesis p_P : ∀ x, p x = bool_decide (P x).

Lemma scalar_find_first (n : nat) : ∀ idx vec,
  (idx + n ≤ length vec)%nat → (idx + n ≤ 255)%nat →
  scalar_find p n (Z.of_nat idx) vec
  = match list_find P (take n (drop idx vec)) with
    | Some (i, _) => Ok (Z.of_nat (idx + i) + 1)
    | None => Ok 0
    end.
Proof.
  induction n as [|n IH]; intros idx vec Hlen Hmax; simpl.
  { done. }
  destruct (lookup_lt_is_Some_2 vec idx) as [x Hx]; [lia|].
  rewrite (aget_lookup vec (Z.of_nat idx) x), (drop_S _ _ _ Hx)
    by (rewrite ?Nat2Z.id; done || lia).
  simpl. rewrite p_P. destruct (decide (P x)) as [HP|HP].
  - rewrite bool_decide_eq_true_2 by done.
    unfold u8. rewrite Z.mod_small by lia. do 2 f_equal. lia.
  - rewrite bool_decide_eq_false_2 by done.
    replace (Z.of_nat idx + 1) with (Z.of_nat (S idx)) by lia.
    rewrite IH by lia.
    destruct (list_find P (take n (drop (S idx) vec))) as [[i y]|];
      simpl; [|done].
    do 2 f_equal. lia.
Qed.

End searches.

Lemma movemask_testbit (p : Z → bool) (lanes : list Z) : ∀ i : nat,
  Z.testbit (movemask p lanes) (Z.of_nat i)
  = match lanes !! i with
    | Some x => p x
    | None => false
    end.
Proof.
  induction lanes as [|x v IH]; intros i; simpl.
  - apply Z.bits_0.
  - rewrite Z.lor_spec. destruct i as [|i].
    + rewrite Z.shiftl_spec_low by lia. simpl. by destruct (p x).
    + rewrite Z.shiftl_spec by lia.
      replace (Z.of_nat (S i) - 1) with (Z.of_nat i) by lia.
      assert (Hb : Z.testbit (if p x then 1 else 0) (Z.of_nat (S i)) = false).
      { destruct (p x); [|apply Z.bits_0].
        apply Z.bits_above_log2; simpl; lia. }
      by rewrite IH, Hb.
Qed.

Lemma movemask_nonneg (p : Z → bool) (lanes : list Z) :
  0 ≤ movemask p lanes.
Proof.
  induction lanes as [|x v IH]; simpl; [done|].
  apply Z.lor_nonneg. split; [by destruct (p x)|].
  by apply Z.shiftl_nonneg.
Qed.

Lemma builtin_ctz_first (i : nat) : ∀ x,
  0 ≤ x →
  (∀ j : nat, (j < i)%nat → Z.testbit x (Z.of_nat j) = false) →
  Z.testbit x (Z.of_nat i) = true →
  builtin_ctz x = Ok (Z.of_nat i).
Proof.
  induction i as [|i IH]; intros x Hx Hlow Hi.
  - destruct x as [|q|q]; [done| |lia].
    by destruct q.
  - pose proof (Hlow 0%nat ltac:(lia)) as H0.
    destruct x as [|q|q]; [by rewrite Z.bits_0 in Hi| |lia].
    destruct q as [q|q|]; try done.
    assert (E : builtin_ctz (Z.pos q) = Ok (Z.of_nat i)).
    { apply IH; [lia| |].
      - intros j Hj. rewrite <- (Hlow (S j)) by lia.
        change (Z.pos q~0) with (2 * Z.pos q).
        by rewrite Nat2Z.inj_succ, Z.double_bits_succ.
      - rewrite <- Hi. change (Z.pos q~0) with (2 * Z.pos q).
        by rewrite Nat2Z.inj_succ, Z.double_bits_succ. }
    simpl in *. injection E as ->. f_equal. lia.
Qed.

Lemma builtin_ctz_list_find (P : Z → Prop) `{!∀ x, Decision (P x)}
    (B : Z) (lanes : list Z) :
  0 ≤ B →
  (∀ i : nat, Z.testbit B (Z.of_nat i)
              = match lanes !! i with
                | Some x => bool_decide (P x)
                | None => false
                end) →
  builtin_ctz B = match list_find P lanes with
                  | Some (i, _) => Ok (Z.of_nat i)
                  | None => Err Undefined
                  end.
Proof.
  intros HB Hbits. destruct (list_find P lanes) as [[i x]|] eqn:E.
  - apply list_find_Some in E as (Hx & HP & Hmin).
    apply builtin_ctz_first; [done| |].
    + intros j Hj. rewrite Hbits. destruct (lanes !! j) eqn:Ej; [|done].
      apply bool_decide_eq_false_2. by eapply Hmin.
    + rewrite Hbits, Hx. by apply bool_decide_eq_true_2.
  - apply list_find_None in E.
    assert (B = 0) as ->; [|done].
    apply Z.bits_inj_0. intros n.
    destruct (Z.neg_nonneg_cases n) as [Hn|Hn];
      [by apply Z.testbit_neg_r|].
    rewrite <- (Z2Nat.id n) by done. rewrite Hbits.
    destruct (lanes !! Z.to_nat n) eqn:Ej; [|done].
    apply bool_decide_eq_false_2.
    by apply (Forall_lookup_1 _ _ _ _ E Ej).
Qed.

Lemma lane_mask_ones w max :
  0 ≤ w → 0 ≤ max → (max < w → max < 31) →
  lane_mask w max = Ok (Z.ones (Z.min max w)).
Proof.
  intros Hw Hmax Hint. unfold lane_mask.
  destruct (Z.ltb_spec max w).
  - destruct (Z.ltb_spec max 31); [|lia].
    rewrite Z.min_l by lia. unfold Z.ones. f_equal; lia.
  - rewrite Z.min_r by lia. rewrite Z.ones_equiv. f_equal; lia.
Qed.

Lemma lane_mask_31 w : 31 < w → lane_mask w 31 = Err Undefined.
Proof.
  intros Hw. unfold lane_mask.
  by destruct (Z.ltb_spec 31 w); [|lia].
Qed.

Section simd.
Context (P : Z → Prop) `{!∀ x, Decision (P x)}.

Lemma simd_bitmap_first (w : nat) (M : Z) (vec : list Z) (max : Z) :
  (w ≤ length vec)%nat → 0 ≤ max →
  (∀ i : nat, (i < w)%nat →
     Z.testbit M (Z.of_nat i)
     = match vec !! i with
       | Some x => bool_decide (P x)
       | None => false
       end) →
  builtin_ctz (Z.land M (Z.ones (Z.min max (Z.of_nat w))))
  = match list_find P (take (Z.to_nat (Z.min max (Z.of_nat w))) vec) with
    | Some (i, _) => Ok (Z.of_nat i)
    | None => Err Undefined
    end.
Proof.
  intros Hw Hmax Hbits.
  apply builtin_ctz_list_find.
  - apply Z.land_nonneg. right. rewrite Z.ones_equiv.
    pose proof (Z.pow_pos_nonneg 2 (Z.min max (Z.of_nat w))). lia.
  - intros i. rewrite Z.land_spec, Z.testbit_ones_nonneg by lia.
    destruct (Z.ltb_spec (Z.of_nat i) (Z.min max (Z.of_nat w))).
    + rewrite lookup_take_lt by lia. rewrite Hbits by lia.
      by rewrite andb_true_r.
    + rewrite lookup_take_ge by lia. by rewrite andb_false_r.
Qed.

End simd.

Lemma u8_small z : 0 ≤ z < 256 → u8 z = z.
Proof. intros. unfold u8. by apply Z.mod_small. Qed.

Lemma list_find_index_lt {A : Type} (P : A → Prop) `{!∀ x, Decision (P x)}
    (l : list A) i x :
  list_find P l = Some (i, x) → (i < length l)%nat.
Proof.
  intros (Hx & _)%list_find_Some. by eapply lookup_lt_Some.
Qed.

Lemma simd_findeq_first (w : nat) chr vec max :
  (w ≤ 255)%nat → (w ≤ length vec)%nat → 0 ≤ max →
  (max < Z.of_nat w → max < 31) →
  simd_findeq_u8 w chr vec max
  = match list_find (λ x, x = chr)
            (take (Z.to_nat (Z.min max (Z.of_nat w))) vec) with
    | Some (i, _) => Ok (Z.of_nat i)
    | None => Err Undefined
    end.
Proof.
  intros Hw Hlen Hmax Hint. unfold simd_findeq_u8, loadu.
  rewrite lane_mask_ones by (done || lia).
  rewrite decide_True by done. simpl.
  rewrite (simd_bitmap_first (λ x, x = chr) w _ vec max); [|done..|].
  - destruct (list_find _ _) as [[i x]|] eqn:E; [|done]. simpl.
    apply list_find_index_lt in E. rewrite length_take in E.
    rewrite u8_small; [done|lia].
  - intros i Hi. rewrite movemask_testbit, lookup_take_lt by done.
    destruct (vec !! i) as [x|]; [|done].
    destruct (Z.eqb_spec x chr).
    + by rewrite bool_decide_eq_true_2.
    + by rewrite bool_decide_eq_false_2.
Qed.

Lemma simd_findgt_first (w : nat) chr vec max :
  (w ≤ 255)%nat → (w ≤ length vec)%nat → 0 ≤ max →
  (max < Z.of_nat w → max < 31) →
  simd_findgt_u8 w chr vec max
  = match list_find (λ x, i8 chr ≤ i8 x)
            (take (Z.to_nat (Z.min max (Z.of_nat w))) vec) with
    | Some (i, _) => Ok (Z.of_nat i)
    | None => Err Undefined
    end.
Proof.
  intros Hw Hlen Hmax Hint. unfold simd_findgt_u8, loadu.
  rewrite lane_mask_ones by (done || lia).
  rewrite decide_True by done. simpl.
  rewrite (simd_bitmap_first (λ x, i8 chr ≤ i8 x) w _ vec max); [|done..|].
  - destruct (list_find _ _) as [[i x]|] eqn:E; [|done]. simpl.
    apply list_find_index_lt in E. rewrite length_take in E.
    rewrite u8_small; [done|lia].
  - intros i Hi.
    rewrite Z.lnot_spec, movemask_testbit, lookup_take_lt by (done || lia).
    destruct (vec !! i) as [x|] eqn:Ex.
    + destruct (Z.gtb_spec (i8 chr) (i8 x)); simpl.
      * by rewrite bool_decide_eq_false_2 by lia.
      * by rewrite bool_decide_eq_true_2 by lia.
    + apply lookup_ge_None in Ex. lia.
Qed.

(** X7.  What [nsd_v16_findeq_u8] returns.  The scalar function
    returns the 1-based position of the first of all 16 octets equal to
    [chr], whatever [max] is, and 0 when there is none.  The SSE2
    function returns the 0-based position of the first octet equal to
    [chr] among the first [max] (at most 16); when there is none the
    result is that of [__builtin_ctz(0)], which C leaves undefined. *)
Theorem nsd_v16_findeq_u8_first cfg chr vec max :
  0 ≤ max → (16 ≤ length vec)%nat →
  nsd_v16_findeq_u8 cfg chr vec max
  = if HAVE_SSE2 cfg then
      match list_find (λ x, x = chr)
              (take (Z.to_nat (Z.min max 16)) vec) with
      | Some (i, _) => Ok (Z.of_nat i)
      | None => Err Undefined
      end
    else
      match list_find (λ x, x = chr) (take 16 vec) with
      | Some (i, _) => Ok (Z.of_nat i + 1)
      | None => Ok 0
      end.
Proof.
  intros Hmax Hlen. unfold nsd_v16_findeq_u8.
  destruct (HAVE_SSE2 cfg).
  - by rewrite simd_findeq_first by (done || lia).
  - assert (Hp : ∀ x, (x =? chr) = bool_decide (x = chr)).
    { intros x. destruct (Z.eqb_spec x chr).
      - by rewrite bool_decide_eq_true_2.
      - by rewrite bool_decide_eq_false_2. }
    change (scalar_find (λ x, x =? chr) 16 0 vec)
      with (scalar_find (λ x, x =? chr) 16 (Z.of_nat 0) vec).
    by rewrite (scalar_find_first _ (λ x, x = chr) Hp 16 0 vec) by lia.
Qed.

Lemma nsd_v16_findeq_u8_first_witness :
  0 ≤ 2 ∧ (16 ≤ length (replicate 16 0))%nat
  ∧ nsd_v16_findeq_u8 (build_scalar true) 0x48 (replicate 16 0) 2
    = if HAVE_SSE2 (build_scalar true) then
        match list_find (λ x, x = 0x48)
                (take (Z.to_nat (Z.min 2 16)) (replicate 16 0)) with
        | Some (i, _) => Ok (Z.of_nat i)
        | None => Err Undefined
        end
      else
        match list_find (λ x, x = 0x48) (take 16 (replicate 16 0)) with
        | Some (i, _) => Ok (Z.of_nat i + 1)
        | None => Ok 0
        end.
Proof.
  split; [lia|]. split; [simpl; lia|].
  apply (nsd_v16_findeq_u8_first (build_scalar true) 0x48 (replicate 16 0) 2);
    simpl; lia.
Defined.

(** X8.  What [nsd_v16_findgt_u8] returns.  The scalar function returns
    the 1-based position of the first of all 16 octets greater than
    [chr], whatever [max] is, and 0 when there is none.  The SSE2
    function returns the 0-based position of the first octet among the
    first [max] that is not less than [chr], both read as signed octets;
    when there is none the result is that of [__builtin_ctz(0)]. *)
Theorem nsd_v16_findgt_u8_first cfg chr vec max :
  0 ≤ max → (16 ≤ length vec)%nat →
  nsd_v16_findgt_u8 cfg chr vec max
  = if HAVE_SSE2 cfg then
      match list_find (λ x, i8 chr ≤ i8 x)
              (take (Z.to_nat (Z.min max 16)) vec) with
      | Some (i, _) => Ok (Z.of_nat i)
      | None => Err Undefined
      end
    else
      match list_find (λ x, chr < x) (take 16 vec) with
      | Some (i, _) => Ok (Z.of_nat i + 1)
      | None => Ok 0
      end.
Proof.
  intros Hmax Hlen. unfold nsd_v16_findgt_u8.
  destruct (HAVE_SSE2 cfg).
  - by rewrite simd_findgt_first by (done || lia).
  - assert (Hp : ∀ x, (x >? chr) = bool_decide (chr < x)).
    { intros x. destruct (Z.gtb_spec x chr).
      - by rewrite bool_decide_eq_true_2 by lia.
      - by rewrite bool_decide_eq_false_2 by lia. }
    change (scalar_find (λ x, x >? chr) 16 0 vec)
      with (scalar_find (λ x, x >? chr) 16 (Z.of_nat 0) vec).
    by rewrite (scalar_find_first _ (λ x, chr < x) Hp 16 0 vec) by lia.
Qed.

Lemma nsd_v16_findgt_u8_first_witness :
  0 ≤ 2 ∧ (16 ≤ length (replicate 16 0x48))%nat
  ∧ nsd_v16_findgt_u8 (build_simd true) 0x48 (replicate 16 0x48) 2
    = if HAVE_SSE2 (build_simd true) then
        match list_find (λ x, i8 0x48 ≤ i8 x)
                (take (Z.to_nat (Z.min 2 16)) (replicate 16 0x48)) with
        | Some (i, _) => Ok (Z.of_nat i)
        | None => Err Undefined
        end
      else
        match list_find (λ x, 0x48 < x) (take 16 (replicate 16 0x48)) with
        | Some (i, _) => Ok (Z.of_nat i + 1)
        | None => Ok 0
        end.
Proof.
  split; [lia|]. split; [simpl; lia|].
  apply (nsd_v16_findgt_u8_first (build_simd true) 0x48
           (replicate 16 0x48) 2); simpl; lia.
Defined.

(** X9.  What the AVX2 functions return.  For [max] other than 31:
    [nsd_v32_findeq_u8] the 0-based position of the first octet equal to
    [chr] among the first [max] (at most 32), and [nsd_v32_findgt_u8] that
    of the first octet among them that is not less than [chr] as a signed
    octet; when there is none the result is that of [__builtin_ctz(0)].
    For [max] = 31 the mask is [(1 << 31) - 1], computed in [int], and the
    result of either function is undefined. *)
Theorem nsd_v32_find_u8_first chr vec max :
  0 ≤ max → (32 ≤ length vec)%nat →
  nsd_v32_findeq_u8 chr vec max
  = (if max =? 31 then Err Undefined
     else match list_find (λ x, x = chr)
                  (take (Z.to_nat (Z.min max 32)) vec) with
          | Some (i, _) => Ok (Z.of_nat i)
          | None => Err Undefined
          end)
  ∧ nsd_v32_findgt_u8 chr vec max
    = (if max =? 31 then Err Undefined
       else match list_find (λ x, i8 chr ≤ i8 x)
                    (take (Z.to_nat (Z.min max 32)) vec) with
            | Some (i, _) => Ok (Z.of_nat i)
            | None => Err Undefined
            end).
Proof.
  intros Hmax Hlen. unfold nsd_v32_findeq_u8, nsd_v32_findgt_u8.
  destruct (Z.eqb_spec max 31) as [->|Hne].
  - unfold simd_findeq_u8, simd_findgt_u8.
    by rewrite (lane_mask_31 (Z.of_nat 32)) by lia.
  - by rewrite simd_findeq_first, simd_findgt_first by (done || lia).
Qed.

Lemma nsd_v32_find_u8_first_witness :
  0 ≤ 3 ∧ (32 ≤ length (replicate 32 0x48))%nat
  ∧ nsd_v32_findeq_u8 0x49 (replicate 32 0x48) 3
    = (if 3 =? 31 then Err Undefined
       else match list_find (λ x, x = 0x49)
                    (take (Z.to_nat (Z.min 3 32)) (replicate 32 0x48)) with
            | Some (i, _) => Ok (Z.of_nat i)
            | None => Err Undefined
            end)
  ∧ nsd_v32_findgt_u8 0x49 (replicate 32 0x48) 3
    = (if 3 =? 31 then Err Undefined
       else match list_find (λ x, i8 0x49 ≤ i8 x)
                    (take (Z.to_nat (Z.min 3 32)) (replicate 32 0x48)) with
            | Some (i, _) => Ok (Z.of_nat i)
            | None => Err Undefined
            end).
Proof.
  split; [lia|]. split; [simpl; lia|].
  apply (nsd_v32_find_u8_first 0x49 (replicate 32 0x48) 3); simpl; lia.
Defined.

(** ** nsd_node4: search and insertion *)

Lemma find_child4_loop_first (n : nat) : ∀ l node4 key idx,
  (idx + n ≤ length (keys node4))%nat → (idx + n ≤ 255)%nat →
  find_child4_loop n l node4 key (Z.of_nat idx)
  = Ok (match list_find (λ k, k = key) (take n (drop idx (keys node4))) with
        | Some (i, _) => Some (ChildRef l (Z.of_nat (idx + i)))
        | None => None
        end).
Proof.
  induction n as [|n IH]; intros l node4 key idx Hlen Hmax; simpl.
  { done. }
  destruct (lookup_lt_is_Some_2 (keys node4) idx) as [x Hx]; [lia|].
  rewrite (aget_lookup (keys node4) (Z.of_nat idx) x), (drop_S _ _ _ Hx)
    by (rewrite ?Nat2Z.id; done || lia).
  simpl. destruct (Z.eqb_spec x key) as [->|Hne].
  - rewrite decide_True by done. simpl. do 3 f_equal. lia.
  - rewrite decide_False by done.
    rewrite u8_small by lia.
    replace (Z.of_nat idx + 1) with (Z.of_nat (S idx)) by lia.
    rewrite IH by lia.
    destruct (list_find _ (take n (drop (S idx) (keys node4))))
      as [[i y]|]; simpl; [|done].
    do 3 f_equal. lia.
Qed.

(** X10.  [find_child4] yields the slot at the position of the first of
    the [width] keys equal to [key], and [NULL] when none of them is; it
    reads no key beyond [width] and leaves the tree as it is. *)
Theorem find_child4_first l node4 key s :
  0 ≤ width node4 ≤ Z.of_nat (length (keys node4)) →
  width node4 ≤ 255 →
  find_child4 l node4 key s
  = Ok (match list_find (λ k, k = key)
                (take (Z.to_nat (width node4)) (keys node4)) with
        | Some (i, _) => Some (ChildRef l (Z.of_nat i))
        | None => None
        end, s).
Proof.
  intros Hw Hmax. unfold find_child4.
  change 0 with (Z.of_nat 0).
  rewrite find_child4_loop_first by lia. by rewrite drop_0.
Qed.

Lemma find_child4_first_witness :
  0 ≤ width (zero_node nsd_node4)
    ≤ Z.of_nat (length (keys (zero_node nsd_node4)))
  ∧ width (zero_node nsd_node4) ≤ 255
  ∧ find_child4 0%nat (zero_node nsd_node4) 0x00 empty_tree
    = Ok (match list_find (λ k, k = 0x00)
                  (take (Z.to_nat (width (zero_node nsd_node4)))
                     (keys (zero_node nsd_node4))) with
          | Some (i, _) => Some (ChildRef 0%nat (Z.of_nat i))
          | None => None
          end, empty_tree).
Proof.
  split; [simpl; lia|]. split; [simpl; lia|].
  apply (find_child4_first 0%nat (zero_node nsd_node4) 0x00 empty_tree);
    simpl; lia.
Defined.

Lemma add_child4_scan_first (n : nat) : ∀ ks key idx,
  (idx + n ≤ length ks)%nat → (idx + n ≤ 255)%nat →
  ∃ r : nat,
    add_child4_scan n ks key (Z.of_nat idx) = Ok (Z.of_nat r)
    ∧ (idx ≤ r ≤ idx + n)%nat
    ∧ (∀ i k, (idx ≤ i < r)%nat → ks !! i = Some k → k < key)
    ∧ (∀ k, (r < idx + n)%nat → ks !! r = Some k → key ≤ k).
Proof.
  induction n as [|n IH]; intros ks key idx Hlen Hmax; simpl.
  { exists idx. split_and!; [done|lia..]. }
  destruct (lookup_lt_is_Some_2 ks idx) as [x Hx]; [lia|].
  rewrite (aget_lookup ks (Z.of_nat idx) x)
    by (rewrite ?Nat2Z.id; done || lia).
  simpl. destruct (Z.gtb_spec key x) as [Hgt|Hle].
  - rewrite u8_small by lia.
    replace (Z.of_nat idx + 1) with (Z.of_nat (S idx)) by lia.
    destruct (IH ks key (S idx)) as (r & E & Hr & Hlow & Hhigh); [lia..|].
    exists r. split_and!; [done|lia|lia| |].
    + intros i k Hi Hk. destruct (decide (i = idx)) as [->|].
      * rewrite Hx in Hk. injection Hk as <-. lia.
      * apply (Hlow i); [lia|done].
    + intros k Hlt. apply Hhigh. lia.
  - exists idx. split_and!; [done|lia|lia| |].
    + intros i k Hi. lia.
    + intros k _ Hk. rewrite Hx in Hk. injection Hk as <-. lia.
Qed.

Section insertion.
Context {A : Type}.
Implicit Types (a : list A) (x : A).

Lemma memmove_open a (idx w : nat) :
  (idx ≤ w)%nat → (w < length a)%nat →
  memmove a (Z.of_nat idx + 1) (Z.of_nat idx) (Z.of_nat w - Z.of_nat idx)
  = Ok (take (S idx) a ++ take (w - idx) (drop idx a) ++ drop (S w) a).
Proof.
  intros Hi Hw. unfold memmove, memcpy.
  rewrite !andb_true_intro; [|split_and!; lia].
  do 3 f_equal; [f_equal; lia|f_equal; [lia|f_equal; lia]|f_equal; lia].
Qed.

Lemma aset_open a (idx : nat) x rest :
  (idx < length a)%nat →
  aset (take (S idx) a ++ rest) (Z.of_nat idx) x
  = Ok (take idx a ++ x :: rest).
Proof.
  intros Hi. destruct (lookup_lt_is_Some_2 a idx) as [y Hy]; [done|].
  rewrite (take_S_r _ _ _ Hy), <- app_assoc. simpl.
  pose proof (aset_app (take idx a) rest x y) as H.
  by rewrite length_take_le in H by lia.
Qed.

Lemma length_inserted a (w idx : nat) x :
  (idx ≤ w)%nat → (w < length a)%nat →
  length (inserted a w idx x) = length a.
Proof.
  intros. unfold inserted.
  rewrite length_app. simpl.
  rewrite length_app, !length_take, !length_drop. lia.
Qed.

Lemma take_inserted a (w idx : nat) x :
  (idx ≤ w)%nat → (w < length a)%nat →
  take (S w) (inserted a w idx x)
  = take idx a ++ x :: take (w - idx) (drop idx a).
Proof.
  intros. unfold inserted.
  rewrite take_app_ge by (rewrite length_take; lia).
  rewrite length_take_le by lia.
  replace (S w - idx)%nat with (S (w - idx)) by lia. simpl.
  rewrite take_app_le by (rewrite length_take, length_drop; lia).
  rewrite take_take. do 3 f_equal. lia.
Qed.

End insertion.

Lemma open_fill_slot n (idx : nat) key child :
  0 ≤ width n < 255 →
  (idx ≤ Z.to_nat (width n))%nat →
  (Z.to_nat (width n) < length (keys n))%nat →
  (Z.to_nat (width n) < length (children n))%nat →
  open_slot n (Z.of_nat idx) ≫= (λ n1, fill_slot n1 (Z.of_nat idx) key child)
  = Ok (set_width (width n + 1)
          (set_children
             (inserted (children n) (Z.to_nat (width n)) idx child)
             (set_keys (inserted (keys n) (Z.to_nat (width n)) idx key) n))).
Proof.
  intros Hw Hi Hk Hc. unfold open_slot.
  replace (width n - Z.of_nat idx)
    with (Z.of_nat (Z.to_nat (width n)) - Z.of_nat idx) by lia.
  rewrite !memmove_open by done. simpl.
  unfold fill_slot. simpl.
  rewrite !aset_open by lia. simpl.
  rewrite u8_small by lia. done.
Qed.

Lemma fill_slot_end n key child :
  0 ≤ width n < 255 →
  (Z.to_nat (width n) < length (keys n))%nat →
  (Z.to_nat (width n) < length (children n))%nat →
  fill_slot n (width n) key child
  = Ok (set_width (width n + 1)
          (set_children
             (inserted (children n) (Z.to_nat (width n))
                (Z.to_nat (width n)) child)
             (set_keys (inserted (keys n) (Z.to_nat (width n))
                          (Z.to_nat (width n)) key) n))).
Proof.
  intros Hw Hk Hc. unfold fill_slot, aset, inserted.
  rewrite !andb_true_intro by (split; lia). simpl.
  rewrite u8_small by lia.
  rewrite Nat.sub_diag, !take_0. simpl.
  rewrite !insert_take_drop by lia. done.
Qed.

(** ** Runs in the memory monad, forwards *)

Lemma bind_run {A B : Type} (m : M A) (f : A → M B) s a s1 :
  m s = Ok (a, s1) → (m ≫= f) s = f a s1.
Proof. intros E. unfold mbind, M_bind. by rewrite E. Qed.

Lemma bind_lift {A B : Type} (r : res A) (f : A → M B) s a :
  r = Ok a → (lift r ≫= f) s = f a s.
Proof. intros ->. done. Qed.

Lemma assert_run cfg (c : M bool) s :
  (NDEBUG cfg = false → c s = Ok (true, s)) →
  assert cfg c s = Ok ((), s).
Proof.
  intros H. unfold assert. destruct (NDEBUG cfg); [done|].
  by rewrite (bind_run _ _ _ _ _ (H eq_refl)).
Qed.

Lemma get_node_as_run t l n s :
  heap s !! l = Some (Some (ONode n)) → type n = t →
  get_node_as t (NodeP l) s = Ok ((l, n), s).
Proof.
  intros Hn Ht. unfold get_node_as.
  rewrite (bind_run _ _ _ n s) by by apply get_node_Ok.
  by rewrite decide_True.
Qed.

Lemma put_node_run l o n s :
  heap s !! l = Some (Some o) →
  put_node (NodeP l) n s
  = Ok ((), set_heap (<[l := Some (ONode n)]> (heap s)) s).
Proof. intros Ho. unfold put_node, put_object. by rewrite Ho. Qed.

Lemma add_child4_run cfg noderef key child s l n :
  load noderef s = Ok (NodeP l, s) →
  heap s !! l = Some (Some (ONode n)) →
  type n = nsd_node4 →
  length (keys n) = 4%nat → length (children n) = 4%nat →
  0 ≤ width n < 4 →
  key ∉ take (Z.to_nat (width n)) (keys n) →
  ∃ idx : nat,
    add_child4 cfg noderef key child s
    = Ok (Some (ChildRef l (Z.of_nat idx)),
          set_heap (<[l := Some (ONode
            (set_width (width n + 1)
               (set_children
                  (inserted (children n) (Z.to_nat (width n)) idx child)
                  (set_keys
                     (inserted (keys n) (Z.to_nat (width n)) idx key)
                     n))))]> (heap s)) s)
    ∧ (idx ≤ Z.to_nat (width n))%nat
    ∧ (∀ i k, (i < idx)%nat → keys n !! i = Some k → k < key)
    ∧ (∀ k, (idx < Z.to_nat (width n))%nat →
         keys n !! idx = Some k → key < k).
Proof.
  intros Hld Hn Ht Hk Hc Hw Hnew.
  destruct (add_child4_scan_first (Z.to_nat (width n)) (keys n) key 0)
    as (idx & E & Hidx & Hlow & Hhigh); [lia..|].
  assert (Hhigh' : ∀ k, (idx < Z.to_nat (width n))%nat →
                        keys n !! idx = Some k → key < k).
  { intros k Hlt Hx. specialize (Hhigh k ltac:(lia) Hx).
    assert (k ≠ key); [|lia]. intros ->. apply Hnew.
    apply list_elem_of_lookup. exists idx. by rewrite lookup_take_lt. }
  exists idx. split_and!; [|lia| |done].
  2:{ intros i k Hi. apply Hlow. lia. }
  unfold add_child4.
  rewrite (bind_run _ _ _ _ _ Hld).
  rewrite (bind_run _ _ _ _ _ (get_node_as_run _ _ _ _ Hn Ht)).
  cbv beta iota.
  rewrite (proj2 (Z.eqb_neq _ _)) by lia.
  rewrite (bind_run _ _ s () s).
  2:{ apply assert_run. intros _. unfold mret, M_ret.
      by rewrite (proj2 (Z.ltb_lt _ _)) by lia. }
  change (Z.of_nat 0) with 0 in E. rewrite (bind_lift _ _ _ _ E).
  destruct (Z.ltb_spec (Z.of_nat idx) (width n)) as [Hlt|Hge].
  - destruct (lookup_lt_is_Some_2 (keys n) idx) as [k Hx]; [lia|].
    pose proof (open_fill_slot n idx key child ltac:(lia) ltac:(lia)
                  ltac:(lia) ltac:(lia)) as Hof.
    destruct (open_slot n (Z.of_nat idx)) as [n1|] eqn:Eo; [|done].
    simpl in Hof.
    rewrite (bind_run _ _ s n1 s).
    2:{ rewrite (bind_run _ _ s () s); [done|].
        apply assert_run. intros _.
        rewrite (bind_run _ _ s k s).
        - unfold mret, M_ret. do 2 f_equal.
          specialize (Hhigh' k ltac:(lia) Hx).
          apply negb_true_iff, Z.eqb_neq. lia.
        - unfold lift.
          by rewrite (aget_lookup (keys n) (Z.of_nat idx) k)
            by (rewrite ?Nat2Z.id; done || lia). }
    rewrite (bind_lift _ _ _ _ Hof).
    by rewrite (bind_run _ _ _ _ _ (put_node_run _ _ _ _ Hn)).
  - assert (idx = Z.to_nat (width n)) as -> by lia.
    rewrite (bind_run _ _ s n s) by done.
    rewrite Z2Nat.id by lia.
    rewrite (bind_lift _ _ _ _ (fill_slot_end n key child ltac:(lia)
                                 ltac:(lia) ltac:(lia))).
    by rewrite (bind_run _ _ _ _ _ (put_node_run _ _ _ _ Hn)).
Qed.

Lemma ascending_insert (K1 : list Z) : ∀ key K2,
  ascending (K1 ++ K2) = true →
  (∀ k, k ∈ K1 → k < key) →
  (∀ k, head K2 = Some k → key < k) →
  ascending (K1 ++ key :: K2) = true.
Proof.
  induction K1 as [|x K1 IH]; intros key K2 Hasc Hlow Hhigh.
  - destruct K2 as [|k K2]; [done|].
    simpl in *. rewrite Hasc, andb_true_r.
    apply Z.ltb_lt, Hhigh. done.
  - assert (Hx : x < key) by (apply Hlow; left).
    assert (Hrec : ascending (K1 ++ key :: K2) = true).
    { apply IH; [|intros k Hk; apply Hlow; by right|done].
      destruct K1 as [|y K1]; simpl in *.
      - destruct K2; [done|]. by apply andb_true_iff in Hasc as [_ ?].
      - by apply andb_true_iff in Hasc as [_ ?]. }
    destruct K1 as [|y K1]; simpl in *.
    + rewrite Hrec, andb_true_r. by apply Z.ltb_lt.
    + rewrite Hrec, andb_true_r.
      by apply andb_true_iff in Hasc as [? _].
Qed.

Section assoc.
Context (k : Z).

Lemma list_find_shift (o : option (nat * Z)) (c : ptr) (C : list ptr) :
  (prod_map S id <$> o) ≫= (λ r, (c :: C) !! r.1) = o ≫= (λ r, C !! r.1).
Proof. by destruct o as [[i x]|]. Qed.

Lemma assoc_ext (K : list Z) (C C' : list ptr) :
  (∀ i, (i < length K)%nat → C' !! i = C !! i) →
  list_find (λ x, x = k) K ≫= (λ r, C' !! r.1)
  = list_find (λ x, x = k) K ≫= (λ r, C !! r.1).
Proof.
  intros Hext. destruct (list_find _ K) as [[i x]|] eqn:E; [|done].
  simpl. apply Hext. by eapply list_find_index_lt.
Qed.

Lemma assoc_insert_eq (K1 : list Z) : ∀ (C1 : list ptr) K2 C2 child,
  length K1 = length C1 → k ∉ K1 →
  list_find (λ x, x = k) (K1 ++ k :: K2)
    ≫= (λ r, (C1 ++ child :: C2) !! r.1) = Some child.
Proof.
  induction K1 as [|x K1 IH]; intros [|c C1] K2 C2 child Hlen Hnew;
    try done; simpl.
  - by rewrite decide_True.
  - rewrite decide_False by (intros ->; apply Hnew; left).
    rewrite list_find_shift. apply IH; [by injection Hlen|].
    intros Hin. apply Hnew. by right.
Qed.

Lemma assoc_insert_ne (K1 : list Z) : ∀ (C1 : list ptr) key K2 C2 C2' child,
  length K1 = length C1 → k ≠ key →
  (∀ i, (i < length K2)%nat → C2' !! i = C2 !! i) →
  list_find (λ x, x = k) (K1 ++ key :: K2)
    ≫= (λ r, (C1 ++ child :: C2') !! r.1)
  = list_find (λ x, x = k) (K1 ++ K2) ≫= (λ r, (C1 ++ C2) !! r.1).
Proof.
  induction K1 as [|x K1 IH]; intros [|c C1] key K2 C2 C2' child Hlen Hne Hext;
    try done; simpl.
  - rewrite decide_False by done. rewrite list_find_shift.
    by apply assoc_ext.
  - destruct (decide (x = k)); [done|].
    rewrite !list_find_shift. apply IH; [by injection Hlen|done..].
Qed.

End assoc.

(** X11.  [add_child4] on a [nsd_node4] that is not full, has its keys
    in ascending order and has no child for [key] yet: the child is put
    into the node in place (no allocation), the returned slot holds it,
    the keys stay in ascending order, and the node maps [key] to the new
    child and every other key octet to the child it had. *)
Theorem add_child4_inserts cfg noderef key child s l n :
  load noderef s = Ok (NodeP l, s) →
  heap s !! l = Some (Some (ONode n)) →
  type n = nsd_node4 →
  length (keys n) = 4%nat → length (children n) = 4%nat →
  0 ≤ width n < 4 →
  keys_ascending n = true →
  key ∉ take (Z.to_nat (width n)) (keys n) →
  ∃ (idx : nat) n',
    add_child4 cfg noderef key child s
    = Ok (Some (ChildRef l (Z.of_nat idx)),
          set_heap (<[l := Some (ONode n')]> (heap s)) s)
    ∧ type n' = nsd_node4 ∧ width n' = width n + 1
    ∧ prefix_len n' = prefix_len n ∧ prefix n' = prefix n
    ∧ length (keys n') = 4%nat ∧ length (children n') = 4%nat
    ∧ children n' !! idx = Some child
    ∧ keys_ascending n' = true
    ∧ child_of n' key = Some child
    ∧ ∀ k, k ≠ key → child_of n' k = child_of n k.
Proof.
  intros Hld Hn Ht Hk Hc Hw Hasc Hnew.
  destruct (add_child4_run cfg noderef key child s l n)
    as (idx & E & Hidx & Hlow & Hhigh); [done..|].
  set (w := Z.to_nat (width n)) in *.
  assert (Hks : take w (keys n)
                = take idx (keys n) ++ take (w - idx) (drop idx (keys n))).
  { rewrite take_take_drop. f_equal. lia. }
  eexists idx, _. split; [exact E|]. simpl.
  split_and!; try done.
  - rewrite length_inserted; [done|lia..].
  - rewrite length_inserted; [done|lia..].
  - unfold inserted. rewrite lookup_app_r by (rewrite length_take; lia).
    rewrite length_take_le by lia. by rewrite Nat.sub_diag.
  - unfold keys_ascending. simpl.
    replace (Z.to_nat (width n + 1)) with (S w) by lia.
    rewrite take_inserted by lia.
    apply ascending_insert.
    + by rewrite <- Hks.
    + intros k (i & Hi)%list_elem_of_lookup.
      pose proof (lookup_lt_Some _ _ _ Hi) as Hlt.
      rewrite length_take in Hlt.
      rewrite lookup_take_lt in Hi by lia. apply (Hlow i); [lia|done].
    + intros k Hhd. rewrite head_lookup in Hhd.
      pose proof (lookup_lt_Some _ _ _ Hhd) as Hlt.
      rewrite length_take, length_drop in Hlt.
      rewrite lookup_take_lt, lookup_drop, Nat.add_0_r in Hhd by lia.
      apply Hhigh; [lia|done].
  - unfold child_of. simpl.
    replace (Z.to_nat (width n + 1)) with (S w) by lia.
    rewrite take_inserted by lia. unfold inserted.
    apply assoc_insert_eq; [rewrite !length_take; lia|].
    intros Hin. apply Hnew. rewrite Hks. apply elem_of_app. by left.
  - intros k Hne. unfold child_of. simpl.
    replace (Z.to_nat (width n + 1)) with (S w) by lia.
    rewrite take_inserted by lia. unfold inserted. fold w. rewrite Hks.
    trans (list_find (λ x, x = k)
             (take idx (keys n) ++ take (w - idx) (drop idx (keys n)))
           ≫= (λ r, (take idx (children n) ++ drop idx (children n)) !! r.1));
      [|apply assoc_ext; intros i _; by rewrite take_drop].
    apply assoc_insert_ne; [rewrite !length_take; lia|done|].
    intros i Hi. rewrite length_take, length_drop in Hi.
    rewrite lookup_app_l by (rewrite length_take, length_drop; lia).
    by rewrite lookup_take_lt by lia.
Qed.

Lemma add_child4_inserts_witness :
  load RootRef (tree_of node4_bd) = Ok (NodeP 0%nat, tree_of node4_bd)
  ∧ heap (tree_of node4_bd) !! 0%nat = Some (Some (ONode node4_bd))
  ∧ type node4_bd = nsd_node4
  ∧ length (keys node4_bd) = 4%nat ∧ length (children node4_bd) = 4%nat
  ∧ 0 ≤ width node4_bd < 4
  ∧ keys_ascending node4_bd = true
  ∧ (0x4a ∉ take (Z.to_nat (width node4_bd)) (keys node4_bd))
  ∧ ∃ (idx : nat) n',
      add_child4 (build_simd false) RootRef 0x4a (LeafP 3)
        (tree_of node4_bd)
      = Ok (Some (ChildRef 0%nat (Z.of_nat idx)),
            set_heap (<[0%nat := Some (ONode n')]> (heap (tree_of node4_bd)))
              (tree_of node4_bd))
      ∧ type n' = nsd_node4 ∧ width n' = width node4_bd + 1
      ∧ prefix_len n' = prefix_len node4_bd ∧ prefix n' = prefix node4_bd
      ∧ length (keys n') = 4%nat ∧ length (children n') = 4%nat
      ∧ children n' !! idx = Some (LeafP 3)
      ∧ keys_ascending n' = true
      ∧ child_of n' 0x4a = Some (LeafP 3)
      ∧ ∀ k, k ≠ 0x4a → child_of n' k = child_of node4_bd k.
Proof.
  assert (Hnew : 0x4a ∉ take (Z.to_nat (width node4_bd)) (keys node4_bd)).
  { apply (bool_decide_unpack _). vm_compute. exact I. }
  split; [reflexivity|]. split; [reflexivity|]. split; [reflexivity|].
  split; [reflexivity|]. split; [reflexivity|]. split; [simpl; lia|].
  split; [reflexivity|]. split; [exact Hnew|].
  apply (add_child4_inserts (build_simd false) RootRef 0x4a (LeafP 3)
           (tree_of node4_bd) 0%nat node4_bd);
    [reflexivity..|simpl; lia|reflexivity|exact Hnew].
Defined.

(** ** nsd_find_path *)

Lemma pure_find_path_step cfg key key_len depth path :
  pure_op (find_path_step cfg key key_len depth path).
Proof. unfold find_path_step. solve_pure. Qed.

Lemma pure_find_path_loop fuel cfg key key_len : ∀ depth path,
  pure_op (find_path_loop fuel cfg key key_len depth path).
Proof.
  induction fuel as [|fuel IH]; intros depth path; simpl.
  - destruct (depth <? key_len); solve_pure.
  - destruct (depth <? key_len); [|solve_pure].
    apply pure_bind; [apply pure_find_path_step|].
    intros [rc p|[d p]]; [solve_pure|apply IH].
Qed.

Lemma find_path_loop_retcode fuel cfg key key_len : ∀ depth path s rc p s',
  find_path_loop fuel cfg key key_len depth path s = Ok ((rc, p), s') →
  rc = nsd_ok ∨ rc = nsd_not_found.
Proof.
  induction fuel as [|fuel IH]; intros depth path s rc p s' H; simpl in H.
  - destruct (depth <? key_len); [done|].
    apply mret_Ok in H as [[= -> _] _]. by left.
  - destruct (depth <? key_len);
      [|apply mret_Ok in H as [[= -> _] _]; by left].
    run_bind H as r E into s1.
    destruct r as [rc0 p0|[d p0]]; [|by eapply IH].
    apply mret_Ok in H as [[= -> ->] ->].
    unfold find_path_step in E.
    run_bind E as t E1. run_bind E as node E2. run_bind E as r E3.
    destruct r as [rc1 p1|d].
    + apply mret_Ok in E as [[= -> ->] _].
      destruct (nsd_is_leaf node).
      * run_bind E3 as leaf E4. run_bind E3 as [] E5.
        run_bind E3 as cnt E6. run_bind E3 as [] E7.
        destruct (cnt =? key_len).
        -- run_bind E3 as [] E8. apply mret_Ok in E3 as [[= -> _] _].
           by left.
        -- apply mret_Ok in E3 as [[= -> _] _]. by right.
      * run_bind E3 as n E4. destruct (negb _).
        -- run_bind E3 as cnt E5. destruct (cnt =? prefix_len n).
           ++ by apply mret_Ok in E3 as [? _].
           ++ apply mret_Ok in E3 as [[= -> _] _]. by right.
        -- by apply mret_Ok in E3 as [? _].
    + run_bind E as k E4. run_bind E as childref E5.
      destruct childref as [c|].
      * run_bind E as path2 E6. by apply mret_Ok in E as [? _].
      * apply mret_Ok in E as [[= -> _] _]. by right.
Qed.

(** X12.  [nsd_find_path] does not write: when it returns, the heap and
    the root of the tree are as they were, and its result is [nsd_ok] or
    [nsd_not_found], never another code. *)
Theorem nsd_find_path_read_only cfg path key key_len s rc path' s' :
  nsd_find_path cfg path key key_len s = Ok ((rc, path'), s') →
  s' = s ∧ (rc = nsd_ok ∨ rc = nsd_not_found).
Proof.
  intros H. unfold nsd_find_path in H.
  run_bind H as [] E1. run_bind H as [depth path0] E2.
  pose proof (pure_enter_path cfg path key_len _ _ _ E2) as ->.
  split.
  - by eapply pure_find_path_loop.
  - by eapply find_path_loop_retcode.
Qed.

Lemma nsd_find_path_read_only_witness :
  nsd_find_path (build_simd false) [] key_a12 14 tree_a12
  = Ok ((nsd_ok, leaf_path), tree_a12)
  ∧ tree_a12 = tree_a12 ∧ (nsd_ok = nsd_ok ∨ nsd_ok = nsd_not_found).
Proof.
  assert (H : nsd_find_path (build_simd false) [] key_a12 14 tree_a12
              = Ok ((nsd_ok, leaf_path), tree_a12))
    by (vm_compute; reflexivity).
  split; [exact H|].
  exact (nsd_find_path_read_only _ _ _ _ _ _ _ _ H).
Defined.

(** ** nsd_make_path of a key that nsd_find_path finds *)

Lemma bind_Err {A B : Type} (m : M A) (f : A → M B) s e :
  m s = Err e → (m ≫= f) s = Err e.
Proof. intros E. unfold mbind, M_bind. by rewrite E. Qed.

Lemma assert_mret_cases cfg b s :
  assert cfg (mret b) s = Ok ((), s)
  ∨ (NDEBUG cfg = false ∧ assert cfg (mret b) s = Err AssertFailed).
Proof.
  unfold assert. destruct (NDEBUG cfg); [by left|].
  destruct b; [by left|by right].
Qed.

Lemma make_path_step_found cfg key key_len depth path s r s' :
  find_path_step cfg key key_len depth path s = Ok (r, s') →
  (∀ p, r ≠ Return nsd_not_found p) →
  make_path_step cfg key key_len depth path s = Ok (r, s)
  ∨ (NDEBUG cfg = false ∧ has_prefix s
     ∧ make_path_step cfg key key_len depth path s = Err AssertFailed).
Proof.
  intros H Hr. unfold find_path_step in H.
  run_bind H as t E1. run_bind H as node E2. run_bind H as r0 E3.
  assert (Hr0 : ∀ p, r0 ≠ Return nsd_not_found p).
  { intros p Heq. subst r0. apply mret_Ok in H as [-> _].
    by destruct (Hr p). }
  assert (Hnode :
    make_path_node cfg key key_len depth path s
    = Ok (match r0 with
          | Return rc p => Return rc p
          | Continue d => Continue (d, path)
          end, s)
    ∨ (NDEBUG cfg = false ∧ has_prefix s
       ∧ make_path_node cfg key key_len depth path s = Err AssertFailed)).
  { unfold make_path_node.
    rewrite (bind_run _ _ _ _ _ E1), (bind_run _ _ _ _ _ E2).
    destruct (nsd_is_leaf node) eqn:Hleaf.
    - run_bind E3 as leaf E4. run_bind E3 as [] E5.
      run_bind E3 as cnt E6. run_bind E3 as [] E7.
      rewrite (bind_run _ _ _ _ _ E4), (bind_run _ _ _ _ _ E5),
        (bind_run _ _ _ _ _ E6), (bind_run _ _ _ _ _ E7).
      destruct (cnt =? key_len).
      + run_bind E3 as [] E8. apply mret_Ok in E3 as [-> _].
        rewrite (bind_run _ _ _ _ _ E8). by left.
      + apply mret_Ok in E3 as [-> _]. by destruct (Hr0 (pop path)).
    - run_bind E3 as n E4. rewrite (bind_run _ _ _ _ _ E4).
      destruct (Z.eqb_spec (prefix_len n) 0) as [Hp|Hp]; simpl in *.
      + apply mret_Ok in E3 as [-> _]. by left.
      + run_bind E3 as cnt E5. rewrite (bind_run _ _ _ _ _ E5).
        destruct (assert_mret_cases cfg (level_depth t =? depth - 1) s)
          as [Ea|[Hd Ea]].
        * rewrite (bind_run _ _ _ _ _ Ea).
          destruct (cnt =? prefix_len n); simpl.
          -- apply mret_Ok in E3 as [-> _]. by left.
          -- apply mret_Ok in E3 as [-> _]. by destruct (Hr0 (pop path)).
        * right. split; [done|]. split.
          -- apply get_node_valid in E4 as (l & _ & Hl & _).
             by exists l, n.
          -- by rewrite (bind_Err _ _ _ _ Ea). }
  unfold make_path_step. rewrite (bind_run _ _ _ _ _ E1).
  destruct Hnode as [En|(Hd & Hp & En)];
    [|right; split_and!; [done..|]; by rewrite (bind_Err _ _ _ _ En)].
  rewrite (bind_run _ _ _ _ _ En). left.
  destruct r0 as [rc p|d].
  - by apply mret_Ok in H as [-> ->].
  - unfold make_path_child.
    run_bind H as k E5. run_bind H as childref E6.
    rewrite (bind_run _ _ _ _ _ E2), (bind_run _ _ _ _ _ E5),
      (bind_run _ _ _ _ _ E6).
    destruct childref as [c|].
    + run_bind H as path2 E7. apply mret_Ok in H as [-> _].
      by rewrite (bind_run _ _ _ _ _ E7).
    + apply mret_Ok in H as [-> _]. by destruct (Hr path).
Qed.

Lemma make_path_loop_found fuel cfg key key_len : ∀ depth path s p s',
  find_path_loop fuel cfg key key_len depth path s = Ok ((nsd_ok, p), s') →
  make_path_loop fuel cfg key key_len depth path s = Ok ((nsd_ok, p), s)
  ∨ (NDEBUG cfg = false ∧ has_prefix s
     ∧ make_path_loop fuel cfg key key_len depth path s = Err AssertFailed).
Proof.
  induction fuel as [|fuel IH]; intros depth path s p s' H; simpl in *.
  - destruct (depth <? key_len); [done|].
    apply mret_Ok in H as [[= ->] _]. by left.
  - destruct (depth <? key_len);
      [|apply mret_Ok in H as [[= ->] _]; by left].
    run_bind H as r E into s1.
    pose proof (pure_find_path_step _ _ _ _ _ _ _ _ E) as ->.
    destruct (make_path_step_found _ _ _ _ _ _ _ _ E) as [Es|(Hd & Hp & Es)].
    + intros p0 Heq. subst r. by apply mret_Ok in H as [[= ?] _].
    + rewrite (bind_run _ _ _ _ _ Es).
      destruct r as [rc p0|[d p0]].
      * apply mret_Ok in H as [[= -> ->] _]. by left.
      * by eapply IH.
    + right. split_and!; [done..|]. by rewrite (bind_Err _ _ _ _ Es).
Qed.

Lemma nsd_make_path_found_lemma cfg path key key_len s path' s' :
  nsd_find_path cfg path key key_len s = Ok ((nsd_ok, path'), s') →
  nsd_make_path cfg path key key_len s = Ok ((nsd_ok, path'), s)
  ∨ (NDEBUG cfg = false ∧ has_prefix s
     ∧ nsd_make_path cfg path key key_len s = Err AssertFailed).
Proof.
  intros H. unfold nsd_find_path in H. unfold nsd_make_path.
  run_bind H as [] E1. run_bind H as [depth path0] E2 into s1.
  pose proof (pure_enter_path _ _ _ _ _ _ E2) as ->.
  rewrite (bind_run _ _ _ _ _ E1), (bind_run _ _ _ _ _ E2).
  by eapply make_path_loop_found.
Qed.

(** X13.  [nsd_make_path] of a key that [nsd_find_path] finds, from the
    same path: it takes the same steps, returns [nsd_ok] with the same
    path, allocates nothing and leaves the tree as it is.  Only in a
    build with assertions and a tree in which some node has a prefix can
    it instead stop at
    [assert(path->levels[path->height - 1].depth == depth - 1)], which
    [nsd_find_path] does not have. *)
Theorem nsd_make_path_found cfg path key key_len s path' s' :
  nsd_find_path cfg path key key_len s = Ok ((nsd_ok, path'), s') →
  nsd_make_path cfg path key key_len s = Ok ((nsd_ok, path'), s)
  ∨ (NDEBUG cfg = false ∧ has_prefix s
     ∧ nsd_make_path cfg path key key_len s = Err AssertFailed).
Proof. apply nsd_make_path_found_lemma. Qed.

Lemma nsd_make_path_found_witness :
  nsd_find_path (build_simd false) [] key_a12 14 tree_a12
  = Ok ((nsd_ok, leaf_path), tree_a12)
  ∧ (nsd_make_path (build_simd false) [] key_a12 14 tree_a12
     = Ok ((nsd_ok, leaf_path), tree_a12)
     ∨ (NDEBUG (build_simd false) = false ∧ has_prefix tree_a12
        ∧ nsd_make_path (build_simd false) [] key_a12 14 tree_a12
          = Err AssertFailed)).
Proof.
  assert (H : nsd_find_path (build_simd false) [] key_a12 14 tree_a12
              = Ok ((nsd_ok, leaf_path), tree_a12))
    by (vm_compute; reflexivity).
  split; [exact H|].
  exact (nsd_make_path_found _ _ _ _ _ _ _ H).
Defined.

(** ** The first key of a tree *)

Lemma enter_path_fresh cfg key_len s :
  0 ≤ key_len →
  enter_path cfg [] key_len s
  = Ok ((0, [{| level_depth := 0; level_noderef := RootRef |}]), s).
Proof.
  intros Hk. unfold enter_path.
  rewrite (bind_run _ _ s
             (0, [{| level_depth := 0; level_noderef := RootRef |}]) s)
    by done.
  rewrite (bind_run _ _ s () s); [done|].
  apply assert_run. intros _. unfold mbind, M_bind, top, mret, M_ret.
  simpl. do 2 f_equal. apply Z.geb_le. lia.
Qed.

Lemma find_child_node4 cfg l n key s :
  heap s !! l = Some (Some (ONode n)) → type n = nsd_node4 →
  find_child cfg (NodeP l) key s = find_child4 l n key s.
Proof.
  intros Hn Ht. unfold find_child.
  rewrite (bind_run _ _ s () s) by (by apply assert_run).
  rewrite (bind_run _ _ s n s) by (by apply get_node_Ok).
  by rewrite Ht.
Qed.

Lemma add_child_node4 cfg noderef l n key child s :
  load noderef s = Ok (NodeP l, s) →
  heap s !! l = Some (Some (ONode n)) → type n = nsd_node4 →
  add_child cfg noderef key child s = add_child4 cfg noderef key child s.
Proof.
  intros Hld Hn Ht. unfold add_child.
  rewrite (bind_run _ _ _ _ _ Hld).
  rewrite (bind_run _ _ s n s) by (by apply get_node_Ok).
  by rewrite Ht.
Qed.

Lemma make_leaf_run key key_len s :
  oracle s = [] → 0 ≤ key_len ≤ Z.of_nat (length key) →
  make_leaf key key_len s
  = Ok (LeafP (length (heap s)),
        set_heap (heap s ++ [Some (OLeaf {| leaf_data := 0;
                                            leaf_key_len := key_len;
                                            leaf_key := take (Z.to_nat key_len) key |})])
          s).
Proof.
  intros Ho Hk.
  assert (Hcp : memcpy (replicate (Z.to_nat key_len) 0) 0 key 0 key_len
                = Ok (take (Z.to_nat key_len) key)).
  { unfold memcpy. rewrite length_replicate.
    assert (Hc : (0 <=? key_len) && (0 <=? 0) && (0 <=? 0)
                 && (0 + key_len <=? Z.of_nat (Z.to_nat key_len))
                 && (0 + key_len <=? Z.of_nat (length key)) = true).
    { repeat (apply andb_true_intro; split); apply Z.leb_le; lia. }
    rewrite Hc. simpl.
    by rewrite drop_replicate, Nat.sub_diag, app_nil_r. }
  unfold make_leaf, malloc, mbind, M_bind. rewrite Ho, Hcp.
  unfold lift, put_object. simpl.
  rewrite lookup_app_r, Nat.sub_diag by done. simpl.
  rewrite list_insert_last. unfold set_heap, set_oracle. simpl.
  by rewrite Ho.
Qed.

Lemma single_tree_take key key_len k0 value :
  0 < key_len ≤ Z.of_nat (length key) → head key = Some k0 →
  single_tree (take (Z.to_nat key_len) key) value
  = {| heap :=
         [Some (ONode {| type := nsd_node4; width := 1; prefix_len := 0;
                         prefix := replicate 8 0;
                         keys := [k0; 0; 0; 0];
                         children := [LeafP 1; Null; Null; Null] |});
          Some (OLeaf {| leaf_data := value;
                         leaf_key_len := key_len;
                         leaf_key := take (Z.to_nat key_len) key |})];
       root := NodeP 0%nat; local := Null; oracle := [] |}.
Proof.
  intros Hk Hhd. unfold single_tree.
  rewrite length_take_le, Z2Nat.id by lia.
  destruct key as [|k key]; [done|]. injection Hhd as ->.
  destruct (Z.to_nat key_len) eqn:E; [lia|done].
Qed.

Lemma make_path_step_first cfg key key_len k0 :
  0 < key_len ≤ Z.of_nat (length key) → head key = Some k0 →
  make_path_step cfg key key_len 0
    [{| level_depth := 0; level_noderef := RootRef |}] empty_tree
  = Ok (Continue (key_len, leaf_path),
        single_tree (take (Z.to_nat key_len) key) 0).
Proof.
  intros Hk Hhd. rewrite (single_tree_take _ _ k0) by done.
  unfold make_path_step.
  rewrite (bind_run _ _ empty_tree
             {| level_depth := 0; level_noderef := RootRef |} empty_tree)
    by done.
  rewrite (bind_run _ _ empty_tree
             (Continue (0, [{| level_depth := 0;
                               level_noderef := RootRef |}])) empty_tree)
    by done.
  cbv beta iota. unfold make_path_child.
  rewrite (bind_run _ _ empty_tree (NodeP 0%nat) empty_tree) by done.
  rewrite (bind_lift _ _ _ k0)
    by (destruct key; [done|]; by injection Hhd as ->).
  rewrite (bind_run _ _ empty_tree None empty_tree)
    by (by rewrite (find_child_node4 cfg 0%nat (zero_node nsd_node4))).
  rewrite (bind_run _ _ _ _ _ (make_leaf_run key key_len empty_tree
                                 eq_refl ltac:(lia))).
  rewrite decide_False by done.
  change (level_noderef {| level_depth := 0; level_noderef := RootRef |})
    with RootRef.
  match goal with
  | |- (add_child cfg RootRef k0 ?c ≫= _) ?s = _ =>
      destruct (add_child4_run cfg RootRef k0 c s 0%nat
                  (zero_node nsd_node4))
        as (idx & E & Hidx & _); [done..|simpl; lia|simpl|];
      [apply not_elem_of_nil|];
      rewrite <- (add_child_node4 cfg RootRef 0%nat (zero_node nsd_node4)
                    k0 c s) in E by done
  end.
  simpl in Hidx. assert (idx = 0%nat) as -> by lia.
  rewrite (bind_run _ _ _ _ _ E). reflexivity.
Qed.

Lemma nsd_make_path_first cfg key key_len k0 :
  0 < key_len ≤ Z.of_nat (length key) → head key = Some k0 →
  nsd_make_path cfg [] key key_len empty_tree
  = Ok ((nsd_ok, leaf_path), single_tree (take (Z.to_nat key_len) key) 0).
Proof.
  intros Hk Hhd. unfold nsd_make_path.
  rewrite (bind_run _ _ empty_tree () empty_tree).
  2:{ apply assert_run. intros _. unfold mret, M_ret. do 2 f_equal.
      apply negb_true_iff, Z.eqb_neq. lia. }
  rewrite (bind_run _ _ _ _ _ (enter_path_fresh cfg key_len empty_tree
                                 ltac:(lia))).
  change 256%nat with (S 255). cbv beta iota. simpl make_path_loop.
  rewrite (proj2 (Z.ltb_lt 0 key_len)) by lia.
  rewrite (bind_run _ _ _ _ _ (make_path_step_first cfg key key_len k0
                                 Hk Hhd)).
  cbv beta iota. by rewrite Z.ltb_irrefl.
Qed.

Lemma find_path_step_root cfg key key_len k0 value :
  0 < key_len ≤ Z.of_nat (length key) → head key = Some k0 →
  find_path_step cfg key key_len 0
    [{| level_depth := 0; level_noderef := RootRef |}]
    (single_tree (take (Z.to_nat key_len) key) value)
  = Ok (Continue (1, leaf_path),
        single_tree (take (Z.to_nat key_len) key) value).
Proof.
  intros Hk Hhd. rewrite (single_tree_take _ _ k0) by done.
  set (s := {| heap := _ |}).
  unfold find_path_step.
  rewrite (bind_run _ _ s
             {| level_depth := 0; level_noderef := RootRef |} s) by done.
  rewrite (bind_run _ _ s (NodeP 0%nat) s) by done.
  rewrite (bind_run _ _ s (Continue 0) s) by done.
  cbv beta iota.
  rewrite (bind_lift _ _ _ k0)
    by (destruct key; [done|]; by injection Hhd as ->).
  rewrite (bind_run _ _ s (Some (ChildRef 0%nat 0)) s).
  2:{ erewrite find_child_node4; [|reflexivity..].
      unfold find_child4. simpl. by rewrite Z.eqb_refl. }
  reflexivity.
Qed.

Lemma find_path_step_leaf cfg key key_len value :
  1 < key_len ≤ Z.of_nat (length key) → key_len ≤ 255 →
  find_path_step cfg key key_len 1 leaf_path
    (single_tree (take (Z.to_nat key_len) key) value)
  = Ok (Return nsd_ok leaf_path,
        single_tree (take (Z.to_nat key_len) key) value).
Proof.
  intros Hk Hmax.
  assert (∃ k0, head key = Some k0) as [k0 Hhd].
  { destruct key as [|k0 ?]; [simpl in Hk; lia|by exists k0]. }
  rewrite (single_tree_take _ _ k0) by (lia || done).
  set (s := {| heap := _ |}).
  unfold find_path_step.
  rewrite (bind_run _ _ s
             {| level_depth := 0; level_noderef := ChildRef 0%nat 0 |} s)
    by done.
  rewrite (bind_run _ _ s (LeafP 1%nat) s) by done.
  cbv beta iota.
  rewrite (bind_run _ _ s (Return nsd_ok leaf_path) s); [done|].
  change (nsd_is_leaf (LeafP 1)) with true. cbv iota.
  rewrite (bind_run _ _ s
             {| leaf_data := value; leaf_key_len := key_len;
                leaf_key := take (Z.to_nat key_len) key |} s) by done.
  simpl leaf_key_len. simpl leaf_key.
  rewrite (bind_run _ _ s () s).
  2:{ apply assert_run. intros _. unfold mret, M_ret. do 2 f_equal.
      apply Z.geb_le. lia. }
  rewrite (bind_lift _ _ _ key_len).
  2:{ apply compare_keys_same; [lia|lia| |by rewrite take_take, Nat.min_id].
      rewrite length_take. lia. }
  rewrite (bind_run _ _ s () s).
  2:{ apply assert_run. intros _. unfold mret, M_ret. do 2 f_equal.
      apply Z.geb_le. lia. }
  rewrite Z.eqb_refl.
  rewrite (bind_run _ _ s () s); [done|].
  apply assert_run. intros _. done.
Qed.

Lemma nsd_find_path_single cfg key key_len k0 value :
  0 < key_len ≤ Z.of_nat (length key) → key_len ≤ 255 →
  head key = Some k0 →
  nsd_find_path cfg [] key key_len
    (single_tree (take (Z.to_nat key_len) key) value)
  = Ok ((nsd_ok, leaf_path),
        single_tree (take (Z.to_nat key_len) key) value).
Proof.
  intros Hk Hmax Hhd. unfold nsd_find_path.
  set (s := single_tree _ _).
  rewrite (bind_run _ _ s () s).
  2:{ apply assert_run. intros _. unfold mret, M_ret. do 2 f_equal.
      apply negb_true_iff, Z.eqb_neq. lia. }
  rewrite (bind_run _ _ _ _ _ (enter_path_fresh cfg key_len s ltac:(lia))).
  change 256%nat with (S (S 254)). cbv beta iota. simpl find_path_loop.
  rewrite (proj2 (Z.ltb_lt 0 key_len)) by lia.
  rewrite (bind_run _ _ _ _ _ (find_path_step_root cfg key key_len k0 value
                                 Hk Hhd)).
  cbv beta iota. destruct (Z.ltb_spec 1 key_len); [|done].
  by rewrite (bind_run _ _ _ _ _ (find_path_step_leaf cfg key key_len value
                                    ltac:(lia) Hmax)).
Qed.

Lemma nsd_find_path_empty cfg key key_len k0 :
  0 < key_len → head key = Some k0 →
  nsd_find_path cfg [] key key_len empty_tree
  = Ok ((nsd_not_found,
         [{| level_depth := 0; level_noderef := RootRef |}]), empty_tree).
Proof.
  intros Hk Hhd. unfold nsd_find_path.
  rewrite (bind_run _ _ empty_tree () empty_tree).
  2:{ apply assert_run. intros _. unfold mret, M_ret. do 2 f_equal.
      apply negb_true_iff, Z.eqb_neq. lia. }
  rewrite (bind_run _ _ _ _ _ (enter_path_fresh cfg key_len empty_tree
                                 ltac:(lia))).
  change 256%nat with (S 255). cbv beta iota. simpl find_path_loop.
  rewrite (proj2 (Z.ltb_lt 0 key_len)) by lia.
  rewrite (bind_run _ _ empty_tree
             (Return nsd_not_found
                [{| level_depth := 0; level_noderef := RootRef |}])
             empty_tree); [done|].
  unfold find_path_step.
  rewrite (bind_run _ _ empty_tree
             {| level_depth := 0; level_noderef := RootRef |} empty_tree)
    by done.
  rewrite (bind_run _ _ empty_tree (NodeP 0%nat) empty_tree) by done.
  rewrite (bind_run _ _ empty_tree (Continue 0) empty_tree) by done.
  cbv beta iota.
  rewrite (bind_lift _ _ _ k0)
    by (destruct key; [done|]; by injection Hhd as ->).
  rewrite (bind_run _ _ empty_tree None empty_tree); [done|].
  by rewrite (find_child_node4 cfg 0%nat (zero_node nsd_node4)).
Qed.

(** X14.  The first key of a tree, for every key of 1 to 255 octets and
    in every build: on the empty tree [get_key] reports that the key is
    not found; [put_key] creates a leaf for it directly under the root
    (path of height 2) and stores the payload; then [get_key] finds the
    leaf with that payload, and a second [put_key] of the key reports
    that it existed, keeps the first payload and changes nothing. *)
Theorem put_key_get_key_first cfg key key_len value :
  0 < key_len ≤ 255 → key_len ≤ Z.of_nat (length key) → value ≠ 0 →
  get_key cfg key key_len empty_tree = Ok (NotFound, empty_tree)
  ∧ put_key cfg key key_len value empty_tree
    = Ok (Created 2 value, single_tree (take (Z.to_nat key_len) key) value)
  ∧ get_key cfg key key_len (single_tree (take (Z.to_nat key_len) key) value)
    = Ok (Found 2 value, single_tree (take (Z.to_nat key_len) key) value)
  ∧ ∀ value',
      put_key cfg key key_len value'
        (single_tree (take (Z.to_nat key_len) key) value)
      = Ok (Existed 2 value,
            single_tree (take (Z.to_nat key_len) key) value).
Proof.
  intros Hk Hlen Hv.
  assert (∃ k0, head key = Some k0) as [k0 Hhd].
  { destruct key as [|k0 ?]; [simpl in Hlen; lia|by exists k0]. }
  assert (Hnp : ¬ has_prefix (single_tree (take (Z.to_nat key_len) key) value)).
  { intros (l & n & Hl & Hp). destruct l as [|[|l]]; simpl in Hl.
    - injection Hl as <-. done.
    - done.
    - done. }
  pose proof (nsd_find_path_single cfg key key_len k0 value
                ltac:(lia) ltac:(lia) Hhd) as Hfind.
  split_and!.
  - unfold get_key.
    by rewrite (bind_run _ _ _ _ _ (nsd_find_path_empty cfg key key_len k0
                                      ltac:(lia) Hhd)).
  - unfold put_key.
    rewrite (bind_run _ _ _ _ _ (nsd_make_path_first cfg key key_len k0
                                   ltac:(lia) Hhd)).
    cbv beta iota. rewrite !(single_tree_take _ _ k0) by (lia || done).
    set (s := {| heap := _ |}).
    rewrite (bind_run _ _ s () s) by (by apply assert_run).
    rewrite (bind_run _ _ s () s) by (by apply assert_run).
    reflexivity.
  - unfold get_key. rewrite (bind_run _ _ _ _ _ Hfind).
    cbv beta iota. rewrite !(single_tree_take _ _ k0) by (lia || done).
    set (s := {| heap := _ |}).
    rewrite (bind_run _ _ s () s) by (by apply assert_run).
    rewrite (bind_run _ _ s () s) by (by apply assert_run).
    reflexivity.
  - intros value'. unfold put_key.
    destruct (nsd_make_path_found_lemma _ _ _ _ _ _ _ Hfind)
      as [Em|(_ & Hp & _)]; [|done].
    rewrite (bind_run _ _ _ _ _ Em).
    cbv beta iota. rewrite !(single_tree_take _ _ k0) by (lia || done).
    set (s := {| heap := _ |}).
    rewrite (bind_run _ _ s () s) by (by apply assert_run).
    rewrite (bind_run _ _ s () s) by (by apply assert_run).
    rewrite (bind_run _ _ s (LeafP 1%nat) s) by done.
    rewrite (bind_run _ _ s
               {| leaf_data := value; leaf_key_len := key_len;
                  leaf_key := take (Z.to_nat key_len) key |} s) by done.
    cbn [leaf_data].
    by rewrite (proj2 (Z.eqb_neq value 0)) by done.
Qed.

Lemma put_key_get_key_first_witness :
  0 < 14 ≤ 255 ∧ 14 ≤ Z.of_nat (length key_a12) ∧ 7 ≠ 0
  ∧ get_key (build_simd false) key_a12 14 empty_tree
    = Ok (NotFound, empty_tree)
  ∧ put_key (build_simd false) key_a12 14 7 empty_tree
    = Ok (Created 2 7, single_tree (take (Z.to_nat 14) key_a12) 7)
  ∧ get_key (build_simd false) key_a12 14
      (single_tree (take (Z.to_nat 14) key_a12) 7)
    = Ok (Found 2 7, single_tree (take (Z.to_nat 14) key_a12) 7)
  ∧ ∀ value',
      put_key (build_simd false) key_a12 14 value'
        (single_tree (take (Z.to_nat 14) key_a12) 7)
      = Ok (Existed 2 7, single_tree (take (Z.to_nat 14) key_a12) 7).
Proof.
  split; [lia|]. split; [vm_compute; discriminate|]. split; [lia|].
  apply (put_key_get_key_first (build_simd false) key_a12 14 7);
    [lia|vm_compute; discriminate|lia].
Defined.

(** ** add_child without memory *)

(** X15.  When [add_child] returns [NULL], which it does when the
    allocation of the larger node fails, it has written nothing: the
    heap, the root and the local pointer are as before the call, so the
    full node is still in place with all its children.  (No
    [nsd_node38] with more than its 38 children is assumed.) *)
Theorem add_child_null_keeps_tree cfg noderef key child s s' :
  node38_capacity s →
  add_child cfg noderef key child s = Ok (None, s') →
  heap s' = heap s ∧ root s' = root s ∧ local s' = local s.
Proof.
  intros Hcap H. apply add_child_None in H; [done|].
  intros l n _ Hl Ht. by eapply node38_capacity_lookup.
Qed.

Lemma add_child_null_keeps_tree_witness :
  node38_capacity tree_no_memory
  ∧ add_child (build_simd false) RootRef 0x48 (LeafP 5) tree_no_memory
    = Ok (None, tree_of node4_full)
  ∧ heap (tree_of node4_full) = heap tree_no_memory
  ∧ root (tree_of node4_full) = root tree_no_memory
  ∧ local (tree_of node4_full) = local tree_no_memory.
Proof.
  assert (Hcap : node38_capacity tree_no_memory)
    by (repeat constructor; done).
  assert (H : add_child (build_simd false) RootRef 0x48 (LeafP 5)
                tree_no_memory = Ok (None, tree_of node4_full))
    by (vm_compute; reflexivity).
  split; [exact Hcap|]. split; [exact H|].
  exact (add_child_null_keeps_tree _ _ _ _ _ _ Hcap H).
Defined.

(** ** The results of nsd_make_path *)

Lemma push_Ok path lvl s p s' :
  push path lvl s = Ok (p, s') → p = path ++ [lvl] ∧ s' = s.
Proof.
  unfold push. destruct (_ <? _); [|done]. by intros [-> ->]%mret_Ok.
Qed.

Ltac solve_grows :=
  repeat split;
  first [ reflexivity | by left | by right | done
        | apply prefix_app_r; reflexivity ].

Lemma split_leaf_grows cfg key key_len path noderef node leaf cnt s r s' :
  split_leaf cfg key key_len path noderef node leaf cnt s = Ok (r, s') →
  match r with
  | Return rc p => rc = nsd_no_memory ∧ p = path
  | Continue (_, p) => path `prefix_of` p
  end.
Proof.
  unfold split_leaf. intros H.
  run_bind H as [] E1. run_bind H as [] E2. run_bind H as t E3.
  run_bind H as r0 E4 into s1.
  destruct r0 as [[depth relpath]|]; [|by apply mret_Ok in H as [-> _]].
  run_bind H as [] E5 into s2. run_bind H as first E6 into s3.
  run_bind H as [] E7 into s4. run_bind H as path1 E8 into s5.
  run_bind H as t1 E9 into s6. run_bind H as k E10 into s7.
  run_bind H as c E11 into s8. apply mret_Ok in H as [-> _].
  destruct (0 <? _).
  - run_bind E8 as [] E12 into s9.
    destruct (Z.of_nat (length path + _) <=? _); [|by unfold fail in E8].
    apply mret_Ok in E8 as [-> _]. solve_grows.
  - apply mret_Ok in E8 as [-> _]. solve_grows.
Qed.

Lemma make_path_step_grows cfg key key_len depth path s r s' :
  make_path_step cfg key key_len depth path s = Ok (r, s') →
  match r with
  | Return rc p => (rc = nsd_ok ∨ rc = nsd_no_memory) ∧ path `prefix_of` p
  | Continue (_, p) => path `prefix_of` p
  end.
Proof.
  unfold make_path_step. intros H.
  run_bind H as t E1. run_bind H as r0 E2 into s1.
  assert (Hnode : match r0 with
                  | Return rc p =>
                      (rc = nsd_ok ∨ rc = nsd_no_memory) ∧ path `prefix_of` p
                  | Continue (_, p) => path `prefix_of` p
                  end).
  { unfold make_path_node in E2.
    run_bind E2 as t' E3. run_bind E2 as node E4.
    destruct (nsd_is_leaf node).
    - run_bind E2 as leaf E5. run_bind E2 as [] E6.
      run_bind E2 as cnt E7. run_bind E2 as [] E8.
      destruct (cnt =? key_len).
      + run_bind E2 as [] E9. apply mret_Ok in E2 as [-> _]. solve_grows.
      + apply split_leaf_grows in E2. destruct r0 as [rc p|[d p]]; [|done].
        destruct E2 as [-> ->]. solve_grows.
    - run_bind E2 as n E5. destruct (negb (prefix_len n =? 0)).
      + run_bind E2 as cnt E6. run_bind E2 as [] E7.
        destruct (negb (cnt =? prefix_len n)).
        * run_bind E2 as [] E8. run_bind E2 as [] E9.
          run_bind E2 as r1 E10 into s2.
          destruct r1; apply mret_Ok in E2 as [-> _]; solve_grows.
        * apply mret_Ok in E2 as [-> _]. solve_grows.
      + apply mret_Ok in E2 as [-> _]. solve_grows. }
  destruct r0 as [rc p|[d p]].
  - by apply mret_Ok in H as [-> _].
  - unfold make_path_child in H.
    run_bind H as node E3 into s2. run_bind H as k E4 into s3.
    run_bind H as childref E5 into s4.
    destruct childref as [c|].
    + run_bind H as path2 E6 into s5. apply mret_Ok in H as [-> _].
      apply push_Ok in E6 as [-> _].
      etrans; [exact Hnode|]. solve_grows.
    + run_bind H as leaf E6 into s5.
      destruct (decide (leaf = Null)).
      * apply mret_Ok in H as [-> _]. split; [by right|done].
      * run_bind H as childref E7 into s6.
        destruct childref as [c|].
        -- run_bind H as path2 E8 into s7. apply mret_Ok in H as [-> _].
           apply push_Ok in E8 as [-> _].
           etrans; [exact Hnode|]. solve_grows.
        -- run_bind H as [] E8 into s7. apply mret_Ok in H as [-> _]. split; [by right|done].
Qed.

Lemma make_path_loop_grows fuel cfg key key_len : ∀ depth path s rc p s',
  make_path_loop fuel cfg key key_len depth path s = Ok ((rc, p), s') →
  (rc = nsd_ok ∨ rc = nsd_no_memory) ∧ path `prefix_of` p.
Proof.
  induction fuel as [|fuel IH]; intros depth path s rc p s' H; simpl in H.
  - destruct (depth <? key_len); [done|].
    apply mret_Ok in H as [[= -> ->] _]. solve_grows.
  - destruct (depth <? key_len);
      [|apply mret_Ok in H as [[= -> ->] _]; solve_grows].
    run_bind H as r E into s1. apply make_path_step_grows in E.
    destruct r as [rc0 p0|[d p0]].
    + by apply mret_Ok in H as [[= -> ->] _].
    + apply IH in H as [? ?]. split; [done|]. by etrans.
Qed.

Lemma enter_path_Ok cfg path key_len s d p s' :
  enter_path cfg path key_len s = Ok ((d, p), s') →
  p = match path with
      | [] => [{| level_depth := 0; level_noderef := RootRef |}]
      | _ => path
      end.
Proof.
  unfold enter_path. intros H.
  run_bind H as [d0 p0] E1 into s1. run_bind H as [] E2 into s2.
  apply mret_Ok in H as [[= -> ->] _].
  destruct path as [|l0 path].
  - by apply mret_Ok in E1 as [[= _ ->] _].
  - run_bind E1 as [] E3 into s3. run_bind E1 as [] E4 into s4.
    run_bind E1 as t E5 into s5. by apply mret_Ok in E1 as [[= _ ->] _].
Qed.

(** X16.  [nsd_make_path] returns [nsd_ok] or [nsd_no_memory], never
    another code, and it never takes a level off the path: the path it
    was given (the root level alone, for a path of height 0) is the
    lower part of the path it returns. *)
Theorem nsd_make_path_retcode_path cfg path key key_len s rc path' s' :
  nsd_make_path cfg path key key_len s = Ok ((rc, path'), s') →
  (rc = nsd_ok ∨ rc = nsd_no_memory)
  ∧ match path with
    | [] => [{| level_depth := 0; level_noderef := RootRef |}]
    | _ => path
    end `prefix_of` path'.
Proof.
  unfold nsd_make_path. intros H.
  run_bind H as [] E1 into s1. run_bind H as [d p] E2 into s2.
  apply enter_path_Ok in E2 as ->.
  by apply make_path_loop_grows in H.
Qed.

Lemma nsd_make_path_retcode_path_witness :
  nsd_make_path (build_simd false) [] (key_of_name name_a11b).2
    (key_of_name name_a11b).1 low_memory_tree
  = Ok ((nsd_no_memory, low_memory_path), low_memory_state)
  ∧ (nsd_no_memory = nsd_ok ∨ nsd_no_memory = nsd_no_memory)
  ∧ [{| level_depth := 0; level_noderef := RootRef |}]
    `prefix_of` low_memory_path.
Proof.
  assert (H : nsd_make_path (build_simd false) [] (key_of_name name_a11b).2
                (key_of_name name_a11b).1 low_memory_tree
              = Ok ((nsd_no_memory, low_memory_path), low_memory_state))
    by (vm_compute; reflexivity).
  split; [exact H|].
  exact (nsd_make_path_retcode_path _ [] _ _ _ _ _ _ H).
Defined.

(** ** The buffer of nsd_make_key *)

(** X17.  For a valid wire name [nsd_make_key] returns the length of
    the name in wire format, root label included: the key is as long as
    the name.  It writes that many octets at the start of the key buffer
    and leaves the rest of the buffer as it was. *)
Theorem nsd_make_key_length_frame ls key0 :
  valid_wire_name ls → length key0 = 255%nat →
  ∃ n buf,
    nsd_make_key key0 (wire_name ls) = Ok (n, buf)
    ∧ n = Z.of_nat (length (wire_name ls))
    ∧ length buf = 255%nat
    ∧ drop (Z.to_nat n) buf = drop (Z.to_nat n) key0.
Proof.
  intros Hv Hk. pose proof (valid_wire_name_length ls Hv) as [Hls Hlen].
  eexists _, _. split.
  { unfold wire_name. by apply nsd_make_key_accepts. }
  assert (Hkl : length (key_of ls) = S (length (wire_labels ls))).
  { unfold key_of. rewrite length_app, length_key_labels. simpl. lia. }
  split_and!.
  - unfold wire_name. rewrite length_app. simpl. lia.
  - rewrite length_app, length_drop, Hkl. lia.
  - replace (Z.to_nat (Z.of_nat (length (wire_labels ls)) + 1))
      with (length (key_of ls)) by lia.
    by rewrite drop_app_length, Hkl.
Qed.

Lemma nsd_make_key_length_frame_witness :
  valid_wire_name labels_bar_foo ∧ length (replicate 255 0xaa) = 255%nat
  ∧ ∃ n buf,
      nsd_make_key (replicate 255 0xaa) (wire_name labels_bar_foo)
      = Ok (n, buf)
      ∧ n = Z.of_nat (length (wire_name labels_bar_foo))
      ∧ length buf = 255%nat
      ∧ drop (Z.to_nat n) buf = drop (Z.to_nat n) (replicate 255 0xaa).
Proof.
  assert (Hv : valid_wire_name labels_bar_foo).
  { split; [|simpl; lia].
    repeat constructor; simpl; unfold is_octet; lia. }
  split; [exact Hv|]. split; [reflexivity|].
  exact (nsd_make_key_length_frame labels_bar_foo (replicate 255 0xaa) Hv
           eq_refl).
Defined.

(** ** find_child16 *)

(** X18.  What [find_child16] yields for a node with 16 keys.  With the
    scalar search it is the slot at the position of the first of all 16
    keys equal to [key], also one at or beyond [width], and [NULL] when
    there is none.  With the SSE2 search, whose result is 0-based, it is
    [NULL] when the first of the [width] keys is equal to [key], the slot
    before that of the first key equal to [key] otherwise, and undefined
    when no key is equal to [key]. *)
Theorem find_child16_slot cfg l node16 key s :
  0 ≤ width node16 → (16 ≤ length (keys node16))%nat →
  find_child16 cfg l node16 key s
  = if HAVE_SSE2 cfg then
      match list_find (λ k, k = key)
              (take (Z.to_nat (Z.min (width node16) 16)) (keys node16)) with
      | Some (O, _) => Ok (None, s)
      | Some (S i, _) => Ok (Some (ChildRef l (Z.of_nat i)), s)
      | None => Err Undefined
      end
    else
      match list_find (λ k, k = key) (take 16 (keys node16)) with
      | Some (i, _) => Ok (Some (ChildRef l (Z.of_nat i)), s)
      | None => Ok (None, s)
      end.
Proof.
  intros Hw Hlen. unfold find_child16, nsd_v16_findeq_u8.
  destruct (HAVE_SSE2 cfg).
  - rewrite simd_findeq_first by (done || lia).
    destruct (list_find _ _) as [[[|i] x]|]; [done| |done].
    unfold lift, mbind, M_bind, mret, M_ret.
    rewrite (proj2 (Z.eqb_neq _ 0)) by lia. simpl.
    do 4 f_equal. lia.
  - assert (Hp : ∀ x, (x =? key) = bool_decide (x = key)).
    { intros x. destruct (Z.eqb_spec x key).
      - by rewrite bool_decide_eq_true_2.
      - by rewrite bool_decide_eq_false_2. }
    change (scalar_find (λ x, x =? key) 16 0 (keys node16))
      with (scalar_find (λ x, x =? key) 16 (Z.of_nat 0) (keys node16)).
    rewrite (scalar_find_first _ (λ x, x = key) Hp 16 0 (keys node16))
      by lia.
    rewrite drop_0.
    destruct (list_find _ _) as [[i x]|]; [|done].
    unfold lift, mbind, M_bind, mret, M_ret.
    rewrite (proj2 (Z.eqb_neq _ 0)) by lia. simpl.
    do 4 f_equal. lia.
Qed.

Lemma find_child16_slot_witness :
  0 ≤ width (zero_node nsd_node16)
  ∧ (16 ≤ length (keys (zero_node nsd_node16)))%nat
  ∧ find_child16 (build_scalar true) 0%nat (zero_node nsd_node16) 0x00
      empty_tree
    = if HAVE_SSE2 (build_scalar true) then
        match list_find (λ k, k = 0x00)
                (take (Z.to_nat (Z.min (width (zero_node nsd_node16)) 16))
                   (keys (zero_node nsd_node16))) with
        | Some (O, _) => Ok (None, empty_tree)
        | Some (S i, _) => Ok (Some (ChildRef 0%nat (Z.of_nat i)), empty_tree)
        | None => Err Undefined
        end
      else
        match list_find (λ k, k = 0x00)
                (take 16 (keys (zero_node nsd_node16))) with
        | Some (i, _) => Ok (Some (ChildRef 0%nat (Z.of_nat i)), empty_tree)
        | None => Ok (None, empty_tree)
        end.
Proof.
  split; [simpl; lia|]. split; [simpl; lia|].
  apply (find_child16_slot (build_scalar true) 0%nat (zero_node nsd_node16)
           0x00 empty_tree); simpl; lia.
Defined.

(** ** Two keys with a common prefix: the split of a leaf *)

Lemma compare_keys_differ (c : list Z) a r1 b r2 n1 n2 :
  a ≠ b →
  Z.of_nat (length c) < n1 ≤ 255 → Z.of_nat (length c) < n2 ≤ 255 →
  n1 ≤ Z.of_nat (length (c ++ a :: r1)) →
  n2 ≤ Z.of_nat (length (c ++ b :: r2)) →
  compare_keys (c ++ a :: r1) 0 n1 (c ++ b :: r2) 0 n2
  = Ok (Z.of_nat (length c)).
Proof.
  intros Hab Hn1 Hn2 Hl1 Hl2.
  destruct (compare_keys_common_prefix_lemma (c ++ a :: r1) 0 n1
              (c ++ b :: r2) 0 n2)
    as (cnt & E & Hc & Heq & Hne); [lia..|].
  rewrite E. f_equal.
  destruct (Z.lt_trichotomy cnt (Z.of_nat (length c))) as [Hlt|[->|Hgt]];
    [|done|].
  - destruct Hne; [lia|]. rewrite !Z.add_0_l. unfold aget.
    destruct (cnt <? 0); [done|].
    by rewrite !lookup_app_l by lia.
  - specialize (Heq (Z.of_nat (length c)) ltac:(lia)).
    rewrite !Z.add_0_l, aget_app, aget_app in Heq. congruence.
Qed.

Lemma single_tree_head k k0 value :
  head k = Some k0 →
  single_tree k value
  = {| heap :=
         [Some (ONode {| type := nsd_node4; width := 1; prefix_len := 0;
                         prefix := replicate 8 0;
                         keys := [k0; 0; 0; 0];
                         children := [LeafP 1; Null; Null; Null] |});
          Some (OLeaf {| leaf_data := value;
                         leaf_key_len := Z.of_nat (length k);
                         leaf_key := k |})];
       root := NodeP 0%nat; local := Null; oracle := [] |}.
Proof. intros Hhd. unfold single_tree. by rewrite Hhd. Qed.

Lemma find_path_step_single_root cfg key key_len k k0 value :
  head key = Some k0 → head k = Some k0 →
  find_path_step cfg key key_len 0
    [{| level_depth := 0; level_noderef := RootRef |}] (single_tree k value)
  = Ok (Continue (1, leaf_path), single_tree k value).
Proof.
  intros Hhd Hk. rewrite (single_tree_head _ k0) by done.
  set (s := {| heap := _ |}).
  unfold find_path_step.
  rewrite (bind_run _ _ s
             {| level_depth := 0; level_noderef := RootRef |} s) by done.
  rewrite (bind_run _ _ s (NodeP 0%nat) s) by done.
  rewrite (bind_run _ _ s (Continue 0) s) by done.
  cbv beta iota.
  rewrite (bind_lift _ _ _ k0)
    by (destruct key; [done|]; by injection Hhd as ->).
  rewrite (bind_run _ _ s (Some (ChildRef 0%nat 0)) s).
  2:{ erewrite find_child_node4; [|reflexivity..].
      unfold find_child4. simpl. by rewrite Z.eqb_refl. }
  reflexivity.
Qed.

Lemma not_has_prefix_single k value : ¬ has_prefix (single_tree k value).
Proof.
  intros (l & n & Hl & Hp). destruct l as [|[|l]]; simpl in Hl; [|done..].
  by injection Hl as <-.
Qed.

Lemma make_path_step_single_root cfg key key_len k k0 value :
  head key = Some k0 → head k = Some k0 →
  make_path_step cfg key key_len 0
    [{| level_depth := 0; level_noderef := RootRef |}] (single_tree k value)
  = Ok (Continue (1, leaf_path), single_tree k value).
Proof.
  intros Hhd Hk.
  pose proof (find_path_step_single_root cfg key key_len k k0 value Hhd Hk)
    as E.
  destruct (make_path_step_found _ _ _ _ _ _ _ _ E) as [Em|(_ & Hp & _)];
    [done|done|].
  by destruct (not_has_prefix_single k value).
Qed.

Lemma split_chain_done fuel cfg key cnt relpath :
  split_chain fuel cfg key cnt cnt relpath = mret (Some (cnt, relpath)).
Proof. destruct fuel; simpl; by rewrite Z.ltb_irrefl. Qed.

Lemma split_chain_one fuel cfg key k0 p rest s :
  oracle s = [] → key = k0 :: p ++ rest → (length p ≤ 8)%nat →
  split_chain (S fuel) cfg key (Z.of_nat (S (length p))) 0 [] s
  = Ok (Some (Z.of_nat (S (length p)),
              [{| level_depth := 0; level_noderef := LocalRef |}]),
        set_local (NodeP (length (heap s)))
          (set_heap
             (heap s ++
              [Some (ONode {| type := nsd_node4; width := 0;
                              prefix_len := Z.of_nat (length p);
                              prefix := p ++ replicate (8 - length p) 0;
                              keys := replicate 4 0;
                              children := replicate 4 Null |})]) s)).
Proof.
  intros Ho -> Hp.
  cbn [split_chain].
  rewrite (proj2 (Z.ltb_lt 0 _)) by lia.
  assert (Hlen : (if u8 (Z.of_nat (S (length p)) - 0) >? NSD_MAX_PREFIX
                  then NSD_MAX_PREFIX
                  else u8 (u8 (Z.of_nat (S (length p)) - 0) - 1))
                 = Z.of_nat (length p)).
  { unfold NSD_MAX_PREFIX. rewrite !u8_small by lia.
    destruct (Z.gtb_spec (Z.of_nat (S (length p)) - 0) 8).
    - lia.
    - lia. }
  rewrite !Hlen.
  assert (Ha : alloc_node nsd_node4 s
               = Ok (NodeP (length (heap s)),
                     set_heap (heap s ++ [Some (ONode (zero_node nsd_node4))])
                       s)).
  { unfold alloc_node, malloc, mbind, M_bind. rewrite Ho. simpl.
    unfold set_oracle, set_heap. simpl. by rewrite Ho. }
  rewrite (bind_run _ _ _ _ _ Ha). rewrite decide_False by done.
  set (s1 := set_heap _ s).
  set (n := {| type := nsd_node4; width := 0;
               prefix_len := Z.of_nat (length p);
               prefix := p ++ replicate (8 - length p) 0;
               keys := replicate 4 0; children := replicate 4 Null |}).
  assert (Hpre :
    (if Z.of_nat (length p) >? 0
     then n0 ← get_node (NodeP (length (heap s)));
          p0 ← lift (memcpy (prefix n0) 0 (k0 :: p ++ rest) (1 + 0)
                       (Z.of_nat (length p)));
          put_node (NodeP (length (heap s)))
            (set_prefix (Z.of_nat (length p)) p0 n0)
     else mret ()) s1
    = Ok ((), set_heap (heap s ++ [Some (ONode n)]) s)).
  { destruct (Z.gtb_spec (Z.of_nat (length p)) 0) as [Hgt|Hle].
    - rewrite (bind_run _ _ s1 (zero_node nsd_node4) s1).
      2:{ apply get_node_Ok. split; [|done]. unfold s1. simpl.
          by rewrite lookup_app_r, Nat.sub_diag. }
      rewrite (bind_lift _ _ _ (p ++ replicate (8 - length p) 0)).
      2:{ unfold memcpy. simpl length. rewrite length_app.
          assert (Hc : (0 <=? Z.of_nat (length p)) && (0 <=? 0)
                       && (0 <=? 1 + 0)
                       && (0 + Z.of_nat (length p) <=? Z.of_nat 8)
                       && (1 + 0 + Z.of_nat (length p)
                           <=? Z.of_nat (S (length p + length rest)))
                       = true).
          { repeat (apply andb_true_intro; split); apply Z.leb_le; lia. }
          rewrite Hc. simpl. rewrite Nat2Z.id, drop_0, take_app_length.
          change [0; 0; 0; 0; 0; 0; 0; 0] with (replicate 8 0).
          rewrite drop_replicate. do 3 f_equal. lia. }
      unfold put_node, put_object, s1. simpl.
      rewrite lookup_app_r, Nat.sub_diag by done. simpl.
      by rewrite list_insert_last.
    - assert (length p = 0%nat) as Hz by lia.
      destruct p; [|done]. done. }
  rewrite (bind_run _ _ _ _ _ Hpre).
  rewrite !u8_small by lia.
  replace (0 + (1 + Z.of_nat (length p))) with (Z.of_nat (S (length p)))
    by lia.
  set (s2 := set_heap (heap s ++ [Some (ONode n)]) s).
  rewrite (bind_run _ _ s2 LocalRef
             (set_local (NodeP (length (heap s))) s2)) by done.
  rewrite (bind_run _ _ _ [{| level_depth := 0; level_noderef := LocalRef |}]
             (set_local (NodeP (length (heap s))) s2)) by done.
  by rewrite split_chain_done.
Qed.

Lemma aget_key_with k0 p a t junk :
  aget (key_with k0 p a t ++ junk) (Z.of_nat (S (length p))) = Ok a.
Proof.
  unfold key_with.
  change (k0 :: p ++ a :: t) with ((k0 :: p) ++ a :: t).
  rewrite <- app_assoc. simpl app.
  change (k0 :: p ++ a :: t ++ junk) with ((k0 :: p) ++ a :: t ++ junk).
  apply (aget_app (k0 :: p)).
Qed.

Lemma length_key_with k0 p a t :
  length (key_with k0 p a t) = S (length p + S (length t)).
Proof. unfold key_with. simpl. by rewrite length_app. Qed.

Lemma make_path_step_split cfg k0 p a t1 v1 b t2 junk :
  (length p ≤ 8)%nat → a ≠ b →
  Z.of_nat (length (key_with k0 p a t1)) ≤ 255 →
  Z.of_nat (length (key_with k0 p b t2)) ≤ 255 →
  NDEBUG cfg = true
  ∨ (length (key_with k0 p a t1) ≤ length (key_with k0 p b t2))%nat →
  make_path_step cfg (key_with k0 p b t2 ++ junk)
    (Z.of_nat (length (key_with k0 p b t2))) 1 leaf_path
    (single_tree (key_with k0 p a t1) v1)
  = Ok (Continue (Z.of_nat (length (key_with k0 p b t2)),
                  leaf_path
                  ++ [{| level_depth := Z.of_nat (S (length p));
                         level_noderef :=
                           ChildRef 2%nat (if a <? b then 1 else 0) |}]),
        split_tree k0 p a t1 v1 b t2 0).
Proof.
  intros Hp Hab Hl1 Hl2 Hdbg.
  pose proof (length_key_with k0 p a t1) as Hk1.
  pose proof (length_key_with k0 p b t2) as Hk2.
  rewrite (single_tree_head _ k0) by done.
  set (key1 := key_with k0 p a t1) in *.
  set (key2 := key_with k0 p b t2) in *.
  set (s1 := {| heap := _ |}).
  set (leaf := {| leaf_data := v1; leaf_key_len := Z.of_nat (length key1);
                  leaf_key := key1 |}).
  set (cnt := Z.of_nat (S (length p))).
  (* the first half: the leaf is split *)
  assert (Hcmp : compare_keys (key2 ++ junk) 0 (Z.of_nat (length key2))
                   key1 0 (Z.of_nat (length key1)) = Ok cnt).
  { unfold key1, key2, key_with.
    change (k0 :: p ++ b :: t2) with ((k0 :: p) ++ b :: t2).
    change (k0 :: p ++ a :: t1) with ((k0 :: p) ++ a :: t1).
    rewrite <- app_assoc. simpl app.
    change (k0 :: p ++ b :: t2 ++ junk) with ((k0 :: p) ++ b :: t2 ++ junk).
    change (k0 :: p ++ a :: t1) with ((k0 :: p) ++ a :: t1).
    rewrite (compare_keys_differ (k0 :: p) b (t2 ++ junk) a t1);
      [done|done|..]; simpl; rewrite ?length_app; simpl;
      rewrite ?length_app; simpl; lia. }
  assert (Hlt1 : cnt < Z.of_nat (length key1)) by (unfold cnt; lia).
  assert (Hlt2 : cnt < Z.of_nat (length key2)) by (unfold cnt; lia).
  set (n2 := {| type := nsd_node4; width := 0;
                prefix_len := Z.of_nat (length p);
                prefix := p ++ replicate (8 - length p) 0;
                keys := replicate 4 0; children := replicate 4 Null |}).
  set (s2 := set_local (NodeP 2)
               (set_heap (heap s1 ++ [Some (ONode n2)]) s1)).
  assert (Hchain : split_chain 256 cfg (key2 ++ junk) cnt 0 [] s1
                   = Ok (Some (cnt, [{| level_depth := 0;
                                        level_noderef := LocalRef |}]), s2)).
  { change 256%nat with (S 255).
    apply (split_chain_one 255 cfg (key2 ++ junk) k0 p (b :: t2 ++ junk));
      [done| |done].
    unfold key2, key_with. simpl. by rewrite <- app_assoc. }
  unfold make_path_step.
  rewrite (bind_run _ _ s1
             {| level_depth := 0; level_noderef := ChildRef 0%nat 0 |} s1)
    by done.
  set (s3 :=
    {| heap :=
         [Some (ONode {| type := nsd_node4; width := 1; prefix_len := 0;
                         prefix := replicate 8 0; keys := [k0; 0; 0; 0];
                         children := [NodeP 2; Null; Null; Null] |});
          Some (OLeaf leaf);
          Some (ONode {| type := nsd_node4; width := 1;
                         prefix_len := Z.of_nat (length p);
                         prefix := p ++ replicate (8 - length p) 0;
                         keys := [a; 0; 0; 0];
                         children := [LeafP 1; Null; Null; Null] |})];
       root := NodeP 0%nat; local := NodeP 2; oracle := [] |}).
  assert (Hnode :
    make_path_node cfg (key2 ++ junk) (Z.of_nat (length key2)) 1 leaf_path s1
    = Ok (Continue (cnt, leaf_path), s3)).
  { unfold make_path_node.
    rewrite (bind_run _ _ s1
               {| level_depth := 0; level_noderef := ChildRef 0%nat 0 |} s1)
      by done.
    rewrite (bind_run _ _ s1 (LeafP 1%nat) s1) by done.
    change (nsd_is_leaf (LeafP 1)) with true. cbv iota.
    rewrite (bind_run _ _ s1 leaf s1) by done.
    rewrite (bind_run _ _ s1 () s1).
    2:{ apply assert_run. intros Hd. unfold mret, M_ret. do 2 f_equal.
        apply Z.geb_le. change (leaf_key_len leaf) with (Z.of_nat (length key1)).
        destruct Hdbg; [congruence|lia]. }
    rewrite (bind_lift _ _ _ _ Hcmp).
    rewrite (bind_run _ _ s1 () s1).
    2:{ apply assert_run. intros _. unfold mret, M_ret. do 2 f_equal.
        apply Z.geb_le. unfold cnt. lia. }
    rewrite (proj2 (Z.eqb_neq cnt _)) by lia.
    unfold split_leaf.
    rewrite (bind_run _ _ s1 () s1).
    2:{ apply assert_run. intros _. unfold mret, M_ret. do 2 f_equal.
        apply Z.ltb_lt. lia. }
    rewrite (bind_run _ _ s1 () s1).
    2:{ apply assert_run. intros _. unfold mret, M_ret. do 2 f_equal.
        apply Z.ltb_lt. change (leaf_key_len leaf) with (Z.of_nat (length key1)).
        lia. }
    rewrite (bind_run _ _ s1
               {| level_depth := 0; level_noderef := ChildRef 0%nat 0 |} s1)
      by done.
    rewrite (bind_run _ _ _ _ _ Hchain). cbv beta iota.
    rewrite (bind_run _ _ s2 () s2).
    2:{ apply assert_run. intros _. unfold mret, M_ret.
        by rewrite Z.eqb_refl. }
    rewrite (bind_run _ _ s2 (NodeP 2%nat) s2) by done.
    set (s2' :=
      {| heap :=
           [Some (ONode {| type := nsd_node4; width := 1; prefix_len := 0;
                           prefix := replicate 8 0; keys := [k0; 0; 0; 0];
                           children := [NodeP 2; Null; Null; Null] |});
            Some (OLeaf leaf); Some (ONode n2)];
         root := NodeP 0%nat; local := NodeP 2; oracle := [] |}).
    rewrite (bind_run _ _ s2 () s2') by done.
    rewrite (bind_run _ _ s2' leaf_path s2') by done.
    rewrite (bind_run _ _ s2'
               {| level_depth := 0; level_noderef := ChildRef 0%nat 0 |} s2')
      by done.
    rewrite (bind_lift _ _ _ a).
    2:{ pose proof (aget_key_with k0 p a t1 []) as Ha.
        by rewrite app_nil_r in Ha. }
    destruct (add_child4_run cfg (ChildRef 0%nat 0) a (LeafP 1) s2' 2%nat n2)
      as (idx & E & Hidx & _); [done..|simpl; lia|apply not_elem_of_nil|].
    simpl in Hidx. assert (idx = 0%nat) as -> by lia.
    rewrite <- (add_child_node4 cfg (ChildRef 0%nat 0) 2%nat n2) in E by done.
    change (level_noderef {| level_depth := 0;
                             level_noderef := ChildRef 0 0 |})
      with (ChildRef 0%nat 0).
    by rewrite (bind_run _ _ _ _ _ E). }
  rewrite (bind_run _ _ _ _ _ Hnode). cbv beta iota.
  change (level_noderef {| level_depth := 0; level_noderef := ChildRef 0 0 |})
    with (ChildRef 0%nat 0).
  (* the second half: the new leaf *)
  unfold make_path_child.
  rewrite (bind_run _ _ s3 (NodeP 2%nat) s3) by done.
  rewrite (bind_lift _ _ _ b) by apply aget_key_with.
  rewrite (bind_run _ _ s3 None s3).
  2:{ erewrite find_child_node4; [|reflexivity..].
      unfold find_child4. simpl.
      by rewrite (proj2 (Z.eqb_neq a b)) by done. }
  rewrite (bind_run _ _ _ _ _ (make_leaf_run (key2 ++ junk)
                                 (Z.of_nat (length key2)) s3 eq_refl
                                 ltac:(rewrite length_app; lia))).
  rewrite decide_False by done.
  rewrite Nat2Z.id, take_app_length.
  set (n3 := {| type := nsd_node4; width := 1;
                prefix_len := Z.of_nat (length p);
                prefix := p ++ replicate (8 - length p) 0;
                keys := [a; 0; 0; 0];
                children := [LeafP 1; Null; Null; Null] |}).
  match goal with
  | |- (add_child cfg _ b ?c ≫= _) ?s = _ =>
      destruct (add_child4_run cfg (ChildRef 0%nat 0) b c s 2%nat n3)
        as (idx & E & Hidx & Hlow & Hhigh); [done..|simpl; lia| |];
      [|rewrite <- (add_child_node4 cfg (ChildRef 0%nat 0) 2%nat n3) in E
          by done]
  end.
  { simpl. intros [->|[]%elem_of_nil]%elem_of_cons. done. }
  rewrite (bind_run _ _ _ _ _ E). unfold split_tree. fold key1 key2.
  simpl in Hidx.
  destruct (Z.ltb_spec a b) as [Hlt|Hge].
  - assert (idx = 1%nat) as ->.
    { destruct idx as [|[|idx]]; [|done|lia].
      specialize (Hhigh a ltac:(simpl; lia) eq_refl). lia. }
    reflexivity.
  - assert (idx = 0%nat) as ->.
    { destruct idx as [|[|idx]]; [done| |lia].
      specialize (Hlow 0%nat a ltac:(lia) eq_refl). lia. }
    reflexivity.
Qed.

Lemma make_path_loop_done fuel cfg key key_len path :
  make_path_loop fuel cfg key key_len key_len path = mret (nsd_ok, path).
Proof. destruct fuel; simpl; by rewrite Z.ltb_irrefl. Qed.

Lemma make_path_loop_step fuel cfg key key_len depth path s r s1 :
  depth < key_len →
  make_path_step cfg key key_len depth path s = Ok (r, s1) →
  make_path_loop (S fuel) cfg key key_len depth path s
  = match r with
    | Return rc p => Ok ((rc, p), s1)
    | Continue (d, p) => make_path_loop fuel cfg key key_len d p s1
    end.
Proof.
  intros Hlt E. simpl. rewrite (proj2 (Z.ltb_lt _ _)) by done.
  rewrite (bind_run _ _ _ _ _ E). by destruct r as [|[]].
Qed.

Lemma find_path_loop_step fuel cfg key key_len depth path s r s1 :
  depth < key_len →
  find_path_step cfg key key_len depth path s = Ok (r, s1) →
  find_path_loop (S fuel) cfg key key_len depth path s
  = match r with
    | Return rc p => Ok ((rc, p), s1)
    | Continue (d, p) => find_path_loop fuel cfg key key_len d p s1
    end.
Proof.
  intros Hlt E. simpl. rewrite (proj2 (Z.ltb_lt _ _)) by done.
  rewrite (bind_run _ _ _ _ _ E). by destruct r as [|[]].
Qed.

Lemma find_path_loop_done fuel cfg key key_len depth path :
  key_len ≤ depth →
  find_path_loop fuel cfg key key_len depth path = mret (nsd_ok, path).
Proof.
  intros Hle. destruct fuel; simpl; by rewrite (proj2 (Z.ltb_ge _ _)).
Qed.

Lemma nsd_make_path_split cfg k0 p a t1 v1 b t2 junk :
  (length p ≤ 8)%nat → a ≠ b →
  Z.of_nat (length (key_with k0 p a t1)) ≤ 255 →
  Z.of_nat (length (key_with k0 p b t2)) ≤ 255 →
  NDEBUG cfg = true
  ∨ (length (key_with k0 p a t1) ≤ length (key_with k0 p b t2))%nat →
  nsd_make_path cfg [] (key_with k0 p b t2 ++ junk)
    (Z.of_nat (length (key_with k0 p b t2)))
    (single_tree (key_with k0 p a t1) v1)
  = Ok ((nsd_ok,
         leaf_path
         ++ [{| level_depth := Z.of_nat (S (length p));
                level_noderef :=
                  ChildRef 2%nat (if a <? b then 1 else 0) |}]),
        split_tree k0 p a t1 v1 b t2 0).
Proof.
  intros Hp Hab Hl1 Hl2 Hdbg.
  pose proof (length_key_with k0 p b t2) as Hk2.
  pose proof (make_path_step_single_root cfg (key_with k0 p b t2 ++ junk)
                (Z.of_nat (length (key_with k0 p b t2)))
                (key_with k0 p a t1) k0 v1 eq_refl eq_refl) as E1.
  pose proof (make_path_step_split cfg k0 p a t1 v1 b t2 junk Hp Hab Hl1
                Hl2 Hdbg) as E2.
  unfold nsd_make_path.
  set (s := single_tree _ _) in *.
  set (key := key_with k0 p b t2 ++ junk) in *.
  set (len := Z.of_nat (length (key_with k0 p b t2))) in *.
  assert (Hlen : 1 < len) by (unfold len; lia).
  clearbody len.
  rewrite (bind_run _ _ s () s).
  2:{ apply assert_run. intros _. unfold mret, M_ret. do 2 f_equal.
      apply negb_true_iff, Z.eqb_neq. lia. }
  rewrite (bind_run _ _ _ _ _ (enter_path_fresh cfg len s ltac:(lia))).
  change 256%nat with (S (S 254)). cbv beta iota.
  rewrite (make_path_loop_step _ cfg key len 0 _ _ _ _ ltac:(lia) E1).
  rewrite (make_path_loop_step _ cfg key len 1 _ _ _ _ ltac:(lia) E2).
  by rewrite make_path_loop_done.
Qed.

Lemma compare_keys_prefix k0 p c rest n :
  (length p ≤ 8)%nat → Z.of_nat (length p) ≤ n ≤ 255 →
  compare_keys (k0 :: p ++ c :: rest) 1 n
    (p ++ replicate (8 - length p) 0) 0 (Z.of_nat (length p))
  = Ok (Z.of_nat (length p)).
Proof.
  intros Hp Hn.
  destruct (compare_keys_common_prefix_lemma (k0 :: p ++ c :: rest) 1 n
              (p ++ replicate (8 - length p) 0) 0 (Z.of_nat (length p)))
    as (cnt & E & Hc & _ & Hne);
    [try (simpl length; rewrite ?length_app; simpl length; lia)..|].
  rewrite E. f_equal.
  destruct (decide (cnt < Z.of_nat (length p))) as [Hlt|]; [|lia].
  destruct Hne; [lia|]. unfold aget.
  destruct (Z.ltb_spec (1 + cnt) 0); [lia|].
  destruct (Z.ltb_spec (0 + cnt) 0); [lia|].
  replace (Z.to_nat (1 + cnt)) with (S (Z.to_nat cnt)) by lia.
  rewrite Z.add_0_l. simpl.
  by rewrite !lookup_app_l by lia.
Qed.

Lemma nsd_find_path_split cfg k0 p a t1 v1 b t2 v2 c t junk idx l v :
  (length p ≤ 8)%nat →
  Z.of_nat (length (key_with k0 p c t)) ≤ 255 →
  (∀ n, heap (split_tree k0 p a t1 v1 b t2 v2) !! 2%nat
        = Some (Some (ONode n)) →
        find_child4 2%nat n c (split_tree k0 p a t1 v1 b t2 v2)
        = Ok (Some (ChildRef 2%nat idx), split_tree k0 p a t1 v1 b t2 v2)) →
  load (ChildRef 2%nat idx) (split_tree k0 p a t1 v1 b t2 v2)
  = Ok (LeafP l, split_tree k0 p a t1 v1 b t2 v2) →
  get_leaf (LeafP l) (split_tree k0 p a t1 v1 b t2 v2)
  = Ok ({| leaf_data := v;
           leaf_key_len := Z.of_nat (length (key_with k0 p c t));
           leaf_key := key_with k0 p c t |},
        split_tree k0 p a t1 v1 b t2 v2) →
  nsd_find_path cfg [] (key_with k0 p c t ++ junk)
    (Z.of_nat (length (key_with k0 p c t)))
    (split_tree k0 p a t1 v1 b t2 v2)
  = Ok ((nsd_ok,
         leaf_path
         ++ [{| level_depth := Z.of_nat (S (length p));
                level_noderef := ChildRef 2%nat idx |}]),
        split_tree k0 p a t1 v1 b t2 v2).
Proof.
  intros Hp Hl Hfind Hload Hleaf.
  pose proof (length_key_with k0 p c t) as Hk.
  pose proof (aget_key_with k0 p c t junk) as Hc.
  set (s := split_tree _ _ _ _ _ _ _ _) in *.
  set (n2 := {| type := nsd_node4; width := 2;
                prefix_len := Z.of_nat (length p);
                prefix := p ++ replicate (8 - length p) 0;
                keys := if a <? b then [a; b; 0; 0] else [b; a; 0; 0];
                children := if a <? b
                            then [LeafP 1; LeafP 3; Null; Null]
                            else [LeafP 3; LeafP 1; Null; Null] |}).
  specialize (Hfind n2 eq_refl).
  set (cnt := Z.of_nat (S (length p))) in *.
  set (path3 := leaf_path ++ [{| level_depth := cnt;
                                 level_noderef := ChildRef 2%nat idx |}]).
  assert (Hpre : compare_keys (key_with k0 p c t ++ junk) 1
                   (u8 (Z.of_nat (length (key_with k0 p c t)) - 1))
                   (p ++ replicate (8 - length p) 0) 0 (Z.of_nat (length p))
                 = Ok (Z.of_nat (length p))).
  { unfold key_with. simpl app. rewrite <- app_assoc. simpl app.
    apply compare_keys_prefix; [done|]. unfold key_with in *. simpl in *.
    rewrite u8_small by lia. lia. }
  assert (Hsame : compare_keys (key_with k0 p c t ++ junk) 0
                    (Z.of_nat (length (key_with k0 p c t)))
                    (key_with k0 p c t) 0
                    (Z.of_nat (length (key_with k0 p c t)))
                  = Ok (Z.of_nat (length (key_with k0 p c t)))).
  { apply compare_keys_same; [lia|rewrite length_app; lia|lia|].
    by rewrite Nat2Z.id, take_app_length, firstn_all. }
  set (key := key_with k0 p c t ++ junk) in *.
  set (len := Z.of_nat (length (key_with k0 p c t))) in *.
  assert (Hlen : cnt < len) by (unfold cnt, len; lia).
  assert (Hcnt : 1 ≤ cnt ≤ 9) by (unfold cnt; lia).
  assert (E1 : find_path_step cfg key len 0
                 [{| level_depth := 0; level_noderef := RootRef |}] s
               = Ok (Continue (1, leaf_path), s)).
  { unfold find_path_step.
    rewrite (bind_run _ _ s
               {| level_depth := 0; level_noderef := RootRef |} s) by done.
    rewrite (bind_run _ _ s (NodeP 0%nat) s) by done.
    rewrite (bind_run _ _ s (Continue 0) s) by done.
    cbv beta iota.
    rewrite (bind_lift _ _ _ k0) by done.
    rewrite (bind_run _ _ s (Some (ChildRef 0%nat 0)) s).
    2:{ erewrite find_child_node4; [|reflexivity..].
        unfold find_child4. simpl. by rewrite Z.eqb_refl. }
    reflexivity. }
  assert (E2 : find_path_step cfg key len 1 leaf_path s
               = Ok (Continue (u8 (cnt + 1), path3), s)).
  { unfold find_path_step.
    rewrite (bind_run _ _ s
               {| level_depth := 0; level_noderef := ChildRef 0%nat 0 |} s)
      by done.
    rewrite (bind_run _ _ s (NodeP 2%nat) s) by done.
    rewrite (bind_run _ _ s (Continue cnt) s).
    2:{ change (nsd_is_leaf (NodeP 2)) with false. cbv iota.
        rewrite (bind_run _ _ s n2 s) by done.
        change (prefix_len n2) with (Z.of_nat (length p)).
        change (prefix n2) with (p ++ replicate (8 - length p) 0).
        destruct (Z.eqb_spec (Z.of_nat (length p)) 0) as [Hz|Hnz]; simpl.
        - unfold mret, M_ret, cnt. do 3 f_equal. lia.
        - rewrite (bind_lift _ _ _ _ Hpre). rewrite Z.eqb_refl.
          unfold mret, M_ret, cnt. do 3 f_equal.
          rewrite u8_small by lia. lia. }
    cbv beta iota.
    rewrite (bind_lift _ _ _ _ Hc).
    rewrite (bind_run _ _ s (Some (ChildRef 2%nat idx)) s).
    2:{ by erewrite find_child_node4; [|reflexivity..]. }
    reflexivity. }
  rewrite u8_small in E2 by lia.
  unfold nsd_find_path.
  rewrite (bind_run _ _ s () s).
  2:{ apply assert_run. intros _. unfold mret, M_ret.
      do 2 f_equal; try (apply negb_true_iff, Z.eqb_neq; lia). }
  rewrite (bind_run _ _ _ _ _ (enter_path_fresh cfg len s ltac:(lia))).
  change 256%nat with (S (S (S 253))). cbv beta iota.
  rewrite (find_path_loop_step _ cfg key len 0 _ _ _ _ ltac:(lia) E1).
  rewrite (find_path_loop_step _ cfg key len 1 _ _ _ _ ltac:(lia) E2).
  destruct (decide (cnt + 1 < len)) as [Hlt|Hge];
    [|by rewrite find_path_loop_done by lia].
  rewrite (find_path_loop_step _ cfg key len (cnt + 1) path3 s
             (Return nsd_ok path3) s); [done|done|].
  unfold find_path_step.
  rewrite (bind_run _ _ s
             {| level_depth := cnt; level_noderef := ChildRef 2%nat idx |} s)
    by done.
  rewrite (bind_run _ _ _ _ _ Hload).
  rewrite (bind_run _ _ s (Return nsd_ok path3) s); [done|].
  change (nsd_is_leaf (LeafP l)) with true. cbv iota.
  rewrite (bind_run _ _ _ _ _ Hleaf). cbn [leaf_key_len leaf_key].
  fold len.
  rewrite (bind_run _ _ s () s).
  2:{ apply assert_run. intros _. unfold mret, M_ret. do 2 f_equal.
      apply Z.geb_le. lia. }
  rewrite (bind_lift _ _ _ _ Hsame).
  rewrite (bind_run _ _ s () s).
  2:{ apply assert_run. intros _. unfold mret, M_ret. do 2 f_equal.
      apply Z.geb_le. lia. }
  rewrite Z.eqb_refl.
  rewrite (bind_run _ _ s () s); [done|].
  apply assert_run. intros _. unfold mret, M_ret.
  do 2 f_equal; try apply Z.eqb_refl.
Qed.

Lemma get_key_split cfg k0 p a t1 v1 b t2 v2 c t junk idx l v :
  (length p ≤ 8)%nat →
  Z.of_nat (length (key_with k0 p c t)) ≤ 255 →
  (∀ n, heap (split_tree k0 p a t1 v1 b t2 v2) !! 2%nat
        = Some (Some (ONode n)) →
        find_child4 2%nat n c (split_tree k0 p a t1 v1 b t2 v2)
        = Ok (Some (ChildRef 2%nat idx), split_tree k0 p a t1 v1 b t2 v2)) →
  load (ChildRef 2%nat idx) (split_tree k0 p a t1 v1 b t2 v2)
  = Ok (LeafP l, split_tree k0 p a t1 v1 b t2 v2) →
  get_leaf (LeafP l) (split_tree k0 p a t1 v1 b t2 v2)
  = Ok ({| leaf_data := v;
           leaf_key_len := Z.of_nat (length (key_with k0 p c t));
           leaf_key := key_with k0 p c t |},
        split_tree k0 p a t1 v1 b t2 v2) →
  get_key cfg (key_with k0 p c t ++ junk)
    (Z.of_nat (length (key_with k0 p c t)))
    (split_tree k0 p a t1 v1 b t2 v2)
  = Ok (Found 3 v, split_tree k0 p a t1 v1 b t2 v2).
Proof.
  intros Hp Hl Hfind Hload Hleaf. unfold get_key.
  rewrite (bind_run _ _ _ _ _ (nsd_find_path_split cfg k0 p a t1 v1 b t2 v2
                                 c t junk idx l v Hp Hl Hfind Hload Hleaf)).
  cbv beta iota.
  set (s := split_tree _ _ _ _ _ _ _ _) in *.
  assert (Htop : path_top
                   (leaf_path
                    ++ [{| level_depth := Z.of_nat (S (length p));
                           level_noderef := ChildRef 2%nat idx |}]) s
                 = Ok (LeafP l, s)).
  { unfold path_top.
    by rewrite (bind_run _ _ s
                  {| level_depth := Z.of_nat (S (length p));
                     level_noderef := ChildRef 2%nat idx |} s). }
  rewrite (bind_run _ _ s () s) by (by apply assert_run).
  rewrite (bind_run _ _ s () s).
  2:{ apply assert_run. intros _. by rewrite (bind_run _ _ _ _ _ Htop). }
  rewrite (bind_run _ _ _ _ _ Htop), (bind_run _ _ _ _ _ Hleaf).
  reflexivity.
Qed.

(** X19.  Two keys that agree on their first 1 to 9 octets and differ in
    the next one, in every build.  [put_key] of the second key into the
    tree that holds the first splits the leaf: a [nsd_node4] takes its
    place under the root, with the common octets but the first as its
    prefix and the two leaves as its children, in the order of the two
    octets that differ.  Both keys are then found by [get_key], each with
    its own payload, by a path of height 3.  In a build with assertions
    the second key must not be shorter than the first. *)
Theorem put_key_split_leaf cfg k0 p a t1 v1 b t2 v2 junk1 junk2 :
  (length p ≤ 8)%nat → a ≠ b →
  Z.of_nat (length (key_with k0 p a t1)) ≤ 255 →
  Z.of_nat (length (key_with k0 p b t2)) ≤ 255 →
  NDEBUG cfg = true
  ∨ (length (key_with k0 p a t1) ≤ length (key_with k0 p b t2))%nat →
  put_key cfg (key_with k0 p b t2 ++ junk2)
    (Z.of_nat (length (key_with k0 p b t2))) v2
    (single_tree (key_with k0 p a t1) v1)
  = Ok (Created 3 v2, split_tree k0 p a t1 v1 b t2 v2)
  ∧ get_key cfg (key_with k0 p a t1 ++ junk1)
      (Z.of_nat (length (key_with k0 p a t1)))
      (split_tree k0 p a t1 v1 b t2 v2)
    = Ok (Found 3 v1, split_tree k0 p a t1 v1 b t2 v2)
  ∧ get_key cfg (key_with k0 p b t2 ++ junk2)
      (Z.of_nat (length (key_with k0 p b t2)))
      (split_tree k0 p a t1 v1 b t2 v2)
    = Ok (Found 3 v2, split_tree k0 p a t1 v1 b t2 v2).
Proof.
  intros Hp Hab Hl1 Hl2 Hdbg.
  assert (Hba : (b =? a) = false) by (apply Z.eqb_neq; congruence).
  assert (Hab' : (a =? b) = false) by (by apply Z.eqb_neq).
  split_and!.
  - unfold put_key.
    rewrite (bind_run _ _ _ _ _ (nsd_make_path_split cfg k0 p a t1 v1 b t2
                                   junk2 Hp Hab Hl1 Hl2 Hdbg)).
    cbv beta iota. unfold split_tree.
    destruct (a <? b);
      (set (s := {| heap := _ |});
       rewrite (bind_run _ _ s () s) by (by apply assert_run);
       rewrite (bind_run _ _ s () s) by (by apply assert_run);
       reflexivity).
  - destruct (a <? b) eqn:Hlt.
    + apply (get_key_split cfg k0 p a t1 v1 b t2 v2 a t1 junk1 0 1%nat v1);
        [done|done| |unfold split_tree; by rewrite Hlt|done].
      intros n [= <-]. unfold find_child4. rewrite Hlt. simpl.
      by rewrite Z.eqb_refl.
    + apply (get_key_split cfg k0 p a t1 v1 b t2 v2 a t1 junk1 1 1%nat v1);
        [done|done| |unfold split_tree; by rewrite Hlt|done].
      intros n [= <-]. unfold find_child4. rewrite Hlt. simpl.
      by rewrite Hba, Z.eqb_refl.
  - destruct (a <? b) eqn:Hlt.
    + apply (get_key_split cfg k0 p a t1 v1 b t2 v2 b t2 junk2 1 3%nat v2);
        [done|done| |unfold split_tree; by rewrite Hlt|done].
      intros n [= <-]. unfold find_child4. rewrite Hlt. simpl.
      by rewrite Hab', Z.eqb_refl.
    + apply (get_key_split cfg k0 p a t1 v1 b t2 v2 b t2 junk2 0 3%nat v2);
        [done|done| |unfold split_tree; by rewrite Hlt|done].
      intros n [= <-]. unfold find_child4. rewrite Hlt. simpl.
      by rewrite Z.eqb_refl.
Qed.

Lemma put_key_split_leaf_witness :
  (length [0x49%Z] ≤ 8)%nat ∧ 0x4a ≠ 0x4b
  ∧ Z.of_nat (length key_hij) ≤ 255 ∧ Z.of_nat (length key_hik) ≤ 255
  ∧ (NDEBUG (build_simd false) = true
     ∨ (length key_hij ≤ length key_hik)%nat)
  ∧ put_key (build_simd false) (key_hik ++ [])
      (Z.of_nat (length key_hik)) 22 (single_tree key_hij 11)
    = Ok (Created 3 22,
          split_tree 0x48 [0x49] 0x4a [0; 0] 11 0x4b [0; 0] 22)
  ∧ get_key (build_simd false) (key_hij ++ [])
      (Z.of_nat (length key_hij))
      (split_tree 0x48 [0x49] 0x4a [0; 0] 11 0x4b [0; 0] 22)
    = Ok (Found 3 11,
          split_tree 0x48 [0x49] 0x4a [0; 0] 11 0x4b [0; 0] 22)
  ∧ get_key (build_simd false) (key_hik ++ [])
      (Z.of_nat (length key_hik))
      (split_tree 0x48 [0x49] 0x4a [0; 0] 11 0x4b [0; 0] 22)
    = Ok (Found 3 22,
          split_tree 0x48 [0x49] 0x4a [0; 0] 11 0x4b [0; 0] 22).
Proof.
  split; [simpl; lia|]. split; [lia|]. split; [simpl; lia|].
  split; [simpl; lia|]. split; [right; simpl; lia|].
  apply (put_key_split_leaf (build_simd false) 0x48 [0x49] 0x4a [0; 0] 11
           0x4b [0; 0] 22 [] []);
    [simpl; lia|lia|simpl; lia|simpl; lia|right; simpl; lia].
Defined.

(** ** A key shorter than the key of a leaf *)

Lemma find_path_loop_Err fuel cfg key key_len depth path s e :
  depth < key_len →
  find_path_step cfg key key_len depth path s = Err e →
  find_path_loop (S fuel) cfg key key_len depth path s = Err e.
Proof.
  intros Hlt E. simpl. rewrite (proj2 (Z.ltb_lt _ _)) by done.
  by rewrite (bind_Err _ _ _ _ E).
Qed.

Lemma make_path_loop_Err fuel cfg key key_len depth path s e :
  depth < key_len →
  make_path_step cfg key key_len depth path s = Err e →
  make_path_loop (S fuel) cfg key key_len depth path s = Err e.
Proof.
  intros Hlt E. simpl. rewrite (proj2 (Z.ltb_lt _ _)) by done.
  by rewrite (bind_Err _ _ _ _ E).
Qed.

(** X20.  In a build with assertions, a key of two or more octets that
    is shorter than the one key of the tree and starts with the same
    octet can be neither looked up nor inserted: both [nsd_find_path] and
    [nsd_make_path] reach the leaf and stop at
    [assert(key_len >= leaf->key_len)]. *)
Theorem shorter_key_fails_assertion cfg key key_len k k0 value :
  NDEBUG cfg = false →
  head key = Some k0 → head k = Some k0 →
  1 < key_len < Z.of_nat (length k) →
  nsd_find_path cfg [] key key_len (single_tree k value) = Err AssertFailed
  ∧ nsd_make_path cfg [] key key_len (single_tree k value)
    = Err AssertFailed.
Proof.
  intros Hd Hhd Hk Hlen.
  pose proof (find_path_step_single_root cfg key key_len k k0 value Hhd Hk)
    as E1.
  pose proof (make_path_step_single_root cfg key key_len k k0 value Hhd Hk)
    as E1'.
  rewrite (single_tree_head _ k0) in * by done.
  set (s := {| heap := _ |}) in *.
  set (leaf := {| leaf_data := value; leaf_key_len := Z.of_nat (length k);
                  leaf_key := k |}).
  assert (Ha : assert cfg (mret (key_len >=? leaf_key_len leaf)) s
               = Err AssertFailed).
  { unfold assert. rewrite Hd. unfold mbind, M_bind, mret, M_ret.
    destruct (Z.geb_spec key_len (leaf_key_len leaf)); [simpl in *; lia|].
    done. }
  split.
  - unfold nsd_find_path.
    rewrite (bind_run _ _ s () s).
    2:{ apply assert_run. intros _. unfold mret, M_ret. do 2 f_equal.
        apply negb_true_iff, Z.eqb_neq. lia. }
    rewrite (bind_run _ _ _ _ _ (enter_path_fresh cfg key_len s ltac:(lia))).
    change 256%nat with (S (S 254)). cbv beta iota.
    rewrite (find_path_loop_step _ cfg key key_len 0 _ _ _ _ ltac:(lia) E1).
    apply find_path_loop_Err; [lia|].
    unfold find_path_step.
    rewrite (bind_run _ _ s
               {| level_depth := 0; level_noderef := ChildRef 0%nat 0 |} s)
      by done.
    rewrite (bind_run _ _ s (LeafP 1%nat) s) by done.
    apply bind_Err. change (nsd_is_leaf (LeafP 1)) with true. cbv iota.
    rewrite (bind_run _ _ s leaf s) by done.
    by apply bind_Err.
  - unfold nsd_make_path.
    rewrite (bind_run _ _ s () s).
    2:{ apply assert_run. intros _. unfold mret, M_ret. do 2 f_equal.
        apply negb_true_iff, Z.eqb_neq. lia. }
    rewrite (bind_run _ _ _ _ _ (enter_path_fresh cfg key_len s ltac:(lia))).
    change 256%nat with (S (S 254)). cbv beta iota.
    rewrite (make_path_loop_step _ cfg key key_len 0 _ _ _ _ ltac:(lia) E1').
    apply make_path_loop_Err; [lia|].
    unfold make_path_step.
    rewrite (bind_run _ _ s
               {| level_depth := 0; level_noderef := ChildRef 0%nat 0 |} s)
      by done.
    apply bind_Err. unfold make_path_node.
    rewrite (bind_run _ _ s
               {| level_depth := 0; level_noderef := ChildRef 0%nat 0 |} s)
      by done.
    rewrite (bind_run _ _ s (LeafP 1%nat) s) by done.
    change (nsd_is_leaf (LeafP 1)) with true. cbv iota.
    rewrite (bind_run _ _ s leaf s) by done.
    by apply bind_Err.
Qed.

Lemma shorter_key_fails_assertion_witness :
  NDEBUG (build_simd false) = false
  ∧ head [0x48; 0x00; 0x00] = Some 0x48
  ∧ head [0x48; 0x49; 0x00; 0x00] = Some 0x48
  ∧ 1 < 3 < Z.of_nat (length [0x48; 0x49; 0x00; 0x00])
  ∧ nsd_find_path (build_simd false) [] [0x48; 0x00; 0x00] 3
      (single_tree [0x48; 0x49; 0x00; 0x00] 11) = Err AssertFailed
  ∧ nsd_make_path (build_simd false) [] [0x48; 0x00; 0x00] 3
      (single_tree [0x48; 0x49; 0x00; 0x00] 11) = Err AssertFailed.
Proof.
  split; [reflexivity|]. split; [reflexivity|]. split; [reflexivity|].
  split; [simpl; lia|].
  apply (shorter_key_fails_assertion (build_simd false) [0x48; 0x00; 0x00] 3
           [0x48; 0x49; 0x00; 0x00] 0x48 11);
    [reflexivity..|simpl; lia].
Defined.

(** ** Two keys that differ in their first octet *)

Lemma find_path_step_top_leaf cfg key key_len depth path s t l v k :
  last path = Some t →
  load (level_noderef t) s = Ok (LeafP l, s) →
  get_leaf (LeafP l) s
  = Ok ({| leaf_data := v; leaf_key_len := key_len; leaf_key := k |}, s) →
  0 ≤ depth ≤ key_len → key_len ≤ 255 →
  key_len ≤ Z.of_nat (length key) → key_len ≤ Z.of_nat (length k) →
  take (Z.to_nat key_len) key = take (Z.to_nat key_len) k →
  find_path_step cfg key key_len depth path s = Ok (Return nsd_ok path, s).
Proof.
  intros Ht Hload Hleaf Hd Hmax Hl1 Hl2 Heq. unfold find_path_step.
  rewrite (bind_run _ _ s t s) by (unfold top; by rewrite Ht).
  rewrite (bind_run _ _ _ _ _ Hload).
  rewrite (bind_run _ _ s (Return nsd_ok path) s); [done|].
  change (nsd_is_leaf (LeafP l)) with true. cbv iota.
  rewrite (bind_run _ _ _ _ _ Hleaf). cbn [leaf_key_len leaf_key].
  rewrite (bind_run _ _ s () s).
  2:{ apply assert_run. intros _. unfold mret, M_ret. do 2 f_equal.
      apply Z.geb_le. lia. }
  rewrite (bind_lift _ _ _ key_len)
    by (apply compare_keys_same; (done || lia)).
  rewrite (bind_run _ _ s () s).
  2:{ apply assert_run. intros _. unfold mret, M_ret. do 2 f_equal.
      apply Z.geb_le. lia. }
  rewrite Z.eqb_refl.
  rewrite (bind_run _ _ s () s); [done|].
  apply assert_run. intros _. unfold mret, M_ret.
  do 2 f_equal; try apply Z.eqb_refl.
Qed.

Lemma get_key_pair cfg a t1 v1 b t2 v2 c t junk idx l v :
  Z.of_nat (length (c :: t)) ≤ 255 →
  (∀ n, heap (pair_tree a t1 v1 b t2 v2) !! 0%nat = Some (Some (ONode n)) →
        find_child4 0%nat n c (pair_tree a t1 v1 b t2 v2)
        = Ok (Some (ChildRef 0%nat idx), pair_tree a t1 v1 b t2 v2)) →
  load (ChildRef 0%nat idx) (pair_tree a t1 v1 b t2 v2)
  = Ok (LeafP l, pair_tree a t1 v1 b t2 v2) →
  get_leaf (LeafP l) (pair_tree a t1 v1 b t2 v2)
  = Ok ({| leaf_data := v; leaf_key_len := Z.of_nat (length (c :: t));
           leaf_key := c :: t |}, pair_tree a t1 v1 b t2 v2) →
  get_key cfg ((c :: t) ++ junk) (Z.of_nat (length (c :: t)))
    (pair_tree a t1 v1 b t2 v2)
  = Ok (Found 2 v, pair_tree a t1 v1 b t2 v2).
Proof.
  intros Hl Hfind Hload Hleaf.
  set (s := pair_tree _ _ _ _ _ _) in *.
  set (path2 := [{| level_depth := 0; level_noderef := RootRef |};
                 {| level_depth := 0; level_noderef := ChildRef 0%nat idx |}]).
  set (n0 := {| type := nsd_node4; width := 2; prefix_len := 0;
                prefix := replicate 8 0;
                keys := if a <? b then [a; b; 0; 0] else [b; a; 0; 0];
                children := if a <? b
                            then [LeafP 1; LeafP 2; Null; Null]
                            else [LeafP 2; LeafP 1; Null; Null] |}).
  specialize (Hfind n0 eq_refl).
  assert (Hlen : 0 < Z.of_nat (length (c :: t))) by (simpl; lia).
  set (key := (c :: t) ++ junk) in *.
  assert (Hkey : Z.of_nat (length (c :: t)) ≤ Z.of_nat (length key))
    by (unfold key; rewrite length_app; lia).
  assert (Htake : take (Z.to_nat (Z.of_nat (length (c :: t)))) key
                  = take (Z.to_nat (Z.of_nat (length (c :: t)))) (c :: t)).
  { unfold key. by rewrite Nat2Z.id, take_app_length, firstn_all. }
  set (len := Z.of_nat (length (c :: t))) in *.
  assert (E1 : find_path_step cfg key len 0
                 [{| level_depth := 0; level_noderef := RootRef |}] s
               = Ok (Continue (1, path2), s)).
  { unfold find_path_step.
    rewrite (bind_run _ _ s
               {| level_depth := 0; level_noderef := RootRef |} s) by done.
    rewrite (bind_run _ _ s (NodeP 0%nat) s) by done.
    rewrite (bind_run _ _ s (Continue 0) s) by done.
    cbv beta iota.
    rewrite (bind_lift _ _ _ c) by done.
    rewrite (bind_run _ _ s (Some (ChildRef 0%nat idx)) s).
    2:{ by erewrite find_child_node4; [|reflexivity..]. }
    reflexivity. }
  assert (Hfp : nsd_find_path cfg [] key len s = Ok ((nsd_ok, path2), s)).
  { unfold nsd_find_path.
    rewrite (bind_run _ _ s () s).
    2:{ apply assert_run. intros _. unfold mret, M_ret.
        do 2 f_equal; try (apply negb_true_iff, Z.eqb_neq; lia). }
    rewrite (bind_run _ _ _ _ _ (enter_path_fresh cfg len s ltac:(lia))).
    change 256%nat with (S (S 254)). cbv beta iota.
    rewrite (find_path_loop_step _ cfg key len 0 _ _ _ _ ltac:(lia) E1).
    destruct (decide (1 < len)) as [Hlt|Hge];
      [|by rewrite find_path_loop_done by lia].
    rewrite (find_path_loop_step _ cfg key len 1 path2 s
               (Return nsd_ok path2) s); [done|done|].
    eapply (find_path_step_top_leaf cfg key len 1 path2 s
              {| level_depth := 0; level_noderef := ChildRef 0%nat idx |});
      [reflexivity|exact Hload|exact Hleaf|lia|lia|lia|lia|exact Htake]. }
  unfold get_key. rewrite (bind_run _ _ _ _ _ Hfp). cbv beta iota.
  assert (Htop : path_top path2 s = Ok (LeafP l, s)).
  { unfold path_top.
    by rewrite (bind_run _ _ s
                  {| level_depth := 0;
                     level_noderef := ChildRef 0%nat idx |} s). }
  rewrite (bind_run _ _ s () s) by (by apply assert_run).
  rewrite (bind_run _ _ s () s).
  2:{ apply assert_run. intros _. by rewrite (bind_run _ _ _ _ _ Htop). }
  rewrite (bind_run _ _ _ _ _ Htop), (bind_run _ _ _ _ _ Hleaf).
  reflexivity.
Qed.

Lemma nsd_make_path_pair cfg a t1 v1 b t2 junk :
  a ≠ b → Z.of_nat (length (b :: t2)) ≤ 255 →
  nsd_make_path cfg [] ((b :: t2) ++ junk) (Z.of_nat (length (b :: t2)))
    (single_tree (a :: t1) v1)
  = Ok ((nsd_ok,
         [{| level_depth := 0; level_noderef := RootRef |};
          {| level_depth := 0;
             level_noderef := ChildRef 0%nat (if a <? b then 1 else 0) |}]),
        pair_tree a t1 v1 b t2 0).
Proof.
  intros Hab Hl.
  rewrite (single_tree_head _ a) by done.
  set (s1 := {| heap := _ |}).
  set (n1 := {| type := nsd_node4; width := 1; prefix_len := 0;
                prefix := replicate 8 0; keys := [a; 0; 0; 0];
                children := [LeafP 1; Null; Null; Null] |}).
  assert (Hlen : 0 < Z.of_nat (length (b :: t2))) by (simpl; lia).
  assert (Hkey : Z.of_nat (length (b :: t2))
                 ≤ Z.of_nat (length ((b :: t2) ++ junk)))
    by (rewrite length_app; lia).
  assert (Htake : take (Z.to_nat (Z.of_nat (length (b :: t2))))
                    ((b :: t2) ++ junk) = b :: t2)
    by (by rewrite Nat2Z.id, take_app_length).
  assert (Hb : aget ((b :: t2) ++ junk) 0 = Ok b) by done.
  set (key := (b :: t2) ++ junk) in *.
  set (len := Z.of_nat (length (b :: t2))) in *.
  assert (E : make_path_step cfg key len 0
                [{| level_depth := 0; level_noderef := RootRef |}] s1
              = Ok (Continue
                      (len,
                       [{| level_depth := 0; level_noderef := RootRef |};
                        {| level_depth := 0;
                           level_noderef :=
                             ChildRef 0%nat (if a <? b then 1 else 0) |}]),
                    pair_tree a t1 v1 b t2 0)).
  { unfold make_path_step.
    rewrite (bind_run _ _ s1
               {| level_depth := 0; level_noderef := RootRef |} s1) by done.
    rewrite (bind_run _ _ s1
               (Continue (0, [{| level_depth := 0;
                                 level_noderef := RootRef |}])) s1) by done.
    cbv beta iota. unfold make_path_child.
    rewrite (bind_run _ _ s1 (NodeP 0%nat) s1) by done.
    rewrite (bind_lift _ _ _ _ Hb).
    rewrite (bind_run _ _ s1 None s1).
    2:{ erewrite find_child_node4; [|reflexivity..].
        unfold find_child4. simpl.
        by rewrite (proj2 (Z.eqb_neq a b)) by done. }
    rewrite (bind_run _ _ _ _ _ (make_leaf_run key len s1 eq_refl
                                   ltac:(lia))).
    rewrite decide_False by done. rewrite Htake.
    change (level_noderef {| level_depth := 0; level_noderef := RootRef |})
      with RootRef.
    match goal with
    | |- (add_child cfg _ b ?c ≫= _) ?s = _ =>
        destruct (add_child4_run cfg RootRef b c s 0%nat n1)
          as (idx & E & Hidx & Hlow & Hhigh); [done..|simpl; lia| |];
        [|rewrite <- (add_child_node4 cfg RootRef 0%nat n1) in E by done]
    end.
    { simpl. intros [->|[]%elem_of_nil]%elem_of_cons. done. }
    rewrite (bind_run _ _ _ _ _ E). unfold pair_tree.
    simpl in Hidx.
    destruct (Z.ltb_spec a b) as [Hlt|Hge].
    - assert (idx = 1%nat) as ->.
      { destruct idx as [|[|idx]]; [|done|lia].
        specialize (Hhigh a ltac:(simpl; lia) eq_refl). lia. }
      reflexivity.
    - assert (idx = 0%nat) as ->.
      { destruct idx as [|[|idx]]; [done| |lia].
        specialize (Hlow 0%nat a ltac:(lia) eq_refl). lia. }
      reflexivity. }
  unfold nsd_make_path.
  rewrite (bind_run _ _ s1 () s1).
  2:{ apply assert_run. intros _. unfold mret, M_ret.
      do 2 f_equal; try (apply negb_true_iff, Z.eqb_neq; lia). }
  rewrite (bind_run _ _ _ _ _ (enter_path_fresh cfg len s1 ltac:(lia))).
  change 256%nat with (S 255). cbv beta iota.
  rewrite (make_path_loop_step _ cfg key len 0 _ _ _ _ ltac:(lia) E).
  by rewrite make_path_loop_done.
Qed.

(** X21.  Two keys that differ in their first octet, in every build.
    [put_key] of the second key into the tree that holds the first adds
    its leaf as a second child of the root, either child in the place of
    its octet, so that the keys of the root stay in ascending order; both
    keys are then found by [get_key], each with its own payload, by a
    path of height 2. *)
Theorem put_key_second_child cfg a t1 v1 b t2 v2 junk1 junk2 :
  a ≠ b →
  Z.of_nat (length (a :: t1)) ≤ 255 → Z.of_nat (length (b :: t2)) ≤ 255 →
  put_key cfg ((b :: t2) ++ junk2) (Z.of_nat (length (b :: t2))) v2
    (single_tree (a :: t1) v1)
  = Ok (Created 2 v2, pair_tree a t1 v1 b t2 v2)
  ∧ get_key cfg ((a :: t1) ++ junk1) (Z.of_nat (length (a :: t1)))
      (pair_tree a t1 v1 b t2 v2)
    = Ok (Found 2 v1, pair_tree a t1 v1 b t2 v2)
  ∧ get_key cfg ((b :: t2) ++ junk2) (Z.of_nat (length (b :: t2)))
      (pair_tree a t1 v1 b t2 v2)
    = Ok (Found 2 v2, pair_tree a t1 v1 b t2 v2)
  ∧ (∀ n, heap (pair_tree a t1 v1 b t2 v2) !! 0%nat = Some (Some (ONode n)) →
          keys_ascending n = true).
Proof.
  intros Hab Hl1 Hl2.
  assert (Hba : (b =? a) = false) by (apply Z.eqb_neq; congruence).
  assert (Hab' : (a =? b) = false) by (by apply Z.eqb_neq).
  split_and!.
  - unfold put_key.
    rewrite (bind_run _ _ _ _ _ (nsd_make_path_pair cfg a t1 v1 b t2 junk2
                                   Hab Hl2)).
    cbv beta iota. unfold pair_tree.
    destruct (a <? b);
      (set (s := {| heap := _ |});
       rewrite (bind_run _ _ s () s) by (by apply assert_run);
       rewrite (bind_run _ _ s () s) by (by apply assert_run);
       reflexivity).
  - destruct (a <? b) eqn:Hlt.
    + apply (get_key_pair cfg a t1 v1 b t2 v2 a t1 junk1 0 1%nat v1);
        [done| |unfold pair_tree; by rewrite Hlt|done].
      intros n [= <-]. unfold find_child4. rewrite Hlt. simpl.
      by rewrite Z.eqb_refl.
    + apply (get_key_pair cfg a t1 v1 b t2 v2 a t1 junk1 1 1%nat v1);
        [done| |unfold pair_tree; by rewrite Hlt|done].
      intros n [= <-]. unfold find_child4. rewrite Hlt. simpl.
      by rewrite Hba, Z.eqb_refl.
  - destruct (a <? b) eqn:Hlt.
    + apply (get_key_pair cfg a t1 v1 b t2 v2 b t2 junk2 1 2%nat v2);
        [done| |unfold pair_tree; by rewrite Hlt|done].
      intros n [= <-]. unfold find_child4. rewrite Hlt. simpl.
      by rewrite Hab', Z.eqb_refl.
    + apply (get_key_pair cfg a t1 v1 b t2 v2 b t2 junk2 0 2%nat v2);
        [done| |unfold pair_tree; by rewrite Hlt|done].
      intros n [= <-]. unfold find_child4. rewrite Hlt. simpl.
      by rewrite Z.eqb_refl.
  - intros n [= <-]. unfold keys_ascending. simpl.
    destruct (Z.ltb_spec a b) as [Hlt|Hge]; simpl.
    + by rewrite (proj2 (Z.ltb_lt a b)).
    + by rewrite (proj2 (Z.ltb_lt b a)) by lia.
Qed.

Lemma put_key_second_child_witness :
  0x4a ≠ 0x49
  ∧ Z.of_nat (length [0x4a; 0; 0]) ≤ 255
  ∧ Z.of_nat (length [0x49; 0; 0]) ≤ 255
  ∧ put_key (build_scalar false) ([0x49; 0; 0] ++ [])
      (Z.of_nat (length [0x49; 0; 0])) 22 (single_tree [0x4a; 0; 0] 11)
    = Ok (Created 2 22, pair_tree 0x4a [0; 0] 11 0x49 [0; 0] 22)
  ∧ get_key (build_scalar false) ([0x4a; 0; 0] ++ [])
      (Z.of_nat (length [0x4a; 0; 0]))
      (pair_tree 0x4a [0; 0] 11 0x49 [0; 0] 22)
    = Ok (Found 2 11, pair_tree 0x4a [0; 0] 11 0x49 [0; 0] 22)
  ∧ get_key (build_scalar false) ([0x49; 0; 0] ++ [])
      (Z.of_nat (length [0x49; 0; 0]))
      (pair_tree 0x4a [0; 0] 11 0x49 [0; 0] 22)
    = Ok (Found 2 22, pair_tree 0x4a [0; 0] 11 0x49 [0; 0] 22)
  ∧ (∀ n, heap (pair_tree 0x4a [0; 0] 11 0x49 [0; 0] 22) !! 0%nat
          = Some (Some (ONode n)) →
          keys_ascending n = true).
Proof.
  split; [lia|]. split; [simpl; lia|]. split; [simpl; lia|].
  apply (put_key_second_child (build_scalar false) 0x4a [0; 0] 11
           0x49 [0; 0] 22 [] []); [lia|simpl; lia|simpl; lia].
Defined.

(** ** add_child16 of a key greater than the keys of the node *)

Lemma add_child16_enter cfg noderef key child s l n :
  load noderef s = Ok (NodeP l, s) →
  heap s !! l = Some (Some (ONode n)) →
  type n = nsd_node16 → 0 ≤ width n < 16 →
  add_child16 cfg noderef key child s
  = (idx ← lift (nsd_v16_findgt_u8 cfg key (keys n) (width n));
     '(idx, n) ←
       (if negb (idx =? 0) then
          assert cfg (mret (idx <? width n));;
          n' ← lift (open_slot n idx);
          mret (idx, n')
        else mret (width n, n));
     n ← lift (fill_slot n idx key child);
     put_node (NodeP l) n;;
     mret (Some (ChildRef l idx))) s.
Proof.
  intros Hld Hn Ht Hw. unfold add_child16.
  rewrite (bind_run _ _ _ _ _ Hld).
  rewrite (bind_run _ _ s () s) by (by apply assert_run).
  rewrite (bind_run _ _ _ _ _ (get_node_as_run _ _ _ _ Hn Ht)).
  cbv beta iota.
  rewrite (proj2 (Z.eqb_neq _ _)) by lia.
  rewrite (bind_run _ _ s () s); [done|].
  apply assert_run. intros _. unfold mret, M_ret.
  by rewrite (proj2 (Z.ltb_lt _ _)) by lia.
Qed.

Lemma find_child_node16 cfg l n key s :
  heap s !! l = Some (Some (ONode n)) → type n = nsd_node16 →
  find_child cfg (NodeP l) key s = find_child16 cfg l n key s.
Proof.
  intros Hn Ht. unfold find_child.
  rewrite (bind_run _ _ s () s) by (by apply assert_run).
  rewrite (bind_run _ _ s n s) by (by apply get_node_Ok).
  by rewrite Ht.
Qed.

(** [find_child16] with the scalar search: the first of the 16 keys. *)
Lemma find_child16_scalar cfg l n key s :
  HAVE_SSE2 cfg = false → length (keys n) = 16%nat →
  find_child16 cfg l n key s
  = Ok (match list_find (λ k, k = key) (keys n) with
        | Some (i, _) => Some (ChildRef l (Z.of_nat i))
        | None => None
        end, s).
Proof.
  intros Hsse Hlen. unfold find_child16, nsd_v16_findeq_u8. rewrite Hsse.
  assert (Hp : ∀ x, (x =? key) = bool_decide (x = key)).
  { intros x. destruct (Z.eqb_spec x key).
    - by rewrite bool_decide_eq_true_2.
    - by rewrite bool_decide_eq_false_2. }
  change (scalar_find (λ x, x =? key) 16 0 (keys n))
    with (scalar_find (λ x, x =? key) 16 (Z.of_nat 0) (keys n)).
  rewrite (scalar_find_first _ (λ x, x = key) Hp 16 0 (keys n)) by lia.
  rewrite drop_0, firstn_all2 by lia.
  destruct (list_find _ _) as [[i x]|]; [|done].
  unfold lift, mbind, M_bind, mret, M_ret.
  rewrite (proj2 (Z.eqb_neq _ 0)) by lia. simpl.
  do 4 f_equal. lia.
Qed.

(** [find_child16] with the SSE2 search: the first of the [width] keys,
    and the slot before it. *)
Lemma find_child16_sse2 cfg l n key s :
  HAVE_SSE2 cfg = true → 0 ≤ width n ≤ 16 → length (keys n) = 16%nat →
  find_child16 cfg l n key s
  = match list_find (λ k, k = key) (take (Z.to_nat (width n)) (keys n)) with
    | Some (O, _) => Ok (None, s)
    | Some (S i, _) => Ok (Some (ChildRef l (Z.of_nat i)), s)
    | None => Err Undefined
    end.
Proof.
  intros Hsse Hw Hlen. unfold find_child16, nsd_v16_findeq_u8. rewrite Hsse.
  rewrite simd_findeq_first by (done || lia).
  rewrite Z.min_l by lia.
  destruct (list_find _ _) as [[[|i] x]|]; [done| |done].
  unfold lift, mbind, M_bind, mret, M_ret.
  rewrite (proj2 (Z.eqb_neq _ 0)) by lia. simpl.
  do 4 f_equal. lia.
Qed.

Lemma list_find_insert_other {A : Type} (P : A → Prop)
    `{!∀ x, Decision (P x)} (a : list A) : ∀ (i : nat) x,
  ¬ P x → (∀ y, a !! i = Some y → ¬ P y) →
  list_find P (<[i := x]> a) = list_find P a.
Proof.
  induction a as [|y a IH]; intros i x Hx Hy; [done|].
  destruct i as [|i]; simpl.
  - rewrite decide_False by done.
    rewrite decide_False; [done|]. by apply Hy.
  - destruct (decide (P y)); [done|]. by rewrite IH.
Qed.

Lemma list_find_insert_first {A : Type} (P : A → Prop)
    `{!∀ x, Decision (P x)} (a : list A) (i : nat) x :
  P x → (i < length a)%nat → Forall (λ y, ¬ P y) (take i a) →
  list_find P (<[i := x]> a) = Some (i, x).
Proof.
  intros Hx Hi Hlow. apply list_find_Some. split_and!.
  - by apply list_lookup_insert_eq.
  - done.
  - intros j y Hj Hji. rewrite list_lookup_insert_ne in Hj by lia.
    eapply Forall_lookup_1 in Hlow; [exact Hlow|].
    by rewrite lookup_take_lt.
Qed.

Lemma inserted_end {A : Type} (a : list A) (w : nat) x :
  (w < length a)%nat → inserted a w w x = <[w := x]> a.
Proof.
  intros Hw. unfold inserted. rewrite Nat.sub_diag, take_0. simpl.
  by rewrite insert_take_drop.
Qed.

Lemma add_child16_scalar_appends_lemma cfg noderef key child s l n :
  HAVE_SSE2 cfg = false →
  load noderef s = Ok (NodeP l, s) →
  heap s !! l = Some (Some (ONode n)) →
  type n = nsd_node16 →
  length (keys n) = 16%nat → length (children n) = 16%nat →
  0 ≤ width n < 16 →
  Forall (λ k, k < key) (take (Z.to_nat (width n)) (keys n)) →
  Forall (λ k, k ≤ key) (drop (Z.to_nat (width n)) (keys n)) →
  ∃ n' s',
    s' = set_heap (<[l := Some (ONode n')]> (heap s)) s
    ∧ add_child16 cfg noderef key child s
      = Ok (Some (ChildRef l (width n)), s')
    ∧ type n' = nsd_node16 ∧ width n' = width n + 1
    ∧ prefix_len n' = prefix_len n ∧ prefix n' = prefix n
    ∧ keys n' = <[Z.to_nat (width n) := key]> (keys n)
    ∧ children n' = <[Z.to_nat (width n) := child]> (children n)
    ∧ (keys_ascending n = true → keys_ascending n' = true)
    ∧ value (find_child cfg (NodeP l) key s')
      = Ok (Some (ChildRef l (width n)))
    ∧ ∀ k, k ≠ key → keys n !! Z.to_nat (width n) ≠ Some k →
        value (find_child cfg (NodeP l) k s')
        = value (find_child cfg (NodeP l) k s).
Proof.
  intros Hsse Hld Hn Ht Hk Hc Hw Hlow Hrest.
  set (w := Z.to_nat (width n)) in *.
  assert (Hfind : nsd_v16_findgt_u8 cfg key (keys n) (width n) = Ok 0).
  { unfold nsd_v16_findgt_u8. rewrite Hsse.
    assert (Hp : ∀ x, (x >? key) = bool_decide (key < x)).
    { intros x. destruct (Z.gtb_spec x key).
      - by rewrite bool_decide_eq_true_2 by lia.
      - by rewrite bool_decide_eq_false_2 by lia. }
    change (scalar_find (λ x, x >? key) 16 0 (keys n))
      with (scalar_find (λ x, x >? key) 16 (Z.of_nat 0) (keys n)).
    rewrite (scalar_find_first _ (λ x, key < x) Hp 16 0 (keys n)) by lia.
    rewrite drop_0, firstn_all2 by lia.
    assert (Hnone : list_find (λ x, key < x) (keys n) = None).
    { apply list_find_None. rewrite <- (take_drop w (keys n)).
      apply Forall_app. split.
      - eapply Forall_impl; [exact Hlow|]. intros x Hx. simpl in *. lia.
      - eapply Forall_impl; [exact Hrest|]. intros x Hx. simpl in *. lia. }
    by rewrite Hnone. }
  set (n' := set_width (width n + 1)
               (set_children (<[w := child]> (children n))
                  (set_keys (<[w := key]> (keys n)) n))).
  assert (Hfill : fill_slot n (width n) key child = Ok n').
  { rewrite fill_slot_end by lia. fold w.
    by rewrite !inserted_end by lia. }
  assert (Hl : (l < length (heap s))%nat) by (by eapply lookup_lt_Some).
  assert (Hn' : heap (set_heap (<[l := Some (ONode n')]> (heap s)) s) !! l
                = Some (Some (ONode n'))).
  { simpl. by apply list_lookup_insert_eq. }
  assert (Hlow' : Forall (λ y, y ≠ key) (take w (keys n))).
  { eapply Forall_impl; [exact Hlow|]. intros x Hx. simpl in *. lia. }
  exists n', (set_heap (<[l := Some (ONode n')]> (heap s)) s).
  split; [done|]. split.
  { rewrite (add_child16_enter cfg noderef key child s l n) by done.
    rewrite (bind_lift _ _ _ _ Hfind). simpl negb. cbv iota.
    rewrite (bind_run _ _ s (width n, n) s) by done.
    cbv beta iota.
    rewrite (bind_lift _ _ _ _ Hfill).
    by rewrite (bind_run _ _ _ _ _ (put_node_run _ _ _ _ Hn)). }
  split_and!; try done.
  - unfold keys_ascending. simpl. fold w. intros Hasc.
    replace (Z.to_nat (width n + 1)) with (S w) by lia.
    rewrite <- (inserted_end (keys n) w key) by lia.
    rewrite take_inserted by lia. rewrite Nat.sub_diag, take_0.
    apply ascending_insert; [by rewrite app_nil_r| |done].
    intros k Hin. eapply Forall_forall in Hlow; [|exact Hin]. done.
  - rewrite (find_child_node16 _ _ _ _ _ Hn') by done.
    rewrite find_child16_scalar
      by (done || (simpl; rewrite length_insert; done)).
    simpl. rewrite list_find_insert_first by (done || lia).
    do 3 f_equal. unfold w. lia.
  - intros k Hne Hstale.
    rewrite (find_child_node16 _ _ _ _ _ Hn') by done.
    rewrite (find_child_node16 _ _ _ _ _ Hn) by done.
    rewrite !find_child16_scalar
      by (done || (simpl; rewrite length_insert; done)).
    simpl. rewrite list_find_insert_other; [done|congruence|].
    intros y Hy ->. by apply Hstale.
Qed.

(** X22.  [add_child16] with the scalar search, on a [nsd_node16] that
    is not full, of a key octet greater than the [width] keys of the node
    and not less than the other octets of the key array: the key and the
    child are put behind the others, at position [width], without any
    allocation, and keys in ascending order stay in ascending order.
    [find_child] then yields the new slot for the key octet.  For every
    other octet it yields what it yielded before, unless the octet is the
    stale one that stood at position [width] of the key array, which the
    search of [find_child16] would have matched. *)
Theorem add_child16_scalar_appends cfg noderef key child s l n :
  HAVE_SSE2 cfg = false →
  load noderef s = Ok (NodeP l, s) →
  heap s !! l = Some (Some (ONode n)) →
  type n = nsd_node16 →
  length (keys n) = 16%nat → length (children n) = 16%nat →
  0 ≤ width n < 16 →
  Forall (λ k, k < key) (take (Z.to_nat (width n)) (keys n)) →
  Forall (λ k, k ≤ key) (drop (Z.to_nat (width n)) (keys n)) →
  ∃ n' s',
    s' = set_heap (<[l := Some (ONode n')]> (heap s)) s
    ∧ add_child16 cfg noderef key child s
      = Ok (Some (ChildRef l (width n)), s')
    ∧ type n' = nsd_node16 ∧ width n' = width n + 1
    ∧ prefix_len n' = prefix_len n ∧ prefix n' = prefix n
    ∧ keys n' = <[Z.to_nat (width n) := key]> (keys n)
    ∧ children n' = <[Z.to_nat (width n) := child]> (children n)
    ∧ (keys_ascending n = true → keys_ascending n' = true)
    ∧ value (find_child cfg (NodeP l) key s')
      = Ok (Some (ChildRef l (width n)))
    ∧ ∀ k, k ≠ key → keys n !! Z.to_nat (width n) ≠ Some k →
        value (find_child cfg (NodeP l) k s')
        = value (find_child cfg (NodeP l) k s).
Proof. apply add_child16_scalar_appends_lemma. Qed.

Lemma add_child16_scalar_appends_witness :
  HAVE_SSE2 (build_scalar false) = false
  ∧ load RootRef (tree_of node16_bcde) = Ok (NodeP 0%nat, tree_of node16_bcde)
  ∧ heap (tree_of node16_bcde) !! 0%nat = Some (Some (ONode node16_bcde))
  ∧ type node16_bcde = nsd_node16
  ∧ length (keys node16_bcde) = 16%nat
  ∧ length (children node16_bcde) = 16%nat
  ∧ 0 ≤ width node16_bcde < 16
  ∧ Forall (λ k, k < 0x4d)
      (take (Z.to_nat (width node16_bcde)) (keys node16_bcde))
  ∧ Forall (λ k, k ≤ 0x4d)
      (drop (Z.to_nat (width node16_bcde)) (keys node16_bcde))
  ∧ ∃ n' s',
      s' = set_heap (<[0%nat := Some (ONode n')]>
                       (heap (tree_of node16_bcde))) (tree_of node16_bcde)
      ∧ add_child16 (build_scalar false) RootRef 0x4d (LeafP 5)
          (tree_of node16_bcde)
        = Ok (Some (ChildRef 0%nat (width node16_bcde)), s')
      ∧ type n' = nsd_node16 ∧ width n' = width node16_bcde + 1
      ∧ prefix_len n' = prefix_len node16_bcde
      ∧ prefix n' = prefix node16_bcde
      ∧ keys n' = <[Z.to_nat (width node16_bcde) := 0x4d]> (keys node16_bcde)
      ∧ children n'
        = <[Z.to_nat (width node16_bcde) := LeafP 5]> (children node16_bcde)
      ∧ (keys_ascending node16_bcde = true → keys_ascending n' = true)
      ∧ value (find_child (build_scalar false) (NodeP 0%nat) 0x4d s')
        = Ok (Some (ChildRef 0%nat (width node16_bcde)))
      ∧ ∀ k, k ≠ 0x4d →
          keys node16_bcde !! Z.to_nat (width node16_bcde) ≠ Some k →
          value (find_child (build_scalar false) (NodeP 0%nat) k s')
          = value (find_child (build_scalar false) (NodeP 0%nat) k
                     (tree_of node16_bcde)).
Proof.
  assert (H1 : Forall (λ k, k < 0x4d)
                 (take (Z.to_nat (width node16_bcde)) (keys node16_bcde)))
    by (simpl; repeat constructor; lia).
  assert (H2 : Forall (λ k, k ≤ 0x4d)
                 (drop (Z.to_nat (width node16_bcde)) (keys node16_bcde)))
    by (simpl; repeat constructor; lia).
  split; [reflexivity|]. split; [reflexivity|]. split; [reflexivity|].
  split; [reflexivity|]. split; [reflexivity|]. split; [reflexivity|].
  split; [simpl; lia|]. split; [exact H1|]. split; [exact H2|].
  apply (add_child16_scalar_appends (build_scalar false) RootRef 0x4d
           (LeafP 5) (tree_of node16_bcde) 0%nat node16_bcde);
    [reflexivity..|simpl; lia|exact H1|exact H2].
Defined.

Lemma add_child16_sse2_undefined_lemma cfg noderef key child s l n :
  HAVE_SSE2 cfg = true →
  load noderef s = Ok (NodeP l, s) →
  heap s !! l = Some (Some (ONode n)) →
  type n = nsd_node16 →
  length (keys n) = 16%nat → 0 ≤ width n < 16 →
  Forall (λ k, i8 k < i8 key) (take (Z.to_nat (width n)) (keys n)) →
  add_child16 cfg noderef key child s = Err Undefined.
Proof.
  intros Hsse Hld Hn Ht Hk Hw Hlow.
  rewrite (add_child16_enter cfg noderef key child s l n) by done.
  apply bind_Err. unfold nsd_v16_findgt_u8. rewrite Hsse.
  rewrite simd_findgt_first by lia.
  rewrite Z.min_l by lia.
  assert (Hnone : list_find (λ x, i8 key ≤ i8 x)
                    (take (Z.to_nat (width n)) (keys n)) = None).
  { apply list_find_None. eapply Forall_impl; [exact Hlow|].
    intros x Hx. simpl in *. lia. }
  by rewrite Hnone.
Qed.

(** X23.  [add_child16] with the SSE2 search, on a [nsd_node16] that is
    not full, of a key octet that is greater, as a signed octet, than
    the [width] keys of the node: the search finds no key that is not
    less, and the position of the new child is the result of
    [__builtin_ctz(0)], which C leaves undefined.  A child for the
    greatest key cannot be added. *)
Theorem add_child16_sse2_undefined cfg noderef key child s l n :
  HAVE_SSE2 cfg = true →
  load noderef s = Ok (NodeP l, s) →
  heap s !! l = Some (Some (ONode n)) →
  type n = nsd_node16 →
  length (keys n) = 16%nat → 0 ≤ width n < 16 →
  Forall (λ k, i8 k < i8 key) (take (Z.to_nat (width n)) (keys n)) →
  add_child16 cfg noderef key child s = Err Undefined.
Proof. apply add_child16_sse2_undefined_lemma. Qed.

Lemma add_child16_sse2_undefined_witness :
  HAVE_SSE2 (build_simd false) = true
  ∧ load RootRef (tree_of node16_bcde) = Ok (NodeP 0%nat, tree_of node16_bcde)
  ∧ heap (tree_of node16_bcde) !! 0%nat = Some (Some (ONode node16_bcde))
  ∧ type node16_bcde = nsd_node16
  ∧ length (keys node16_bcde) = 16%nat
  ∧ 0 ≤ width node16_bcde < 16
  ∧ Forall (λ k, i8 k < i8 0x4d)
      (take (Z.to_nat (width node16_bcde)) (keys node16_bcde))
  ∧ add_child16 (build_simd false) RootRef 0x4d (LeafP 5)
      (tree_of node16_bcde) = Err Undefined.
Proof.
  assert (H1 : Forall (λ k, i8 k < i8 0x4d)
                 (take (Z.to_nat (width node16_bcde)) (keys node16_bcde)))
    by (simpl; repeat constructor; vm_compute; reflexivity).
  split; [reflexivity|]. split; [reflexivity|]. split; [reflexivity|].
  split; [reflexivity|]. split; [reflexivity|]. split; [simpl; lia|].
  split; [exact H1|].
  apply (add_child16_sse2_undefined (build_simd false) RootRef 0x4d
           (LeafP 5) (tree_of node16_bcde) 0%nat node16_bcde);
    [reflexivity..|simpl; lia|exact H1].
Defined.

(** ** The promotion of a full nsd_node4 *)

Lemma copy_header_run dest src :
  0 ≤ prefix_len src ≤ 8 → length (prefix src) = 8%nat →
  prefix dest = replicate 8 0 →
  copy_header dest src
  = Ok (set_prefix (prefix_len src)
          (take (Z.to_nat (prefix_len src)) (prefix src)
           ++ replicate (8 - Z.to_nat (prefix_len src)) 0)
          (set_width (width src) dest)).
Proof.
  intros Hpl Hlen Hd. unfold copy_header, memcpy. rewrite Hd.
  rewrite length_replicate, Hlen.
  assert (Hc : (0 <=? prefix_len src) && (0 <=? 0) && (0 <=? 0)
               && (0 + prefix_len src <=? Z.of_nat 8)
               && (0 + prefix_len src <=? Z.of_nat 8) = true).
  { repeat (apply andb_true_intro; split); apply Z.leb_le; lia. }
  rewrite Hc. simpl. rewrite drop_0.
  change [0; 0; 0; 0; 0; 0; 0; 0] with (replicate 8 0).
  by rewrite drop_replicate, Z.add_0_l.
Qed.

Lemma memcpy_all {A : Type} (dest src : list A) :
  (length src ≤ length dest)%nat →
  memcpy dest 0 src 0 (Z.of_nat (length src))
  = Ok (src ++ drop (length src) dest).
Proof.
  intros Hlen. unfold memcpy.
  assert (Hc : (0 <=? Z.of_nat (length src)) && (0 <=? 0) && (0 <=? 0)
               && (0 + Z.of_nat (length src) <=? Z.of_nat (length dest))
               && (0 + Z.of_nat (length src) <=? Z.of_nat (length src))
               = true).
  { repeat (apply andb_true_intro; split); apply Z.leb_le; lia. }
  rewrite Hc. simpl. by rewrite drop_0, ?Z.add_0_l, !Nat2Z.id, firstn_all.
Qed.

Lemma add_child4_promotes_lemma cfg noderef key child s l n :
  load noderef s = Ok (NodeP l, s) →
  heap s !! l = Some (Some (ONode n)) →
  (∀ i, noderef ≠ ChildRef l i) →
  type n = nsd_node4 → width n = 4 →
  length (keys n) = 4%nat → length (children n) = 4%nat →
  0 ≤ prefix_len n ≤ 8 → length (prefix n) = 8%nat →
  oracle s = [] →
  ∃ s',
    add_child4 cfg noderef key child s = add_child16 cfg noderef key child s'
    ∧ load noderef s' = Ok (NodeP (length (heap s)), s')
    ∧ heap s' !! length (heap s) = Some (Some (ONode (promoted16 n)))
    ∧ heap s' !! l = Some None
    ∧ length (heap s') = S (length (heap s)).
Proof.
  intros Hld Hn Hself Ht Hw Hk Hc Hpl Hp Ho.
  pose proof (lookup_lt_Some _ _ _ Hn) as Hl.
  set (new := length (heap s)).
  set (s1 := set_heap (heap s ++ [Some (ONode (zero_node nsd_node16))]) s).
  set (s2 := set_heap (heap s ++ [Some (ONode (promoted16 n))]) s).
  assert (Ha : alloc_node nsd_node16 s = Ok (NodeP new, s1)).
  { unfold alloc_node, malloc, mbind, M_bind. rewrite Ho. simpl.
    unfold s1, set_oracle, set_heap. simpl. by rewrite Ho. }
  assert (Hput : put_node (NodeP new) (promoted16 n) s1 = Ok ((), s2)).
  { unfold put_node, put_object, s1, s2, new. simpl.
    rewrite lookup_app_r, Nat.sub_diag by done. simpl.
    by rewrite list_insert_last. }
  assert (Hmk : memcpy (replicate (keys_size nsd_node16) 0) 0 (keys n) 0 4
                = Ok (keys n ++ replicate 12 0)).
  { pose proof (memcpy_all (replicate (keys_size nsd_node16) 0) (keys n))
      as Hm.
    rewrite Hk in Hm. apply Hm. simpl. lia. }
  assert (Hmc : memcpy (replicate (children_size nsd_node16) Null) 0
                  (children n) 0 4
                = Ok (children n ++ replicate 12 Null)).
  { pose proof (memcpy_all (replicate (children_size nsd_node16) Null)
                  (children n)) as Hm.
    rewrite Hc in Hm. apply Hm. simpl. lia. }
  assert (Hprefix : ∀ st : ptr → M (option ref),
    (node16 ← alloc_node nsd_node16;
     if decide (node16 = Null) then mret None
     else
       n16 ← get_node node16;
       n16 ← lift (copy_header n16 n);
       k ← lift (memcpy (keys n16) 0 (keys n) 0 4);
       c ← lift (memcpy (children n16) 0 (children n) 0 4);
       put_node node16 (set_children c (set_keys k n16));;
       st node16) s
    = st (NodeP new) s2).
  { intros st. rewrite (bind_run _ _ _ _ _ Ha). rewrite decide_False by done.
    rewrite (bind_run _ _ s1 (zero_node nsd_node16) s1).
    2:{ apply get_node_Ok. split; [|done]. unfold s1, new. simpl.
        by rewrite lookup_app_r, Nat.sub_diag. }
    rewrite (bind_lift _ _ _ _ (copy_header_run (zero_node nsd_node16) n
                                  Hpl Hp eq_refl)).
    cbn [keys children set_prefix set_width zero_node].
    rewrite (bind_lift _ _ _ _ Hmk), (bind_lift _ _ _ _ Hmc).
    by rewrite (bind_run _ _ s1 () s2) by exact Hput. }
  assert (Hn2 : heap s2 !! l = Some (Some (ONode n))).
  { unfold s2. simpl. by rewrite lookup_app_l. }
  assert (Hnew2 : heap s2 !! new = Some (Some (ONode (promoted16 n)))).
  { unfold s2, new. simpl. by rewrite lookup_app_r, Nat.sub_diag. }
  assert (Hinstall : ∃ s',
    (store noderef (NodeP new);; free_node (NodeP l)) s2 = Ok ((), s')
    ∧ load noderef s' = Ok (NodeP new, s')
    ∧ heap s' !! new = Some (Some (ONode (promoted16 n)))
    ∧ heap s' !! l = Some None
    ∧ length (heap s') = S (length (heap s))).
  { destruct noderef as [|l0 i|].
    - eexists. split.
      { rewrite (bind_run _ _ s2 () (set_root (NodeP new) s2)) by done.
        unfold free_node, free, set_root. cbn [heap]. rewrite Hn2.
        reflexivity. }
      simpl. split_and!; [done| | |].
      + rewrite list_lookup_insert_ne by (unfold new; lia). exact Hnew2.
      + apply list_lookup_insert_eq. unfold s2. simpl.
        rewrite length_app. simpl. lia.
      + rewrite length_insert. unfold s2. simpl.
        rewrite length_app. simpl. lia.
    - assert (l0 ≠ l) by (intros ->; by destruct (Hself i)).
      simpl in Hld. run_bind Hld as p0 E1.
      apply lift_Ok in Hld as [Hi _].
      apply get_node_Ok in E1 as [Hp0 _].
      pose proof (lookup_lt_Some _ _ _ Hp0) as Hl0.
      apply aget_Ok in Hi as [Hi0 Hi].
      pose proof (lookup_lt_Some _ _ _ Hi) as Hilt.
      assert (Hp2 : heap s2 !! l0 = Some (Some (ONode p0))).
      { unfold s2. simpl. by rewrite lookup_app_l. }
      assert (Est : store (ChildRef l0 i) (NodeP new) s2
                    = Ok ((), set_heap
                                (<[l0 := Some (ONode (set_children
                                     (<[Z.to_nat i := NodeP new]> (children p0))
                                     p0))]> (heap s2)) s2)).
      { unfold store.
        rewrite (bind_run _ _ s2 p0 s2) by (by apply get_node_Ok).
        unfold aset.
        rewrite (andb_true_intro (conj (proj2 (Z.leb_le 0 i) Hi0)
                   (proj2 (Z.ltb_lt i (Z.of_nat (length (children p0))))
                      ltac:(lia)))).
        rewrite (bind_lift _ _ _ _ eq_refl).
        by rewrite (put_node_run _ _ _ _ Hp2). }
      eexists. split.
      { rewrite (bind_run _ _ _ _ _ Est).
        unfold free_node, free, set_heap. cbn [heap].
        rewrite list_lookup_insert_ne by done. rewrite Hn2. reflexivity. }
      simpl. split_and!.
      + unfold get_node, get_object, mbind, M_bind. simpl.
        rewrite list_lookup_insert_ne by done.
        rewrite list_lookup_insert_eq
          by (unfold s2; simpl; rewrite length_app; lia).
        simpl. unfold lift, aget.
        destruct (Z.ltb_spec i 0); [lia|].
        by rewrite list_lookup_insert_eq.
      + rewrite !list_lookup_insert_ne by (unfold new; lia). exact Hnew2.
      + apply list_lookup_insert_eq. rewrite length_insert. unfold s2. simpl.
        rewrite length_app. simpl. lia.
      + rewrite !length_insert. unfold s2. simpl.
        rewrite length_app. simpl. lia.
    - eexists. split.
      { rewrite (bind_run _ _ s2 () (set_local (NodeP new) s2)) by done.
        unfold free_node, free, set_local. cbn [heap]. rewrite Hn2.
        reflexivity. }
      simpl. split_and!; [done| | |].
      + rewrite list_lookup_insert_ne by (unfold new; lia). exact Hnew2.
      + apply list_lookup_insert_eq. unfold s2. simpl.
        rewrite length_app. simpl. lia.
      + rewrite length_insert. unfold s2. simpl.
        rewrite length_app. simpl. lia. }
  destruct Hinstall as (s' & Hst & Hld' & Hnew' & Hold' & Hlen').
  exists s'. split_and!; try done.
  unfold add_child4.
  rewrite (bind_run _ _ _ _ _ Hld).
  rewrite (bind_run _ _ _ _ _ (get_node_as_run _ _ _ _ Hn Ht)).
  cbv beta iota. rewrite Hw. change (4 =? 4) with true. cbv iota.
  etrans;
    [apply (Hprefix (λ node16, store noderef node16;; free_node (NodeP l);;
                               add_child16 cfg noderef key child))|].
  cbv beta.
  run_bind Hst as [] E1 into s3.
  rewrite (bind_run _ _ _ _ _ E1).
  by rewrite (bind_run _ _ _ _ _ Hst).
Qed.

(** [find_child] on a [nsd_node4] that holds four children. *)
Lemma find_child_full_node4 cfg l n key s :
  heap s !! l = Some (Some (ONode n)) → type n = nsd_node4 →
  width n = 4 → length (keys n) = 4%nat →
  value (find_child cfg (NodeP l) key s)
  = Ok (match list_find (λ k, k = key) (keys n) with
        | Some (i, _) => Some (ChildRef l (Z.of_nat i))
        | None => None
        end).
Proof.
  intros Hn Ht Hw Hk. rewrite (find_child_node4 _ _ _ _ _ Hn Ht).
  unfold find_child4, lift. rewrite Hw. change (Z.to_nat 4) with 4%nat.
  change 0 with (Z.of_nat 0).
  rewrite (find_child4_loop_first 4 l n key 0) by lia.
  rewrite drop_0, firstn_all2 by lia. simpl.
  by destruct (list_find _ _) as [[i x]|].
Qed.

(** [find_child] on the [nsd_node16] that took the place of a
    [nsd_node4] with four children. *)
Lemma find_child_promoted16 cfg l n key s :
  heap s !! l = Some (Some (ONode (promoted16 n))) →
  width n = 4 → length (keys n) = 4%nat →
  value (find_child cfg (NodeP l) key s)
  = if HAVE_SSE2 cfg then
      match list_find (λ k, k = key) (keys n) with
      | Some (O, _) => Ok None
      | Some (S i, _) => Ok (Some (ChildRef l (Z.of_nat i)))
      | None => Err Undefined
      end
    else
      match list_find (λ k, k = key) (keys n) with
      | Some (i, _) => Ok (Some (ChildRef l (Z.of_nat i)))
      | None => if key =? 0x00 then Ok (Some (ChildRef l 4)) else Ok None
      end.
Proof.
  intros Hn Hw Hk. rewrite (find_child_node16 _ _ _ _ _ Hn) by done.
  assert (Hlen : length (keys (promoted16 n)) = 16%nat).
  { simpl. rewrite length_app. simpl. lia. }
  destruct (HAVE_SSE2 cfg) eqn:Hsse.
  - rewrite find_child16_sse2 by (done || (simpl; lia)).
    simpl. rewrite Hw. change (Z.to_nat 4) with 4%nat.
    rewrite take_app_le, firstn_all2 by lia.
    by destruct (list_find _ _) as [[[|i] x]|].
  - rewrite find_child16_scalar by done. simpl.
    destruct (list_find (λ k, k = key) (keys n)) as [[i x]|] eqn:E.
    + by rewrite (list_find_app_l _ _ _ _ _ E).
    + rewrite (list_find_app_r _ _ _ E). rewrite Hk. simpl.
      destruct (Z.eqb_spec key 0) as [->|Hne].
      * by rewrite decide_True.
      * rewrite !decide_False by congruence. done.
Qed.

(** X24.  [add_child4] on a [nsd_node4] that holds four children, when
    the allocation succeeds: the node is replaced, in the place that
    referred to it, by a new [nsd_node16] with the same width, the same
    prefix and the four keys and children in its first four slots, the
    [nsd_node4] is freed, and the child is then added by [add_child16] to
    the new node.  [find_child], which yielded for the [nsd_node4] the slot
    at the position of the key octet, does not yield the same for the new
    node.  With the scalar search an octet that has a child yields the slot
    at the same position, but the octet 0x00 without a child yields slot 4,
    which holds no child.  With the SSE2 search the first key yields
    [NULL], every other key the slot before its own, and an octet without
    a child an undefined result. *)
Theorem add_child4_promotes cfg noderef key child s l n :
  load noderef s = Ok (NodeP l, s) →
  heap s !! l = Some (Some (ONode n)) →
  (∀ i, noderef ≠ ChildRef l i) →
  type n = nsd_node4 → width n = 4 →
  length (keys n) = 4%nat → length (children n) = 4%nat →
  0 ≤ prefix_len n ≤ 8 → length (prefix n) = 8%nat →
  oracle s = [] →
  ∃ s',
    add_child4 cfg noderef key child s = add_child16 cfg noderef key child s'
    ∧ load noderef s' = Ok (NodeP (length (heap s)), s')
    ∧ heap s' !! length (heap s) = Some (Some (ONode (promoted16 n)))
    ∧ heap s' !! l = Some None
    ∧ length (heap s') = S (length (heap s))
    ∧ (∀ k, value (find_child cfg (NodeP l) k s)
            = Ok (match list_find (λ x, x = k) (keys n) with
                  | Some (i, _) => Some (ChildRef l (Z.of_nat i))
                  | None => None
                  end))
    ∧ ∀ k, value (find_child cfg (NodeP (length (heap s))) k s')
           = if HAVE_SSE2 cfg then
               match list_find (λ x, x = k) (keys n) with
               | Some (O, _) => Ok None
               | Some (S i, _) =>
                   Ok (Some (ChildRef (length (heap s)) (Z.of_nat i)))
               | None => Err Undefined
               end
             else
               match list_find (λ x, x = k) (keys n) with
               | Some (i, _) =>
                   Ok (Some (ChildRef (length (heap s)) (Z.of_nat i)))
               | None =>
                   if k =? 0x00 then Ok (Some (ChildRef (length (heap s)) 4))
                   else Ok None
               end.
Proof.
  intros Hld Hn Hne Ht Hw Hk Hc Hpl Hp Ho.
  destruct (add_child4_promotes_lemma cfg noderef key child s l n)
    as (s' & H1 & H2 & H3 & H4 & H5); try done.
  exists s'. split_and!; try done.
  - intros k. by apply find_child_full_node4.
  - intros k. by apply find_child_promoted16.
Qed.

Lemma add_child4_promotes_witness :
  load RootRef (tree_of node4_full) = Ok (NodeP 0%nat, tree_of node4_full)
  ∧ heap (tree_of node4_full) !! 0%nat = Some (Some (ONode node4_full))
  ∧ (∀ i, RootRef ≠ ChildRef 0%nat i)
  ∧ type node4_full = nsd_node4 ∧ width node4_full = 4
  ∧ length (keys node4_full) = 4%nat
  ∧ length (children node4_full) = 4%nat
  ∧ 0 ≤ prefix_len node4_full ≤ 8
  ∧ length (prefix node4_full) = 8%nat
  ∧ oracle (tree_of node4_full) = []
  ∧ ∃ s',
      add_child4 (build_scalar false) RootRef 0x4d (LeafP 5)
        (tree_of node4_full)
      = add_child16 (build_scalar false) RootRef 0x4d (LeafP 5) s'
      ∧ load RootRef s' = Ok (NodeP (length (heap (tree_of node4_full))), s')
      ∧ heap s' !! length (heap (tree_of node4_full))
        = Some (Some (ONode (promoted16 node4_full)))
      ∧ heap s' !! 0%nat = Some None
      ∧ length (heap s') = S (length (heap (tree_of node4_full)))
      ∧ (∀ k, value (find_child (build_scalar false) (NodeP 0%nat) k
                       (tree_of node4_full))
              = Ok (match list_find (λ x, x = k) (keys node4_full) with
                    | Some (i, _) => Some (ChildRef 0%nat (Z.of_nat i))
                    | None => None
                    end))
      ∧ ∀ k, value (find_child (build_scalar false)
                      (NodeP (length (heap (tree_of node4_full)))) k s')
             = if HAVE_SSE2 (build_scalar false) then
                 match list_find (λ x, x = k) (keys node4_full) with
                 | Some (O, _) => Ok None
                 | Some (S i, _) =>
                     Ok (Some (ChildRef (length (heap (tree_of node4_full)))
                                 (Z.of_nat i)))
                 | None => Err Undefined
                 end
               else
                 match list_find (λ x, x = k) (keys node4_full) with
                 | Some (i, _) =>
                     Ok (Some (ChildRef (length (heap (tree_of node4_full)))
                                 (Z.of_nat i)))
                 | None =>
                     if k =? 0x00
                     then Ok (Some (ChildRef
                                      (length (heap (tree_of node4_full))) 4))
                     else Ok None
                 end.
Proof.
  split; [reflexivity|]. split; [reflexivity|]. split; [discriminate|].
  split; [reflexivity|]. split; [reflexivity|]. split; [reflexivity|].
  split; [reflexivity|]. split; [simpl; lia|]. split; [reflexivity|].
  split; [reflexivity|].
  apply (add_child4_promotes (build_scalar false) RootRef 0x4d (LeafP 5)
           (tree_of node4_full) 0%nat node4_full);
    [reflexivity|reflexivity|discriminate|reflexivity..|simpl; lia
    |reflexivity|reflexivity].
Defined.

(** X25.  [add_child], with the scalar search, on a [nsd_node4] that
    holds four children, of a key octet greater than its four keys, when
    the allocation succeeds: the result refers to slot 4 of a new
    [nsd_node16] of width 5, which holds the four keys and children of the
    [nsd_node4] and then the new key and child, and the [nsd_node4] is
    freed.  [find_child] yields slot 4 of the new node for the key octet,
    and for every other octet except 0x00 the slot of the new node at the
    position of the slot that it yielded of the [nsd_node4], or [NULL]
    where it yielded [NULL]. *)
Theorem add_child_full_node4_scalar cfg noderef key child s l n :
  HAVE_SSE2 cfg = false →
  load noderef s = Ok (NodeP l, s) →
  heap s !! l = Some (Some (ONode n)) →
  (∀ i, noderef ≠ ChildRef l i) →
  type n = nsd_node4 → width n = 4 →
  length (keys n) = 4%nat → length (children n) = 4%nat →
  0 ≤ prefix_len n ≤ 8 → length (prefix n) = 8%nat →
  oracle s = [] →
  Forall (λ k, k < key) (keys n) → 0 ≤ key →
  ∃ s' n',
    add_child cfg noderef key child s
    = Ok (Some (ChildRef (length (heap s)) 4), s')
    ∧ heap s' !! length (heap s) = Some (Some (ONode n'))
    ∧ heap s' !! l = Some None
    ∧ length (heap s') = S (length (heap s))
    ∧ type n' = nsd_node16 ∧ width n' = 5
    ∧ prefix_len n' = prefix_len n
    ∧ keys n' = keys n ++ key :: replicate 11 0
    ∧ children n' = children n ++ child :: replicate 11 Null
    ∧ (keys_ascending n = true → keys_ascending n' = true)
    ∧ value (find_child cfg (NodeP (length (heap s))) key s')
      = Ok (Some (ChildRef (length (heap s)) 4))
    ∧ ∀ k, k ≠ key → k ≠ 0x00 →
        value (find_child cfg (NodeP l) k s)
        = Ok (match list_find (λ x, x = k) (keys n) with
              | Some (i, _) => Some (ChildRef l (Z.of_nat i))
              | None => None
              end)
        ∧ value (find_child cfg (NodeP (length (heap s))) k s')
          = Ok (match list_find (λ x, x = k) (keys n) with
                | Some (i, _) =>
                    Some (ChildRef (length (heap s)) (Z.of_nat i))
                | None => None
                end).
Proof.
  intros Hsse Hld Hn Hne Ht Hw Hk Hc Hpl Hp Ho Hlow Hkey.
  destruct (add_child4_promotes_lemma cfg noderef key child s l n)
    as (sp & H1 & H2 & H3 & H4 & H5); try done.
  assert (Hl : l ≠ length (heap s)).
  { intros ->. by rewrite lookup_ge_None_2 in Hn by lia. }
  destruct (add_child16_scalar_appends_lemma cfg noderef key child sp
              (length (heap s)) (promoted16 n))
    as (n' & s' & -> & R & Ht' & Hw' & Hpl' & Hp' & Hkeys & Hch & Hasc
        & Hnew & Hold);
    try done.
  - simpl. rewrite length_app. simpl. lia.
  - simpl. rewrite length_app. simpl. lia.
  - simpl. lia.
  - simpl. rewrite Hw. change (Z.to_nat 4) with 4%nat.
    rewrite take_app_le, firstn_all2 by lia. done.
  - simpl. rewrite Hw. change (Z.to_nat 4) with 4%nat.
    rewrite drop_app_le, drop_ge by lia.
    simpl. repeat constructor; lia.
  - simpl in Hkeys, Hch, Hnew, Hold. rewrite Hw in Hkeys, Hch, Hnew, Hold.
    change (Z.to_nat 4) with 4%nat in Hkeys, Hch, Hold.
    eexists _, n'. split.
    { rewrite (add_child_node4 cfg noderef l n key child s) by done.
      rewrite H1, R. simpl. by rewrite Hw. }
    simpl. split_and!.
    + apply list_lookup_insert_eq. lia.
    + by rewrite list_lookup_insert_ne.
    + rewrite length_insert. done.
    + done.
    + rewrite Hw'. simpl. lia.
    + done.
    + rewrite Hkeys. rewrite insert_app_r_alt by lia.
      by rewrite Hk, Nat.sub_diag.
    + rewrite Hch. rewrite insert_app_r_alt by lia.
      by rewrite Hc, Nat.sub_diag.
    + intros Ha. apply Hasc. revert Ha. unfold keys_ascending, promoted16.
      simpl. rewrite Hw. change (Z.to_nat 4) with 4%nat.
      by rewrite take_app_le, !firstn_all2 by lia.
    + done.
    + intros k Hk1 Hk0. split; [by apply find_child_full_node4|].
      rewrite Hold; [|done|].
      * rewrite (find_child_promoted16 cfg _ n k sp H3 Hw Hk), Hsse.
        destruct (list_find _ _) as [[i x]|]; [done|].
        by destruct (Z.eqb_spec k 0).
      * rewrite lookup_app_r by lia. rewrite Hk. simpl. congruence.
Qed.

Lemma add_child_full_node4_scalar_witness :
  HAVE_SSE2 (build_scalar false) = false
  ∧ load RootRef (tree_of node4_full) = Ok (NodeP 0%nat, tree_of node4_full)
  ∧ heap (tree_of node4_full) !! 0%nat = Some (Some (ONode node4_full))
  ∧ (∀ i, RootRef ≠ ChildRef 0%nat i)
  ∧ type node4_full = nsd_node4 ∧ width node4_full = 4
  ∧ length (keys node4_full) = 4%nat
  ∧ length (children node4_full) = 4%nat
  ∧ 0 ≤ prefix_len node4_full ≤ 8
  ∧ length (prefix node4_full) = 8%nat
  ∧ oracle (tree_of node4_full) = []
  ∧ Forall (λ k, k < 0x4d) (keys node4_full) ∧ 0 ≤ 0x4d
  ∧ ∃ s' n',
      add_child (build_scalar false) RootRef 0x4d (LeafP 5)
        (tree_of node4_full)
      = Ok (Some (ChildRef (length (heap (tree_of node4_full))) 4), s')
      ∧ heap s' !! length (heap (tree_of node4_full))
        = Some (Some (ONode n'))
      ∧ heap s' !! 0%nat = Some None
      ∧ length (heap s') = S (length (heap (tree_of node4_full)))
      ∧ type n' = nsd_node16 ∧ width n' = 5
      ∧ prefix_len n' = prefix_len node4_full
      ∧ keys n' = keys node4_full ++ 0x4d :: replicate 11 0
      ∧ children n' = children node4_full ++ LeafP 5 :: replicate 11 Null
      ∧ (keys_ascending node4_full = true → keys_ascending n' = true)
      ∧ value (find_child (build_scalar false)
                 (NodeP (length (heap (tree_of node4_full)))) 0x4d s')
        = Ok (Some (ChildRef (length (heap (tree_of node4_full))) 4))
      ∧ ∀ k, k ≠ 0x4d → k ≠ 0x00 →
          value (find_child (build_scalar false) (NodeP 0%nat) k
                   (tree_of node4_full))
          = Ok (match list_find (λ x, x = k) (keys node4_full) with
                | Some (i, _) => Some (ChildRef 0%nat (Z.of_nat i))
                | None => None
                end)
          ∧ value (find_child (build_scalar false)
                     (NodeP (length (heap (tree_of node4_full)))) k s')
            = Ok (match list_find (λ x, x = k) (keys node4_full) with
                  | Some (i, _) =>
                      Some (ChildRef (length (heap (tree_of node4_full)))
                              (Z.of_nat i))
                  | None => None
                  end).
Proof.
  assert (H1 : Forall (λ k, k < 0x4d) (keys node4_full))
    by (simpl; repeat constructor; lia).
  split; [reflexivity|]. split; [reflexivity|]. split; [reflexivity|].
  split; [discriminate|].
  split; [reflexivity|]. split; [reflexivity|]. split; [reflexivity|].
  split; [reflexivity|]. split; [simpl; lia|]. split; [reflexivity|].
  split; [reflexivity|]. split; [exact H1|]. split; [lia|].
  apply (add_child_full_node4_scalar (build_scalar false) RootRef 0x4d
           (LeafP 5) (tree_of node4_full) 0%nat node4_full);
    [reflexivity|reflexivity|reflexivity|discriminate|reflexivity..
    |simpl; lia|reflexivity|reflexivity|exact H1|lia].
Defined.

(** X26.  [add_child], with the SSE2 search, on a [nsd_node4] that holds
    four children, of a key octet greater, as a signed octet, than its
    four keys, when the allocation succeeds: after the promotion to a
    [nsd_node16] the position of the new child is the result of
    [__builtin_ctz(0)], which C leaves undefined. *)
Theorem add_child_full_node4_sse2 cfg noderef key child s l n :
  HAVE_SSE2 cfg = true →
  load noderef s = Ok (NodeP l, s) →
  heap s !! l = Some (Some (ONode n)) →
  (∀ i, noderef ≠ ChildRef l i) →
  type n = nsd_node4 → width n = 4 →
  length (keys n) = 4%nat → length (children n) = 4%nat →
  0 ≤ prefix_len n ≤ 8 → length (prefix n) = 8%nat →
  oracle s = [] →
  Forall (λ k, i8 k < i8 key) (keys n) →
  add_child cfg noderef key child s = Err Undefined.
Proof.
  intros Hsse Hld Hn Hne Ht Hw Hk Hc Hpl Hp Ho Hlow.
  destruct (add_child4_promotes_lemma cfg noderef key child s l n)
    as (s' & H1 & H2 & H3 & H4 & H5); try done.
  rewrite (add_child_node4 cfg noderef l n key child s) by done.
  rewrite H1.
  apply (add_child16_sse2_undefined_lemma cfg noderef key child s'
           (length (heap s)) (promoted16 n)); try done.
  - simpl. rewrite length_app. simpl. lia.
  - simpl. lia.
  - simpl. rewrite Hw. change (Z.to_nat 4) with 4%nat.
    rewrite take_app_le, firstn_all2 by lia. done.
Qed.

Lemma add_child_full_node4_sse2_witness :
  HAVE_SSE2 (build_simd false) = true
  ∧ load RootRef (tree_of node4_full) = Ok (NodeP 0%nat, tree_of node4_full)
  ∧ heap (tree_of node4_full) !! 0%nat = Some (Some (ONode node4_full))
  ∧ (∀ i, RootRef ≠ ChildRef 0%nat i)
  ∧ type node4_full = nsd_node4 ∧ width node4_full = 4
  ∧ length (keys node4_full) = 4%nat
  ∧ length (children node4_full) = 4%nat
  ∧ 0 ≤ prefix_len node4_full ≤ 8
  ∧ length (prefix node4_full) = 8%nat
  ∧ oracle (tree_of node4_full) = []
  ∧ Forall (λ k, i8 k < i8 0x4d) (keys node4_full)
  ∧ add_child (build_simd false) RootRef 0x4d (LeafP 5)
      (tree_of node4_full) = Err Undefined.
Proof.
  assert (H1 : Forall (λ k, i8 k < i8 0x4d) (keys node4_full))
    by (simpl; repeat constructor; vm_compute; reflexivity).
  split; [reflexivity|]. split; [reflexivity|]. split; [reflexivity|].
  split; [discriminate|].
  split; [reflexivity|]. split; [reflexivity|]. split; [reflexivity|].
  split; [reflexivity|]. split; [simpl; lia|]. split; [reflexivity|].
  split; [reflexivity|]. split; [exact H1|].
  apply (add_child_full_node4_sse2 (build_simd false) RootRef 0x4d
           (LeafP 5) (tree_of node4_full) 0%nat node4_full);
    [reflexivity|reflexivity|reflexivity|discriminate|reflexivity..
    |simpl; lia|reflexivity|reflexivity|exact H1].
Defined.

(** ** dname.c: the text of a name *)

Lemma res_bind_Ok {A B : Type} (a : A) (f : A → res B) : (Ok a ≫= f) = f a.
Proof. reflexivity. Qed.

Lemma cstr_at name i :
  Forall is_octet name → 0 ≤ i ≤ Z.of_nat (length name) →
  ∃ c, aget (cstr name) i = Ok c ∧ is_octet c
       ∧ (c ≠ 0 → i < Z.of_nat (length name)).
Proof.
  intros Ho Hi. unfold aget, cstr.
  destruct (Z.ltb_spec i 0); [lia|].
  destruct (decide (i = Z.of_nat (length name))) as [->|Hne].
  - rewrite Nat2Z.id, lookup_app_r, Nat.sub_diag by lia. simpl.
    exists 0. split_and!; [done|unfold is_octet; lia|done].
  - destruct (lookup_lt_is_Some_2 name (Z.to_nat i)) as [c Hc]; [lia|].
    rewrite lookup_app_l by lia. rewrite Hc. exists c.
    split_and!; [done| |lia].
    eapply Forall_lookup_1; eauto.
Qed.

Lemma aset_in {A : Type} (a : list A) i x :
  0 ≤ i < Z.of_nat (length a) → aset a i x = Ok (<[Z.to_nat i := x]> a).
Proof.
  intros Hi. unfold aset.
  destruct (Z.leb_spec 0 i); [|lia].
  by destruct (Z.ltb_spec i (Z.of_nat (length a))); [|lia].
Qed.

Lemma insert_split {A : Type} (a : list A) (i : nat) x :
  (i < length a)%nat → <[i := x]> a = take i a ++ x :: drop (S i) a.
Proof.
  intros Hi. rewrite <- (take_drop i a) at 1.
  rewrite insert_app_r_alt by (rewrite length_take; lia).
  rewrite length_take, Nat.min_l, Nat.sub_diag by lia.
  destruct (drop i a) as [|y r] eqn:Hd.
  { apply (f_equal length) in Hd. rewrite length_drop in Hd. simpl in Hd. lia. }
  simpl. do 2 f_equal.
  change r with (drop 1 (y :: r)). rewrite <- Hd, drop_drop. f_equal. lia.
Qed.

Lemma wire_labels_app ls l :
  wire_labels (ls ++ [l]) = wire_labels ls ++ Z.of_nat (length l) :: l.
Proof.
  unfold wire_labels. rewrite map_app, concat_app. simpl.
  by rewrite app_nil_r.
Qed.

Lemma hexdigit_to_int_digit c :
  isdigit c = true → hexdigit_to_int c = Ok (c - 0x30).
Proof.
  unfold isdigit. intros [H1%Z.leb_le H2%Z.leb_le]%andb_true_iff.
  assert (c = 0x30 ∨ c = 0x31 ∨ c = 0x32 ∨ c = 0x33 ∨ c = 0x34 ∨ c = 0x35
          ∨ c = 0x36 ∨ c = 0x37 ∨ c = 0x38 ∨ c = 0x39) as Hc by lia.
  repeat (destruct Hc as [->|Hc]; [reflexivity|]). by subst.
Qed.

Lemma isdigit_nonzero c : isdigit c = true → c ≠ 0.
Proof.
  unfold isdigit. intros [H1%Z.leb_le H2%Z.leb_le]%andb_true_iff. lia.
Qed.

(** The label between [h] and [p] is closed by its length octet. *)
Lemma close_label d ls (p : nat) :
  Forall is_octet d →
  take (length (wire_labels ls)) d = wire_labels ls →
  (length (wire_labels ls) + 1 < p ≤ length d)%nat →
  (p - length (wire_labels ls) - 1 ≤ 63)%nat →
  ∃ l, valid_label l
       ∧ take p (<[length (wire_labels ls)
                   := Z.of_nat (p - length (wire_labels ls) - 1)]> d)
         = wire_labels (ls ++ [l])
       ∧ length (wire_labels (ls ++ [l])) = p.
Proof.
  intros Ho Ht Hp Hl. remember (length (wire_labels ls)) as H eqn:HH.
  exists (take (p - H - 1) (drop (S H) d)).
  assert (Hlen : length (take (p - H - 1) (drop (S H) d)) = (p - H - 1)%nat).
  { rewrite length_take, length_drop. lia. }
  split_and!.
  - split; [lia|]. by apply Forall_take, Forall_drop.
  - rewrite wire_labels_app, Hlen. clear Hlen.
    rewrite insert_split by lia. rewrite Ht.
    rewrite take_app_ge by lia. rewrite <- HH. f_equal.
    remember (p - H - 1)%nat as k eqn:Hk.
    replace (p - H)%nat with (S k) by lia. done.
  - rewrite wire_labels_app, length_app. simpl. rewrite Hlen. lia.
Qed.

Lemma parsed_zero dname d :
  length d = length dname → Forall is_octet d → parsed dname (0, d).
Proof. intros Hl Ho. split_and!; [done|done|by left]. Qed.

Lemma parsed_ext dname d r :
  length d = length dname → parsed d r → parsed dname r.
Proof. intros Hl (H1 & H2 & H3). split_and!; [congruence|done|done]. Qed.

Lemma is_octet_insert d (i : nat) x :
  Forall is_octet d → is_octet x → Forall is_octet (<[i := x]> d).
Proof.
  intros Hd Hx. destruct (decide (i < length d)%nat).
  - by apply Forall_insert.
  - by rewrite list_insert_ge by lia.
Qed.

Lemma parse_end_valid h p d ls :
  Forall is_octet d → (255 ≤ length d)%nat → Forall valid_label ls →
  h = Z.of_nat (length (wire_labels ls)) →
  take (length (wire_labels ls)) d = wire_labels ls →
  h < p ≤ 255 →
  ∃ r, parse_end h p d = Ok r ∧ parsed d r.
Proof.
  intros Ho Hd Hv -> Ht Hp. unfold parse_end, parse_root, MAXDOMAINLEN,
    MAXLABELLEN.
  set (H := length (wire_labels ls)) in *.
  destruct (Z.eqb_spec p (Z.of_nat H + 1)) as [->|Hne]; simpl negb; cbv iota.
  - destruct (Z.geb_spec (Z.of_nat H) 255); [lia|].
    rewrite aset_in by lia. rewrite res_bind_Ok, Nat2Z.id.
    eexists. split; [done|]. split_and!; simpl.
    + by rewrite length_insert.
    + apply is_octet_insert; [done|]. unfold is_octet; lia.
    + right. exists ls. split_and!.
      * split; [done|]. unfold wire_name. rewrite length_app. simpl. lia.
      * rewrite insert_split by lia. rewrite Ht. unfold wire_name.
        by apply prefix_app, prefix_cons, prefix_nil.
      * left. unfold wire_name. rewrite length_app. simpl. lia.
  - destruct (Z.gtb_spec (p - Z.of_nat H - 1) 63).
    { eexists. split; [done|]. by apply parsed_zero. }
    rewrite aset_in by lia. rewrite res_bind_Ok, Nat2Z.id.
    assert (Hu : u8 (p - Z.of_nat H - 1) = Z.of_nat (Z.to_nat p - H - 1)).
    { unfold u8. rewrite Z.mod_small by lia. lia. }
    rewrite Hu.
    destruct (Z.geb_spec p 255).
    { eexists. split; [done|]. apply parsed_zero.
      - by rewrite length_insert.
      - apply is_octet_insert; [done|]. unfold is_octet; lia. }
    destruct (close_label d ls (Z.to_nat p)) as (l & Hl & Hw & Hlen);
      [done|done|lia|lia|]. fold H in Hw.
    rewrite aset_in by (rewrite length_insert; lia).
    rewrite res_bind_Ok.
    eexists. split; [done|]. split_and!; simpl.
    + by rewrite !length_insert.
    + apply is_octet_insert; [|unfold is_octet; lia].
      apply is_octet_insert; [done|]. unfold is_octet; lia.
    + right. exists (ls ++ [l]). split_and!.
      * split; [apply Forall_app; split; [done|by constructor]|].
        unfold wire_name. rewrite length_app, Hlen. simpl. lia.
      * rewrite insert_split by (rewrite length_insert; lia).
        rewrite Hw. unfold wire_name.
        by apply prefix_app, prefix_cons, prefix_nil.
      * right. split; [by destruct ls|]. rewrite Hlen. lia.
Qed.

Lemma parse_escape_Ok name s p d :
  Forall is_octet name → 0 ≤ s < Z.of_nat (length name) →
  0 ≤ p < Z.of_nat (length d) →
  ∃ s' d', parse_escape name s p d = Ok (s', d')
           ∧ s ≤ s' < Z.of_nat (length name)
           ∧ (d' = d ∨ ∃ x, is_octet x ∧ d' = <[Z.to_nat p := x]> d).
Proof.
  intros Ho Hs Hp. unfold parse_escape, escape_digits.
  destruct (cstr_at name (s + 1) Ho) as (c1 & E1 & O1 & L1); [lia|].
  rewrite E1, !res_bind_Ok.
  assert (Hplain : ∃ s' d',
    (if negb (c1 =? 0) then d0 ← aset d p c1; Ok (s + 1, d0) else Ok (s, d))
    = Ok (s', d')
    ∧ s ≤ s' < Z.of_nat (length name)
    ∧ (d' = d ∨ ∃ x, is_octet x ∧ d' = <[Z.to_nat p := x]> d)).
  { destruct (Z.eqb_spec c1 0); simpl negb; cbv iota.
    - eexists _, _. split; [done|]. split; [lia|by left].
    - rewrite aset_in by lia. rewrite res_bind_Ok.
      eexists _, _. split; [done|]. split; [lia|]. right. eauto. }
  destruct (isdigit c1) eqn:D1; [|by rewrite ?res_bind_Ok].
  pose proof (isdigit_nonzero _ D1) as N1.
  destruct (cstr_at name (s + 2) Ho) as (c2 & E2 & O2 & L2); [lia|].
  rewrite E2, !res_bind_Ok.
  destruct (isdigit c2) eqn:D2; [|by rewrite ?res_bind_Ok].
  pose proof (isdigit_nonzero _ D2) as N2.
  destruct (cstr_at name (s + 3) Ho) as (c3 & E3 & O3 & L3); [lia|].
  rewrite E3, !res_bind_Ok.
  destruct (isdigit c3) eqn:D3; [|by rewrite ?res_bind_Ok].
  pose proof (isdigit_nonzero _ D3) as N3.
  rewrite ?res_bind_Ok, (hexdigit_to_int_digit _ D1).
  rewrite ?res_bind_Ok, (hexdigit_to_int_digit _ D2).
  rewrite ?res_bind_Ok, (hexdigit_to_int_digit _ D3), ?res_bind_Ok.
  cbv zeta.
  destruct ((0 <=? _) && (_ <=? 255)).
  - rewrite aset_in by lia. rewrite res_bind_Ok.
    eexists _, _. split; [done|]. split; [lia|]. right.
    eexists. split; [|done]. unfold u8, is_octet. apply Z.mod_pos_bound. lia.
  - rewrite ?res_bind_Ok. rewrite aset_in by lia. rewrite res_bind_Ok.
    eexists _, _. split; [done|]. split; [lia|]. right. eauto.
Qed.

Lemma take_insert_after {A : Type} (d : list A) (n i : nat) x :
  (n ≤ i)%nat → take n (<[i := x]> d) = take n d.
Proof. intros Hi. by rewrite take_insert_ge by lia. Qed.

Lemma parse_loop_valid fuel : ∀ name s h p d ls,
  Forall is_octet name → Forall is_octet d → (255 ≤ length d)%nat →
  0 ≤ s ≤ Z.of_nat (length name) →
  Z.of_nat (length name) - s < Z.of_nat fuel →
  Forall valid_label ls →
  h = Z.of_nat (length (wire_labels ls)) →
  take (length (wire_labels ls)) d = wire_labels ls →
  h < p ≤ 255 →
  ∃ r, parse_loop fuel name s h p d = Ok r ∧ parsed d r.
Proof.
  induction fuel as [|fuel IH]; intros name s h p d ls Hn Ho Hd Hs Hf Hv Hh
    Ht Hp; [lia|].
  cbn [parse_loop]. unfold MAXDOMAINLEN, MAXLABELLEN.
  destruct (cstr_at name s Hn) as (c & E & Oc & Lc); [lia|].
  rewrite E, res_bind_Ok.
  destruct (Z.eqb_spec c 0) as [->|Hc0].
  { by eapply parse_end_valid. }
  specialize (Lc Hc0).
  destruct (Z.geb_spec p 255).
  { eexists. split; [done|]. by apply parsed_zero. }
  destruct (Z.eqb_spec c 0x2e) as [->|Hdot].
  { destruct (Z.eqb_spec p (h + 1)).
    { eexists. split; [done|]. by apply parsed_zero. }
    destruct (Z.gtb_spec (p - h - 1) 63).
    { eexists. split; [done|]. by apply parsed_zero. }
    subst h. set (W := length (wire_labels ls)) in *.
    rewrite aset_in by lia. rewrite res_bind_Ok, Nat2Z.id.
    assert (Hu : u8 (p - Z.of_nat W - 1) = Z.of_nat (Z.to_nat p - W - 1)).
    { unfold u8. rewrite Z.mod_small by lia. lia. }
    rewrite Hu.
    destruct (close_label d ls (Z.to_nat p)) as (l & Hl & Hw & Hlen);
      [done|done|lia|lia|]. fold W in Hw.
    destruct (IH name (s + 1) p (p + 1)
                (<[W := Z.of_nat (Z.to_nat p - W - 1)]> d) (ls ++ [l]))
      as (r & Hr & Hpr); try done.
    - apply is_octet_insert; [done|]. unfold is_octet; lia.
    - by rewrite length_insert.
    - lia.
    - lia.
    - apply Forall_app; split; [done|by constructor].
    - rewrite Hlen. lia.
    - by rewrite Hlen.
    - lia.
    - exists r. split; [done|]. eapply parsed_ext; [|exact Hpr].
      by rewrite length_insert. }
  assert (Hstep : ∀ s' d',
    s ≤ s' < Z.of_nat (length name) →
    (d' = d ∨ ∃ x, is_octet x ∧ d' = <[Z.to_nat p := x]> d) →
    ∃ r, parse_loop fuel name (s' + 1) h (p + 1) d' = Ok r ∧ parsed d r).
  { intros s' d' Hs' Hd'.
    assert (Hd2 : length d' = length d ∧ Forall is_octet d'
                  ∧ take (length (wire_labels ls)) d' = wire_labels ls).
    { destruct Hd' as [->|(x & Hx & ->)]; [done|].
      split_and!; [by rewrite length_insert|by apply is_octet_insert|].
      rewrite take_insert_after by lia. done. }
    destruct Hd2 as (Hl2 & Ho2 & Ht2).
    destruct (IH name (s' + 1) h (p + 1) d' ls) as (r & Hr & Hpr);
      try done; try lia.
    exists r. split; [done|]. by eapply parsed_ext. }
  destruct (Z.eqb_spec c 0x5c) as [->|Hesc].
  - destruct (parse_escape_Ok name s p d) as (s' & d' & Hpe & Hs' & Hd');
      [done|lia|lia|].
    rewrite Hpe, res_bind_Ok. by apply Hstep.
  - rewrite aset_in by lia. rewrite res_bind_Ok.
    apply Hstep; [lia|]. right. eauto.
Qed.

Lemma dname_parse_wire_parsed name dname :
  Forall is_octet name → Forall is_octet dname → (255 ≤ length dname)%nat →
  ∃ r, dname_parse_wire dname name = Ok r ∧ parsed dname r.
Proof.
  intros Hn Ho Hd. unfold dname_parse_wire, is_dot.
  destruct (cstr_at name 0 Hn) as (c0 & E0 & O0 & L0); [lia|].
  rewrite E0, res_bind_Ok.
  assert (Hloop : ∃ r, parse_loop (S (length name)) name 0 0 1 dname = Ok r
                       ∧ parsed dname r).
  { apply (parse_loop_valid _ name 0 0 1 dname []); try done; try lia. }
  destruct (Z.eqb_spec c0 0x2e) as [->|Hc0]; [|by rewrite res_bind_Ok].
  destruct (cstr_at name 1 Hn) as (c1 & E1 & O1 & L1); [lia|].
  rewrite E1, !res_bind_Ok.
  destruct (Z.eqb_spec c1 0); [|done].
  rewrite aset_in by lia. rewrite res_bind_Ok.
  eexists. split; [done|]. split_and!; simpl.
  - by rewrite length_insert.
  - apply is_octet_insert; [done|]. unfold is_octet; lia.
  - right. exists []. split_and!.
    + split; [done|]. simpl. lia.
    + destruct dname; [simpl in Hd; lia|]. simpl.
      by apply prefix_cons, prefix_nil.
    + by left.
Qed.

(** X27.  [dname_parse_wire], for any text and a buffer of at least 255
    octets: it reads nothing behind the terminator of the text, writes
    nothing outside the buffer and never reaches the [abort()] of
    [hexdigit_to_int].  Its result is at most 255, and when it is not 0 the
    buffer starts with the wire format of a valid name (labels of 1 to 63
    octets, at most 255 octets with the root label) and the result is the
    length of that name, with or without its root label. *)
Theorem dname_parse_wire_valid name dname :
  Forall is_octet name → Forall is_octet dname → (255 ≤ length dname)%nat →
  ∃ n buf,
    dname_parse_wire dname name = Ok (n, buf)
    ∧ length buf = length dname ∧ 0 ≤ n ≤ 255
    ∧ (n = 0
       ∨ ∃ ls, valid_wire_name ls ∧ wire_name ls `prefix_of` buf
               ∧ (n = Z.of_nat (length (wire_name ls))
                  ∨ (ls ≠ [] ∧ n = Z.of_nat (length (wire_labels ls))))).
Proof.
  intros Hn Ho Hd.
  destruct (dname_parse_wire_parsed name dname Hn Ho Hd)
    as ([n buf] & Hr & Hl & _ & Hp).
  exists n, buf. simpl in *. split_and!; [done|done| | |done].
  - destruct Hp as [->|(ls & _ & _ & [->| [_ ->]])]; lia.
  - destruct Hp as [->|(ls & [_ Hlen] & _ & [->| [_ ->]])]; [lia|lia|].
    unfold wire_name in Hlen. rewrite length_app in Hlen. lia.
Qed.

Lemma dname_parse_wire_valid_witness :
  Forall is_octet text_fOo ∧ Forall is_octet name_buffer
  ∧ (255 ≤ length name_buffer)%nat
  ∧ ∃ n buf,
      dname_parse_wire name_buffer text_fOo = Ok (n, buf)
      ∧ length buf = length name_buffer ∧ 0 ≤ n ≤ 255
      ∧ (n = 0
         ∨ ∃ ls, valid_wire_name ls ∧ wire_name ls `prefix_of` buf
                 ∧ (n = Z.of_nat (length (wire_name ls))
                    ∨ (ls ≠ [] ∧ n = Z.of_nat (length (wire_labels ls))))).
Proof.
  assert (H1 : Forall is_octet text_fOo)
    by (repeat constructor; unfold is_octet; lia).
  assert (H2 : Forall is_octet name_buffer)
    by (apply Forall_replicate; unfold is_octet; lia).
  assert (H3 : (255 ≤ length name_buffer)%nat) by (simpl; lia).
  split; [exact H1|]. split; [exact H2|]. split; [exact H3|].
  exact (dname_parse_wire_valid text_fOo name_buffer H1 H2 H3).
Defined.

(** X28.  The two steps of [main] for one argument: when
    [dname_parse_wire] accepts a text, [nsd_make_key] accepts the buffer
    that it filled.  The key is the key of the labels of the name at the
    start of the buffer, and its length is the length of that name in wire
    format, root label included, whichever of the two lengths
    [dname_parse_wire] returned. *)
Theorem dname_parse_wire_nsd_make_key name dname key0 n buf :
  Forall is_octet name → Forall is_octet dname → (255 ≤ length dname)%nat →
  length key0 = 255%nat →
  dname_parse_wire dname name = Ok (n, buf) → n ≠ 0 →
  ∃ ls kbuf,
    valid_wire_name ls ∧ wire_name ls `prefix_of` buf
    ∧ (n = Z.of_nat (length (wire_name ls))
       ∨ n + 1 = Z.of_nat (length (wire_name ls)))
    ∧ nsd_make_key key0 buf = Ok (Z.of_nat (length (wire_name ls)), kbuf)
    ∧ key_bytes (Z.of_nat (length (wire_name ls)), kbuf) = key_of ls.
Proof.
  intros Hn Ho Hd Hk Hr Hn0.
  destruct (dname_parse_wire_parsed name dname Hn Ho Hd)
    as (r & Hr' & _ & _ & Hp).
  rewrite Hr in Hr'. injection Hr' as <-. simpl in Hp.
  destruct Hp as [->|(ls & Hv & [rest Hb] & Hlen)]; [done|].
  pose proof (valid_wire_name_length ls Hv) as [Hl Hw].
  assert (Hwn : Z.of_nat (length (wire_name ls))
                = Z.of_nat (length (wire_labels ls)) + 1).
  { unfold wire_name. rewrite length_app. simpl. lia. }
  exists ls. eexists. split_and!; [done|by exists rest| | |].
  - destruct Hlen as [->|[_ ->]]; [by left|right; lia].
  - rewrite Hwn, Hb. unfold wire_name. rewrite <- app_assoc. simpl.
    by apply nsd_make_key_accepts.
  - unfold key_bytes. simpl. rewrite Hwn.
    rewrite take_app_length'; [done|].
    unfold key_of. rewrite length_app, length_key_labels. simpl. lia.
Qed.

Lemma dname_parse_wire_nsd_make_key_witness :
  Forall is_octet text_fOo ∧ Forall is_octet name_buffer
  ∧ (255 ≤ length name_buffer)%nat ∧ length blank_key = 255%nat
  ∧ dname_parse_wire name_buffer text_fOo = Ok (4, wire_fOo) ∧ 4 ≠ 0
  ∧ ∃ ls kbuf,
      valid_wire_name ls ∧ wire_name ls `prefix_of` wire_fOo
      ∧ (4 = Z.of_nat (length (wire_name ls))
         ∨ 4 + 1 = Z.of_nat (length (wire_name ls)))
      ∧ nsd_make_key blank_key wire_fOo
        = Ok (Z.of_nat (length (wire_name ls)), kbuf)
      ∧ key_bytes (Z.of_nat (length (wire_name ls)), kbuf) = key_of ls.
Proof.
  assert (H1 : Forall is_octet text_fOo)
    by (repeat constructor; unfold is_octet; lia).
  assert (H2 : Forall is_octet name_buffer)
    by (apply Forall_replicate; unfold is_octet; lia).
  assert (H3 : (255 ≤ length name_buffer)%nat) by (simpl; lia).
  assert (H4 : length blank_key = 255%nat) by reflexivity.
  assert (H5 : dname_parse_wire name_buffer text_fOo = Ok (4, wire_fOo))
    by (vm_compute; reflexivity).
  assert (H6 : 4 ≠ 0) by lia.
  split; [exact H1|]. split; [exact H2|]. split; [exact H3|].
  split; [exact H4|]. split; [exact H5|]. split; [exact H6|].
  exact (dname_parse_wire_nsd_make_key text_fOo name_buffer blank_key 4
           wire_fOo H1 H2 H3 H4 H5 H6).
Defined.

(** *** Texts without escapes *)

Lemma dots_cons l ls : dots (l :: ls) = l ++ 0x2e :: dots ls.
Proof. unfold dots. simpl. by rewrite <- app_assoc. Qed.

Lemma dots_app ls l : dots (ls ++ [l]) = dots ls ++ l ++ [0x2e].
Proof. unfold dots. rewrite map_app, concat_app. simpl. by rewrite app_nil_r. Qed.

Lemma length_dots ls : length (dots ls) = length (wire_labels ls).
Proof.
  induction ls as [|l ls IH]; [done|].
  rewrite dots_cons, wire_labels_cons, !length_app. simpl.
  rewrite length_app, IH. lia.
Qed.

Lemma cstr_app_at pre x post :
  aget (cstr (pre ++ x :: post)) (Z.of_nat (length pre)) = Ok x.
Proof. unfold cstr. rewrite <- app_assoc. simpl. apply aget_app. Qed.

Lemma cstr_end name : aget (cstr name) (Z.of_nat (length name)) = Ok 0.
Proof. unfold cstr. apply aget_app. Qed.

(** A turn of the loop for an octet that is copied. *)
Lemma parse_loop_plain fuel pre x post h done j junk :
  plain x → (length done < 255)%nat →
  parse_loop (S fuel) (pre ++ x :: post) (Z.of_nat (length pre)) h
    (Z.of_nat (length done)) (done ++ j :: junk)
  = parse_loop fuel (pre ++ x :: post) (Z.of_nat (length pre + 1)) h
      (Z.of_nat (length done + 1)) (done ++ x :: junk).
Proof.
  intros (Hx & Hdot & Hesc) Hp. cbn [parse_loop].
  rewrite cstr_app_at, res_bind_Ok. unfold MAXDOMAINLEN.
  destruct (Z.eqb_spec x 0); [lia|].
  destruct (Z.geb_spec (Z.of_nat (length done)) 255); [lia|].
  destruct (Z.eqb_spec x 0x2e); [done|].
  destruct (Z.eqb_spec x 0x5c); [done|].
  rewrite aset_app, res_bind_Ok. f_equal; lia.
Qed.

(** A turn of the loop when the buffer is full. *)
Lemma parse_loop_overflow fuel pre x post h p d :
  x ≠ 0 → 255 ≤ p →
  parse_loop (S fuel) (pre ++ x :: post) (Z.of_nat (length pre)) h p d
  = Ok (0, d).
Proof.
  intros Hx Hp. cbn [parse_loop].
  rewrite cstr_app_at, res_bind_Ok. unfold MAXDOMAINLEN.
  destruct (Z.eqb_spec x 0); [lia|].
  by destruct (Z.geb_spec p 255); [|lia].
Qed.

(** The octets of a label are copied behind the octets [done]. *)
Lemma parse_loop_chars l : ∀ fuel pre post h done junk,
  Forall plain l → (length done + length l ≤ 255)%nat →
  (length l ≤ length junk)%nat →
  parse_loop (length l + fuel) (pre ++ l ++ post) (Z.of_nat (length pre)) h
    (Z.of_nat (length done)) (done ++ junk)
  = parse_loop fuel (pre ++ l ++ post) (Z.of_nat (length pre + length l)) h
      (Z.of_nat (length done + length l)) (done ++ l ++ drop (length l) junk).
Proof.
  induction l as [|x l IH]; intros fuel pre post h done junk Hl Hp Hj.
  { simpl. by rewrite !Nat.add_0_r. }
  apply Forall_cons in Hl as [Hx Hl]. simpl in Hp, Hj.
  destruct junk as [|j junk]; [simpl in Hj; lia|]. simpl in Hj.
  change (length (x :: l) + fuel)%nat with (S (length l + fuel)).
  change ((x :: l) ++ post) with (x :: l ++ post).
  rewrite parse_loop_plain by (done || lia).
  replace (pre ++ x :: l ++ post) with ((pre ++ [x]) ++ l ++ post)
    by (by rewrite <- app_assoc).
  replace (done ++ x :: junk) with ((done ++ [x]) ++ junk)
    by (by rewrite <- app_assoc).
  replace (length pre + 1)%nat with (length (pre ++ [x]))
    by (rewrite length_app; simpl; lia).
  replace (length done + 1)%nat with (length (done ++ [x]))
    by (rewrite length_app; simpl; lia).
  rewrite IH; [|done|rewrite length_app; simpl; lia|lia].
  rewrite !length_app. simpl. rewrite <- !app_assoc. simpl.
  f_equal; f_equal; lia.
Qed.

(** The octets of a label that does not fit into the buffer. *)
Lemma parse_loop_chars_overflow l : ∀ fuel pre post h done junk,
  Forall plain l → (length done ≤ 255 < length done + length l)%nat →
  (255 ≤ length (done ++ junk))%nat →
  ∃ buf,
    parse_loop (length l + fuel) (pre ++ l ++ post) (Z.of_nat (length pre)) h
      (Z.of_nat (length done)) (done ++ junk) = Ok (0, buf).
Proof.
  induction l as [|x l IH]; intros fuel pre post h done junk Hl Hp Hj.
  { simpl in Hp. lia. }
  apply Forall_cons in Hl as [Hx Hl]. simpl in Hp.
  change (length (x :: l) + fuel)%nat with (S (length l + fuel)).
  change ((x :: l) ++ post) with (x :: l ++ post).
  destruct (decide (length done = 255%nat)) as [He|Hne].
  { eexists. apply parse_loop_overflow; [destruct Hx; lia|lia]. }
  destruct junk as [|j junk].
  { rewrite app_nil_r in Hj. lia. }
  rewrite parse_loop_plain by (done || lia).
  replace (pre ++ x :: l ++ post) with ((pre ++ [x]) ++ l ++ post)
    by (by rewrite <- app_assoc).
  replace (done ++ x :: junk) with ((done ++ [x]) ++ junk)
    by (by rewrite <- app_assoc).
  replace (length pre + 1)%nat with (length (pre ++ [x]))
    by (rewrite length_app; simpl; lia).
  replace (length done + 1)%nat with (length (done ++ [x]))
    by (rewrite length_app; simpl; lia).
  apply IH; [done|rewrite length_app; simpl; lia|].
  rewrite !length_app in *. simpl in *. lia.
Qed.

(** A turn of the loop for the dot behind the label [cur]. *)
Lemma parse_loop_dot fuel pre post done j cur junk :
  (1 ≤ length cur ≤ 63)%nat → (length done + 1 + length cur < 255)%nat →
  parse_loop (S fuel) (pre ++ 0x2e :: post) (Z.of_nat (length pre))
    (Z.of_nat (length done)) (Z.of_nat (length done + 1 + length cur))
    (done ++ j :: cur ++ junk)
  = parse_loop fuel (pre ++ 0x2e :: post) (Z.of_nat (length pre + 1))
      (Z.of_nat (length done + 1 + length cur))
      (Z.of_nat (length done + 1 + length cur + 1))
      (done ++ Z.of_nat (length cur) :: cur ++ junk).
Proof.
  intros Hc Hp. cbn [parse_loop].
  rewrite cstr_app_at, res_bind_Ok. unfold MAXDOMAINLEN, MAXLABELLEN.
  change (0x2e =? 0) with false. cbv iota.
  destruct (Z.geb_spec (Z.of_nat (length done + 1 + length cur)) 255);
    [lia|].
  change (0x2e =? 0x2e) with true. cbv iota.
  destruct (Z.eqb_spec (Z.of_nat (length done + 1 + length cur))
              (Z.of_nat (length done) + 1)); [lia|].
  replace (Z.of_nat (length done + 1 + length cur) - Z.of_nat (length done)
           - 1) with (Z.of_nat (length cur)) by lia.
  destruct (Z.gtb_spec (Z.of_nat (length cur)) 63); [lia|].
  unfold u8. rewrite Z.mod_small by lia.
  rewrite aset_app, res_bind_Ok. f_equal; lia.
Qed.

(** A label and the dot behind it. *)
Lemma parse_loop_label fuel pre l post done junk :
  Forall plain l → (1 ≤ length l ≤ 63)%nat →
  (length done + 1 + length l < 255)%nat →
  (1 + length l ≤ length junk)%nat →
  parse_loop (S (length l) + fuel) (pre ++ (l ++ [0x2e]) ++ post)
    (Z.of_nat (length pre)) (Z.of_nat (length done))
    (Z.of_nat (length done + 1)) (done ++ junk)
  = parse_loop fuel (pre ++ (l ++ [0x2e]) ++ post)
      (Z.of_nat (length pre + length (l ++ [0x2e])))
      (Z.of_nat (length done + (1 + length l)))
      (Z.of_nat (length done + (1 + length l) + 1))
      (done ++ (Z.of_nat (length l) :: l) ++ drop (1 + length l) junk).
Proof.
  intros Hl Hlen Hp Hj.
  destruct junk as [|j junk]; [simpl in Hj; lia|]. simpl in Hj.
  replace (S (length l) + fuel)%nat with (length l + S fuel)%nat by lia.
  replace (pre ++ (l ++ [0x2e]) ++ post) with (pre ++ l ++ 0x2e :: post)
    by (by rewrite <- app_assoc).
  replace (done ++ j :: junk) with ((done ++ [j]) ++ junk)
    by (by rewrite <- app_assoc).
  replace (length done + 1)%nat with (length (done ++ [j]))
    by (rewrite length_app; simpl; lia).
  rewrite parse_loop_chars; [|done|rewrite length_app; simpl; lia|lia].
  rewrite (app_assoc pre l). rewrite <- (app_assoc done [j]). cbn [app].
  replace (length pre + length l)%nat with (length (pre ++ l))
    by (by rewrite length_app).
  replace (length (done ++ [j]) + length l)%nat
    with (length done + 1 + length l)%nat
    by (rewrite length_app; simpl; lia).
  rewrite parse_loop_dot by lia.
  rewrite !length_app. simpl. f_equal; lia.
Qed.

(** The labels of a text, each with its dot. *)
Lemma parse_loop_labels ls : ∀ fuel pre post done junk,
  Forall (Forall plain) ls → Forall (λ l, 1 ≤ length l ≤ 63)%nat ls →
  (length done + length (wire_labels ls) < 255)%nat →
  (length (wire_labels ls) ≤ length junk)%nat →
  parse_loop (length (dots ls) + fuel) (pre ++ dots ls ++ post)
    (Z.of_nat (length pre)) (Z.of_nat (length done))
    (Z.of_nat (length done + 1)) (done ++ junk)
  = parse_loop fuel (pre ++ dots ls ++ post)
      (Z.of_nat (length pre + length (dots ls)))
      (Z.of_nat (length done + length (wire_labels ls)))
      (Z.of_nat (length done + length (wire_labels ls) + 1))
      (done ++ wire_labels ls ++ drop (length (wire_labels ls)) junk).
Proof.
  induction ls as [|l ls IH]; intros fuel pre post done junk Hpl Hlen Hp Hj.
  { simpl. by rewrite !Nat.add_0_r. }
  apply Forall_cons in Hpl as [Hl Hpl]. apply Forall_cons in Hlen as [Hn Hlen].
  rewrite wire_labels_cons in *. cbn [length] in Hp, Hj.
  rewrite length_app in Hp, Hj.
  rewrite dots_cons.
  replace (l ++ 0x2e :: dots ls) with ((l ++ [0x2e]) ++ dots ls)
    by (by rewrite <- app_assoc).
  rewrite length_app. rewrite length_app. simpl length.
  replace (length l + 1 + length (dots ls) + fuel)%nat
    with (S (length l) + (length (dots ls) + fuel))%nat by lia.
  rewrite <- (app_assoc (l ++ [0x2e])).
  rewrite parse_loop_label by (done || lia).
  rewrite (app_assoc pre (l ++ [0x2e])), (app_assoc done).
  replace (length pre + length (l ++ [0x2e%Z]))%nat
    with (length (pre ++ l ++ [0x2e])) by (by rewrite !length_app).
  replace (length done + (1 + length l))%nat
    with (length (done ++ Z.of_nat (length l) :: l))
    by (rewrite !length_app; simpl; lia).
  rewrite IH; [|done|done| |].
  - rewrite !length_app, drop_drop. simpl. rewrite <- !app_assoc. simpl.
    f_equal; f_equal; lia.
  - rewrite length_app. simpl. lia.
  - rewrite length_drop. lia.
Qed.

(** The end of the text behind a dot. *)
Lemma parse_loop_end_root fuel name s h p done j junk :
  aget (cstr name) s = Ok 0 → h = Z.of_nat (length done) → p = h + 1 →
  (length done < 255)%nat →
  parse_loop (S fuel) name s h p (done ++ j :: junk)
  = Ok (p, done ++ 0 :: junk).
Proof.
  intros E -> -> Hd. cbn [parse_loop]. rewrite E, res_bind_Ok.
  change (0 =? 0) with true. cbv iota.
  unfold parse_end, parse_root, MAXDOMAINLEN.
  rewrite Z.eqb_refl. simpl negb. cbv iota.
  destruct (Z.geb_spec (Z.of_nat (length done)) 255); [lia|].
  by rewrite aset_app, res_bind_Ok.
Qed.

(** The end of the text behind the label [cur]. *)
Lemma parse_loop_end_label fuel name s h p done j cur j2 junk :
  aget (cstr name) s = Ok 0 → h = Z.of_nat (length done) →
  p = h + 1 + Z.of_nat (length cur) → (1 ≤ length cur ≤ 63)%nat → p < 255 →
  parse_loop (S fuel) name s h p (done ++ j :: cur ++ j2 :: junk)
  = Ok (p, done ++ Z.of_nat (length cur) :: cur ++ 0 :: junk).
Proof.
  intros E -> -> Hc Hp. cbn [parse_loop]. rewrite E, res_bind_Ok.
  change (0 =? 0) with true. cbv iota.
  unfold parse_end, parse_root, MAXDOMAINLEN, MAXLABELLEN.
  destruct (Z.eqb_spec (Z.of_nat (length done) + 1 + Z.of_nat (length cur))
              (Z.of_nat (length done) + 1)); [lia|].
  simpl negb. cbv iota.
  replace (Z.of_nat (length done) + 1 + Z.of_nat (length cur)
           - Z.of_nat (length done) - 1) with (Z.of_nat (length cur)) by lia.
  destruct (Z.gtb_spec (Z.of_nat (length cur)) 63); [lia|].
  unfold u8. rewrite Z.mod_small by lia.
  rewrite aset_app, res_bind_Ok.
  destruct (Z.geb_spec (Z.of_nat (length done) + 1 + Z.of_nat (length cur))
              255); [lia|].
  replace (done ++ Z.of_nat (length cur) :: cur ++ j2 :: junk)
    with ((done ++ Z.of_nat (length cur) :: cur) ++ j2 :: junk)
    by (by rewrite <- app_assoc).
  replace (Z.of_nat (length done) + 1 + Z.of_nat (length cur))
    with (Z.of_nat (length (done ++ Z.of_nat (length cur) :: cur)))
    by (rewrite length_app; simpl; lia).
  rewrite aset_app, res_bind_Ok. by rewrite <- app_assoc.
Qed.

Lemma drop_cons_lt {A : Type} (a : list A) (n : nat) :
  (n < length a)%nat → ∃ x, drop n a = x :: drop (S n) a.
Proof.
  intros Hn. destruct (lookup_lt_is_Some_2 a n Hn) as [x Hx].
  exists x. by apply drop_S.
Qed.

Lemma is_dot_plain x rest : plain x → is_dot (x :: rest) = Ok false.
Proof.
  intros (_ & Hx & _). unfold is_dot, cstr. simpl.
  by destruct (Z.eqb_spec x 0x2e).
Qed.

Lemma text_of_head dot ls l :
  Forall (Forall plain) (ls ++ [l]) → Forall (λ l, l ≠ []) (ls ++ [l]) →
  ∃ x rest, text_of dot ls l = x :: rest ∧ plain x.
Proof.
  intros Hp Hn. unfold text_of. destruct ls as [|l0 ls]; simpl in Hp, Hn;
    apply Forall_cons in Hp as [Hp _]; apply Forall_cons in Hn as [Hn _].
  - destruct l as [|x l]; [done|].
    apply Forall_cons in Hp as [Hx _]. simpl. eauto.
  - destruct l0 as [|x l0]; [done|].
    apply Forall_cons in Hp as [Hx _]. rewrite dots_cons. simpl. eauto.
Qed.

Lemma valid_label_length ls :
  Forall valid_label ls → Forall (λ l, 1 ≤ length l ≤ 63)%nat ls.
Proof. intros H. eapply Forall_impl; [exact H|]. by intros l [? _]. Qed.

Lemma valid_label_nonempty ls :
  Forall valid_label ls → Forall (λ l, l ≠ []) ls.
Proof.
  intros H. eapply Forall_impl; [exact H|].
  intros l [Hl _] ->. simpl in Hl. lia.
Qed.

(** The text [dots ls ++ l ++ post], read up to the end of [l]. *)
Lemma parse_loop_text ls l fuel post dname :
  Forall (Forall plain) (ls ++ [l]) → Forall valid_label ls →
  (length (wire_labels ls) + 1 + length l ≤ 255)%nat →
  (255 ≤ length dname)%nat →
  ∃ j,
    parse_loop (length (dots ls) + (length l + fuel)) (dots ls ++ l ++ post)
      0 0 1 dname
    = parse_loop fuel (dots ls ++ l ++ post)
        (Z.of_nat (length (dots ls) + length l))
        (Z.of_nat (length (wire_labels ls)))
        (Z.of_nat (length (wire_labels ls) + 1 + length l))
        (wire_labels ls ++ j :: l
         ++ drop (length (wire_labels ls) + 1 + length l) dname).
Proof.
  intros [Hpl Hl]%Forall_app Hv Hfit Hd.
  apply Forall_cons in Hl as [Hl _].
  pose proof (parse_loop_labels ls (length l + fuel) [] (l ++ post) []
                dname Hpl (valid_label_length _ Hv)) as E.
  cbn [app length Nat.add] in E.
  change (Z.of_nat 0) with 0 in E. change (Z.of_nat 1) with 1 in E.
  rewrite E by lia. clear E.
  destruct (drop_cons_lt dname (length (wire_labels ls))) as [j Hj]; [lia|].
  exists j. rewrite Hj.
  pose proof (parse_loop_chars l fuel (dots ls) post
                (Z.of_nat (length (wire_labels ls)))
                (wire_labels ls ++ [j])
                (drop (S (length (wire_labels ls))) dname) Hl) as E.
  rewrite <- app_assoc in E. cbn [app] in E.
  rewrite length_app in E. cbn [length] in E.
  rewrite E; [|lia|rewrite length_drop; lia]. clear E.
  rewrite drop_drop, <- app_assoc. cbn [app]. f_equal. do 4 f_equal. lia.
Qed.

Lemma dname_parse_wire_text_lemma dot ls l dname :
  Forall (Forall plain) (ls ++ [l]) → valid_wire_name (ls ++ [l]) →
  (255 ≤ length dname)%nat →
  dname_parse_wire dname (text_of dot ls l)
  = Ok (Z.of_nat (length (wire_labels (ls ++ [l]))) + (if dot then 1 else 0),
        wire_name (ls ++ [l]) ++ drop (length (wire_name (ls ++ [l]))) dname).
Proof.
  intros Hpl [Hv Hlen] Hd.
  destruct (text_of_head dot ls l Hpl (valid_label_nonempty _ Hv))
    as (x & rest & Htext & Hx).
  unfold dname_parse_wire. rewrite Htext at 1.
  rewrite (is_dot_plain x rest Hx), res_bind_Ok. cbv iota. clear Htext Hx.
  apply Forall_app in Hv as [Hv Hl]. apply Forall_cons in Hl as [[Hl _] _].
  unfold wire_name in *. rewrite wire_labels_app in *.
  rewrite !length_app in Hlen. simpl in Hlen.
  set (W := length (wire_labels ls)) in *.
  unfold text_of. set (post := if dot then [0x2e] else []).
  replace (S (length (dots ls ++ l ++ post)))
    with (length (dots ls) + (length l + S (length post)))%nat
    by (rewrite !length_app; lia).
  destruct (parse_loop_text ls l (S (length post)) post dname) as [j E];
    [done|done|lia|done|].
  rewrite E. clear E. fold W.
  destruct (drop_cons_lt dname (W + 1 + length l)) as [j2 Hj2]; [lia|].
  rewrite Hj2.
  assert (HL : length (wire_labels ls ++ Z.of_nat (length l) :: l)
               = (W + 1 + length l)%nat).
  { rewrite length_app. simpl. fold W. lia. }
  assert (HL2 : length ((wire_labels ls ++ Z.of_nat (length l) :: l) ++ [0])
                = S (W + 1 + length l)).
  { rewrite length_app, HL. simpl. lia. }
  rewrite HL, HL2. clear HL2.
  destruct dot; subst post.
  - rewrite (app_assoc (dots ls) l).
    replace (length (dots ls) + length l)%nat with (length (dots ls ++ l))
      by (by rewrite length_app).
    unfold W. cbn [length].
    rewrite (parse_loop_dot 1 (dots ls ++ l) [] (wire_labels ls) j l) by lia.
    fold W.
    replace (wire_labels ls ++ Z.of_nat (length l) :: l
             ++ j2 :: drop (S (W + 1 + length l)) dname)
      with ((wire_labels ls ++ Z.of_nat (length l) :: l)
            ++ j2 :: drop (S (W + 1 + length l)) dname)
      by (by rewrite <- app_assoc).
    rewrite (parse_loop_end_root 0 _ _ _ _
               (wire_labels ls ++ Z.of_nat (length l) :: l)).
    + rewrite <- (app_assoc _ [0]). cbn [app]. do 2 f_equal. lia.
    + replace (Z.of_nat (length (dots ls ++ l) + 1))
        with (Z.of_nat (length ((dots ls ++ l) ++ [0x2e])))
        by (rewrite (length_app _ [0x2e]); done).
      apply cstr_end.
    + rewrite HL. lia.
    + lia.
    + rewrite HL. lia.
  - cbn [length].
    rewrite (parse_loop_end_label 0 _ _ _ _ (wire_labels ls) j l).
    + rewrite <- !app_assoc. cbn [app]. do 2 f_equal. lia.
    + replace (Z.of_nat (length (dots ls) + length l))
        with (Z.of_nat (length (dots ls ++ l ++ [])))
        by (rewrite !length_app; simpl; f_equal; lia).
      apply cstr_end.
    + done.
    + fold W. lia.
    + lia.
    + lia.
Qed.

(** *** Texts that are not accepted *)

(** A dot behind no label, behind a label of more than 63 octets, or where
    the buffer is full. *)
Lemma parse_loop_dot_reject fuel pre post h p d :
  255 ≤ p ∨ 63 < p - h - 1 ∨ p = h + 1 →
  parse_loop (S fuel) (pre ++ 0x2e :: post) (Z.of_nat (length pre)) h p d
  = Ok (0, d).
Proof.
  intros Hp. cbn [parse_loop].
  rewrite cstr_app_at, res_bind_Ok. unfold MAXDOMAINLEN, MAXLABELLEN.
  change (0x2e =? 0) with false. cbv iota.
  destruct (Z.geb_spec p 255); [done|].
  change (0x2e =? 0x2e) with true. cbv iota.
  destruct (Z.eqb_spec p (h + 1)); [done|].
  by destruct (Z.gtb_spec (p - h - 1) 63); [|lia].
Qed.

(** The end of the text behind a label of more than 63 octets, or where the
    buffer is full. *)
Lemma parse_loop_end_reject fuel name s h p d :
  aget (cstr name) s = Ok 0 → 0 ≤ h < Z.of_nat (length d) → h + 1 < p →
  63 < p - h - 1 ∨ 255 ≤ p →
  ∃ buf, parse_loop (S fuel) name s h p d = Ok (0, buf).
Proof.
  intros E Hh Hp Hr. cbn [parse_loop]. rewrite E, res_bind_Ok.
  change (0 =? 0) with true. cbv iota.
  unfold parse_end, parse_root, MAXDOMAINLEN, MAXLABELLEN.
  destruct (Z.eqb_spec p (h + 1)); [lia|]. simpl negb. cbv iota.
  destruct (Z.gtb_spec (p - h - 1) 63); [by eexists|].
  rewrite aset_in by lia. rewrite res_bind_Ok.
  destruct (Z.geb_spec p 255); [by eexists|lia].
Qed.

Lemma parse_loop_labels_reject ls : ∀ fuel pre post done junk,
  Forall (Forall plain) ls →
  ¬ (Forall (λ l, 1 ≤ length l ≤ 63)%nat ls
     ∧ (length done + length (wire_labels ls) < 255)%nat) →
  (length done < 255)%nat → (255 ≤ length (done ++ junk))%nat →
  ∃ buf,
    parse_loop (length (dots ls) + fuel) (pre ++ dots ls ++ post)
      (Z.of_nat (length pre)) (Z.of_nat (length done))
      (Z.of_nat (length done + 1)) (done ++ junk) = Ok (0, buf).
Proof.
  induction ls as [|l ls IH]; intros fuel pre post done junk Hpl Hbad Hd Hj.
  { destruct Hbad. split; [done|]. simpl. lia. }
  apply Forall_cons in Hpl as [Hl Hpl].
  rewrite length_app in Hj.
  rewrite wire_labels_cons in Hbad. cbn [length] in Hbad.
  rewrite length_app in Hbad.
  rewrite dots_cons.
  destruct (decide ((1 ≤ length l ≤ 63)%nat
                    ∧ (length done + 1 + length l < 255)%nat)) as [[Hn Hp]|Hno].
  - replace (l ++ 0x2e :: dots ls) with ((l ++ [0x2e]) ++ dots ls)
      by (by rewrite <- app_assoc).
    rewrite length_app. rewrite length_app. cbn [length].
    replace (length l + 1 + length (dots ls) + fuel)%nat
      with (S (length l) + (length (dots ls) + fuel))%nat by lia.
    rewrite <- (app_assoc (l ++ [0x2e])).
    rewrite parse_loop_label by (done || lia).
    rewrite (app_assoc pre (l ++ [0x2e])), (app_assoc done).
    replace (length pre + length (l ++ [0x2e%Z]))%nat
      with (length (pre ++ l ++ [0x2e])) by (by rewrite !length_app).
    replace (length done + (1 + length l))%nat
      with (length (done ++ Z.of_nat (length l) :: l))
      by (rewrite !length_app; simpl; lia).
    apply IH; [done| | |].
    + intros [Hv Hfit]. apply Hbad. split; [by constructor|].
      rewrite length_app in Hfit. simpl in Hfit. lia.
    + rewrite length_app. simpl. lia.
    + rewrite !length_app, length_drop. simpl. lia.
  - destruct junk as [|j junk]; [simpl in Hj; lia|]. simpl in Hj.
    rewrite length_app. cbn [length].
    rewrite <- (app_assoc l). cbn [app].
    replace (length l + S (length (dots ls)) + fuel)%nat
      with (length l + S (length (dots ls) + fuel))%nat by lia.
    replace (done ++ j :: junk) with ((done ++ [j]) ++ junk)
      by (by rewrite <- app_assoc).
    replace (length done + 1)%nat with (length (done ++ [j]))
      by (rewrite length_app; simpl; lia).
    destruct (decide (255 < length done + 1 + length l)%nat) as [Hov|Hfit].
    + apply parse_loop_chars_overflow; [done| |].
      * rewrite length_app. simpl. lia.
      * rewrite !length_app. simpl. lia.
    + rewrite parse_loop_chars; [|done|rewrite length_app; simpl; lia|lia].
      rewrite (app_assoc pre l).
      replace (length pre + length l)%nat with (length (pre ++ l))
        by (by rewrite length_app).
      eexists. apply parse_loop_dot_reject.
      rewrite length_app. simpl. lia.
Qed.

Lemma is_dot_false name :
  Forall (λ c, c ≠ 0) name → name ≠ [0x2e] → is_dot name = Ok false.
Proof.
  intros Hn Hne. unfold is_dot, cstr.
  destruct name as [|x [|y rest]]; simpl.
  - done.
  - destruct (Z.eqb_spec x 0x2e); [by subst|done].
  - apply Forall_cons in Hn as [_ [Hy _]%Forall_cons].
    destruct (Z.eqb_spec x 0x2e); [|done].
    by destruct (Z.eqb_spec y 0).
Qed.

Lemma dots_nonzero ls :
  Forall (Forall plain) ls → Forall (λ c, c ≠ 0) (dots ls).
Proof.
  induction 1 as [|l ls Hl _ IH]; [constructor|].
  rewrite dots_cons. apply Forall_app. split.
  - eapply Forall_impl; [exact Hl|]. intros c [? _]. lia.
  - by constructor.
Qed.

Lemma text_of_not_dot dot ls l :
  Forall (Forall plain) (ls ++ [l]) → l ≠ [] →
  is_dot (text_of dot ls l) = Ok false.
Proof.
  intros [Hls Hl]%Forall_app Hne. apply Forall_cons in Hl as [Hl _].
  destruct l as [|x l]; [done|]. apply Forall_cons in Hl as [Hx Hl].
  apply is_dot_false.
  - unfold text_of. apply Forall_app. split; [by apply dots_nonzero|].
    constructor; [destruct Hx; lia|]. apply Forall_app. split.
    + eapply Forall_impl; [exact Hl|]. intros c [? _]. lia.
    + destruct dot; by repeat constructor.
  - intros Heq.
    assert (Hin : x ∈ text_of dot ls (x :: l)).
    { unfold text_of. apply elem_of_app. right. by left. }
    rewrite Heq in Hin. apply elem_of_cons in Hin as [Hin|Hin].
    + by destruct Hx as (_ & Hx & _).
    + by apply elem_of_nil in Hin.
Qed.

Lemma plain_valid_label ls :
  Forall (Forall plain) ls → Forall (λ l, 1 ≤ length l ≤ 63)%nat ls →
  Forall valid_label ls.
Proof.
  intros Hpl Hlen. apply Forall_forall. intros l Hin.
  rewrite Forall_forall in Hpl. rewrite Forall_forall in Hlen.
  split; [by apply Hlen|].
  eapply Forall_impl; [by apply Hpl|]. intros c [? _]. unfold is_octet. lia.
Qed.

Lemma dname_parse_wire_rejects_lemma dot ls l dname :
  Forall (Forall plain) (ls ++ [l]) → l ≠ [] →
  ¬ valid_wire_name (ls ++ [l]) → (255 ≤ length dname)%nat →
  ∃ buf, dname_parse_wire dname (text_of dot ls l) = Ok (0, buf).
Proof.
  intros Hpl Hne Hbad Hd. unfold dname_parse_wire.
  rewrite text_of_not_dot, res_bind_Ok by done. cbv iota.
  pose proof Hpl as [Hls Hl]%Forall_app. apply Forall_cons in Hl as [Hl _].
  unfold text_of. set (post := if dot then [0x2e] else []).
  replace (S (length (dots ls ++ l ++ post)))
    with (length (dots ls) + (length l + S (length post)))%nat
    by (rewrite !length_app; lia).
  set (W := length (wire_labels ls)).
  destruct (decide (Forall (λ l, 1 ≤ length l ≤ 63)%nat ls ∧ (W < 255)%nat))
    as [[Hv Hfit]|Hno].
  - pose proof (plain_valid_label ls Hls Hv) as Hvl.
    assert (Hl0 : (1 ≤ length l)%nat).
    { destruct l; [done|simpl; lia]. }
    destruct (decide (255 < W + 1 + length l)%nat) as [Hov|Hin].
    + pose proof (parse_loop_labels ls (length l + S (length post)) []
                    (l ++ post) [] dname Hls Hv) as E.
      cbn [app length Nat.add] in E.
      change (Z.of_nat 0) with 0 in E. change (Z.of_nat 1) with 1 in E.
      rewrite E by (fold W; lia). clear E. fold W.
      destruct (drop_cons_lt dname W) as [j Hj]; [lia|].
      rewrite Hj.
      replace (wire_labels ls ++ j :: drop (S W) dname)
        with ((wire_labels ls ++ [j]) ++ drop (S W) dname)
        by (by rewrite <- app_assoc).
      replace (W + 1)%nat with (length (wire_labels ls ++ [j]))
        by (rewrite length_app; simpl; fold W; lia).
      apply parse_loop_chars_overflow; [done| |].
      * rewrite length_app. simpl. fold W. lia.
      * rewrite !length_app, length_drop. simpl. fold W. lia.
    + destruct (parse_loop_text ls l (S (length post)) post dname) as [j E];
        [done|done|fold W; lia|done|].
      rewrite E. clear E. fold W.
      assert (Hr : (63 < length l ∨ 255 ≤ W + 1 + length l)%nat).
      { destruct (decide (length l ≤ 63)%nat); [|lia].
        destruct (decide (W + 1 + length l < 255)%nat); [|lia].
        destruct Hbad. split.
        - apply Forall_app. split; [done|].
          apply (plain_valid_label [l]);
            [by constructor|constructor; [lia|constructor]].
        - unfold wire_name. rewrite wire_labels_app, !length_app. simpl.
          fold W. lia. }
      destruct dot; subst post.
      * rewrite (app_assoc (dots ls) l).
        replace (length (dots ls) + length l)%nat
          with (length (dots ls ++ l)) by (by rewrite length_app).
        eexists. apply parse_loop_dot_reject. lia.
      * apply parse_loop_end_reject.
        -- replace (Z.of_nat (length (dots ls) + length l))
             with (Z.of_nat (length (dots ls ++ l ++ [])))
             by (rewrite !length_app; simpl; f_equal; lia).
           apply cstr_end.
        -- rewrite !length_app. simpl. fold W. lia.
        -- lia.
        -- lia.
  - apply (parse_loop_labels_reject ls _ [] (l ++ post) [] dname);
      [done|done|simpl; lia|simpl; lia].
Qed.

(** X29.  [dname_parse_wire] on a text without escapes: labels of octets
    other than NUL, the dot and the backslash, with a dot between them
    and, if [dot] is set, a dot at the end.  When the labels make a valid
    name (1 to 63 octets each, at most 255 octets in wire format), the
    buffer starts with the wire format of the name and keeps the octets
    behind it, and the result is the length of the wire format if the text
    ends with a dot and one less, the root label not counted, if it does
    not. *)
Theorem dname_parse_wire_text dot ls l dname :
  Forall (Forall plain) (ls ++ [l]) → valid_wire_name (ls ++ [l]) →
  (255 ≤ length dname)%nat →
  dname_parse_wire dname (text_of dot ls l)
  = Ok (Z.of_nat (length (wire_labels (ls ++ [l]))) + (if dot then 1 else 0),
        wire_name (ls ++ [l]) ++ drop (length (wire_name (ls ++ [l]))) dname).
Proof. apply dname_parse_wire_text_lemma. Qed.

Lemma dname_parse_wire_text_witness :
  Forall (Forall plain) ([text_fOo] ++ [text_com])
  ∧ valid_wire_name ([text_fOo] ++ [text_com])
  ∧ (255 ≤ length name_buffer)%nat
  ∧ dname_parse_wire name_buffer (text_of false [text_fOo] text_com)
    = Ok (Z.of_nat (length (wire_labels ([text_fOo] ++ [text_com])))
          + (if false then 1 else 0),
          wire_name ([text_fOo] ++ [text_com])
          ++ drop (length (wire_name ([text_fOo] ++ [text_com])))
               name_buffer).
Proof.
  assert (H1 : Forall (Forall plain) ([text_fOo] ++ [text_com]))
    by (repeat constructor; lia).
  assert (H2 : valid_wire_name ([text_fOo] ++ [text_com]))
    by (repeat constructor; unfold is_octet; simpl; lia).
  assert (H3 : (255 ≤ length name_buffer)%nat) by (simpl; lia).
  split; [exact H1|]. split; [exact H2|]. split; [exact H3|].
  exact (dname_parse_wire_text false [text_fOo] text_com name_buffer
           H1 H2 H3).
Defined.

(** X30.  [dname_parse_wire] on a text without escapes whose last label
    is not empty: when the labels do not make a valid name, because a
    label is empty or longer than 63 octets or because the wire format
    would be longer than 255 octets, the result is 0. *)
Theorem dname_parse_wire_rejects dot ls l dname :
  Forall (Forall plain) (ls ++ [l]) → l ≠ [] →
  ¬ valid_wire_name (ls ++ [l]) → (255 ≤ length dname)%nat →
  ∃ buf, dname_parse_wire dname (text_of dot ls l) = Ok (0, buf).
Proof. apply dname_parse_wire_rejects_lemma. Qed.

Lemma dname_parse_wire_rejects_witness :
  Forall (Forall plain) ([text_fOo] ++ [label_64]) ∧ label_64 ≠ []
  ∧ ¬ valid_wire_name ([text_fOo] ++ [label_64])
  ∧ (255 ≤ length name_buffer)%nat
  ∧ ∃ buf,
      dname_parse_wire name_buffer (text_of true [text_fOo] label_64)
      = Ok (0, buf).
Proof.
  assert (H1 : Forall (Forall plain) ([text_fOo] ++ [label_64]))
    by (repeat constructor; lia).
  assert (H2 : label_64 ≠ []) by discriminate.
  assert (H3 : ¬ valid_wire_name ([text_fOo] ++ [label_64])).
  { intros [Hv _]. apply Forall_cons in Hv as [_ Hv].
    apply Forall_cons in Hv as [[Hlen _] _]. simpl in Hlen. lia. }
  assert (H4 : (255 ≤ length name_buffer)%nat) by (simpl; lia).
  split; [exact H1|]. split; [exact H2|]. split; [exact H3|].
  split; [exact H4|].
  exact (dname_parse_wire_rejects true [text_fOo] label_64 name_buffer
           H1 H2 H3 H4).
Defined.
